(** * NoSQL weather database: document model and aggregation core

    A shallow embedding of the Python sources of the repository
    ([model.py], [test_crud.py], [test_read_queries.py]) together with a
    model of the part of the document store that they drive: BSON-like
    documents, the update operators [$set], [$inc], [$push], and the
    aggregation stages [$match], [$unwind], [$group], [$sort], [$skip],
    [$limit], [$addFields], [$project] and [$merge].

    Conventions.
    - A Python [dict] and a stored document are a [gmap string value].
    - A Python [float] / BSON double is an exact rational ([Q]); binary64
      rounding is not modelled.  The wind conversion, which needs [sqrt]
      and [atan2], is stated over the reals.
    - A [datetime] is a number of seconds on the time line ([Z]); the
      time stamp of a radiosonde reading keeps its microseconds and is a
      rational number of seconds.  The years that a [datetime] can hold
      (1 to 9999) are not modelled.
    - A [str] is a [string], one [ascii] for each character.
    - A Python exception is a [Raise e] result.  [NotModelled] is no
      exception of the program: it marks an input that the typed model
      does not cover (an [_id] of another type than the ids of its
      collection, the insertion order of the keys of a [dict]), and
      says nothing of what the program does there. *)

From Stdlib Require Import ZArith QArith Qminmax Qround Qabs Reals Psatz.
From stdpp Require Import gmap strings list fin_maps sorting pretty.

Set Warnings "-register-all".
Close Scope Q_scope.
Close Scope R_scope.
Open Scope Z_scope.

(** ** Exceptions and results *)

Inductive exn : Type :=
  | ValueError (msg : string)
  | KeyError (key : string)
  | TypeError
  | AttributeError (attr : string)
  | FileNotFoundError (path : string)
  | WriteError
  | DuplicateKeyError
  | OperationFailure
  | NotModelled (what : string).

Inductive result (A : Type) : Type :=
  | Ok (a : A)
  | Raise (e : exn).
Arguments Ok {A} a.
Arguments Raise {A} e.

#[global] Instance result_ret : MRet result := λ A a, Ok a.
#[global] Instance result_bind : MBind result := λ A B k m,
  match m with
  | Ok a => k a
  | Raise e => Raise e
  end.
#[global] Instance result_fmap : FMap result := λ A B f m,
  match m with
  | Ok a => Ok (f a)
  | Raise e => Raise e
  end.

Definition is_ok {A} (r : result A) : bool :=
  match r with
  | Ok _ => true
  | Raise _ => false
  end.

(** [mapM] for [result]: the first exception aborts the comprehension. *)
Fixpoint result_mapM {A B} (f : A → result B) (l : list A) : result (list B) :=
  match l with
  | [] => Ok []
  | x :: l' => y ← f x; ys ← result_mapM f l'; mret (y :: ys)
  end.

(** ** Documents *)

Definition datetime := Z.
Definition ObjectId := N.

Inductive value : Type :=
  | VNull
  | VInt (z : Z)
  | VNum (q : Q)
  | VStr (s : string)
  | VDate (t : datetime)
  | VBin (b : list Byte.byte)
  | VOid (o : ObjectId)
  | VArr (l : list value)
  | VDoc (d : gmap string value).

Abbreviation doc := (gmap string value).

Definition as_num (v : value) : option Q :=
  match v with
  | VInt z => Some (inject_Z z)
  | VNum q => Some q
  | _ => None
  end.

Definition as_str (v : value) : option string :=
  match v with
  | VStr s => Some s
  | _ => None
  end.

(** Dotted field paths, e.g. [owner.user_id] is [["owner"; "user_id"]]. *)
Fixpoint get_path (p : list string) (v : value) : option value :=
  match p with
  | [] => Some v
  | k :: p' =>
      match v with
      | VDoc d => d !! k ≫= get_path p'
      | _ => None
      end
  end.

Definition get_field (p : list string) (d : doc) : option value :=
  get_path p (VDoc d).

Definition num_field (p : list string) (d : doc) : option Q :=
  get_field p d ≫= as_num.

(** ** Update operators *)

(** Rewrite the field at a dotted path; intermediate sub-documents are
    created when missing, and a scalar on the way is a write error. *)
Fixpoint update_path (f : option value → result value) (p : list string)
    (d : doc) : result doc :=
  match p with
  | [] => Raise WriteError
  | k :: p' =>
      match p' with
      | [] => v ← f (d !! k); mret (<[k := v]> d)
      | _ :: _ =>
          match d !! k with
          | None => d' ← update_path f p' ∅; mret (<[k := VDoc d']> d)
          | Some (VDoc d0) => d' ← update_path f p' d0; mret (<[k := VDoc d']> d)
          | Some _ => Raise WriteError
          end
      end
  end.

Inductive update_op : Type :=
  | OpSet (p : list string) (v : value)
  | OpInc (p : list string) (n : Z)
  | OpPush (p : list string) (v : value).

Definition inc_value (n : Z) (o : option value) : result value :=
  match o with
  | None => Ok (VInt n)
  | Some (VInt z) => Ok (VInt (z + n))
  | Some (VNum q) => Ok (VNum (q + inject_Z n))
  | Some _ => Raise WriteError
  end.

Definition push_value (v : value) (o : option value) : result value :=
  match o with
  | None => Ok (VArr [v])
  | Some (VArr l) => Ok (VArr (l ++ [v]))
  | Some _ => Raise WriteError
  end.

Definition apply_op (op : update_op) (d : doc) : result doc :=
  match op with
  | OpSet p v => update_path (λ _, Ok v) p d
  | OpInc p n => update_path (inc_value n) p d
  | OpPush p v => update_path (push_value v) p d
  end.

(** One update document: all of its operators apply, or none does. *)
Fixpoint apply_update (u : list update_op) (d : doc) : result doc :=
  match u with
  | [] => Ok d
  | op :: u' => d' ← apply_op op d; apply_update u' d'
  end.

(** ** Collections

    A collection is keyed by its primary key [_id]; the stored document
    holds the remaining fields, and [_id] is put back when it is read. *)

Class IdKey (K : Type) := id_value : K → value.
#[global] Instance oid_key : IdKey ObjectId := VOid.
#[global] Instance string_key : IdKey string := VStr.
#[global] Instance opt_string_key : IdKey (option string) := λ o,
  match o with
  | Some s => VStr s
  | None => VNull
  end.

Definition with_id `{IdKey K} (kd : K * doc) : doc :=
  <["_id" := id_value kd.1]> kd.2.

(** The documents of a collection, in the order of the map (the store
    promises no order without a [$sort]). *)
Definition find_all `{Countable K} `{!IdKey K} (c : gmap K doc) : list doc :=
  with_id <$> map_to_list c.

Definition find_one `{Countable K} `{!IdKey K} (c : gmap K doc) (id : K)
    : option doc :=
  (λ d, with_id (id, d)) <$> c !! id.

(** [update_one] with the filter [{"_id": id}]. *)
Definition update_one `{Countable K} (c : gmap K doc) (id : K)
    (u : list update_op) : result (gmap K doc) :=
  match c !! id with
  | None => Ok c
  | Some d => d' ← apply_update u d; mret (<[id := d']> c)
  end.

(** [update_many]: the update applied to every matching document; the
    call raises when the update fails on one of them. *)
Definition update_if (flt : doc → bool) (u : list update_op) (d : doc)
    : result doc :=
  if flt d then apply_update u d else Ok d.

Definition update_many `{Countable K} (c : gmap K doc) (flt : doc → bool)
    (u : list update_op) : result (gmap K doc) :=
  if decide (map_Forall (λ _ d, is_ok (update_if flt u d)) c)
  then Ok ((λ d, match update_if flt u d with Ok d' => d' | Raise _ => d end) <$> c)
  else Raise WriteError.

(** The documents of a collection that a filter matches; the filter sees
    a document as it is read, [_id] included. *)
Definition matching `{Countable K} `{!IdKey K} (flt : doc → bool)
    (c : gmap K doc) : gmap K doc :=
  filter (λ kd, flt (with_id kd) = true) c.

(** [count_documents]. *)
Definition count_documents `{Countable K} `{!IdKey K} (c : gmap K doc)
    (flt : doc → bool) : nat :=
  size (matching flt c).

(** [delete_many]: the matching documents are removed; the result is
    [deleted_count] and the collection that remains. *)
Definition delete_many `{Countable K} `{!IdKey K} (c : gmap K doc)
    (flt : doc → bool) : nat * gmap K doc :=
  (size (matching flt c), filter (λ kd, flt (with_id kd) ≠ true) c).

(** The ids of a typed collection.  [key_of_value] reads an id of the
    collection from the [_id] of a document.  [generate_id] is the id
    that the store gives a document without [_id], an ObjectId: a
    collection whose ids are of another type has none. *)
Class StoreKey (K : Type) `{Countable K} `{!IdKey K} := {
  key_of_value : value → option K;
  generate_id : gset K → option K;
  key_of_value_id : ∀ k, key_of_value (id_value k) = Some k;
  key_of_value_Some : ∀ v k, key_of_value v = Some k → v = id_value k;
  generate_id_fresh : ∀ s k, generate_id s = Some k → k ∉ s
}.

#[global] Instance oid_store_key : StoreKey ObjectId.
Proof.
  refine {|
    key_of_value v := match v with VOid o => Some o | _ => None end;
    generate_id s := Some (fresh s)
  |}.
  - done.
  - intros [] k Hk; try discriminate. by injection Hk as ->.
  - intros s k [= <-]. apply is_fresh.
Defined.

#[global] Instance string_store_key : StoreKey string.
Proof.
  refine {|
    key_of_value v := match v with VStr s => Some s | _ => None end;
    generate_id s := None
  |}.
  - done.
  - intros [] k Hk; try discriminate. by injection Hk as ->.
  - intros s k Hk. discriminate Hk.
Defined.

(** [collection.insert_one]: a document with an [_id] is stored under
    it, unless the collection has a document with that [_id] already; a
    document without one is stored under a generated id.  The result is
    [inserted_id] and the collection.  An [_id] that is no id of the
    typed collection, and a generated id in a collection whose ids are
    no ObjectIds, are outside the model. *)
Definition insert_one `{StoreKey K} (c : gmap K doc) (document : doc)
    : result (K * gmap K doc) :=
  match document !! "_id" with
  | Some v =>
      match key_of_value v with
      | Some id =>
          if bool_decide (id ∈ dom c) then Raise DuplicateKeyError
          else Ok (id, <[id := delete "_id" document]> c)
      | None => Raise (NotModelled "_id")
      end
  | None =>
      match generate_id (dom c) with
      | Some id => Ok (id, <[id := document]> c)
      | None => Raise (NotModelled "_id")
      end
  end.

(** ** BSON comparison order

    Null and missing sort below numbers, numbers below every other type.
    Numbers compare by value and dates by time; inside the remaining
    classes the order is not refined (such values compare as ties). *)

Definition bson_class (o : option value) : nat :=
  match o with
  | None | Some VNull => 0
  | Some (VInt _) | Some (VNum _) => 1
  | Some (VStr _) => 2
  | Some (VDoc _) => 3
  | Some (VArr _) => 4
  | Some (VBin _) => 5
  | Some (VOid _) => 6
  | Some (VDate _) => 7
  end%nat.

Definition bson_le (a b : option value) : bool :=
  match a, b with
  | Some (VDate s), Some (VDate t) => bool_decide (s ≤ t)
  | _, _ =>
      match a ≫= as_num, b ≫= as_num with
      | Some x, Some y => Qle_bool x y
      | _, _ => bool_decide (bson_class a ≤ bson_class b)%nat
      end
  end.

Definition bson_lt (a b : option value) : bool := negb (bson_le b a).

(** Query operators [$lt] / [$gt] of a [$match] filter: they only match
    a field that is present and numeric. *)
Definition query_lt (p : list string) (c : Q) (d : doc) : bool :=
  match num_field p d with
  | Some q => negb (Qle_bool c q)
  | None => false
  end.

Definition query_gt (p : list string) (c : Q) (d : doc) : bool :=
  match num_field p d with
  | Some q => negb (Qle_bool q c)
  | None => false
  end.

Definition query_eq_str (p : list string) (s : string) (d : doc) : bool :=
  match get_field p d with
  | Some (VStr s') => bool_decide (s' = s)
  | _ => false
  end.

Definition query_eq_oid (p : list string) (o : ObjectId) (d : doc) : bool :=
  match get_field p d with
  | Some (VOid o') => bool_decide (o' = o)
  | _ => false
  end.

(** [{"$gte": lo, "$lt": hi}] on a date field. *)
Definition query_date_range (p : list string) (lo hi : datetime) (d : doc)
    : bool :=
  match get_field p d with
  | Some (VDate t) => bool_decide (lo ≤ t) && bool_decide (t < hi)
  | _ => false
  end.

(** [{"$gte": lo, "$lte": hi}] on a date field. *)
Definition query_date_between (p : list string) (lo hi : datetime) (d : doc)
    : bool :=
  match get_field p d with
  | Some (VDate t) => bool_decide (lo ≤ t) && bool_decide (t ≤ hi)
  | _ => false
  end.

(** [{"$gte": lo}] on a date field. *)
Definition query_date_ge (p : list string) (lo : datetime) (d : doc) : bool :=
  match get_field p d with
  | Some (VDate t) => bool_decide (lo ≤ t)
  | _ => false
  end.

(** [{"$exists": True}]: the field is there, whatever its value. *)
Definition query_exists (p : list string) (d : doc) : bool :=
  bool_decide (is_Some (get_field p d)).

(** ** Aggregation stages *)

Definition stage_match (flt : doc → bool) (ds : list doc) : list doc :=
  List.filter flt ds.

(** [$unwind]: one document per element of the array; none for an empty
    array, a null or a missing field; a value that is not an array counts
    as its single element. *)
Definition unwind_doc (k : string) (d : doc) : list doc :=
  match d !! k with
  | Some (VArr l) => (λ x, <[k := x]> d) <$> l
  | Some VNull | None => []
  | Some _ => [d]
  end.

Definition stage_unwind (k : string) (ds : list doc) : list doc :=
  ds ≫= unwind_doc k.

Definition key_le (p : list string) : relation doc :=
  λ d1 d2, bson_le (get_field p d1) (get_field p d2).

#[global] Instance key_le_dec p d1 d2 : Decision (key_le p d1 d2).
Proof. unfold key_le. apply _. Defined.

(** [$sort] ascending.  The sort is a function of its input (a merge
    sort): documents with equal keys come out in one fixed order. *)
Definition stage_sort_asc (p : list string) (ds : list doc) : list doc :=
  merge_sort (key_le p) ds.

(** [$sort] descending, and the [sort=[(field, -1)]] of a [find]. *)
Definition key_ge (p : list string) : relation doc :=
  λ d1 d2, bson_le (get_field p d2) (get_field p d1).

#[global] Instance key_ge_dec p d1 d2 : Decision (key_ge p d1 d2).
Proof. unfold key_ge. apply _. Defined.

Definition stage_sort_desc (p : list string) (ds : list doc) : list doc :=
  merge_sort (key_ge p) ds.

(** An inclusion projection [{k: 1, ...}]: the listed fields that the
    document has, and [_id]. *)
Definition project_include (ks : list string) (d : doc) : doc :=
  filter (λ kv, kv.1 ∈ "_id"%string :: ks) d.

(** *** Arithmetic expressions

    [$round] to a number of decimal places rounds halves to the even
    neighbour; [$divide] and [$round] of a null or missing operand are
    null, and an operand that is not a number is an error. *)
Definition round_half_even (q : Q) : Z :=
  let f := Qfloor q in
  match (q - inject_Z f ?= 1 # 2)%Q with
  | Lt => f
  | Gt => f + 1
  | Eq => if Z.even f then f else f + 1
  end.

Definition round_places (places : nat) (q : Q) : Q :=
  (inject_Z (round_half_even (q * inject_Z (10 ^ Z.of_nat places)))
   / inject_Z (10 ^ Z.of_nat places))%Q.

Definition expr_divide (a : option value) (c : Z) : result value :=
  match a with
  | None | Some VNull => Ok VNull
  | Some v =>
      match as_num v with
      | Some q => Ok (VNum (q / inject_Z c))
      | None => Raise OperationFailure
      end
  end.

Definition expr_round (v : value) (places : nat) : result value :=
  match v with
  | VNull => Ok VNull
  | VInt z => Ok (VInt z)
  | VNum q => Ok (VNum (round_places places q))
  | _ => Raise OperationFailure
  end.

(** [$lookup] with [_id] as local and as foreign field, into a
    collection keyed by strings: the array holds the document of that
    id, if there is one. *)
Definition stage_lookup_id (from : gmap string doc) (as_field : string)
    (d : doc) : doc :=
  let found :=
    match d !! "_id" with
    | Some (VStr s) => option_list (find_one from s)
    | _ => []
    end in
  <[as_field := VArr (VDoc <$> found)]> d.

(** A field path through an array of documents, e.g.
    [$tech_info.name]: the values of the elements that have the
    field. *)
Definition array_field (arr : option value) (k : string) : option value :=
  match arr with
  | Some (VArr l) => Some (VArr (omap (get_path [k]) l))
  | Some (VDoc d) => d !! k
  | _ => None
  end.

(** The store rejects a negative [$skip] and a [$limit] that is not
    positive. *)
Definition stage_skip (n : Z) (ds : list doc) : result (list doc) :=
  if decide (0 ≤ n) then Ok (drop (Z.to_nat n) ds) else Raise OperationFailure.

Definition stage_limit (n : Z) (ds : list doc) : result (list doc) :=
  if decide (0 < n) then Ok (take (Z.to_nat n) ds) else Raise OperationFailure.

(** [$addFields] and [$project] with a total field computation. *)
Definition stage_project (f : doc → doc) (ds : list doc) : list doc :=
  f <$> ds.

(** A projected field is left out when its source is missing. *)
Definition set_opt (k : string) (o : option value) (d : doc) : doc :=
  match o with
  | Some v => <[k := v]> d
  | None => d
  end.

(** *** Group accumulators

    [$avg] and [$sum] range over the numeric values of the field and
    skip the others; [$min] and [$max] range over its non-null values in
    BSON order and return the value as stored. *)

Inductive accumulator : Type :=
  | AccAvg (p : list string)
  | AccMin (p : list string)
  | AccMax (p : list string)
  | AccSum (p : list string).

Definition numeric_values (p : list string) (ds : list doc) : list Q :=
  omap (num_field p) ds.

Definition present_value (p : list string) (d : doc) : option value :=
  match get_field p d with
  | Some VNull | None => None
  | Some v => Some v
  end.

Definition vmin (a b : value) : value :=
  if bson_le (Some a) (Some b) then a else b.

Definition vmax (a b : value) : value :=
  if bson_le (Some b) (Some a) then a else b.

Definition fold1 (f : value → value → value) (l : list value) : value :=
  match l with
  | [] => VNull
  | v :: l' => foldl f v l'
  end.

Definition Qsum (l : list Q) : Q := foldr Qplus 0%Q l.

Definition sum_step (acc : value) (v : value) : value :=
  match acc, v with
  | VInt a, VInt b => VInt (a + b)
  | _, _ =>
      match as_num acc, as_num v with
      | Some a, Some b => VNum (a + b)
      | _, _ => acc
      end
  end.

Definition run_accumulator (a : accumulator) (ds : list doc) : value :=
  match a with
  | AccAvg p =>
      match numeric_values p ds with
      | [] => VNull
      | l => VNum (Qsum l / inject_Z (Z.of_nat (length l)))
      end
  | AccMin p => fold1 vmin (omap (present_value p) ds)
  | AccMax p => fold1 vmax (omap (present_value p) ds)
  | AccSum p => foldl sum_step (VInt 0) (omap (get_field p) ds)
  end.

Fixpoint group_insert `{EqDecision K} (k : K) (d : doc)
    (gs : list (K * list doc)) : list (K * list doc) :=
  match gs with
  | [] => [(k, [d])]
  | (k', ds) :: gs' =>
      if decide (k = k') then (k', ds ++ [d]) :: gs'
      else (k', ds) :: group_insert k d gs'
  end.

Definition group_by `{EqDecision K} (key : doc → K) (ds : list doc)
    : list (K * list doc) :=
  foldl (λ gs d, group_insert (key d) d gs) [] ds.

Definition group_doc `{IdKey K} (accs : list (string * accumulator))
    (g : K * list doc) : doc :=
  <["_id" := id_value g.1]>
    (list_to_map ((λ na, (na.1, run_accumulator na.2 g.2)) <$> accs)).

Definition stage_group `{EqDecision K} `{!IdKey K} (key : doc → K)
    (accs : list (string * accumulator)) (ds : list doc) : list doc :=
  group_doc accs <$> group_by key ds.

(** The grouping key [$_id] of documents read from a collection with
    store-generated identifiers. *)
#[global] Instance opt_oid_key : IdKey (option ObjectId) := λ o,
  match o with
  | Some i => VOid i
  | None => VNull
  end.

Definition oid_of (d : doc) : option ObjectId :=
  match d !! "_id" with
  | Some (VOid o) => Some o
  | _ => None
  end.

(** [$merge] on [_id] with [whenMatched: replace], [whenNotMatched: insert]. *)
Definition merge_key (d : doc) : option string :=
  d !! "_id" ≫= as_str.

Definition stage_merge (target : gmap (option string) doc) (ds : list doc)
    : gmap (option string) doc :=
  foldl (λ c d, <[merge_key d := delete "_id" d]> c) target ds.

(** ** Calendar

    Days since 1970-01-01 to a civil date and back (proleptic Gregorian
    calendar), for the [datetime(...)] constructor and [$dateToString]. *)

Definition days_from_civil (y m d : Z) : Z :=
  let y := if m <=? 2 then y - 1 else y in
  let era := y / 400 in
  let yoe := y - era * 400 in
  let mp := if m <=? 2 then m + 9 else m - 3 in
  let doy := (153 * mp + 2) / 5 + d - 1 in
  let doe := yoe * 365 + yoe / 4 - yoe / 100 + doy in
  era * 146097 + doe - 719468.

Definition civil_from_days (z : Z) : Z * Z * Z :=
  let z := z + 719468 in
  let era := z / 146097 in
  let doe := z - era * 146097 in
  let yoe := (doe - doe / 1460 + doe / 36524 - doe / 146096) / 365 in
  let doy := doe - (365 * yoe + yoe / 4 - yoe / 100) in
  let mp := (5 * doy + 2) / 153 in
  let d := doy - (153 * mp + 2) / 5 + 1 in
  let m := if mp <? 10 then mp + 3 else mp - 9 in
  (yoe + era * 400 + (if m <=? 2 then 1 else 0), m, d).

Definition mk_datetime (y m d hh mm : Z) : datetime :=
  days_from_civil y m d * 86400 + hh * 3600 + mm * 60.

Definition pad_left (n : nat) (s : string) : string :=
  String.concat "" (replicate (n - String.length s) "0"%string) +:+ s.

(** [$dateToString] with format [%Y%m%d]. *)
Definition date_to_string (t : datetime) : string :=
  let '(y, m, d) := civil_from_days (t / 86400) in
  pad_left 4 (pretty y) +:+ pad_left 2 (pretty m) +:+ pad_left 2 (pretty d).

Definition one_day : Z := 86400.

(** *** Expressions on dates and numbers *)

(** [$year] and [$hour] of a date (in UTC): null for a null or
    missing operand, an error for an operand that is not a date. *)
Definition expr_year (a : option value) : result value :=
  match a with
  | None | Some VNull => Ok VNull
  | Some (VDate t) => Ok (VInt (civil_from_days (t / 86400)).1.1)
  | Some _ => Raise OperationFailure
  end.

Definition expr_hour (a : option value) : result value :=
  match a with
  | None | Some VNull => Ok VNull
  | Some (VDate t) => Ok (VInt (t mod 86400 / 3600))
  | Some _ => Raise OperationFailure
  end.

(** [$eq] against an integer: numbers are compared by value. *)
Definition expr_eq_int (a : option value) (c : Z) : bool :=
  match a ≫= as_num with
  | Some q => Qeq_bool q (inject_Z c)
  | None => false
  end.

(** [$subtract] of two numbers (the subtraction of dates is not
    modelled): null when an operand is null. *)
Definition expr_subtract (a b : value) : result value :=
  match a, b with
  | VInt x, VInt y => Ok (VInt (x - y))
  | VNull, _ | _, VNull => Ok VNull
  | _, _ =>
      match as_num a, as_num b with
      | Some x, Some y => Ok (VNum (x - y))
      | _, _ => Raise OperationFailure
      end
  end.

(** A [$match] whose condition is an expression that can fail. *)
Fixpoint result_filter {A} (f : A → result bool) (l : list A)
    : result (list A) :=
  match l with
  | [] => Ok []
  | x :: l' =>
      b ← f x; ys ← result_filter f l';
      mret (if (b : bool) then x :: ys else ys)
  end.

#[global] Instance opt_date_key : IdKey (option datetime) := λ o,
  match o with
  | Some t => VDate t
  | None => VNull
  end.

(** ** helper.py: [DateHelper] *)

Module DateHelper.

(** [dt.replace(hour=h, minute=m, second=s)]: the day of [dt] at
    another time of day. *)
Definition replace_time (dt : datetime) (hour minute second : Z) : datetime :=
  dt / 86400 * 86400 + hour * 3600 + minute * 60 + second.

Definition get_end_of_day (dt : datetime) : datetime :=
  replace_time dt 23 59 59.

(** [now] is the wall-clock time of the call, [datetime.now()]. *)
Definition get_current_time_with_fixed_day (now dt : datetime) : datetime :=
  let hour := now mod 86400 / 3600 in
  let minute := now mod 3600 / 60 in
  let second := now mod 60 in
  replace_time dt hour minute second.

End DateHelper.

(** ** model.py: entities and their document projections *)

(** A Python dict literal. *)
Definition dict (l : list (string * value)) : doc := list_to_map l.

(** [doc[k] = f(a)] guarded by [if a is not None]. *)
Definition set_if_some {A} (k : string) (f : A → value) (o : option A)
    (d : doc) : doc :=
  match o with
  | Some a => <[k := f a]> d
  | None => d
  end.

(** [d[k]], a [KeyError] when the key is missing. *)
Definition getitem (d : doc) (k : string) : result value :=
  match d !! k with
  | Some v => Ok v
  | None => Raise (KeyError k)
  end.

(** A number read from a dict, for the typed fields below. *)
Definition getnum (d : doc) (k : string) : result Q :=
  v ← getitem d k;
  match as_num v with
  | Some q => Ok q
  | None => Raise TypeError
  end.

(** [len(v)]: a number, a date, an id and [None] have no length. *)
Definition py_len (v : value) : result nat :=
  match v with
  | VStr s => Ok (String.length s)
  | VBin b => Ok (length b)
  | VArr l => Ok (length l)
  | VDoc d => Ok (size d)
  | VNull | VInt _ | VNum _ | VDate _ | VOid _ => Raise TypeError
  end.

(** The items that iterating over [v] gives: the elements of a list,
    the characters of a string, the bytes of a byte string as integers.
    A [dict] gives its keys in insertion order, which a [gmap] does not
    record. *)
Definition py_iter (v : value) : result (list value) :=
  match v with
  | VArr l => Ok l
  | VStr s => Ok ((λ c, VStr (String c EmptyString)) <$> String.list_ascii_of_string s)
  | VBin b => Ok ((λ x, VInt (Z.of_N (Byte.to_N x))) <$> b)
  | VDoc d =>
      if bool_decide (size d ≤ 1)%nat then Ok (VStr <$> (map_to_list d).*1)
      else Raise (NotModelled "dict order")
  | VNull | VInt _ | VNum _ | VDate _ | VOid _ => Raise TypeError
  end.

Module WeatherStationReading.

Record t : Type := mk {
  timestamp : datetime;
  sample_duration : Z;
  temp : Q;
  dewpoint : Q;
  humidity : Q;
  pressure : Q;
  precip : Q;
  cloud_cover : Q;
  wind_speed : Q;
  wind_direction : Q;
  sunshine : Q;
  soil_0_7_temp : Q;
  soil_0_7_moisture : Q;
  soil_7_28_temp : Q;
  soil_7_28_moisture : Q;
  soil_28_100_temp : Q;
  soil_28_100_moisture : Q;
  soil_100_255_temp : Q;
  soil_100_255_moisture : Q
}.

Definition soil_band (t m : Q) : value :=
  VDoc (dict [("temp", VNum t); ("moisture", VNum m)]).

Definition get_doc_for_weather_report (self : t) : doc :=
  dict [
    ("timestamp", VDate (timestamp self));
    ("sample_duration", VInt (sample_duration self));
    ("temp", VNum (temp self));
    ("dewpoint", VNum (dewpoint self));
    ("humidity", VNum (humidity self));
    ("pressure", VNum (pressure self));
    ("precip", VNum (precip self));
    ("cloud_cover", VNum (cloud_cover self));
    ("wind_speed", VNum (wind_speed self));
    ("wind_direction", VNum (wind_direction self));
    ("sunshine", VNum (sunshine self));
    ("soil", VDoc (dict [
       ("0_to_7cm", soil_band (soil_0_7_temp self) (soil_0_7_moisture self));
       ("7_to_28cm", soil_band (soil_7_28_temp self) (soil_7_28_moisture self));
       ("28_to_100cm", soil_band (soil_28_100_temp self) (soil_28_100_moisture self));
       ("100_to_255cm", soil_band (soil_100_255_temp self) (soil_100_255_moisture self))
     ]))
  ].

End WeatherStationReading.

Module WeatherStationDaySummary.

Record t : Type := mk {
  date : datetime;
  temp_mean : Q;
  temp_min : Q;
  temp_max : Q;
  dewpoint_mean : Q;
  humidity_mean : Q;
  humidity_min : Q;
  humidity_max : Q;
  pressure_mean : Q;
  pressure_min : Q;
  pressure_max : Q;
  precip_sum : Q;
  cloud_cover_mean : Q;
  wind_speed_mean : Q;
  wind_speed_min : Q;
  wind_speed_max : Q;
  sunshine : Q
}.

Definition get_doc_for_weather_report (self : t) : doc :=
  dict [
    ("temp_mean", VNum (temp_mean self));
    ("temp_min", VNum (temp_min self));
    ("temp_max", VNum (temp_max self));
    ("dewpoint_mean", VNum (dewpoint_mean self));
    ("humidity_mean", VNum (humidity_mean self));
    ("humidity_min", VNum (humidity_min self));
    ("humidity_max", VNum (humidity_max self));
    ("pressure_mean", VNum (pressure_mean self));
    ("pressure_min", VNum (pressure_min self));
    ("pressure_max", VNum (pressure_max self));
    ("precip_sum", VNum (precip_sum self));
    ("cloud_cover_mean", VNum (cloud_cover_mean self));
    ("wind_speed_mean", VNum (wind_speed_mean self));
    ("wind_speed_min", VNum (wind_speed_min self));
    ("wind_speed_max", VNum (wind_speed_max self));
    ("sunshine", VNum (sunshine self))
  ].

End WeatherStationDaySummary.

Module Location.

Record t : Type := mk {
  latitude : Q;
  longitude : Q
}.

Definition to_geojson (self : t) : doc :=
  dict [
    ("type", VStr "Point");
    ("coordinates", VArr [VNum (longitude self); VNum (latitude self)])
  ].

End Location.

Module LocationWithAltitude.

(** The class does not look at the coordinates: the fields hold the
    values as they came. *)
Record t : Type := mk {
  latitude : value;
  longitude : value;
  altitude : value
}.

Definition from_geojson (geometry : doc) : result t :=
  ty ← getitem geometry "type";
  if negb (bool_decide (as_str ty = Some "Point"%string))
  then Raise (ValueError "Only Point geometries are supported")
  else
    coordinates ← getitem geometry "coordinates";
    n ← py_len coordinates;
    if negb (bool_decide (n = 3%nat))
    then Raise (ValueError "Expected 3D coordinates [lon, lat, alt]")
    else
      items ← py_iter coordinates;
      match items with
      | [longitude; latitude; altitude] => Ok (mk latitude longitude altitude)
      | _ => Raise (ValueError "unpack")
      end.

Definition to_geojson (self : t) : doc :=
  dict [
    ("type", VStr "Point");
    ("coordinates", VArr [longitude self; latitude self; altitude self])
  ].

End LocationWithAltitude.

(** *** Wind conversion (over the reals) *)

(** [math.atan2(y, x)]. *)
Definition atan2 (y x : R) : R :=
  if Rlt_dec 0 x then atan (y / x)
  else if Rlt_dec x 0 then
    if Rle_dec 0 y then (atan (y / x) + PI)%R else (atan (y / x) - PI)%R
  else if Rlt_dec 0 y then (PI / 2)%R
  else if Rlt_dec y 0 then (- PI / 2)%R
  else 0%R.

(** [math.degrees]. *)
Definition degrees (r : R) : R := (r * 180 / PI)%R.

(** Python's [%] on floats with a positive divisor: [x - y * floor (x / y)]. *)
Definition py_mod (x y : R) : R := (x - y * IZR (Int_part (x / y)))%R.

Module RadiosondeReading.

(** [gpheight] and [pressure] hold the values of the properties as
    they came; the other fields are computed. *)
Record t : Type := mk {
  timestamp : Q;
  location : LocationWithAltitude.t;
  gpheight : value;
  temp : Q;
  dewpoint : Q;
  pressure : value;
  wind_speed : R;
  wind_direction : R
}.

(** [datetime.fromtimestamp]: epoch seconds to naive local time,
    rounded to the microsecond, a half to the even one; [local_offset]
    is the zone offset of the importing machine. *)
Definition fromtimestamp (local_offset : Z) (unix_timestamp : Q) : Q :=
  Qred (round_places 6 unix_timestamp + inject_Z local_offset).

Definition from_geojson_properties (local_offset : Z) (properties : doc)
    (location : LocationWithAltitude.t) : result t :=
  unix_timestamp ← getnum properties "time";
  let timestamp := fromtimestamp local_offset unix_timestamp in
  gpheight ← getitem properties "gpheight";
  temp_k ← getnum properties "temp";
  let temp := (temp_k - 273.15)%Q in
  dewpoint_k ← getnum properties "dewpoint";
  let dewpoint := (dewpoint_k - 273.15)%Q in
  pressure ← getitem properties "pressure";
  wind_u ← getnum properties "wind_u";
  wind_v ← getnum properties "wind_v";
  let wind_speed := sqrt (Q2R wind_u * Q2R wind_u + Q2R wind_v * Q2R wind_v) in
  let wind_direction_radians := atan2 (Q2R wind_v) (Q2R wind_u) in
  let wind_direction_degrees := degrees wind_direction_radians in
  let wind_direction_degrees := py_mod (wind_direction_degrees + 360) 360 in
  Ok (mk timestamp location gpheight temp dewpoint pressure wind_speed
         wind_direction_degrees).

End RadiosondeReading.

(** *** Users *)

(** The credential capability ([encrypt.py]), consumed as an interface.
    [bcrypt.gensalt()] and the Fernet nonce are drawn at random by the
    library; here they are explicit arguments. *)
Class EncryptionHelper : Type := {
  hash_password : string → string → string;
  encrypt : string → string → string
}.

(** The random draws of one [get_user_doc] call. *)
Record entropy : Type := mk_entropy {
  salt : string;
  nonce_name : string;
  nonce_email : string
}.

Module Institution.

Record t : Type := mk {
  user_id : string;
  password : string;
  institution_name : string;
  institution_type : string;
  contact_name : string;
  contact_email : string;
  contact_telephone : string
}.

Definition get_user_doc `{EncryptionHelper} (rnd : entropy) (self : t) : doc :=
  dict [
    ("_id", VStr (user_id self));
    ("password", VStr (hash_password (password self) (salt rnd)));
    ("user_type", VStr (institution_type self));
    ("institution", VStr (institution_name self));
    ("contact", VStr (contact_name self));
    ("email", VStr (contact_email self));
    ("telephone", VStr (contact_telephone self))
  ].

Definition get_subset_for_weather_station (self : t) : doc :=
  dict [
    ("owner_type", VStr (institution_type self));
    ("user_id", VStr (user_id self));
    ("name", VStr (institution_name self));
    ("contact", VStr (contact_name self));
    ("email", VStr (contact_email self));
    ("telephone", VStr (contact_telephone self))
  ].

Definition get_subset_for_weather_report (self : t) : doc :=
  dict [
    ("owner_type", VStr (institution_type self));
    ("user_id", VStr (user_id self));
    ("name", VStr (institution_name self))
  ].

End Institution.

Module WeatherWatcher.

Record t : Type := mk {
  user_id : string;
  password : string;
  display_name : string;
  name : string;
  email : string
}.

Definition get_user_doc `{EncryptionHelper} (rnd : entropy) (self : t) : doc :=
  dict [
    ("_id", VStr (user_id self));
    ("password", VStr (hash_password (password self) (salt rnd)));
    ("user_type", VStr "Private");
    ("name", VStr (encrypt (name self) (nonce_name rnd)));
    ("display_name", VStr (display_name self));
    ("email", VStr (encrypt (email self) (nonce_email rnd)))
  ].

Definition get_subset_for_weather_station (self : t) : doc :=
  dict [
    ("owner_type", VStr "Private");
    ("user_id", VStr (user_id self));
    ("name", VStr (display_name self))
  ].

Definition get_subset_for_weather_report (self : t) : doc :=
  dict [
    ("owner_type", VStr "Private");
    ("user_id", VStr (user_id self));
    ("name", VStr (display_name self))
  ].

End WeatherWatcher.

Module Administrator.

Record t : Type := mk {
  user_id : string;
  password : string;
  name : string;
  email : string
}.

Definition get_user_doc `{EncryptionHelper} (rnd : entropy) (self : t) : doc :=
  dict [
    ("_id", VStr (user_id self));
    ("password", VStr (hash_password (password self) (salt rnd)));
    ("user_type", VStr "Admin");
    ("name", VStr (encrypt (name self) (nonce_name rnd)));
    ("email", VStr (encrypt (email self) (nonce_email rnd)))
  ].

End Administrator.

(** The user variants as a tagged union; a method that a class does not
    define is an [AttributeError] at the call. *)
Inductive User : Type :=
  | UInstitution (i : Institution.t)
  | UWeatherWatcher (w : WeatherWatcher.t)
  | UAdministrator (a : Administrator.t).

Definition user_password (u : User) : string :=
  match u with
  | UInstitution i => Institution.password i
  | UWeatherWatcher w => WeatherWatcher.password w
  | UAdministrator a => Administrator.password a
  end.

(** The same user with another plaintext password. *)
Definition with_password (pw : string) (u : User) : User :=
  match u with
  | UInstitution i =>
      UInstitution
        (Institution.mk (Institution.user_id i) pw
           (Institution.institution_name i) (Institution.institution_type i)
           (Institution.contact_name i) (Institution.contact_email i)
           (Institution.contact_telephone i))
  | UWeatherWatcher w =>
      UWeatherWatcher
        (WeatherWatcher.mk (WeatherWatcher.user_id w) pw
           (WeatherWatcher.display_name w) (WeatherWatcher.name w)
           (WeatherWatcher.email w))
  | UAdministrator a =>
      UAdministrator
        (Administrator.mk (Administrator.user_id a) pw
           (Administrator.name a) (Administrator.email a))
  end.

Definition get_user_doc `{EncryptionHelper} (rnd : entropy) (u : User) : doc :=
  match u with
  | UInstitution i => Institution.get_user_doc rnd i
  | UWeatherWatcher w => WeatherWatcher.get_user_doc rnd w
  | UAdministrator a => Administrator.get_user_doc rnd a
  end.

Definition get_subset_for_weather_station (u : User) : result doc :=
  match u with
  | UInstitution i => Ok (Institution.get_subset_for_weather_station i)
  | UWeatherWatcher w => Ok (WeatherWatcher.get_subset_for_weather_station w)
  | UAdministrator _ => Raise (AttributeError "get_subset_for_weather_station")
  end.

Definition get_subset_for_weather_report (u : User) : result doc :=
  match u with
  | UInstitution i => Ok (Institution.get_subset_for_weather_report i)
  | UWeatherWatcher w => Ok (WeatherWatcher.get_subset_for_weather_report w)
  | UAdministrator _ => Raise (AttributeError "get_subset_for_weather_report")
  end.

Module MaintenanceLogItem.

Record t : Type := mk {
  timestamp : datetime;
  station_id : string;
  tech_id : string;
  report : string
}.

Definition get_maintenance_log_doc (self : t) : doc :=
  dict [
    ("timestamp", VDate (timestamp self));
    ("station_id", VStr (station_id self));
    ("tech_id", VStr (tech_id self));
    ("report", VStr (report self))
  ].

Definition get_subset_for_weather_station (self : t) : doc :=
  dict [
    ("timestamp", VDate (timestamp self));
    ("tech_id", VStr (tech_id self));
    ("report", VStr (report self))
  ].

End MaintenanceLogItem.

Module WeatherStation.

Record t : Type := mk {
  station_id : string;
  name : string;
  location : doc;
  owner : User;
  status : string;
  latest_maintenance : option MaintenanceLogItem.t
}.

Definition get_weather_station_doc (self : t) : result doc :=
  owner_doc ← get_subset_for_weather_station (owner self);
  let doc := dict [
    ("_id", VStr (station_id self));
    ("name", VStr (name self));
    ("location", VDoc (location self));
    ("owner", VDoc owner_doc);
    ("status", VStr (status self))
  ] in
  let doc :=
    set_if_some "latest_maintenance"
      (λ m, VDoc (MaintenanceLogItem.get_subset_for_weather_station m))
      (latest_maintenance self) doc in
  Ok doc.

Definition get_subset_for_weather_report (self : t) : doc :=
  dict [
    ("station_id", VStr (station_id self));
    ("name", VStr (name self))
  ].

End WeatherStation.

(** *** Manual observations and weather reports *)

Inductive WeatherCategory : Type :=
  | CLEAR | SUNNY | SUNNY_INTERVALS | LIGHT_CLOUD | HEAVY_CLOUD | DRIZZLE
  | SUNSHINE_AND_SHOWERS | LIGHT_SHOWERS | HEAVY_SHOWERS | LIGHT_RAIN
  | HEAVY_RAIN | THUNDER_STORM | THUNDERY_SHOWERS | SLEET_SHOWERS | SLEET
  | LIGHT_SNOW_SHOWERS | HEAVY_SNOW_SHOWERS | LIGHT_SNOW | HEAVY_SNOW
  | HAIL_SHOWERS | HAIL | FOG | HAZY | MIST.

Definition category_value (c : WeatherCategory) : string :=
  match c with
  | CLEAR => "Clear"
  | SUNNY => "Sunny"
  | SUNNY_INTERVALS => "Sunny intervals"
  | LIGHT_CLOUD => "Light cloud"
  | HEAVY_CLOUD => "Heavy cloud"
  | DRIZZLE => "Drizzle"
  | SUNSHINE_AND_SHOWERS => "Sunshine and showers"
  | LIGHT_SHOWERS => "Light showers"
  | HEAVY_SHOWERS => "Heavy showers"
  | LIGHT_RAIN => "Light rain"
  | HEAVY_RAIN => "Heavy rain"
  | THUNDER_STORM => "Thunder storm"
  | THUNDERY_SHOWERS => "Thundery showers"
  | SLEET_SHOWERS => "Sleet showers"
  | SLEET => "Sleet"
  | LIGHT_SNOW_SHOWERS => "Light snow showers"
  | HEAVY_SNOW_SHOWERS => "Heavy snow showers"
  | LIGHT_SNOW => "Light snow"
  | HEAVY_SNOW => "Heavy snow"
  | HAIL_SHOWERS => "Hail showers"
  | HAIL => "Hail"
  | FOG => "Fog"
  | HAZY => "Hazy"
  | MIST => "Mist"
  end.

(** The files that [open(..., "rb")] can read, by name. *)
Abbreviation filesystem := (gmap string (list Byte.byte)).

Module WeatherObservation.

Record t : Type := mk {
  timestamp : datetime;
  category : option WeatherCategory;
  temp : option Q;
  description : option string;
  humidity : option Q;
  precip : option Q;
  sample_duration : option Z;
  pressure : option Q;
  wind_speed : option Q;
  wind_direction : option Q;
  photo_filename : option string
}.

Definition get_doc_for_weather_report (fs : filesystem) (self : t)
    : result doc :=
  let doc := dict [("timestamp", VDate (timestamp self))] in
  let doc := set_if_some "category" (λ c, VStr (category_value c)) (category self) doc in
  let doc := set_if_some "temp" VNum (temp self) doc in
  let doc := set_if_some "description" VStr (description self) doc in
  let doc := set_if_some "humidity" VNum (humidity self) doc in
  let doc := set_if_some "precip" VNum (precip self) doc in
  let doc := set_if_some "sample_duration" VInt (sample_duration self) doc in
  let doc := set_if_some "pressure" VNum (pressure self) doc in
  let doc := set_if_some "wind_speed" VNum (wind_speed self) doc in
  let doc := set_if_some "wind_direction" VNum (wind_direction self) doc in
  match photo_filename self with
  | Some filename =>
      match fs !! filename with
      | Some image_data => Ok (<["photo" := VBin image_data]> doc)
      | None => Raise (FileNotFoundError filename)
      end
  | None => Ok doc
  end.

End WeatherObservation.

Module WeatherReport.

Record t : Type := mk {
  date : datetime;
  location : doc;
  last_modified : datetime;
  version : Z;
  station : option WeatherStation.t;
  owner : option User;
  readings : option (list WeatherStationReading.t);
  observations : option (list WeatherObservation.t);
  day_summary : option doc
}.

Definition get_weather_report_doc (fs : filesystem) (self : t) : result doc :=
  let doc := dict [
    ("date", VDate (date self));
    ("version", VInt (version self));
    ("last_modified", VDate (last_modified self));
    ("location", VDoc (location self))
  ] in
  let doc :=
    set_if_some "station"
      (λ s, VDoc (WeatherStation.get_subset_for_weather_report s))
      (station self) doc in
  doc ←
    match owner self with
    | Some o =>
        sub ← get_subset_for_weather_report o;
        Ok (<["owner" := VDoc sub]> doc)
    | None => Ok doc
    end;
  let doc :=
    set_if_some "readings"
      (λ rs, VArr ((λ r, VDoc (WeatherStationReading.get_doc_for_weather_report r)) <$> rs))
      (readings self) doc in
  doc ←
    match observations self with
    | Some obs =>
        docs ← result_mapM (WeatherObservation.get_doc_for_weather_report fs) obs;
        Ok (<["observations" := VArr (VDoc <$> docs)]> doc)
    | None => Ok doc
    end;
  let doc := set_if_some "day_summary" VDoc (day_summary self) doc in
  Ok doc.

End WeatherReport.

Module GroundStation.

Record t : Type := mk {
  station_id : string;
  name : string;
  owner : User
}.

Definition get_doc_for_weather_balloon_report (self : t) : result doc :=
  owner_doc ← get_subset_for_weather_station (owner self);
  Ok (dict [
    ("station_id", VStr (station_id self));
    ("name", VStr (name self));
    ("owner", VDoc owner_doc)
  ]).

End GroundStation.

Module Technician.

Record t : Type := mk {
  tech_id : string;
  name : string;
  company : string;
  email : string;
  telephone : string
}.

Definition get_technician_doc (self : t) : doc :=
  dict [
    ("_id", VStr (tech_id self));
    ("name", VStr (name self));
    ("company", VStr (company self));
    ("email", VStr (email self));
    ("telephone", VStr (telephone self))
  ].

End Technician.

(** ** The database *)

Record database : Type := mk_database {
  weather_reports : gmap ObjectId doc;
  weather_stations : gmap string doc;
  users : gmap string doc;
  weather_extremes : gmap (option string) doc;
  weather_balloon_reports : gmap ObjectId doc
}.

Definition set_weather_reports (c : gmap ObjectId doc) (db : database)
    : database :=
  mk_database c (weather_stations db) (users db) (weather_extremes db)
    (weather_balloon_reports db).

Definition set_weather_stations (c : gmap string doc) (db : database)
    : database :=
  mk_database (weather_reports db) c (users db) (weather_extremes db)
    (weather_balloon_reports db).

Definition set_users (c : gmap string doc) (db : database) : database :=
  mk_database (weather_reports db) (weather_stations db) c
    (weather_extremes db) (weather_balloon_reports db).

Definition set_weather_extremes (c : gmap (option string) doc) (db : database)
    : database :=
  mk_database (weather_reports db) (weather_stations db) (users db) c
    (weather_balloon_reports db).

(** ** helper.py: [MongoDBHandler]

    [update_one], [update_many] and [aggregate] of the handler log and
    return what the collection returns: they are the store operations
    above.  [insert_one] skips an empty document ([if document:]) and
    otherwise returns the [inserted_id] of [collection.insert_one]. *)

Module MongoDBHandler.

Definition insert_one `{StoreKey K} (c : gmap K doc) (document : doc)
    : result (option K * gmap K doc) :=
  if bool_decide (dom document = ∅) then Ok (None, c)
  else
    '(inserted_id, c) ← insert_one c document;
    Ok (Some inserted_id, c).

End MongoDBHandler.

(** ** test_crud.py: the pipeline of [create_weather_extremes_report] *)

Module Extremes.

(** The [$match] stage. *)
Definition qualifies (station_id : string) (d : doc) : bool :=
  query_eq_str ["station"; "station_id"] station_id d
  && (query_lt ["day_summary"; "temp_min"] (-5) d
      || query_gt ["day_summary"; "temp_max"] 28 d
      || query_gt ["day_summary"; "wind_speed_max"] 12 d
      || query_gt ["day_summary"; "precip_sum"] 15 d).

(** Aggregation expressions [$lt] / [$gt] against a number. *)
Definition expr_lt (a : option value) (c : Z) : bool :=
  bson_lt a (Some (VInt c)).

Definition expr_gt (a : option value) (c : Z) : bool :=
  bson_lt (Some (VInt c)) a.

Definition extreme_temp (d : doc) : value :=
  if expr_lt (get_field ["day_summary"; "temp_min"] d) 0 then VStr "Very Cold"
  else if expr_gt (get_field ["day_summary"; "temp_max"] d) 28 then VStr "Very Hot"
  else VNull.

Definition extreme_weather (d : doc) : value :=
  if expr_gt (get_field ["day_summary"; "wind_speed_max"] d) 12
     && expr_gt (get_field ["day_summary"; "precip_sum"] d) 15
  then VStr "Storm"
  else if expr_gt (get_field ["day_summary"; "wind_speed_max"] d) 12
  then VStr "Strong Winds"
  else if expr_gt (get_field ["day_summary"; "precip_sum"] d) 15
  then VStr "Heavy Rain"
  else VNull.

(** The [$addFields] stage. *)
Definition add_fields (d : doc) : doc :=
  <["extreme_weather" := extreme_weather d]>
    (<["extreme_temp" := extreme_temp d]> d).

(** [$concat] of [$toString] of the station id, a dash and
    [$dateToString]; null when a part is null or missing.  After the
    [$match] the station id is a string; a date field of another type
    makes [$dateToString] fail. *)
Definition report_id (d : doc) : result value :=
  match get_field ["station"; "station_id"] d, d !! "date" with
  | Some (VStr s), Some (VDate t) => Ok (VStr (s +:+ "-" +:+ date_to_string t))
  | Some (VStr _), (Some VNull | None) => Ok VNull
  | (Some VNull | None), (Some (VDate _) | Some VNull | None) => Ok VNull
  | _, _ => Raise OperationFailure
  end.

(** The [$project] stage. *)
Definition project (d : doc) : result doc :=
  id ← report_id d;
  let out := dict [("_id", id)] in
  let out := set_opt "date" (d !! "date") out in
  let out := set_opt "station_id" (get_field ["station"; "station_id"] d) out in
  let out := set_opt "station_name" (get_field ["station"; "name"] d) out in
  let out := set_opt "extreme_temp" (d !! "extreme_temp") out in
  let out := set_opt "extreme_weather" (d !! "extreme_weather") out in
  let out := set_opt "temp_min" (get_field ["day_summary"; "temp_min"] d) out in
  let out := set_opt "temp_max" (get_field ["day_summary"; "temp_max"] d) out in
  let out := set_opt "wind_speed_max" (get_field ["day_summary"; "wind_speed_max"] d) out in
  let out := set_opt "precip_sum" (get_field ["day_summary"; "precip_sum"] d) out in
  Ok out.

Definition pipeline (station_id : string) (ds : list doc) : result (list doc) :=
  let ds := stage_match (qualifies station_id) ds in
  let ds := stage_project add_fields ds in
  result_mapM project ds.

End Extremes.

(** ** test_crud.py *)

Module CRUD_tests.

Definition new_weather_report_doc : doc :=
  let dt := mk_datetime 2025 4 10 0 0 in
  dict [
    ("date", VDate dt); ("version", VInt 1); ("last_modified", VDate dt);
    ("location", VDoc (dict [
       ("type", VStr "Point");
       ("coordinates", VArr [VNum (-0.1630249); VNum 51.493847])]));
    ("station", VDoc (dict [
       ("station_id", VStr "WS-LON002"); ("name", VStr "London")]));
    ("owner", VDoc (dict [
       ("owner_type", VStr "Government"); ("user_id", VStr "metoff1");
       ("name", VStr "Met Office")]));
    ("readings", VArr [])
  ].

Definition insert_new_weather_report (db : database)
    : result (option ObjectId * database) :=
  let doc := new_weather_report_doc in
  '(document_id, c) ← MongoDBHandler.insert_one (weather_reports db) doc;
  Ok (document_id, set_weather_reports c db).

Definition insert_new_weather_station_reading (db : database)
    (weather_report_id : ObjectId) (reading : doc) (last_modified : datetime)
    : result database :=
  let update := [
    OpPush ["readings"] (VDoc reading);
    OpInc ["version"] 1;
    OpSet ["last_modified"] (VDate last_modified)
  ] in
  c ← update_one (weather_reports db) weather_report_id update;
  mret (set_weather_reports c db).

Definition soil (t1 m1 t2 m2 t3 m3 t4 m4 : value) : value :=
  VDoc (dict [
    ("0_to_7cm", VDoc (dict [("temp", t1); ("moisture", m1)]));
    ("7_to_28cm", VDoc (dict [("temp", t2); ("moisture", m2)]));
    ("28_to_100cm", VDoc (dict [("temp", t3); ("moisture", m3)]));
    ("100_to_255cm", VDoc (dict [("temp", t4); ("moisture", m4)]))
  ]).

Definition reading_london_midnight : doc :=
  dict [
    ("timestamp", VDate (mk_datetime 2025 4 10 0 0));
    ("sample_duration", VInt 3600); ("temp", VNum 6.5); ("dewpoint", VNum 2.5);
    ("humidity", VInt 76); ("pressure", VNum 1032.7); ("precip", VInt 0);
    ("cloud_cover", VInt 25); ("wind_speed", VNum 2.62);
    ("wind_direction", VInt 43); ("sunshine", VInt 0);
    ("soil", soil (VNum 9.6) (VNum 0.012) (VNum 11.7) (VNum 0.126)
                  (VNum 10.3) (VNum 0.28) (VInt 8) (VNum 0.291))
  ].

Definition reading_london_1am : doc :=
  dict [
    ("timestamp", VDate (mk_datetime 2025 4 10 1 0));
    ("sample_duration", VInt 3600); ("temp", VInt 6); ("dewpoint", VNum 1.8);
    ("humidity", VInt 75); ("pressure", VNum 1032.7); ("precip", VInt 0);
    ("cloud_cover", VInt 24); ("wind_speed", VNum 2.21);
    ("wind_direction", VInt 38); ("sunshine", VInt 0);
    ("soil", soil (VNum 8.9) (VNum 0.01) (VNum 11.7) (VNum 0.126)
                  (VNum 10.3) (VNum 0.28) (VInt 8) (VNum 0.291))
  ].

Definition reading_london_2am : doc :=
  dict [
    ("timestamp", VDate (mk_datetime 2025 4 10 2 0));
    ("sample_duration", VInt 3600); ("temp", VNum 5.6); ("dewpoint", VInt 2);
    ("humidity", VInt 77); ("pressure", VNum 1032.5); ("precip", VNum 1.1);
    ("cloud_cover", VInt 44); ("wind_speed", VNum 2.08);
    ("wind_direction", VInt 35); ("sunshine", VInt 0);
    ("soil", soil (VNum 8.1) (VNum 0.01) (VNum 11.6) (VNum 0.126)
                  (VNum 10.3) (VNum 0.279) (VInt 8) (VNum 0.291))
  ].

Definition insert_new_weather_station_reading_london_midnight
    (db : database) (weather_report_id : ObjectId) : result database :=
  insert_new_weather_station_reading db weather_report_id
    reading_london_midnight (mk_datetime 2025 4 10 0 0).

Definition insert_new_weather_station_reading_london_1am
    (db : database) (weather_report_id : ObjectId) : result database :=
  insert_new_weather_station_reading db weather_report_id
    reading_london_1am (mk_datetime 2025 4 10 1 0).

Definition insert_new_weather_station_reading_london_2am
    (db : database) (weather_report_id : ObjectId) : result database :=
  insert_new_weather_station_reading db weather_report_id
    reading_london_2am (mk_datetime 2025 4 10 2 0).

(** The [$group] stage of the day summary. *)
Definition day_summary_accumulators : list (string * accumulator) := [
  ("temp_mean", AccAvg ["readings"; "temp"]);
  ("temp_min", AccMin ["readings"; "temp"]);
  ("temp_max", AccMax ["readings"; "temp"]);
  ("dewpoint_mean", AccAvg ["readings"; "dewpoint"]);
  ("humidity_mean", AccAvg ["readings"; "humidity"]);
  ("humidity_min", AccMin ["readings"; "humidity"]);
  ("humidity_max", AccMax ["readings"; "humidity"]);
  ("pressure_mean", AccAvg ["readings"; "pressure"]);
  ("pressure_min", AccMin ["readings"; "pressure"]);
  ("pressure_max", AccMax ["readings"; "pressure"]);
  ("precip_sum", AccSum ["readings"; "precip"]);
  ("cloud_cover_mean", AccAvg ["readings"; "cloud_cover"]);
  ("wind_speed_mean", AccAvg ["readings"; "wind_speed"]);
  ("wind_speed_min", AccMin ["readings"; "wind_speed"]);
  ("wind_speed_max", AccMax ["readings"; "wind_speed"]);
  ("sunshine", AccSum ["readings"; "sunshine"])
].

Definition day_summary_pipeline (weather_report_id : ObjectId)
    (ds : list doc) : list doc :=
  let ds := stage_match (query_eq_oid ["_id"] weather_report_id) ds in
  let ds := stage_unwind "readings" ds in
  stage_group oid_of day_summary_accumulators ds.

Definition use_aggregation_pipeline_to_compute_a_day_summary (db : database)
    (weather_report_id : ObjectId) : result database :=
  let result :=
    day_summary_pipeline weather_report_id (find_all (weather_reports db)) in
  match result with
  | day_summary :: _ =>
      let day_summary := delete "_id" day_summary in
      let update := [
        OpInc ["version"] 1;
        OpSet ["day_summary"] (VDoc day_summary)
      ] in
      c ← update_one (weather_reports db) weather_report_id update;
      mret (set_weather_reports c db)
  | [] => Ok db
  end.

(** Had nothing been inserted, [document_id] would be [None]; no stored
    document has a null [_id], so the later steps would match nothing. *)
Definition create_weather_report_adding_hourly_readings (db : database)
    : result (option ObjectId * database) :=
  '(document_id, db) ← insert_new_weather_report db;
  match document_id with
  | Some id =>
      db ← insert_new_weather_station_reading_london_midnight db id;
      db ← use_aggregation_pipeline_to_compute_a_day_summary db id;
      db ← insert_new_weather_station_reading_london_1am db id;
      db ← use_aggregation_pipeline_to_compute_a_day_summary db id;
      db ← insert_new_weather_station_reading_london_2am db id;
      db ← use_aggregation_pipeline_to_compute_a_day_summary db id;
      mret (document_id, db)
  | None => Ok (None, db)
  end.

Definition rename_weather_reports_owner (db : database)
    (user_id new_name : string) (last_modified : datetime) : result database :=
  let filter := query_eq_str ["owner"; "user_id"] user_id in
  let update := [
    OpSet ["owner"; "name"] (VStr new_name);
    OpSet ["last_modified"] (VDate last_modified);
    OpInc ["version"] 1
  ] in
  c ← update_many (weather_reports db) filter update;
  mret (set_weather_reports c db).

Definition rename_weather_station_owner (db : database)
    (user_id new_name : string) : result database :=
  let filter := query_eq_str ["owner"; "user_id"] user_id in
  let update := [OpSet ["owner"; "name"] (VStr new_name)] in
  c ← update_many (weather_stations db) filter update;
  mret (set_weather_stations c db).

(** [modified_count > 0]: the matched document's field was not already
    the new name. *)
Definition update_institution_name (db : database)
    (user_id new_name : string) : result (bool * database) :=
  let update := [OpSet ["institution"] (VStr new_name)] in
  c ← update_one (users db) user_id update;
  let modified :=
    match users db !! user_id with
    | Some d => negb (bool_decide (d !! "institution" ≫= as_str = Some new_name))
    | None => false
    end in
  mret (modified, set_users c db).

(** [modification_date] is the fixed day 2025-05-01 at the wall-clock
    time of the run. *)
Definition rename_a_weather_station_owner (db : database)
    (modification_date : datetime) : result database :=
  db ← rename_weather_reports_owner db "camUni"
         "Science Dept. Cambridge University" modification_date;
  db ← rename_weather_station_owner db "camUni"
         "Science Dept. Cambridge University";
  r ← update_institution_name db "camUni" "Science Dept. Cambridge University";
  mret r.2.

Definition create_weather_extremes_report (db : database)
    (station_id : string) : result database :=
  ds ← Extremes.pipeline station_id (find_all (weather_reports db));
  mret (set_weather_extremes (stage_merge (weather_extremes db) ds) db).


Definition creation_of_weather_extremes_reports (db : database)
    : result database :=
  db ← create_weather_extremes_report db "WS-GLA001";
  create_weather_extremes_report db "WS-SOU001".


(** [find_one] by [_id]. *)
Definition get_weather_report (db : database) (weather_report_id : ObjectId)
    : option doc :=
  find_one (weather_reports db) weather_report_id.

(** [find_one] with [sort=[("date", -1)]]: the first of the owner's
    reports, most recent date first. *)
Definition get_latest_weather_report_for_owner (db : database)
    (user_id : string) (projection : list string) : option doc :=
  let search := query_eq_str ["owner"; "user_id"] user_id in
  let ds := stage_match search (find_all (weather_reports db)) in
  project_include projection <$> head (stage_sort_desc ["date"] ds).

(** [modified_count > 0]: the station exists and its status was not
    already the new one. *)
Definition update_weather_station_status (db : database)
    (station_id status : string) : result (bool * database) :=
  let update := [OpSet ["status"] (VStr status)] in
  c ← update_one (weather_stations db) station_id update;
  let modified :=
    match weather_stations db !! station_id with
    | Some d => negb (bool_decide (d !! "status" ≫= as_str = Some status))
    | None => false
    end in
  mret (modified, set_weather_stations c db).

Definition find_stations_with_status (db : database) (status : string)
    : list doc :=
  let search := query_eq_str ["status"] status in
  stage_match search (find_all (weather_stations db)).

(** The scenario returns the two listings that it logs and the database
    that it leaves. *)
Definition weather_station_status_updates (db : database)
    : result (list doc * list doc * database) :=
  let offline_before := find_stations_with_status db "Offline" in
  r ← update_weather_station_status db "WS-NEW002" "Offline";
  r ← update_weather_station_status r.2 "WS-LIV003" "Offline";
  let offline_after := find_stations_with_status r.2 "Offline" in
  r ← update_weather_station_status r.2 "WS-NEW002" "Online";
  r ← update_weather_station_status r.2 "WS-LIV003" "Online";
  mret (offline_before, offline_after, r.2).

Definition count_weather_reports_for_station (db : database)
    (station_id : string) : nat :=
  let filter := query_eq_str ["station"; "station_id"] station_id in
  count_documents (weather_reports db) filter.

(** Returns the [deleted_count] that it logs. *)
Definition delete_weather_reports (db : database) (station_id : string)
    (start end_ : datetime) : nat * database :=
  let filter d :=
    query_eq_str ["station"; "station_id"] station_id d
    && query_date_between ["date"] start end_ d in
  let '(deleted_count, c) := delete_many (weather_reports db) filter in
  (deleted_count, set_weather_reports c db).

(** The count before, the number deleted and the count after. *)
Definition weather_report_deletion (db : database)
    : nat * nat * nat * database :=
  let before := count_weather_reports_for_station db "WS-WW1001" in
  let '(deleted, db) :=
    delete_weather_reports db "WS-WW1001"
      (mk_datetime 2024 2 1 0 0) (mk_datetime 2024 2 4 0 0) in
  let after := count_weather_reports_for_station db "WS-WW1001" in
  (before, deleted, after, db).

(** *** The top five users of storage

    The pipeline runs on the documents of the collection
    [weather_report_storage_report], whose [_id] is the sub-document
    (year, month, owner_id).  Owner ids are strings; documents without
    one are grouped under null. *)
Definition owner_id_key (d : doc) : option string :=
  get_field ["_id"; "owner_id"] d ≫= as_str.

(** The [$project] stage. *)
Definition project_storage (d : doc) : result doc :=
  quotient ← expr_divide (d !! "total_bytes") (1024 * 1024);
  total_storage_MB ← expr_round quotient 2;
  let out : doc := ∅ in
  let out := set_opt "owner_id" (d !! "_id") out in
  Ok (<["total_storage_MB" := total_storage_MB]> out).

Definition get_top_five_users_of_storage (storage_report : list doc)
    : result (list doc) :=
  let ds :=
    stage_group owner_id_key [("total_bytes", AccSum ["total_storage_bytes"])]
      storage_report in
  ds ← result_mapM project_storage ds;
  let ds := stage_sort_desc ["total_storage_MB"] ds in
  stage_limit 5 ds.

End CRUD_tests.


(** The checking half of the credential capability ([encrypt.py]):
    [bcrypt.checkpw] raises on a text that is not a hash, and Fernet
    raises on a text that is not a token. *)
Class CredentialCheck : Type := {
  verify_password : string → string → result bool;
  decrypt : string → result string
}.

(** ** test_read_queries.py

    The query functions log their result and return nothing; here they
    return what they log. *)

Module test_read_queries.

Definition page_filter (station_id : string) (launch_date : datetime)
    (d : doc) : bool :=
  let start_date := launch_date in
  let end_date := launch_date + one_day in
  query_eq_str ["station"; "station_id"] station_id d
  && query_date_range ["launch_date"] start_date end_date d.

Definition project_reading (d : doc) : doc :=
  let out : doc := ∅ in
  let out := set_opt "timestamp" (get_field ["readings"; "timestamp"] d) out in
  let out := set_opt "gpheight" (get_field ["readings"; "gpheight"] d) out in
  let out := set_opt "temp" (get_field ["readings"; "temp"] d) out in
  out.

(** The launch readings, flattened and sorted by geopotential height. *)
Definition sorted_readings (db : database) (station_id : string)
    (launch_date : datetime) : list doc :=
  let ds := stage_match (page_filter station_id launch_date)
              (find_all (weather_balloon_reports db)) in
  let ds := stage_unwind "readings" ds in
  stage_sort_asc ["readings"; "gpheight"] ds.

Definition get_weather_balloon_readings_by_page (db : database)
    (station_id : string) (launch_date : datetime) (page page_size : Z)
    : result (list doc) :=
  let skip := (page - 1) * page_size in
  let ds := sorted_readings db station_id launch_date in
  ds ← stage_skip skip ds;
  ds ← stage_limit page_size ds;
  Ok (stage_project project_reading ds).


(** [user.get] of the password with the empty string as default, then
    [.encode] inside
    [verify_password]: a stored value that is not a string has no
    [encode]. *)
Definition stored_password (user : doc) : result string :=
  match user !! "password" with
  | None => Ok EmptyString
  | Some (VStr s) => Ok s
  | Some _ => Raise (AttributeError "encode")
  end.

(** [EncryptionHelper.decrypt(user.get(k))]. *)
Definition decrypt_field `{CredentialCheck} (user : doc) (k : string)
    : result string :=
  match user !! k with
  | Some (VStr s) => decrypt s
  | _ => Raise (AttributeError "encode")
  end.

Definition is_private_or_admin (user : doc) : bool :=
  match user !! "user_type" with
  | Some (VStr s) => bool_decide (s = "Private"%string) || bool_decide (s = "Admin"%string)
  | _ => false
  end.

(** Returns [valid] and the decrypted name and email that it logs. *)
Definition validate_user `{CredentialCheck} (db : database)
    (entered_user_id entered_password : string)
    : result (bool * option (string * string)) :=
  match find_one (users db) entered_user_id with
  | None => Ok (false, None)
  | Some user =>
      hashed ← stored_password user;
      ok ← verify_password entered_password hashed;
      if (ok : bool) then
        if is_private_or_admin user then
          name ← decrypt_field user "name";
          email ← decrypt_field user "email";
          Ok (true, Some (name, email))
        else Ok (true, None)
      else Ok (false, None)
  end.

(** [find_one]: the first matching report in the order of the
    collection. *)
Definition get_weather_report (db : database) (station_id : string)
    (search_date : datetime) : option doc :=
  let next_day := search_date + one_day in
  let search d :=
    query_eq_str ["station"; "station_id"] station_id d
    && query_date_range ["date"] search_date next_day d in
  head (stage_match search (find_all (weather_reports db))).

(** *** The cooler afternoons report *)

(** The first [$match].  The store promises no order in which the two
    conditions are evaluated: the [$year] of every report is taken, so
    that a date field that is not a date is an error whatever the
    station of the report. *)
Definition in_year (station_id : string) (search_year : Z) (d : doc)
    : result bool :=
  year ← expr_year (d !! "date");
  Ok (query_eq_str ["station"; "station_id"] station_id d
      && expr_eq_int (Some year) search_year).

Definition add_reading_hour (d : doc) : result doc :=
  reading_hour ← expr_hour (get_field ["readings"; "timestamp"] d);
  Ok (<["reading_hour" := reading_hour]> d).

(** [{"reading_hour": {"$in": [9, 15]}}]. *)
Definition at_9_or_15 (d : doc) : bool :=
  expr_eq_int (d !! "reading_hour") 9 || expr_eq_int (d !! "reading_hour") 15.

(** After the first [$match] every document has a date. *)
Definition date_key (d : doc) : option datetime :=
  match d !! "date" with
  | Some (VDate t) => Some t
  | _ => None
  end.

(** [$cond] on the hour: the temperature of the reading, or null. *)
Definition temp_at (hour : Z) (d : doc) : option value :=
  if expr_eq_int (d !! "reading_hour") hour
  then present_value ["readings"; "temp"] d
  else None.

(** [$first]: null for a field that the first document lacks. *)
Definition first_value (p : list string) (g : list doc) : value :=
  match g with
  | d :: _ => default VNull (get_field p d)
  | [] => VNull
  end.

(** The [$group] stage. *)
Definition afternoon_group (g : option datetime * list doc) : doc :=
  dict [
    ("_id", id_value g.1);
    ("station_id", first_value ["station"; "station_id"] g.2);
    ("station_name", first_value ["station"; "name"] g.2);
    ("temp_9am", fold1 vmax (omap (temp_at 9) g.2));
    ("temp_3pm", fold1 vmax (omap (temp_at 15) g.2))
  ].

(** [$add] of [$multiply] by 1.8 and 32. *)
Definition to_fahrenheit (a : value) : result value :=
  match a with
  | VNull => Ok VNull
  | _ =>
      match as_num a with
      | Some x => Ok (VNum (x * 1.8 + 32))
      | None => Raise OperationFailure
      end
  end.

(** The [$addFields] stage; a field of the group that were missing
    would count as null. *)
Definition add_differences (d : doc) : result doc :=
  let temp_9am := default VNull (d !! "temp_9am") in
  let temp_3pm := default VNull (d !! "temp_3pm") in
  diff ← expr_subtract temp_3pm temp_9am;
  temp_diff ← expr_round diff 1;
  f9 ← to_fahrenheit temp_9am;
  temp_9am_f ← expr_round f9 1;
  f3 ← to_fahrenheit temp_3pm;
  temp_3pm_f ← expr_round f3 1;
  diff_f ← expr_subtract f3 f9;
  temp_diff_f ← expr_round diff_f 1;
  Ok (<["temp_diff_f" := temp_diff_f]>
        (<["temp_3pm_f" := temp_3pm_f]>
           (<["temp_9am_f" := temp_9am_f]>
              (<["temp_diff" := temp_diff]> d)))).

(** The last [$match]: [$lt] in the comparison order of the store,
    where null is below every number. *)
Definition cooler (d : doc) : bool :=
  bson_lt (d !! "temp_3pm") (d !! "temp_9am").

(** The first four stages: the readings of the station and the year
    that were taken at 9 or at 15 hours. *)
Definition readings_at_9_or_15 (station_id : string) (search_year : Z)
    (reports : list doc) : result (list doc) :=
  ds ← result_filter (in_year station_id search_year) reports;
  let ds := stage_unwind "readings" ds in
  ds ← result_mapM add_reading_hour ds;
  Ok (stage_match at_9_or_15 ds).

Definition create_cooler_afternoons_report (db : database)
    (station_id : string) (search_year : Z) : result (list doc) :=
  ds ← readings_at_9_or_15 station_id search_year
         (find_all (weather_reports db));
  let ds := afternoon_group <$> group_by date_key ds in
  ds ← result_mapM add_differences ds;
  Ok (stage_match cooler ds).

(** *** Technician activity

    The query reads the collections [maintenance_logs] and
    [technicians]. *)

(** The first [$match]; the start date is 180 days before now,
    whatever [days] is. *)
Definition recent_logs (now : datetime) (maintenance_logs : gmap ObjectId doc)
    (station_id : string) : list doc :=
  let start_date := now - 180 * one_day in
  stage_match
    (λ d, query_eq_str ["station_id"] station_id d
          && query_date_ge ["timestamp"] start_date d)
    (find_all maintenance_logs).

(** The technician ids of the logs are strings. *)
Definition tech_id_key (d : doc) : option string :=
  d !! "tech_id" ≫= as_str.

(** [$group] with [{"$sum": 1}]. *)
Definition tech_group (g : option string * list doc) : doc :=
  dict [("_id", id_value g.1); ("log_count", VInt (Z.of_nat (length g.2)))].

(** The [$project] of the summary; [_id] is kept. *)
Definition project_summary (d : doc) : doc :=
  let out : doc := ∅ in
  let out := set_opt "_id" (d !! "_id") out in
  let out := set_opt "tech_id" (d !! "_id") out in
  let out := set_opt "log_count" (d !! "log_count") out in
  let out := set_opt "name" (array_field (d !! "tech_info") "name") out in
  set_opt "telephone" (array_field (d !! "tech_info") "telephone") out.

(** [$count]: no document for an empty input. *)
Definition stage_count (k : string) (ds : list doc) : list doc :=
  match ds with
  | [] => []
  | _ => [dict [(k, VInt (Z.of_nat (length ds)))]]
  end.

(** [$facet] yields one document that holds the results of its two
    pipelines. *)
Definition get_technician_activity (now : datetime)
    (maintenance_logs : gmap ObjectId doc) (technicians : gmap string doc)
    (station_id : string) (days : Z) : list doc :=
  let ds := recent_logs now maintenance_logs station_id in
  let tech_summary :=
    let ds := tech_group <$> group_by tech_id_key ds in
    let ds := stage_lookup_id technicians "tech_info" <$> ds in
    let ds := project_summary <$> ds in
    stage_sort_desc ["log_count"] ds in
  let total_tech_count :=
    let ds := (λ g : option string * list doc, dict [("_id", id_value g.1)])
                <$> group_by tech_id_key ds in
    stage_count "total_techs" ds in
  [dict [("tech_summary", VArr (VDoc <$> tech_summary));
         ("total_tech_count", VArr (VDoc <$> total_tech_count))]].

(** *** Wind speeds at airports *)

Definition airport_report (start_date end_date : datetime) (d : doc) : bool :=
  query_date_between ["date"] start_date end_date d
  && query_exists ["day_summary"; "wind_speed_max"] d
  && query_eq_str ["owner"; "owner_type"] "Airport" d.

(** The [$project] stage; [_id] is kept. *)
Definition project_wind (d : doc) : doc :=
  let out : doc := ∅ in
  let out := set_opt "_id" (d !! "_id") out in
  let out := set_opt "station_id" (get_field ["station"; "station_id"] d) out in
  let out := set_opt "station_name" (get_field ["station"; "name"] d) out in
  let out := set_opt "date" (d !! "date") out in
  let out :=
    set_opt "max_wind_speed" (get_field ["day_summary"; "wind_speed_max"] d)
      out in
  let out :=
    set_opt "min_wind_speed" (get_field ["day_summary"; "wind_speed_min"] d)
      out in
  set_opt "mean_wind_speed" (get_field ["day_summary"; "wind_speed_mean"] d)
    out.

(** The station ids of the reports are strings. *)
Definition station_id_key (d : doc) : option string :=
  d !! "station_id" ≫= as_str.

(** The [$group] stage. *)
Definition wind_group (g : option string * list doc) : doc :=
  dict [
    ("_id", id_value g.1);
    ("station_name", first_value ["station_name"] g.2);
    ("overall_max_wind_speed", run_accumulator (AccMax ["max_wind_speed"]) g.2);
    ("overall_min_wind_speed", run_accumulator (AccMin ["min_wind_speed"]) g.2);
    ("overall_avg_wind_speed", run_accumulator (AccAvg ["mean_wind_speed"]) g.2);
    ("days_with_data", VInt (Z.of_nat (length g.2)))
  ].

(** The first [$match]. *)
Definition airport_reports (db : database) (start_date end_date : datetime)
    : list doc :=
  stage_match (airport_report start_date end_date)
    (find_all (weather_reports db)).

Definition get_airport_wind_speeds (db : database)
    (start_date end_date : datetime) : list doc :=
  let ds := airport_reports db start_date end_date in
  let ds := project_wind <$> ds in
  let ds := wind_group <$> group_by station_id_key ds in
  stage_sort_desc ["overall_max_wind_speed"] ds.

End test_read_queries.

(** ** Test doubles used to run the examples *)

Definition empty_database : database := mk_database ∅ ∅ ∅ ∅ ∅.

(** [populateUsers] of [build_database_and_import_data.py]: a user
    document is stored under its [_id].  The users of the examples have
    ids of their own; the collection stays as it is where the insertion
    fails. *)
Definition insert_user `{EncryptionHelper} (rnd : entropy) (u : User)
    (c : gmap string doc) : gmap string doc :=
  match MongoDBHandler.insert_one c (get_user_doc rnd u) with
  | Ok (_, c) => c
  | Raise _ => c
  end.

Module TestDataGenerator.

Definition admin_user : User :=
  UAdministrator
    (Administrator.mk "admin1" "Pa$$4422" "John Smith" "j.smith@weatherdb.com").

Definition inst_met_office : User :=
  UInstitution
    (Institution.mk "metoff1" "Pa$$5678" "Met Office" "Government"
       "Mr Simon Jones" "stations@metoffice.gov.uk" "03709000100").

Definition cambridge_uni : Institution.t :=
  Institution.mk "camUni" "Pa$$1234" "Cambridge University" "University"
    "Mr Andy Hopper" "weatherlab@cam.ac.uk" "01223763500".

Definition inst_cambridge_uni : User := UInstitution cambridge_uni.

Definition ww_paul : User :=
  UWeatherWatcher
    (WeatherWatcher.mk "ps2004" "Pa$$1234" "Paul S" "Paul Smithers"
       "pauls@gmail.com").

Definition observ1 : WeatherObservation.t :=
  WeatherObservation.mk (mk_datetime 2025 2 26 14 12) (Some HEAVY_RAIN)
    (Some 10%Q) (Some "Heavy rain caused flooding"%string) None None None None
    None None (Some "images/flood.jpg"%string).

Definition manualReport1 : WeatherReport.t :=
  WeatherReport.mk (mk_datetime 2025 2 26 0 0)
    (Location.to_geojson (Location.mk 52.09332 1.32042))
    (WeatherObservation.timestamp observ1) 1 None (Some ww_paul) None
    (Some [observ1]) None.

End TestDataGenerator.

(** ** helper.py: [DualLog.log_results]

    The lines that are logged, and the count that is returned. *)

Module DualLog.

Inductive line : Type :=
  | ResultsHeader
  | Document (d : doc)
  | Shown (limit count : Z)
  | NoResults.

(** One pass of the loop over the cursor. *)
Definition log_step (limit : Z) (st : list line * Z) (d : doc)
    : list line * Z :=
  let '(lines, count) := st in
  let lines :=
    if bool_decide (count < limit) then lines ++ [Document d] else lines in
  (lines, count + 1).

Definition log_results (cursor : list doc) (limit : Z) : list line * Z :=
  let '(lines, count) := foldl (log_step limit) ([ResultsHeader], 0) cursor in
  let lines :=
    if bool_decide (count > limit) then lines ++ [Shown limit count]
    else lines in
  let lines :=
    if bool_decide (count = 0) then lines ++ [NoResults] else lines in
  (lines, count).

End DualLog.

(** ** build_database_and_import_data.py *)

Module RandomMaintenanceLogGenerator.

Definition reports : list string := [
  "No adjustments required";
  "Test log entry added.";
  "Performed full diagnostics.";
  "Calibrated temperature sensor.";
  "Replaced faulty anemometer.";
  "Cleaned solar panel.";
  "Reset communication module.";
  "Battery backup replaced.";
  "Tested humidity sensor.";
  "Checked rain gauge calibration.";
  "Cleared debris from sensor mount.";
  "Verified data transmission.";
  "Firmware updated.";
  "Sensor alignment adjusted.";
  "Power cycle performed.";
  "Secured loose wiring.";
  "Removed bird nesting material.";
  "Cleared obstruction from wind vane.";
  "Checked solar charging circuit.";
  "Repaired housing.";
  "Replaced wiring."
]%string.

(** The random numbers that one pass of the loop draws, in the order
    of the calls.  They are brought into the range of each call:
    [random.randint a b] is in [a .. b], [random.choice] indexes the
    sequence and raises [IndexError] on an empty one. *)
Record draw : Type := mk_draw {
  tech_draw : nat;
  hour_draw : Z;
  minute_draw : Z;
  report_draw : nat;
  days_draw : Z
}.

Definition randint (a b raw : Z) : Z := a + raw mod (b - a + 1).

Definition choice {A} (l : list A) (raw : nat) : option A :=
  l !! (raw mod length l)%nat.

Inductive outcome (A : Type) : Type :=
  | Done (a : A)
  | IndexError
  | OutOfFuel.
Arguments Done {A} a.
Arguments IndexError {A}.
Arguments OutOfFuel {A}.

(** The [while] loop; [fuel] bounds the number of passes, [i] counts
    them. *)
Fixpoint loop (fuel : nat) (rnd : nat → draw) (i : nat) (station_id : string)
    (technicians : list Technician.t) (current_date end_date : datetime)
    (maintenance_logs : list MaintenanceLogItem.t)
    : outcome (list MaintenanceLogItem.t) :=
  if decide (current_date ≤ end_date) then
    match fuel with
    | O => OutOfFuel
    | S fuel =>
        match choice technicians (tech_draw (rnd i)) with
        | None => IndexError
        | Some tech =>
            let hour := randint 9 16 (hour_draw (rnd i)) in
            let minute := randint 0 59 (minute_draw (rnd i)) in
            let timestamp :=
              current_date / 86400 * 86400 + hour * 3600 + minute * 60 in
            match choice reports (report_draw (rnd i)) with
            | None => IndexError
            | Some report =>
                let log_item :=
                  MaintenanceLogItem.mk timestamp station_id
                    (Technician.tech_id tech) report in
                let maintenance_logs := maintenance_logs ++ [log_item] in
                let current_date :=
                  current_date + randint 5 10 (days_draw (rnd i)) * 86400 in
                loop fuel rnd (S i) station_id technicians current_date
                  end_date maintenance_logs
            end
        end
    end
  else Done maintenance_logs.

Definition generate_maintenance_logs (fuel : nat) (rnd : nat → draw)
    (station_id : string) (technicians : list Technician.t)
    (start_date end_date : datetime)
    : outcome (list MaintenanceLogItem.t) :=
  loop fuel rnd 0 station_id technicians start_date end_date [].

End RandomMaintenanceLogGenerator.

Module OpenMeteoWeatherDataLoader.

Record t : Type := mk {
  station_id : string;
  station_name : string;
  owner : User
}.

(** *** The sections of the file

    [blank line] says whether [line.strip()] is the empty string. *)

Definition split_step (blank : string → bool)
    (st : list (list string) * list string) (line : string)
    : list (list string) * list string :=
  let '(sections, current) := st in
  if blank line then
    match current with
    | [] => (sections, current)
    | _ :: _ => (sections ++ [current], [])
    end
  else (sections, current ++ [line]).

Definition split_sections (blank : string → bool) (lines : list string)
    : list (list string) :=
  let '(sections, current) := foldl (split_step blank) ([], []) lines in
  match current with
  | [] => sections
  | _ :: _ => sections ++ [current]
  end.

(** *** From the parsed rows to the reports

    [load_from_csv] from the rows on: the readings and the day
    summaries as [from_csv_data] built them, the location and the latest
    maintenance log. *)

(** [daily_readings[day].append(reading)] on a [defaultdict(list)];
    the dictionary keeps the days in the order of their first reading. *)
Fixpoint defaultdict_append {A} (day : Z) (a : A) (m : list (Z * list A))
    : list (Z * list A) :=
  match m with
  | [] => [(day, [a])]
  | (day', l) :: m' =>
      if decide (day = day') then (day', l ++ [a]) :: m'
      else (day', l) :: defaultdict_append day a m'
  end.

(** [dt.date()], as a day number. *)
Definition date_of (dt : datetime) : Z := dt / 86400.

Definition daily_readings (hourly : list WeatherStationReading.t)
    : list (Z * list WeatherStationReading.t) :=
  foldl (λ m reading,
           defaultdict_append
             (date_of (WeatherStationReading.timestamp reading)) reading m)
    [] hourly.

Definition summaries (daily : list WeatherStationDaySummary.t)
    : gmap Z WeatherStationDaySummary.t :=
  foldl (λ m summary,
           <[date_of (WeatherStationDaySummary.date summary) := summary]> m)
    ∅ daily.

Definition weather_station_report (self : t) (location : Location.t)
    (latest_maintenance : option MaintenanceLogItem.t) : WeatherStation.t :=
  WeatherStation.mk (station_id self) (station_name self)
    (Location.to_geojson location) (owner self) "Online" latest_maintenance.

(** [summaries.get(date)] is [None] for a day without a summary row,
    and [summary.date] then fails. *)
Definition weather_reports (self : t) (location : Location.t)
    (latest_maintenance : option MaintenanceLogItem.t)
    (hourly : list WeatherStationReading.t)
    (daily : list WeatherStationDaySummary.t) : result (list WeatherReport.t) :=
  result_mapM
    (λ '(date, readings),
       match summaries daily !! date with
       | Some summary =>
           Ok (WeatherReport.mk
                 (WeatherStationDaySummary.date summary)
                 (Location.to_geojson location)
                 (DateHelper.get_end_of_day (WeatherStationDaySummary.date summary))
                 1
                 (Some (weather_station_report self location latest_maintenance))
                 (Some (owner self))
                 (Some readings)
                 None
                 (Some (WeatherStationDaySummary.get_doc_for_weather_report summary)))
       | None => Raise (AttributeError "date")
       end)
    (daily_readings hourly).

End OpenMeteoWeatherDataLoader.

Module RadiosondeDataImporter.

(** The variables of the loop over the features; [last_modified] is
    unbound ([None]) until a Point feature has been read. *)
Record loop_state : Type := mk_state {
  readings : list RadiosondeReading.t;
  first_location : option LocationWithAltitude.t;
  last_modified : option Q
}.

(** Subscripting needs a dictionary. *)
Definition as_dict (v : value) : result doc :=
  match v with
  | VDoc d => Ok d
  | _ => Raise TypeError
  end.

Definition import_step (local_offset : Z) (st : loop_state) (feature : doc)
    : result loop_state :=
  geometry ← getitem feature "geometry";
  geometry ← as_dict geometry;
  ty ← getitem geometry "type";
  if bool_decide (as_str ty = Some "Point"%string) then
    props ← getitem feature "properties";
    location ← LocationWithAltitude.from_geojson geometry;
    props ← as_dict props;
    reading ←
      RadiosondeReading.from_geojson_properties local_offset props location;
    Ok (mk_state
          (readings st ++ [reading])
          (match first_location st with
           | None => Some (RadiosondeReading.location reading)
           | Some l => Some l
           end)
          (Some (RadiosondeReading.timestamp reading)))
  else Ok st.

Fixpoint import_loop (local_offset : Z) (st : loop_state)
    (features : list doc) : result loop_state :=
  match features with
  | [] => Ok st
  | feature :: features =>
      st ← import_step local_offset st feature;
      import_loop local_offset st features
  end.

Definition read_features (local_offset : Z) (features : list doc)
    : result loop_state :=
  import_loop local_offset (mk_state [] None None) features.

End RadiosondeDataImporter.

(** ** Vocabulary of the statements *)

Definition version_of (d : doc) : option Z :=
  match d !! "version" with
  | Some (VInt v) => Some v
  | _ => None
  end.

Definition last_modified_of (d : doc) : option datetime :=
  match d !! "last_modified" with
  | Some (VDate t) => Some t
  | _ => None
  end.

(** The reading sequence of a stored report: its [readings] array, the
    empty sequence when the field is absent. *)
Definition reading_sequence (d : doc) (rs : list value) : Prop :=
  d !! "readings" = Some (VArr rs) ∨ (d !! "readings" = None ∧ rs = []).

(** The numeric values of one measurement across a reading sequence. *)
Definition metric (k : string) (rs : list value) : list Q :=
  omap (λ r, get_path [k] r ≫= as_num) rs.

Definition summary_metrics : list string :=
  ["temp"; "dewpoint"; "humidity"; "pressure"; "precip"; "cloud_cover";
   "wind_speed"; "sunshine"].

(** A reading that carries a number for every summarised measurement. *)
Definition numeric_reading (r : value) : bool :=
  forallb (λ k, bool_decide (is_Some (get_path [k] r ≫= as_num)))
    summary_metrics.

Definition is_mean (m : Q) (l : list Q) : Prop :=
  (m * inject_Z (Z.of_nat (length l)) == Qsum l)%Q.

Definition is_minimum (m : Q) (l : list Q) : Prop :=
  Exists (Qeq m) l ∧ Forall (Qle m) l.

Definition is_maximum (m : Q) (l : list Q) : Prop :=
  Exists (Qeq m) l ∧ Forall (λ x, x <= m)%Q l.

Definition is_sum (s : Q) (l : list Q) : Prop := (s == Qsum l)%Q.

(** Field [k] of a summary holds a number that satisfies [P]. *)
Definition summary_field (s : doc) (k : string) (P : Q → Prop) : Prop :=
  ∃ q, num_field [k] s = Some q ∧ P q.

Definition has_metric (k : string) (r : value) : Prop :=
  is_Some (get_path [k] r ≫= as_num).

(** The day summary in the words of the specification: mean for
    temperature, dew point, humidity, pressure, cloud cover and wind
    speed; minimum and maximum for temperature, humidity, pressure and
    wind speed; sum for precipitation and sunshine duration. *)
Definition day_summary_spec (s : doc) (rs : list value) : Prop :=
  summary_field s "temp_mean" (λ q, is_mean q (metric "temp" rs))
  ∧ summary_field s "dewpoint_mean" (λ q, is_mean q (metric "dewpoint" rs))
  ∧ summary_field s "humidity_mean" (λ q, is_mean q (metric "humidity" rs))
  ∧ summary_field s "pressure_mean" (λ q, is_mean q (metric "pressure" rs))
  ∧ summary_field s "cloud_cover_mean" (λ q, is_mean q (metric "cloud_cover" rs))
  ∧ summary_field s "wind_speed_mean" (λ q, is_mean q (metric "wind_speed" rs))
  ∧ summary_field s "temp_min" (λ q, is_minimum q (metric "temp" rs))
  ∧ summary_field s "temp_max" (λ q, is_maximum q (metric "temp" rs))
  ∧ summary_field s "humidity_min" (λ q, is_minimum q (metric "humidity" rs))
  ∧ summary_field s "humidity_max" (λ q, is_maximum q (metric "humidity" rs))
  ∧ summary_field s "pressure_min" (λ q, is_minimum q (metric "pressure" rs))
  ∧ summary_field s "pressure_max" (λ q, is_maximum q (metric "pressure" rs))
  ∧ summary_field s "wind_speed_min" (λ q, is_minimum q (metric "wind_speed" rs))
  ∧ summary_field s "wind_speed_max" (λ q, is_maximum q (metric "wind_speed" rs))
  ∧ summary_field s "precip_sum" (λ q, is_sum q (metric "precip" rs))
  ∧ summary_field s "sunshine" (λ q, is_sum q (metric "sunshine" rs)).

(** The extremes classification in the words of the specification. *)
Definition extreme_temp_spec (temp_min temp_max : Q) : value :=
  if Qlt_le_dec temp_min 0 then VStr "Very Cold"
  else if Qlt_le_dec 28 temp_max then VStr "Very Hot"
  else VNull.

Definition extreme_weather_spec (wind_speed_max precip_sum : Q) : value :=
  match Qlt_le_dec 12 wind_speed_max, Qlt_le_dec 15 precip_sum with
  | left _, left _ => VStr "Storm"
  | left _, right _ => VStr "Strong Winds"
  | right _, left _ => VStr "Heavy Rain"
  | right _, right _ => VNull
  end.

(** An institution under another display name. *)
Definition renamed (new_name : string) (i : Institution.t) : Institution.t :=
  Institution.mk (Institution.user_id i) (Institution.password i) new_name
    (Institution.institution_type i) (Institution.contact_name i)
    (Institution.contact_email i) (Institution.contact_telephone i).

(** The number of pages of [page_size] that [n] readings fill:
    the ceiling of [n / page_size]. *)
Definition page_count (n : nat) (page_size : Z) : nat :=
  Z.to_nat ((Z.of_nat n + page_size - 1) / page_size).

(** The fields an embedded owner subset may carry: identity and
    display fields only. *)
Definition owner_subset_fields : gset string :=
  {["owner_type"; "user_id"; "name"; "contact"; "email"; "telephone"]}.

(** Omit-if-absent shaping of an embedded observation: the time stamp
    is always there, every optional field exactly when it was populated. *)
Definition observation_keys_spec (ob : WeatherObservation.t) (d : doc) : Prop :=
  d !! "timestamp" = Some (VDate (WeatherObservation.timestamp ob))
  ∧ (is_Some (d !! "category") ↔ is_Some (WeatherObservation.category ob))
  ∧ (is_Some (d !! "temp") ↔ is_Some (WeatherObservation.temp ob))
  ∧ (is_Some (d !! "description") ↔ is_Some (WeatherObservation.description ob))
  ∧ (is_Some (d !! "humidity") ↔ is_Some (WeatherObservation.humidity ob))
  ∧ (is_Some (d !! "precip") ↔ is_Some (WeatherObservation.precip ob))
  ∧ (is_Some (d !! "sample_duration")
     ↔ is_Some (WeatherObservation.sample_duration ob))
  ∧ (is_Some (d !! "pressure") ↔ is_Some (WeatherObservation.pressure ob))
  ∧ (is_Some (d !! "wind_speed") ↔ is_Some (WeatherObservation.wind_speed ob))
  ∧ (is_Some (d !! "wind_direction")
     ↔ is_Some (WeatherObservation.wind_direction ob))
  ∧ (is_Some (d !! "photo") ↔ is_Some (WeatherObservation.photo_filename ob)).

(** The same for the storage document of a report. *)
Definition report_keys_spec (r : WeatherReport.t) (d : doc) : Prop :=
  d !! "date" = Some (VDate (WeatherReport.date r))
  ∧ d !! "version" = Some (VInt (WeatherReport.version r))
  ∧ d !! "last_modified" = Some (VDate (WeatherReport.last_modified r))
  ∧ d !! "location" = Some (VDoc (WeatherReport.location r))
  ∧ (is_Some (d !! "station") ↔ is_Some (WeatherReport.station r))
  ∧ (is_Some (d !! "owner") ↔ is_Some (WeatherReport.owner r))
  ∧ (is_Some (d !! "readings") ↔ is_Some (WeatherReport.readings r))
  ∧ (is_Some (d !! "observations") ↔ is_Some (WeatherReport.observations r))
  ∧ (is_Some (d !! "day_summary") ↔ is_Some (WeatherReport.day_summary r)).

(** A list of values and the numbers they carry. *)
Definition carries (vs : list value) (qs : list Q) : Prop :=
  Forall2 (λ v q, as_num v = Some q) vs qs.

(** The documents that [$unwind] makes of a report read back from the
    collection, and the summary that [$group] makes of them. *)
Definition unwound (id : ObjectId) (d : doc) (rs : list value) : list doc :=
  (λ x, <["readings" := x]> (with_id (id, d))) <$> rs.

Definition summary_of (id : ObjectId) (d : doc) (rs : list value) : doc :=
  delete "_id"
    (group_doc CRUD_tests.day_summary_accumulators (Some id, unwound id d rs)).

(** The day summary of a sequence of typed readings. *)
Definition typed_summary_spec (s : doc) (rs : list WeatherStationReading.t)
    : Prop :=
  let over (f : WeatherStationReading.t → Q) := f <$> rs in
  summary_field s "temp_mean" (λ q, is_mean q (over WeatherStationReading.temp))
  ∧ summary_field s "temp_min" (λ q, is_minimum q (over WeatherStationReading.temp))
  ∧ summary_field s "temp_max" (λ q, is_maximum q (over WeatherStationReading.temp))
  ∧ summary_field s "dewpoint_mean"
      (λ q, is_mean q (over WeatherStationReading.dewpoint))
  ∧ summary_field s "humidity_mean"
      (λ q, is_mean q (over WeatherStationReading.humidity))
  ∧ summary_field s "humidity_min"
      (λ q, is_minimum q (over WeatherStationReading.humidity))
  ∧ summary_field s "humidity_max"
      (λ q, is_maximum q (over WeatherStationReading.humidity))
  ∧ summary_field s "pressure_mean"
      (λ q, is_mean q (over WeatherStationReading.pressure))
  ∧ summary_field s "pressure_min"
      (λ q, is_minimum q (over WeatherStationReading.pressure))
  ∧ summary_field s "pressure_max"
      (λ q, is_maximum q (over WeatherStationReading.pressure))
  ∧ summary_field s "precip_sum" (λ q, is_sum q (over WeatherStationReading.precip))
  ∧ summary_field s "cloud_cover_mean"
      (λ q, is_mean q (over WeatherStationReading.cloud_cover))
  ∧ summary_field s "wind_speed_mean"
      (λ q, is_mean q (over WeatherStationReading.wind_speed))
  ∧ summary_field s "wind_speed_min"
      (λ q, is_minimum q (over WeatherStationReading.wind_speed))
  ∧ summary_field s "wind_speed_max"
      (λ q, is_maximum q (over WeatherStationReading.wind_speed))
  ∧ summary_field s "sunshine" (λ q, is_sum q (over WeatherStationReading.sunshine)).

(** The thresholds of the extremes report on the fields of a summary. *)
Definition extreme_day (temp_min temp_max wind_speed_max precip_sum : Q) : Prop :=
  (temp_min < -5 ∨ 28 < temp_max ∨ 12 < wind_speed_max ∨ 15 < precip_sum)%Q.

(** A feature whose geometry is a Point. *)
Definition is_point_feature (feature : doc) : bool :=
  match feature !! "geometry" with
  | Some (VDoc geometry) =>
      bool_decide (geometry !! "type" ≫= as_str = Some "Point"%string)
  | _ => false
  end.

(** The reading that a Point feature holds. *)
Definition feature_reading (local_offset : Z) (feature : doc)
    (reading : RadiosondeReading.t) : Prop :=
  ∃ geometry properties location,
    feature !! "geometry" = Some (VDoc geometry)
    ∧ feature !! "properties" = Some (VDoc properties)
    ∧ LocationWithAltitude.from_geojson geometry = Ok location
    ∧ RadiosondeReading.from_geojson_properties local_offset properties location
      = Ok reading.

Definition user_id_of (u : User) : string :=
  match u with
  | UInstitution i => Institution.user_id i
  | UWeatherWatcher w => WeatherWatcher.user_id w
  | UAdministrator a => Administrator.user_id a
  end.

(** The name and email that are stored encrypted: those of a weather
    watcher or an administrator. *)
Definition personal_details (u : User) : option (string * string) :=
  match u with
  | UInstitution _ => None
  | UWeatherWatcher w => Some (WeatherWatcher.name w, WeatherWatcher.email w)
  | UAdministrator a => Some (Administrator.name a, Administrator.email a)
  end.

(** What a login of a stored user answers, given the answer of
    [verify_password].  The name and email are looked up when the type
    of the user is "Private" or "Admin"; the document of an institution
    has no [name], and [decrypt] of the missing value is an
    [AttributeError]. *)
Definition login_outcome (u : User) (valid : bool)
    : result (bool * option (string * string)) :=
  if valid then
    match u with
    | UInstitution i =>
        if bool_decide (Institution.institution_type i = "Private"%string)
           || bool_decide (Institution.institution_type i = "Admin"%string)
        then Raise (AttributeError "encode")
        else Ok (true, None)
    | _ => Ok (true, personal_details u)
    end
  else Ok (false, None).

(** The readings taken on the day of [t]. *)
Definition same_day (t : datetime) (x : WeatherStationReading.t) : bool :=
  bool_decide
    (OpenMeteoWeatherDataLoader.date_of (WeatherStationReading.timestamp x)
     = OpenMeteoWeatherDataLoader.date_of t).

(** The day of a maintenance log, and what every generated log
    satisfies: it is of the station, by one of the technicians, with a
    report of the pool, between 09:00 and 16:59 of a day of the period. *)
Definition log_day (item : MaintenanceLogItem.t) : Z :=
  MaintenanceLogItem.timestamp item / 86400.

Definition generated_log (station_id : string) (technicians : list Technician.t)
    (start_date end_date : datetime) (item : MaintenanceLogItem.t) : Prop :=
  MaintenanceLogItem.station_id item = station_id
  ∧ (∃ tech, tech ∈ technicians
             ∧ MaintenanceLogItem.tech_id item = Technician.tech_id tech)
  ∧ MaintenanceLogItem.report item ∈ RandomMaintenanceLogGenerator.reports
  ∧ 9 * 3600 ≤ MaintenanceLogItem.timestamp item mod 86400 < 17 * 3600
  ∧ start_date / 86400 ≤ log_day item ≤ end_date / 86400.

(** The entry of an owner in the storage ranking: the bytes of the
    owner's rows, in megabytes rounded to two places. *)
Definition storage_entry (storage_report : list doc) (owner : option string)
    (entry : doc) : Prop :=
  ∃ q : Q,
    (q == Qsum (numeric_values ["total_storage_bytes"]
                  (List.filter
                     (λ d, bool_decide (CRUD_tests.owner_id_key d = owner))
                     storage_report)))%Q
    ∧ entry = dict [
        ("owner_id", id_value owner);
        ("total_storage_MB", VNum (round_places 2 (q / inject_Z (1024 * 1024))))
      ].

(** The hour of a reading, the temperatures that a reading sequence
    has at an hour, and a largest one of a list of numbers. *)
Definition reading_hour (r : value) : option Z :=
  match get_path ["timestamp"] r with
  | Some (VDate ts) => Some (ts mod 86400 / 3600)
  | _ => None
  end.

Definition temps_at (hour : Z) (rs : list value) : list Q :=
  omap (λ r, if bool_decide (reading_hour r = Some hour)
             then get_path ["temp"] r ≫= as_num else None) rs.

Definition is_largest (m : Q) (l : list Q) : Prop :=
  m ∈ l ∧ Forall (λ x, x <= m)%Q l.

(** A reading with a time stamp and a temperature as the import
    stores them: a date and a double. *)
Definition timed_reading (r : value) : Prop :=
  ∃ ts temp, get_path ["timestamp"] r = Some (VDate ts)
             ∧ get_path ["temp"] r = Some (VNum temp).


(** What the cooler afternoons report says of a day, from the
    temperatures that the report of the day has at 9 and at 15 hours. *)
Definition fahrenheit (c : Q) : Q := (c * 1.8 + 32)%Q.

Definition listed (t : datetime) (e : doc) (out : list doc) : Prop :=
  e ∈ out ∧ e !! "_id" = Some (VDate t).

Definition cooler_afternoon_spec (t : datetime) (rs : list value)
    (out : list doc) : Prop :=
  match temps_at 9 rs, temps_at 15 rs with
  | [], _ => ∀ e, ¬ listed t e out
  | _ :: _, [] =>
      ∃ e m9,
        listed t e out ∧ is_largest m9 (temps_at 9 rs)
        ∧ e !! "temp_9am" = Some (VNum m9)
        ∧ e !! "temp_3pm" = Some VNull
        ∧ e !! "temp_diff" = Some VNull
        ∧ e !! "temp_9am_f" = Some (VNum (round_places 1 (fahrenheit m9)))
  | _ :: _, _ :: _ =>
      ∃ m9 m3,
        is_largest m9 (temps_at 9 rs) ∧ is_largest m3 (temps_at 15 rs)
        ∧ if Qlt_le_dec m3 m9 then
            ∃ e,
              listed t e out
              ∧ e !! "temp_9am" = Some (VNum m9)
              ∧ e !! "temp_3pm" = Some (VNum m3)
              ∧ e !! "temp_diff" = Some (VNum (round_places 1 (m3 - m9)))
              ∧ e !! "temp_diff_f"
                = Some (VNum (round_places 1 (fahrenheit m3 - fahrenheit m9)))
          else ∀ e, ¬ listed t e out
  end.

(** The entry of a technician in the activity summary: the number of
    the recent logs of the technician, and the name and telephone of
    the technician's document, if the collection has one. *)
Definition activity_entry (technicians : gmap string doc) (recent : list doc)
    (tech : option string) (entry : doc) : Prop :=
  let known := option_list (tech ≫= (technicians !!.)) in
  entry = dict [
    ("_id", id_value tech);
    ("tech_id", id_value tech);
    ("log_count",
     VInt (Z.of_nat (length (List.filter
       (λ d, bool_decide (test_read_queries.tech_id_key d = tech)) recent))));
    ("name", VArr (omap (.!! "name") known));
    ("telephone", VArr (omap (.!! "telephone") known))
  ].

(** The station of a report, and the entry of a station in the wind
    report: the number of the station's reports, and the largest of
    their daily maxima, the smallest of their daily minima and the mean
    of their daily means, where these are numbers. *)
Definition station_of (d : doc) : option string :=
  get_field ["station"; "station_id"] d ≫= as_str.

Definition wind_entry (reports : list doc) (station : option string)
    (entry : doc) : Prop :=
  let days := List.filter (λ d, bool_decide (station_of d = station)) reports in
  days ≠ []
  ∧ entry !! "_id" = Some (id_value station)
  ∧ entry !! "days_with_data" = Some (VInt (Z.of_nat (length days)))
  ∧ (∀ qs,
       carries (omap (present_value ["day_summary"; "wind_speed_max"]) days) qs →
       qs ≠ [] →
       summary_field entry "overall_max_wind_speed" (λ m, is_maximum m qs))
  ∧ (∀ qs,
       carries (omap (present_value ["day_summary"; "wind_speed_min"]) days) qs →
       qs ≠ [] →
       summary_field entry "overall_min_wind_speed" (λ m, is_minimum m qs))
  ∧ (numeric_values ["day_summary"; "wind_speed_mean"] days ≠ [] →
     summary_field entry "overall_avg_wind_speed"
       (λ m, is_mean m (numeric_values ["day_summary"; "wind_speed_mean"] days))).

(** ** Scenario data *)

(** A stand-in for the credential capability, to evaluate examples; the
    statements below hold for every implementation of the interface. *)
Definition example_encryption : EncryptionHelper := {|
  hash_password pw s := "$2b$12$" +:+ s +:+ pretty (String.length pw);
  encrypt pt nonce := "gAAAAA" +:+ nonce +:+ pretty (String.length pt)
|}.

Definition example_entropy : entropy :=
  mk_entropy "N9qo8uLOickgx2ZMRZoMye" "iv01" "iv02".

(** A cold, calm, dry day at the Glasgow station. *)
Definition glasgow_cold_day : doc :=
  dict [
    ("_id", VOid 7%N);
    ("date", VDate (mk_datetime 2024 1 17 0 0));
    ("station", VDoc (dict [
       ("station_id", VStr "WS-GLA001"); ("name", VStr "Glasgow")]));
    ("day_summary", VDoc (dict [
       ("temp_min", VNum (-6)); ("temp_max", VNum 1.5);
       ("wind_speed_max", VNum 5); ("precip_sum", VNum 2)]))
  ].

(** A day of the Cambridge station, its station document and the users
    collection, as the import builds them. *)
Definition cambridge_station : WeatherStation.t :=
  WeatherStation.mk "WS-UNI001" "Cambridge"
    (Location.to_geojson (Location.mk 52.2 0.1333))
    TestDataGenerator.inst_cambridge_uni "Online" None.

Definition cambridge_report : WeatherReport.t :=
  WeatherReport.mk (mk_datetime 2025 4 9 0 0)
    (Location.to_geojson (Location.mk 52.2 0.1333))
    (mk_datetime 2025 4 9 23 59) 1 (Some cambridge_station)
    (Some TestDataGenerator.inst_cambridge_uni) (Some []) None None.

Definition stored (r : result doc) : doc :=
  match r with
  | Ok d => delete "_id" d
  | Raise _ => ∅
  end.

Definition cambridge_db : database :=
  mk_database
    {[ 12%N := stored (WeatherReport.get_weather_report_doc ∅ cambridge_report) ]}
    {[ "WS-UNI001"%string :=
         stored (WeatherStation.get_weather_station_doc cambridge_station) ]}
    (insert_user (H := example_encryption) example_entropy
       TestDataGenerator.inst_cambridge_uni
       (insert_user (H := example_encryption) example_entropy
          TestDataGenerator.ww_paul ∅))
    ∅ ∅.

(** A balloon launch from Larkhill with five readings, out of height
    order as they are stored. *)
Definition sonde_reading (t : datetime) (gpheight temp : Q) : value :=
  VDoc (dict [
    ("timestamp", VDate t); ("gpheight", VNum gpheight); ("temp", VNum temp)]).

Definition larkhill_launch : doc :=
  dict [
    ("launch_date", VDate (mk_datetime 2025 4 1 8 0));
    ("station", VDoc (dict [
       ("station_id", VStr "03743"); ("name", VStr "Larkhill")]));
    ("version", VInt 1);
    ("readings", VArr [
       sonde_reading (mk_datetime 2025 4 1 8 2) 1510.5 3.1;
       sonde_reading (mk_datetime 2025 4 1 8 0) 132 9.4;
       sonde_reading (mk_datetime 2025 4 1 8 4) 3022 (-6.2);
       sonde_reading (mk_datetime 2025 4 1 8 1) 640.2 7.0;
       sonde_reading (mk_datetime 2025 4 1 8 3) 2201 (-1.5)])
  ].

Definition larkhill_db : database :=
  mk_database ∅ ∅ ∅ ∅ {[ 3%N := larkhill_launch ]}.

(** The photo files of the manual observations. *)
Definition example_files : filesystem :=
  {[ "images/flood.jpg"%string := [Byte.xff; Byte.xd8; Byte.xff; Byte.xe0] ]}.

(** The properties of one radiosonde feature: wind from the north-west
    quadrant of the u/v plane. *)
Definition sonde_properties : doc :=
  dict [
    ("time", VInt 1743494520); ("gpheight", VNum 1510.5);
    ("temp", VNum 276.25); ("dewpoint", VNum 270.05);
    ("pressure", VNum 845.2); ("wind_u", VNum (-3)); ("wind_v", VNum 4)
  ].

(** The London report of the CRUD scenario, freshly inserted. *)
Definition london_id : ObjectId := 0%N.

Definition london_db : database :=
  set_weather_reports {[london_id := CRUD_tests.new_weather_report_doc]}
    empty_database.

Definition london_readings : list value :=
  [VDoc CRUD_tests.reading_london_midnight;
   VDoc CRUD_tests.reading_london_1am;
   VDoc CRUD_tests.reading_london_2am].

(** The same report once the three hourly readings are in. *)
Definition london_doc3 : doc :=
  <["readings" := VArr london_readings]>
    (<["version" := VInt 4]>
       (<["last_modified" := VDate (mk_datetime 2025 4 10 2 0)]>
          CRUD_tests.new_weather_report_doc)).

Definition london_db3 : database :=
  set_weather_reports {[london_id := london_doc3]} empty_database.

(** The two stations of the status scenario, on line. *)
Definition newcastle_station : doc :=
  dict [("name", VStr "Newcastle"); ("status", VStr "Online")].

Definition liverpool_station : doc :=
  dict [("name", VStr "Liverpool"); ("status", VStr "Online")].

Definition status_db : database :=
  set_weather_stations
    {[ "WS-NEW002"%string := newcastle_station;
       "WS-LIV003"%string := liverpool_station ]}
    empty_database.

(** Two hours of the Ipswich station and the report of that day, as
    the import builds them. *)
Definition ipswich_reading (t : datetime) (temp wind : Q)
    : WeatherStationReading.t :=
  WeatherStationReading.mk t 3600 temp 1.5 80 1012.4 0.2 60 wind 210 0
    5.1 0.31 5.6 0.32 6.2 0.33 7.4 0.34.

Definition ipswich_readings : list WeatherStationReading.t :=
  [ipswich_reading (mk_datetime 2024 2 2 0 0) 3.5 4.1;
   ipswich_reading (mk_datetime 2024 2 2 1 0) 2.5 13.9].

Definition ipswich_summary : WeatherStationDaySummary.t :=
  WeatherStationDaySummary.mk (mk_datetime 2024 2 2 0 0)
    3 2.5 3.5 1.5 80 80 80 1012.4 1012.4 1012.4 0.4 60 9 4.1 13.9 0.

Definition ipswich_station : WeatherStation.t :=
  WeatherStation.mk "WS-WW1001" "Ipswich"
    (Location.to_geojson (Location.mk 52.0597 1.1481))
    TestDataGenerator.ww_paul "Online" None.

Definition ipswich_report : WeatherReport.t :=
  WeatherReport.mk (mk_datetime 2024 2 2 0 0)
    (Location.to_geojson (Location.mk 52.0597 1.1481))
    (mk_datetime 2024 2 2 23 59 + 59) 1 (Some ipswich_station)
    (Some TestDataGenerator.ww_paul) (Some ipswich_readings) None
    (Some (WeatherStationDaySummary.get_doc_for_weather_report ipswich_summary)).

Definition ipswich_doc : doc :=
  stored (WeatherReport.get_weather_report_doc ∅ ipswich_report).

Definition ipswich_db : database :=
  set_weather_reports {[ 21%N := ipswich_doc ]} empty_database.

(** The cold Glasgow day as a stored report, and the database after
    the extremes report of the station has been built from it. *)
Definition glasgow_db : database :=
  set_weather_reports {[ 7%N := delete "_id" glasgow_cold_day ]} empty_database.

Definition glasgow_extremes_db : database :=
  match CRUD_tests.create_weather_extremes_report glasgow_db "WS-GLA001" with
  | Ok db => db
  | Raise _ => glasgow_db
  end.

(** The geometry of a radiosonde feature; the altitude is an integer
    in the file. *)
Definition larkhill_geometry : doc :=
  dict [
    ("type", VStr "Point");
    ("coordinates", VArr [VNum (-1.8); VNum 51.2; VInt 1498])
  ].

Definition larkhill_location : LocationWithAltitude.t :=
  LocationWithAltitude.mk (VNum 51.2) (VNum (-1.8)) (VInt 1498).

(** The reading of the Larkhill feature, in a zone one hour ahead. *)
Definition larkhill_reading : RadiosondeReading.t :=
  RadiosondeReading.mk (inject_Z (1743494520 + 3600)) larkhill_location
    (VNum 1510.5) (276.25 - 273.15) (270.05 - 273.15) (VNum 845.2)
    (sqrt (Q2R (-3) * Q2R (-3) + Q2R 4 * Q2R 4))
    (py_mod (degrees (atan2 (Q2R 4) (Q2R (-3))) + 360) 360).

(** A radiosonde file: the flight track (a LineString) and one Point
    feature. *)
Definition track_feature : doc :=
  dict [
    ("type", VStr "Feature");
    ("geometry", VDoc (dict [
       ("type", VStr "LineString");
       ("coordinates", VArr [VArr [VNum (-1.8); VNum 51.2; VInt 1498]])]));
    ("properties", VDoc (dict [("name", VStr "track")]))
  ].

Definition larkhill_feature : doc :=
  dict [
    ("type", VStr "Feature");
    ("geometry", VDoc larkhill_geometry);
    ("properties", VDoc sonde_properties)
  ].

Definition larkhill_features : list doc := [track_feature; larkhill_feature].

Definition larkhill_state : RadiosondeDataImporter.loop_state :=
  match RadiosondeDataImporter.read_features 3600 larkhill_features with
  | Ok st => st
  | Raise _ => RadiosondeDataImporter.mk_state [] None None
  end.

(** The Cambridge data after the owner has been renamed. *)
Definition cambridge_renamed_db : database :=
  match CRUD_tests.rename_a_weather_station_owner cambridge_db
          (mk_datetime 2025 5 1 10 30) with
  | Ok db => db
  | Raise _ => cambridge_db
  end.

(** A station with a maintenance log, as the import builds it. *)
Definition glasgow_log : MaintenanceLogItem.t :=
  MaintenanceLogItem.mk (mk_datetime 2025 4 3 11 24) "WS-GLA001" "T-002"
    "Cleaned solar panel.".

Definition glasgow_station : WeatherStation.t :=
  WeatherStation.mk "WS-GLA001" "Glasgow"
    (Location.to_geojson (Location.mk 55.8651 (-4.2576)))
    TestDataGenerator.inst_met_office "Online" (Some glasgow_log).

(** A credential capability that can be run both ways, to evaluate the
    login examples: the hash is the 22 characters of salt followed by
    the password, the token is the 4 characters of nonce followed by the
    text. *)
Definition login_encryption : EncryptionHelper := {|
  hash_password pw s := s +:+ pw;
  encrypt pt nonce := nonce +:+ pt
|}.

Definition login_check : CredentialCheck := {|
  verify_password pw hashed :=
    if bool_decide (String.length hashed < 22)%nat
    then Raise (ValueError "Invalid salt")
    else Ok (bool_decide
               (String.substring 22 (String.length hashed - 22) hashed = pw));
  decrypt token :=
    if bool_decide (String.length token < 4)%nat
    then Raise (ValueError "InvalidToken")
    else Ok (String.substring 4 (String.length token - 4) token)
|}.

Definition login_db : database :=
  set_users
    (insert_user (H := login_encryption) example_entropy
       TestDataGenerator.inst_met_office
       (insert_user (H := login_encryption) example_entropy
          TestDataGenerator.ww_paul ∅))
    empty_database.

Definition ipswich_loader : OpenMeteoWeatherDataLoader.t :=
  OpenMeteoWeatherDataLoader.mk "WS-WW1001" "Ipswich" TestDataGenerator.ww_paul.

(** The technicians of the Glasgow station, and random draws that
    always pick the first technician, 09:00, the first report and a gap
    of five days. *)
Definition glasgow_technicians : list Technician.t :=
  [Technician.mk "T-002" "Emily Carter" "AtmosTech Ltd"
     "contact@atmostech.co.uk" "02079460011";
   Technician.mk "T-003" "Liam Turner" "ClimaServ UK" "tech@climaserv.com"
     "01618504403"].

Definition lowest_draws (i : nat) : RandomMaintenanceLogGenerator.draw :=
  RandomMaintenanceLogGenerator.mk_draw 0 0 0 0 0.

(** Rows of the storage report: two months of the Met Office and one
    month of Heathrow. *)
Definition storage_row (year month : Z) (owner_id : string) (bytes count : Z)
    : doc :=
  dict [
    ("_id", VDoc (dict [("year", VInt year); ("month", VInt month);
                        ("owner_id", VStr owner_id)]));
    ("total_storage_bytes", VInt bytes);
    ("document_count", VInt count)
  ].

Definition storage_rows : list doc :=
  [storage_row 2024 1 "metoff1" 3145728 403;
   storage_row 2024 1 "heathAir" 1572864 31;
   storage_row 2024 2 "metoff1" 2621440 377].

(** Two days of the Southampton station: an afternoon warmer than the
    morning, and a day whose readings stop before the afternoon. *)
Definition hourly (t : datetime) (temp : Q) : value :=
  VDoc (dict [("timestamp", VDate t); ("temp", VNum temp)]).

Definition southampton_day (t : datetime) (readings : list value) : doc :=
  dict [
    ("date", VDate t);
    ("station", VDoc (dict [
       ("station_id", VStr "WS-SOU001"); ("name", VStr "Southampton")]));
    ("readings", VArr readings)
  ].

Definition southampton_db : database :=
  set_weather_reports
    {[ 31%N := southampton_day (mk_datetime 2024 3 1 0 0)
                 [hourly (mk_datetime 2024 3 1 9 0) 8.25;
                  hourly (mk_datetime 2024 3 1 12 0) 11;
                  hourly (mk_datetime 2024 3 1 15 0) 12.4];
       32%N := southampton_day (mk_datetime 2024 3 2 0 0)
                 [hourly (mk_datetime 2024 3 2 9 0) 9.5;
                  hourly (mk_datetime 2024 3 2 10 0) 9.8];
       33%N := southampton_day (mk_datetime 2024 3 3 0 0)
                 [hourly (mk_datetime 2024 3 3 9 0) 10.5;
                  hourly (mk_datetime 2024 3 3 15 0) 7.25] ]}
    empty_database.

(** Maintenance logs of Glasgow and one of Ipswich, and the
    technicians collection. *)
Definition maintenance_log (t : datetime) (station_id tech_id : string)
    : doc :=
  MaintenanceLogItem.get_maintenance_log_doc
    (MaintenanceLogItem.mk t station_id tech_id "Calibrated sensors.").

Definition glasgow_logs : gmap ObjectId doc :=
  {[ 41%N := maintenance_log (mk_datetime 2025 1 10 9 30) "WS-GLA001" "T-002";
     42%N := maintenance_log (mk_datetime 2025 2 14 10 0) "WS-GLA001" "T-009";
     43%N := maintenance_log (mk_datetime 2025 3 20 16 45) "WS-GLA001" "T-002";
     44%N := maintenance_log (mk_datetime 2024 6 1 9 0) "WS-GLA001" "T-003";
     45%N := maintenance_log (mk_datetime 2025 3 1 9 0) "WS-WW1001" "T-003" ]}.

Definition technicians_collection : gmap string doc :=
  list_to_map
    ((λ t, (Technician.tech_id t, delete "_id" (Technician.get_technician_doc t)))
       <$> glasgow_technicians).

(** Reports of two airports and of the Met Office. *)
Definition wind_day (t : datetime) (station_id name owner_type : string)
    (wind_min wind_mean wind_max : Q) : doc :=
  dict [
    ("date", VDate t);
    ("station", VDoc (dict [("station_id", VStr station_id); ("name", VStr name)]));
    ("owner", VDoc (dict [("owner_type", VStr owner_type)]));
    ("day_summary", VDoc (dict [
       ("wind_speed_min", VNum wind_min);
       ("wind_speed_mean", VNum wind_mean);
       ("wind_speed_max", VNum wind_max)]))
  ].

Definition airport_db : database :=
  set_weather_reports
    {[ 51%N := wind_day (mk_datetime 2024 1 1 0 0) "WS-LHR004" "Heathrow"
                 "Airport" 1.5 4 9.5;
       52%N := wind_day (mk_datetime 2024 1 2 0 0) "WS-LHR004" "Heathrow"
                 "Airport" 0.5 6 14;
       53%N := wind_day (mk_datetime 2024 1 1 0 0) "WS-LGW005" "Gatwick"
                 "Airport" 2 8 17.25;
       54%N := wind_day (mk_datetime 2024 1 1 0 0) "WS-GLA001" "Glasgow"
                 "Government" 3 9 21;
       55%N := wind_day (mk_datetime 2024 2 1 0 0) "WS-LGW005" "Gatwick"
                 "Airport" 2 9 30 ]}
    empty_database.




(** An institution that registered with the type "Private". *)
Definition private_institution : User :=
  UInstitution
    (Institution.mk "hillFarm" "Pa$$7788" "Hill Farm" "Private"
       "Ms Ann Hill" "ann@hillfarm.example" "01632960001").

Definition private_login_db : database :=
  set_users
    (insert_user (H := login_encryption) example_entropy private_institution ∅)
    empty_database.

(** * Properties *)

(** ** Results *)


Lemma result_mapM_Forall2 {A B} (f : A → result B) (l : list A) (l' : list B) :
  result_mapM f l = Ok l' → Forall2 (λ a b, f a = Ok b) l l'.
Proof.
  revert l'. induction l as [|a l IH]; intros l'; simpl.
  - by intros [= <-].
  - destruct (f a) as [b|e] eqn:Hfa; [|done]. cbn.
    destruct (result_mapM f l) as [bs|e]; [|done]. cbn.
    intros [= <-]. constructor; [done|]. by apply IH.
Qed.

Lemma result_mapM_raise {A B} (f : A → result B) (l : list A) (e : exn) :
  result_mapM f l = Raise e → ∃ a, a ∈ l ∧ f a = Raise e.
Proof.
  induction l as [|a l IH]; simpl; [done|].
  destruct (f a) as [b|e'] eqn:Hfa; cbn.
  - destruct (result_mapM f l) as [bs|e'']; cbn; [done|].
    intros [= ->]. destruct IH as (x & Hx & Hfx); [done|].
    exists x. split; [by apply list_elem_of_further|done].
  - intros [= ->]. exists a. split; [apply list_elem_of_here|done].
Qed.

(** ** The store model *)

Section collection_facts.
Context `{Countable K} `{!IdKey K}.
Implicit Types (c : gmap K doc) (d : doc) (id : K).

Lemma filter_unique_key {A} (l : list (K * A)) id (a : A) :
  NoDup l.*1 → (id, a) ∈ l →
  List.filter (λ kd, bool_decide (kd.1 = id)) l = [(id, a)].
Proof.
  induction l as [|[k x] l IH]; intros Hnd Hin; [by apply elem_of_nil in Hin|].
  apply NoDup_cons in Hnd as [Hk Hnd]. simpl.
  apply elem_of_cons in Hin as [Heq|Hin].
  - injection Heq as <- <-. rewrite bool_decide_eq_true_2 by done. f_equal.
    clear IH. induction l as [|[k' x'] l IH]; [done|]. simpl.
    apply NoDup_cons in Hnd as [_ Hnd].
    apply not_elem_of_cons in Hk as [Hne Hk].
    rewrite bool_decide_eq_false_2 by (simpl; intros Heq; by apply Hne). by apply IH.
  - rewrite bool_decide_eq_false_2; [by apply IH|].
    simpl. intros ->. apply Hk. apply list_elem_of_fmap. by exists (id, a).
Qed.

Lemma filter_absent_key {A} (l : list (K * A)) id :
  id ∉ l.*1 → List.filter (λ kd, bool_decide (kd.1 = id)) l = [].
Proof.
  induction l as [|[k x] l IH]; [done|]. intros Hk. simpl.
  apply not_elem_of_cons in Hk as [Hne Hk].
  rewrite bool_decide_eq_false_2 by (simpl; intros Heq; by apply Hne). by apply IH.
Qed.

Lemma filter_fmap {A B} (f : B → bool) (g : A → B) (l : list A) :
  List.filter f (g <$> l) = g <$> List.filter (λ a, f (g a)) l.
Proof.
  induction l as [|a l IH]; [done|]. rewrite fmap_cons. cbn [List.filter].
  destruct (f (g a)); rewrite ?fmap_cons, IH; done.
Qed.

Lemma update_one_lookup c id d u d' :
  c !! id = Some d → apply_update u d = Ok d' →
  update_one c id u = Ok (<[id := d']> c).
Proof. intros Hc Hu. unfold update_one. by rewrite Hc, Hu. Qed.

Lemma update_one_absent c id u : c !! id = None → update_one c id u = Ok c.
Proof. intros Hc. unfold update_one. by rewrite Hc. Qed.

Lemma update_many_ok c flt u :
  map_Forall (λ _ d, flt d = true → is_ok (apply_update u d)) c →
  ∃ c', update_many c flt u = Ok c' ∧
    ∀ id, c' !! id =
      (λ d, match update_if flt u d with Ok d' => d' | Raise _ => d end) <$> c !! id.
Proof.
  intros Hall. unfold update_many. rewrite decide_True.
  - eexists. split; [done|]. intros id. by rewrite lookup_fmap.
  - intros id d Hd. unfold update_if. destruct (flt d) eqn:Hf; [|done].
    by apply (Hall id d).
Qed.

End collection_facts.

Lemma match_id_found (c : gmap ObjectId doc) (id : ObjectId) (d : doc) :
  c !! id = Some d →
  stage_match (query_eq_oid ["_id"] id) (find_all c) = [with_id (id, d)].
Proof.
  intros Hc. unfold stage_match, find_all. rewrite filter_fmap.
  rewrite (List.filter_ext _ (λ kd, bool_decide (kd.1 = id))).
  - rewrite (filter_unique_key _ id d); [done|apply NoDup_fst_map_to_list|].
    by apply elem_of_map_to_list.
  - intros [k x]. unfold query_eq_oid, get_field, with_id. simpl.
    by rewrite lookup_insert_eq.
Qed.

Lemma match_id_absent (c : gmap ObjectId doc) (id : ObjectId) :
  c !! id = None →
  stage_match (query_eq_oid ["_id"] id) (find_all c) = [].
Proof.
  intros Hc. unfold stage_match, find_all. rewrite filter_fmap.
  rewrite (List.filter_ext _ (λ kd, bool_decide (kd.1 = id))).
  - rewrite filter_absent_key; [done|].
    intros Hin. apply list_elem_of_fmap in Hin as [[k x] [-> Hin]].
    apply elem_of_map_to_list in Hin. simpl in *. congruence.
  - intros [k x]. unfold query_eq_oid, get_field, with_id. simpl.
    by rewrite lookup_insert_eq.
Qed.

(** ** Stages of the day-summary pipeline *)

Lemma unwind_array (d : doc) (k : string) (l : list value) :
  d !! k = Some (VArr l) →
  stage_unwind k [d] = (λ x, <[k := x]> d) <$> l.
Proof.
  intros Hk. unfold stage_unwind. cbn. unfold unwind_doc. rewrite Hk.
  by rewrite app_nil_r.
Qed.

Lemma group_by_grow `{EqDecision K} (key : doc → K) (k : K) (l acc : list doc) :
  Forall (λ d, key d = k) l →
  foldl (λ gs d, group_insert (key d) d gs) [(k, acc)] l = [(k, acc ++ l)].
Proof.
  revert acc. induction l as [|d l IH]; intros acc Hall; simpl.
  - by rewrite app_nil_r.
  - apply Forall_cons in Hall as [Hd Hall]. rewrite Hd, decide_True by done.
    rewrite IH by done. by rewrite <- app_assoc.
Qed.

Lemma group_by_single `{EqDecision K} (key : doc → K) (k : K) (l : list doc) :
  l ≠ [] → Forall (λ d, key d = k) l → group_by key l = [(k, l)].
Proof.
  destruct l as [|d l]; [done|]. intros _ Hall.
  apply Forall_cons in Hall as [Hd Hall]. unfold group_by. simpl.
  rewrite Hd. by rewrite group_by_grow.
Qed.

Lemma omap_fmap_compose {A B C} (f : B → option C) (g : A → B) (l : list A) :
  omap f (g <$> l) = omap (λ a, f (g a)) l.
Proof.
  induction l as [|a l IH]; [done|]. rewrite fmap_cons. cbn.
  by rewrite IH.
Qed.

(** ** Numbers *)

Lemma bson_le_num (a b : value) (x y : Q) :
  as_num a = Some x → as_num b = Some y →
  bson_le (Some a) (Some b) = Qle_bool x y.
Proof.
  intros Ha Hb. destruct a; try discriminate; destruct b; try discriminate;
    simpl in *; congruence.
Qed.

Lemma Qle_bool_false (x y : Q) : Qle_bool x y = false → (y < x)%Q.
Proof.
  intros Hf. apply Qnot_le_lt. intros Hle.
  apply Qle_bool_iff in Hle. congruence.
Qed.

Lemma fold_vmin_minimum (vs : list value) (qs : list Q) (v : value) (q : Q) :
  as_num v = Some q → carries vs qs →
  ∃ m, as_num (foldl vmin v vs) = Some m ∧ is_minimum m (q :: qs).
Proof.
  intros Hv Hvs. revert v q Hv.
  induction Hvs as [|v' q' vs qs Hv' Hvs IH]; intros v q Hv; simpl.
  - exists q. split; [done|]. split.
    + apply Exists_cons_hd. reflexivity.
    + repeat constructor. apply Qle_refl.
  - unfold vmin at 2. rewrite (bson_le_num v v' q q') by done.
    destruct (Qle_bool q q') eqn:Hle.
    + destruct (IH v q Hv) as (m & Hm & Hex & Hall). exists m. split; [done|].
      apply Forall_cons in Hall as [Hmq Hall]. split.
      * apply Exists_cons in Hex as [Hex|Hex]; [by apply Exists_cons_hd|].
        by do 2 apply Exists_cons_tl.
      * repeat apply Forall_cons_2; try done.
        apply Qle_bool_iff in Hle. by eapply Qle_trans.
    + destruct (IH v' q' Hv') as (m & Hm & Hex & Hall). exists m. split; [done|].
      apply Forall_cons in Hall as [Hmq Hall]. split.
      * by apply Exists_cons_tl.
      * repeat apply Forall_cons_2; try done.
        apply Qle_bool_false in Hle. eapply Qle_trans; [done|]. by apply Qlt_le_weak.
Qed.

Lemma fold_vmax_maximum (vs : list value) (qs : list Q) (v : value) (q : Q) :
  as_num v = Some q → carries vs qs →
  ∃ m, as_num (foldl vmax v vs) = Some m ∧ is_maximum m (q :: qs).
Proof.
  intros Hv Hvs. revert v q Hv.
  induction Hvs as [|v' q' vs qs Hv' Hvs IH]; intros v q Hv; simpl.
  - exists q. split; [done|]. split.
    + apply Exists_cons_hd. reflexivity.
    + repeat constructor. apply Qle_refl.
  - unfold vmax at 2. rewrite (bson_le_num v' v q' q) by done.
    destruct (Qle_bool q' q) eqn:Hle.
    + destruct (IH v q Hv) as (m & Hm & Hex & Hall). exists m. split; [done|].
      apply Forall_cons in Hall as [Hmq Hall]. split.
      * apply Exists_cons in Hex as [Hex|Hex]; [by apply Exists_cons_hd|].
        by do 2 apply Exists_cons_tl.
      * repeat apply Forall_cons_2; try done.
        apply Qle_bool_iff in Hle. by eapply Qle_trans.
    + destruct (IH v' q' Hv') as (m & Hm & Hex & Hall). exists m. split; [done|].
      apply Forall_cons in Hall as [Hmq Hall]. split.
      * by apply Exists_cons_tl.
      * repeat apply Forall_cons_2; try done.
        apply Qle_bool_false in Hle. eapply Qle_trans; [|done]. by apply Qlt_le_weak.
Qed.

Lemma sum_step_num (acc v : value) (a q : Q) :
  as_num acc = Some a → as_num v = Some q →
  ∃ s, as_num (sum_step acc v) = Some s ∧ (s == a + q)%Q.
Proof.
  intros Ha Hq. destruct acc; try discriminate; destruct v; try discriminate;
    simpl in *; simplify_eq; eexists; (split; [reflexivity|]);
    rewrite ?inject_Z_plus; reflexivity.
Qed.

Lemma fold_sum_step (vs : list value) (qs : list Q) (acc : value) (a : Q) :
  as_num acc = Some a → carries vs qs →
  ∃ s, as_num (foldl sum_step acc vs) = Some s ∧ (s == a + Qsum qs)%Q.
Proof.
  intros Ha Hvs. revert acc a Ha.
  induction Hvs as [|v q vs qs Hv Hvs IH]; intros acc a Ha; simpl.
  - exists a. split; [done|]. rewrite Qplus_0_r. reflexivity.
  - destruct (sum_step_num acc v a q Ha Hv) as (s0 & Hs0 & Heq0).
    destruct (IH _ _ Hs0) as (s & Hs & Heq). exists s. split; [done|].
    rewrite Heq, Heq0. rewrite Qplus_assoc. reflexivity.
Qed.

Lemma mean_of_quotient (l : list Q) :
  l ≠ [] → is_mean (Qsum l / inject_Z (Z.of_nat (length l))) l.
Proof.
  intros Hl. unfold is_mean. field.
  destruct l; [done|]. simpl length.
  change 0%Q with (inject_Z 0). rewrite inject_Z_injective. lia.
Qed.

(** ** Recomputing the day summary *)

Lemma day_summary_pipeline_result (c : gmap ObjectId doc) (id : ObjectId)
    (d : doc) (rs : list value) :
  c !! id = Some d → d !! "readings" = Some (VArr rs) → rs ≠ [] →
  CRUD_tests.day_summary_pipeline id (find_all c)
  = [group_doc CRUD_tests.day_summary_accumulators (Some id, unwound id d rs)].
Proof.
  intros Hc Hr Hne. unfold CRUD_tests.day_summary_pipeline.
  rewrite (match_id_found c id d Hc).
  rewrite (unwind_array _ "readings" rs).
  - unfold stage_group. fold (unwound id d rs).
    rewrite (group_by_single oid_of (Some id)); [done| |].
    + unfold unwound. by destruct rs.
    + unfold unwound. apply Forall_fmap, Forall_forall. intros x _. simpl.
      unfold oid_of, with_id. simpl.
      rewrite lookup_insert_ne by done. by rewrite lookup_insert_eq.
  - unfold with_id. simpl. by rewrite lookup_insert_ne.
Qed.

Lemma day_summary_pipeline_empty (c : gmap ObjectId doc) (id : ObjectId) (d : doc) :
  c !! id = Some d →
  d !! "readings" = Some (VArr []) ∨ d !! "readings" = None →
  CRUD_tests.day_summary_pipeline id (find_all c) = [].
Proof.
  intros Hc Hr. unfold CRUD_tests.day_summary_pipeline.
  rewrite (match_id_found c id d Hc).
  unfold stage_unwind. cbn. unfold unwind_doc, with_id. simpl.
  rewrite lookup_insert_ne by done. by destruct Hr as [-> | ->].
Qed.

Lemma recompute_nonempty (db : database) (id : ObjectId) (d : doc) (v : Z)
    (rs : list value) :
  weather_reports db !! id = Some d →
  d !! "version" = Some (VInt v) →
  d !! "readings" = Some (VArr rs) → rs ≠ [] →
  CRUD_tests.use_aggregation_pipeline_to_compute_a_day_summary db id
  = Ok (set_weather_reports
          (<[id := <["day_summary" := VDoc (summary_of id d rs)]>
                     (<["version" := VInt (v + 1)]> d)]> (weather_reports db))
          db).
Proof.
  intros Hc Hv Hr Hne.
  unfold CRUD_tests.use_aggregation_pipeline_to_compute_a_day_summary.
  rewrite (day_summary_pipeline_result _ id d rs) by done.
  fold (summary_of id d rs).
  erewrite update_one_lookup; [reflexivity|done|].
  simpl. by rewrite Hv.
Qed.

Lemma recompute_empty (db : database) (id : ObjectId) (d : doc) :
  weather_reports db !! id = Some d →
  reading_sequence d [] →
  CRUD_tests.use_aggregation_pipeline_to_compute_a_day_summary db id = Ok db.
Proof.
  intros Hc Hr.
  unfold CRUD_tests.use_aggregation_pipeline_to_compute_a_day_summary.
  rewrite (day_summary_pipeline_empty _ id d); [done..|].
  destruct Hr as [Hr|[Hr _]]; auto.
Qed.

Lemma append_reading_result (db : database) (id : ObjectId) (d : doc) (v : Z)
    (rs : list value) (reading : doc) (lm : datetime) :
  weather_reports db !! id = Some d →
  d !! "version" = Some (VInt v) →
  reading_sequence d rs →
  CRUD_tests.insert_new_weather_station_reading db id reading lm
  = Ok (set_weather_reports
          (<[id := <["last_modified" := VDate lm]>
                     (<["version" := VInt (v + 1)]>
                        (<["readings" := VArr (rs ++ [VDoc reading])]> d))]>
             (weather_reports db))
          db).
Proof.
  intros Hc Hv Hr. unfold CRUD_tests.insert_new_weather_station_reading.
  erewrite update_one_lookup; [reflexivity|done|].
  simpl. destruct Hr as [-> | [-> ->]]; simpl;
    rewrite lookup_insert_ne by done; by rewrite Hv.
Qed.

(** ** The incremental update protocol *)

(** C9. Recomputing the summary of a report whose reading sequence is
    empty (an empty [readings] array, or none) changes nothing: the
    operation returns the database it was given, so no [day_summary] is
    written and [version] and [last_modified] keep their values. *)
Theorem recompute_summary_empty_noop (db : database) (id : ObjectId) (d : doc) :
  weather_reports db !! id = Some d →
  reading_sequence d [] →
  CRUD_tests.use_aggregation_pipeline_to_compute_a_day_summary db id = Ok db.
Proof. apply recompute_empty. Qed.

Lemma recompute_summary_empty_noop_witness :
  CRUD_tests.use_aggregation_pipeline_to_compute_a_day_summary
    london_db london_id
  = Ok london_db.
Proof.
  apply (recompute_summary_empty_noop london_db london_id
           CRUD_tests.new_weather_report_doc); [reflexivity|].
  left. reflexivity.
Defined.

(** C1, as the code has it.  For a stored report with an integer
    [version] and its reading sequence: appending a reading pushes it,
    adds exactly 1 to [version] and sets [last_modified] to the supplied
    time stamp, all in one update of that one document (so the new
    [last_modified] is not below the old one when the supplied stamp is
    not); recomputing the summary of a non-empty reading sequence writes
    [day_summary], adds exactly 1 to [version] and leaves
    [last_modified] and the readings as they were, again in one update;
    on an empty sequence it changes nothing. *)
Theorem version_protocol (db : database) (id : ObjectId) (d : doc) (v : Z)
    (t : datetime) (rs : list value) :
  weather_reports db !! id = Some d →
  d !! "version" = Some (VInt v) →
  d !! "last_modified" = Some (VDate t) →
  reading_sequence d rs →
  (∀ (reading : doc) (lm : datetime),
     let d' := <["last_modified" := VDate lm]>
                 (<["version" := VInt (v + 1)]>
                    (<["readings" := VArr (rs ++ [VDoc reading])]> d)) in
     CRUD_tests.insert_new_weather_station_reading db id reading lm
     = Ok (set_weather_reports (<[id := d']> (weather_reports db)) db)
     ∧ version_of d' = Some (v + 1)
     ∧ last_modified_of d' = Some lm
     ∧ (t ≤ lm → ∃ t', last_modified_of d' = Some t' ∧ t ≤ t'))
  ∧ (rs ≠ [] →
     let d' := <["day_summary" := VDoc (summary_of id d rs)]>
                 (<["version" := VInt (v + 1)]> d) in
     CRUD_tests.use_aggregation_pipeline_to_compute_a_day_summary db id
     = Ok (set_weather_reports (<[id := d']> (weather_reports db)) db)
     ∧ version_of d' = Some (v + 1)
     ∧ last_modified_of d' = Some t
     ∧ reading_sequence d' rs)
  ∧ (rs = [] →
     CRUD_tests.use_aggregation_pipeline_to_compute_a_day_summary db id = Ok db).
Proof.
  intros Hc Hv Ht Hr. split; [|split].
  - intros reading lm d'. split; [by apply append_reading_result|].
    assert (Hlm : last_modified_of d' = Some lm).
    { unfold last_modified_of, d'. by rewrite lookup_insert_eq. }
    split; [|split; [done|]].
    + unfold version_of, d'. rewrite lookup_insert_ne by done.
      by rewrite lookup_insert_eq.
    + intros Hle. by exists lm.
  - intros Hne d'. destruct Hr as [Hr|[_ ->]]; [|done].
    split; [by apply recompute_nonempty|].
    unfold version_of, last_modified_of, reading_sequence, d'. split; [|split].
    + rewrite lookup_insert_ne by done. by rewrite lookup_insert_eq.
    + do 2 rewrite lookup_insert_ne by done. by rewrite Ht.
    + left. by do 2 rewrite lookup_insert_ne by done.
  - intros ->. by apply (recompute_empty db id d).
Qed.

Lemma version_protocol_witness :
  let db := london_db3 in
  let id := london_id in
  (∀ (reading : doc) (lm : datetime),
     let d' := <["last_modified" := VDate lm]>
                 (<["version" := VInt (4 + 1)]>
                    (<["readings" := VArr (london_readings ++ [VDoc reading])]>
                       london_doc3)) in
     CRUD_tests.insert_new_weather_station_reading db id reading lm
     = Ok (set_weather_reports (<[id := d']> (weather_reports db)) db)
     ∧ version_of d' = Some (4 + 1)
     ∧ last_modified_of d' = Some lm
     ∧ (mk_datetime 2025 4 10 2 0 ≤ lm →
        ∃ t', last_modified_of d' = Some t' ∧ mk_datetime 2025 4 10 2 0 ≤ t'))
  ∧ (london_readings ≠ [] →
     let d' := <["day_summary" := VDoc (summary_of id london_doc3 london_readings)]>
                 (<["version" := VInt (4 + 1)]> london_doc3) in
     CRUD_tests.use_aggregation_pipeline_to_compute_a_day_summary db id
     = Ok (set_weather_reports (<[id := d']> (weather_reports db)) db)
     ∧ version_of d' = Some (4 + 1)
     ∧ last_modified_of d' = Some (mk_datetime 2025 4 10 2 0)
     ∧ reading_sequence d' london_readings)
  ∧ (london_readings = [] →
     CRUD_tests.use_aggregation_pipeline_to_compute_a_day_summary db id = Ok db).
Proof.
  apply (version_protocol london_db3 london_id london_doc3 4
           (mk_datetime 2025 4 10 2 0) london_readings);
    [reflexivity | reflexivity | reflexivity | left; reflexivity].
Defined.

(** C1 as stated fails on the code at the freshly created London report
    (version 1, last modified 2025-04-10 00:00, no readings):
    recomputing its summary does not bring the version to 2, and
    appending a reading stamped one day earlier moves [last_modified]
    backwards. *)
Lemma version_monotonicity_counterexample :
  let db := london_db in
  let id := london_id in
  let t0 := mk_datetime 2025 4 10 0 0 in
  (weather_reports db !! id ≫= version_of) = Some 1
  ∧ (weather_reports db !! id ≫= last_modified_of) = Some t0
  ∧ (∃ db',
       CRUD_tests.use_aggregation_pipeline_to_compute_a_day_summary db id = Ok db'
       ∧ (weather_reports db' !! id ≫= version_of) ≠ Some (1 + 1))
  ∧ (∃ db' t',
       CRUD_tests.insert_new_weather_station_reading db id
         CRUD_tests.reading_london_midnight (t0 - one_day) = Ok db'
       ∧ (weather_reports db' !! id ≫= last_modified_of) = Some t'
       ∧ ¬ t0 ≤ t').
Proof.
  cbv zeta. split; [vm_compute; reflexivity|]. split; [vm_compute; reflexivity|].
  split.
  - exists london_db. split; [vm_compute; reflexivity|].
    vm_compute. discriminate.
  - eexists _, (mk_datetime 2025 4 9 0 0). split; [reflexivity|].
    split; [vm_compute; reflexivity|]. vm_compute. intros Hle. by apply Hle.
Qed.

(** ** The day summary *)

Lemma unwound_get_field (id : ObjectId) (d : doc) (x : value) (p : list string) :
  get_field ("readings" :: p) (<["readings" := x]> (with_id (id, d)))
  = get_path p x.
Proof. unfold get_field. simpl. by rewrite lookup_insert_eq. Qed.

Lemma unwound_numeric_values (id : ObjectId) (d : doc) (rs : list value)
    (k : string) :
  numeric_values ["readings"; k] (unwound id d rs) = metric k rs.
Proof.
  unfold numeric_values, unwound, metric. rewrite omap_fmap_compose.
  apply list_omap_ext. apply Forall2_same_length_lookup_2; [done|].
  intros i x y Hx Hy. simplify_eq. unfold num_field.
  by rewrite unwound_get_field.
Qed.

Lemma numeric_reading_metric (r : value) (k : string) :
  numeric_reading r = true → k ∈ summary_metrics → has_metric k r.
Proof.
  unfold numeric_reading. rewrite forallb_forall. intros Hall Hk.
  apply list_elem_of_In in Hk. specialize (Hall k Hk).
  by apply bool_decide_eq_true in Hall.
Qed.

Lemma numeric_readings_metric (rs : list value) (k : string) :
  forallb numeric_reading rs = true → k ∈ summary_metrics →
  Forall (has_metric k) rs.
Proof.
  rewrite forallb_forall. intros Hall Hk. apply Forall_forall. intros r Hr.
  apply numeric_reading_metric; [|done]. apply Hall. by apply list_elem_of_In.
Qed.

Lemma omap_cons_Some {A B} (f : A → option B) (x : A) (l : list A) (y : B) :
  f x = Some y → omap f (x :: l) = y :: omap f l.
Proof. intros Hf. cbn [omap list_omap]. by rewrite Hf. Qed.

Lemma metric_length (rs : list value) (k : string) :
  Forall (has_metric k) rs → length (metric k rs) = length rs.
Proof.
  induction 1 as [|r rs [q Hq] _ IH]; [done|]. unfold metric in *.
  rewrite (omap_cons_Some _ r rs q Hq). cbn [length]. by rewrite IH.
Qed.

Lemma unwound_values (id : ObjectId) (d : doc) (rs : list value) (k : string) :
  Forall (has_metric k) rs →
  ∃ vs, omap (present_value ["readings"; k]) (unwound id d rs) = vs
        ∧ omap (get_field ["readings"; k]) (unwound id d rs) = vs
        ∧ carries vs (metric k rs).
Proof.
  unfold unwound, metric, carries.
  induction 1 as [|r rs [q Hq] _ (vs & IH1 & IH2 & IH3)].
  - exists []. by repeat split.
  - destruct (get_path [k] r) as [v|] eqn:Hv; [|done].
    change (as_num v = Some q) in Hq.
    exists (v :: vs). rewrite fmap_cons.
    rewrite (omap_cons_Some (present_value _) _ _ v).
    2:{ unfold present_value. rewrite unwound_get_field, Hv. by destruct v. }
    rewrite (omap_cons_Some (get_field _) _ _ v).
    2:{ by rewrite unwound_get_field. }
    rewrite (omap_cons_Some _ r rs q) by (by rewrite Hv).
    rewrite IH1, IH2. repeat split. by constructor.
Qed.

Lemma avg_field (id : ObjectId) (d : doc) (rs : list value) (k : string) :
  rs ≠ [] → Forall (has_metric k) rs →
  ∃ m, run_accumulator (AccAvg ["readings"; k]) (unwound id d rs) = VNum m
       ∧ is_mean m (metric k rs).
Proof.
  intros Hne Hall. unfold run_accumulator. rewrite unwound_numeric_values.
  assert (Hm : metric k rs ≠ []).
  { intros Hnil. apply metric_length in Hall. rewrite Hnil in Hall.
    by destruct rs. }
  destruct (metric k rs) as [|q qs] eqn:Heq; [done|].
  eexists. split; [done|]. by apply mean_of_quotient.
Qed.

Lemma min_field (id : ObjectId) (d : doc) (rs : list value) (k : string) :
  rs ≠ [] → Forall (has_metric k) rs →
  ∃ m, as_num (run_accumulator (AccMin ["readings"; k]) (unwound id d rs)) = Some m
       ∧ is_minimum m (metric k rs).
Proof.
  intros Hne Hall. unfold run_accumulator.
  destruct (unwound_values id d rs k Hall) as (vs & -> & _ & Hvs).
  assert (Hlen := metric_length rs k Hall).
  remember (metric k rs) as qs eqn:Hqs. clear Hqs.
  destruct Hvs as [|v q vs qs Hv Hvs]; [by destruct rs|].
  by apply fold_vmin_minimum.
Qed.

Lemma max_field (id : ObjectId) (d : doc) (rs : list value) (k : string) :
  rs ≠ [] → Forall (has_metric k) rs →
  ∃ m, as_num (run_accumulator (AccMax ["readings"; k]) (unwound id d rs)) = Some m
       ∧ is_maximum m (metric k rs).
Proof.
  intros Hne Hall. unfold run_accumulator.
  destruct (unwound_values id d rs k Hall) as (vs & -> & _ & Hvs).
  assert (Hlen := metric_length rs k Hall).
  remember (metric k rs) as qs eqn:Hqs. clear Hqs.
  destruct Hvs as [|v q vs qs Hv Hvs]; [by destruct rs|].
  by apply fold_vmax_maximum.
Qed.

Lemma sum_field (id : ObjectId) (d : doc) (rs : list value) (k : string) :
  Forall (has_metric k) rs →
  ∃ s, as_num (run_accumulator (AccSum ["readings"; k]) (unwound id d rs)) = Some s
       ∧ is_sum s (metric k rs).
Proof.
  intros Hall. unfold run_accumulator.
  destruct (unwound_values id d rs k Hall) as (vs & _ & -> & Hvs).
  destruct (fold_sum_step vs (metric k rs) (VInt 0) 0%Q) as (s & Hs & Heq);
    [done|done|].
  exists s. split; [done|]. unfold is_sum. rewrite Heq. apply Qplus_0_l.
Qed.

Lemma summary_field_intro (s : doc) (k : string) (v : value) (q : Q)
    (P : Q → Prop) :
  s !! k = Some v → as_num v = Some q → P q → summary_field s k P.
Proof.
  intros Hs Hv HP. exists q. split; [|done].
  unfold num_field, get_field. simpl. rewrite Hs. simpl. by rewrite Hv.
Qed.

Lemma summary_of_lookup (id : ObjectId) (d : doc) (rs : list value)
    (n : string) (a : accumulator) :
  (n, a) ∈ CRUD_tests.day_summary_accumulators →
  summary_of id d rs !! n = Some (run_accumulator a (unwound id d rs)).
Proof.
  intros Hin. unfold summary_of, group_doc. rewrite delete_insert_eq.
  assert (Hnames : Forall (λ na : string * accumulator, na.1 ≠ "_id")
                     CRUD_tests.day_summary_accumulators).
  { unfold CRUD_tests.day_summary_accumulators. by repeat constructor. }
  rewrite lookup_delete_ne.
  2:{ rewrite Forall_forall in Hnames. intros Heq. by apply (Hnames _ Hin). }
  apply elem_of_list_to_map_1.
  - rewrite <- list_fmap_compose.
    unfold CRUD_tests.day_summary_accumulators. simpl.
    compute_done.
  - apply list_elem_of_fmap. by exists (n, a).
Qed.

Lemma summary_of_spec (id : ObjectId) (d : doc) (rs : list value) :
  rs ≠ [] → forallb numeric_reading rs = true →
  day_summary_spec (summary_of id d rs) rs.
Proof.
  intros Hne Hnum.
  assert (Hk : ∀ k, k ∈ summary_metrics → Forall (has_metric k) rs)
    by (intros k Hk; by apply numeric_readings_metric).
  assert (Hmean : ∀ k n, k ∈ summary_metrics →
            summary_of id d rs !! n
            = Some (run_accumulator (AccAvg ["readings"; k]) (unwound id d rs)) →
            summary_field (summary_of id d rs) n (λ q, is_mean q (metric k rs))).
  { intros k n Hin Hn. destruct (avg_field id d rs k Hne (Hk k Hin)) as (m & Hm & ?).
    eapply summary_field_intro; [done| |done]. by rewrite Hm. }
  assert (Hmin : ∀ k n, k ∈ summary_metrics →
            summary_of id d rs !! n
            = Some (run_accumulator (AccMin ["readings"; k]) (unwound id d rs)) →
            summary_field (summary_of id d rs) n (λ q, is_minimum q (metric k rs))).
  { intros k n Hin Hn. destruct (min_field id d rs k Hne (Hk k Hin)) as (m & Hm & ?).
    by eapply summary_field_intro. }
  assert (Hmax : ∀ k n, k ∈ summary_metrics →
            summary_of id d rs !! n
            = Some (run_accumulator (AccMax ["readings"; k]) (unwound id d rs)) →
            summary_field (summary_of id d rs) n (λ q, is_maximum q (metric k rs))).
  { intros k n Hin Hn. destruct (max_field id d rs k Hne (Hk k Hin)) as (m & Hm & ?).
    by eapply summary_field_intro. }
  assert (Hsum : ∀ k n, k ∈ summary_metrics →
            summary_of id d rs !! n
            = Some (run_accumulator (AccSum ["readings"; k]) (unwound id d rs)) →
            summary_field (summary_of id d rs) n (λ q, is_sum q (metric k rs))).
  { intros k n Hin Hn. destruct (sum_field id d rs k (Hk k Hin)) as (m & Hm & ?).
    by eapply summary_field_intro. }
  unfold day_summary_spec, summary_metrics in *.
  repeat split.
  all: first [ apply Hmean | apply Hmin | apply Hmax | apply Hsum ].
  all: first [ apply summary_of_lookup | idtac ].
  all: apply list_elem_of_In; simpl; tauto.
Qed.

Lemma Qsum_three (l : list Q) (a b c : Q) :
  Forall2 Qeq l [a; b; c] → (Qsum l == a + b + c)%Q ∧ length l = 3%nat.
Proof.
  intros Hl.
  apply Forall2_cons_inv_r in Hl as (x & l1 & Hx & Hl & ->).
  apply Forall2_cons_inv_r in Hl as (y & l2 & Hy & Hl & ->).
  apply Forall2_cons_inv_r in Hl as (z & l3 & Hz & Hl & ->).
  apply Forall2_nil_inv_r in Hl as ->. split; [|done].
  unfold Qsum. simpl. rewrite Hx, Hy, Hz. ring.
Qed.

Lemma mean_of_three (q : Q) (l : list Q) :
  Forall2 Qeq l [6.5; 6; 5.6]%Q → is_mean q l →
  (Qabs (q - 6.033333) <= 0.000001)%Q.
Proof.
  intros Hl Hq. destruct (Qsum_three _ _ _ _ Hl) as [Hsum Hlen].
  unfold is_mean in Hq. rewrite Hlen, Hsum in Hq.
  apply Qabs_Qle_condition. change (inject_Z (Z.of_nat 3)) with 3%Q in Hq.
  split; lra.
Qed.

Lemma minimum_of_three (q : Q) (l : list Q) :
  Forall2 Qeq l [6.5; 6; 5.6]%Q → is_minimum q l → (q == 5.6)%Q.
Proof.
  intros Hl [Hex Hall].
  apply Forall2_cons_inv_r in Hl as (x & l1 & Hx & Hl & ->).
  apply Forall2_cons_inv_r in Hl as (y & l2 & Hy & Hl & ->).
  apply Forall2_cons_inv_r in Hl as (z & l3 & Hz & Hl & ->).
  apply Forall2_nil_inv_r in Hl as ->.
  apply Forall_cons in Hall as [Hqx Hall].
  apply Forall_cons in Hall as [Hqy Hall].
  apply Forall_cons in Hall as [Hqz _].
  apply Exists_cons in Hex as [Hex|Hex]; [lra|].
  apply Exists_cons in Hex as [Hex|Hex]; [lra|].
  apply Exists_cons in Hex as [Hex|Hex]; [lra|].
  by apply Exists_nil in Hex.
Qed.

Lemma maximum_of_three (q : Q) (l : list Q) :
  Forall2 Qeq l [6.5; 6; 5.6]%Q → is_maximum q l → (q == 6.5)%Q.
Proof.
  intros Hl [Hex Hall].
  apply Forall2_cons_inv_r in Hl as (x & l1 & Hx & Hl & ->).
  apply Forall2_cons_inv_r in Hl as (y & l2 & Hy & Hl & ->).
  apply Forall2_cons_inv_r in Hl as (z & l3 & Hz & Hl & ->).
  apply Forall2_nil_inv_r in Hl as ->.
  apply Forall_cons in Hall as [Hqx Hall].
  apply Forall_cons in Hall as [Hqy Hall].
  apply Forall_cons in Hall as [Hqz _].
  apply Exists_cons in Hex as [Hex|Hex]; [lra|].
  apply Exists_cons in Hex as [Hex|Hex]; [lra|].
  apply Exists_cons in Hex as [Hex|Hex]; [lra|].
  by apply Exists_nil in Hex.
Qed.

Lemma summary_field_impl (s : doc) (k : string) (P R : Q → Prop) :
  (∀ q, P q → R q) → summary_field s k P → summary_field s k R.
Proof. intros HPR (q & Hq & HP). exists q. auto. Qed.

(** C2. Recomputing the summary of a report with a non-empty sequence of
    numeric readings writes a [day_summary] whose mean fields are the
    arithmetic means, whose min and max fields are the minimum and the
    maximum, and whose precipitation and sunshine fields are the sums,
    each over all readings; for the temperatures 6.5, 6.0, 5.6 the
    temperature mean is 6.033333 up to 1e-6, the minimum 5.6 and the
    maximum 6.5. *)
Theorem day_summary_correct (db : database) (id : ObjectId) (d : doc) (v : Z)
    (rs : list value) :
  weather_reports db !! id = Some d →
  d !! "version" = Some (VInt v) →
  d !! "readings" = Some (VArr rs) →
  rs ≠ [] →
  forallb numeric_reading rs = true →
  ∃ (db' : database) (d' s : doc),
    CRUD_tests.use_aggregation_pipeline_to_compute_a_day_summary db id = Ok db'
    ∧ weather_reports db' !! id = Some d'
    ∧ d' !! "day_summary" = Some (VDoc s)
    ∧ (∀ k, k ∈ summary_metrics → length (metric k rs) = length rs)
    ∧ day_summary_spec s rs
    ∧ (Forall2 Qeq (metric "temp" rs) [6.5; 6; 5.6]%Q →
       summary_field s "temp_mean" (λ q, Qabs (q - 6.033333) <= 0.000001)%Q
       ∧ summary_field s "temp_min" (λ q, q == 5.6)%Q
       ∧ summary_field s "temp_max" (λ q, q == 6.5)%Q).
Proof.
  intros Hc Hv Hr Hne Hnum.
  eexists _, _, (summary_of id d rs).
  split; [by apply (recompute_nonempty db id d v rs)|].
  split; [apply lookup_insert_eq|].
  split; [apply lookup_insert_eq|].
  split.
  { intros k Hk. apply metric_length. by apply numeric_readings_metric. }
  pose proof (summary_of_spec id d rs Hne Hnum) as Hspec.
  split; [done|]. intros Htemps.
  destruct Hspec as (Hmean & _ & _ & _ & _ & _ & Hmin & Hmax & _).
  split; [|split].
  - eapply summary_field_impl; [|exact Hmean]. intros q. by apply mean_of_three.
  - eapply summary_field_impl; [|exact Hmin]. intros q. by apply minimum_of_three.
  - eapply summary_field_impl; [|exact Hmax]. intros q. by apply maximum_of_three.
Qed.

Lemma day_summary_correct_witness :
  ∃ (db' : database) (d' s : doc),
    CRUD_tests.use_aggregation_pipeline_to_compute_a_day_summary
      london_db3 london_id = Ok db'
    ∧ weather_reports db' !! london_id = Some d'
    ∧ d' !! "day_summary" = Some (VDoc s)
    ∧ (∀ k, k ∈ summary_metrics →
         length (metric k london_readings) = length london_readings)
    ∧ day_summary_spec s london_readings
    ∧ (Forall2 Qeq (metric "temp" london_readings) [6.5; 6; 5.6]%Q →
       summary_field s "temp_mean" (λ q, Qabs (q - 6.033333) <= 0.000001)%Q
       ∧ summary_field s "temp_min" (λ q, q == 5.6)%Q
       ∧ summary_field s "temp_max" (λ q, q == 6.5)%Q).
Proof.
  apply (day_summary_correct london_db3 london_id london_doc3 4 london_readings);
    [reflexivity | reflexivity | reflexivity | discriminate | reflexivity].
Defined.

(** The three readings of the CRUD scenario do have the temperatures of
    the example, and the summary that the code computes for them. *)
Example london_temperatures :
  metric "temp" london_readings = [6.5; 6; 5.6]%Q.
Proof. reflexivity. Qed.

Example london_summary :
  let s := summary_of london_id london_doc3 london_readings in
  s !! "temp_mean" = Some (VNum (1810 # 300))
  ∧ s !! "temp_min" = Some (VNum 5.6)
  ∧ s !! "temp_max" = Some (VNum 6.5)
  ∧ s !! "precip_sum" = Some (VNum 1.1)
  ∧ s !! "sunshine" = Some (VInt 0)
  ∧ s !! "humidity_min" = Some (VInt 75).
Proof. vm_compute. repeat split. Qed.

(** ** Weather extremes *)

Lemma negb_Qle_bool_true (a b : Q) : negb (Qle_bool a b) = true ↔ (b < a)%Q.
Proof.
  rewrite negb_true_iff. split.
  - apply Qle_bool_false.
  - intros Hlt. destruct (Qle_bool a b) eqn:Hle; [|done].
    apply Qle_bool_iff in Hle. by apply Qle_not_lt in Hle.
Qed.

Lemma num_field_value (p : list string) (d : doc) (q : Q) :
  num_field p d = Some q → ∃ v, get_field p d = Some v ∧ as_num v = Some q.
Proof.
  unfold num_field. destruct (get_field p d) as [v|]; [|done]. by exists v.
Qed.

Lemma expr_lt_num (p : list string) (d : doc) (q : Q) (c : Z) :
  num_field p d = Some q →
  Extremes.expr_lt (get_field p d) c = negb (Qle_bool (inject_Z c) q).
Proof.
  intros (v & -> & Hv)%num_field_value. unfold Extremes.expr_lt, bson_lt.
  by rewrite (bson_le_num (VInt c) v (inject_Z c) q).
Qed.

Lemma expr_gt_num (p : list string) (d : doc) (q : Q) (c : Z) :
  num_field p d = Some q →
  Extremes.expr_gt (get_field p d) c = negb (Qle_bool q (inject_Z c)).
Proof.
  intros (v & -> & Hv)%num_field_value. unfold Extremes.expr_gt, bson_lt.
  by rewrite (bson_le_num v (VInt c) q (inject_Z c)).
Qed.

Lemma negb_Qle_bool_dec (a b : Q) :
  negb (Qle_bool a b) = if Qlt_le_dec b a then true else false.
Proof.
  destruct (Qlt_le_dec b a) as [Hlt|Hle].
  - by apply negb_Qle_bool_true.
  - apply negb_false_iff. by apply Qle_bool_iff.
Qed.

Lemma extreme_temp_num (d : doc) (tmin tmax : Q) :
  num_field ["day_summary"; "temp_min"] d = Some tmin →
  num_field ["day_summary"; "temp_max"] d = Some tmax →
  Extremes.extreme_temp d = extreme_temp_spec tmin tmax.
Proof.
  intros Hmin Hmax. unfold Extremes.extreme_temp, extreme_temp_spec.
  rewrite (expr_lt_num _ d tmin) by done. rewrite (expr_gt_num _ d tmax) by done.
  rewrite !negb_Qle_bool_dec. change (inject_Z 0) with 0%Q.
  change (inject_Z 28) with 28%Q.
  by destruct (Qlt_le_dec tmin 0), (Qlt_le_dec 28 tmax).
Qed.

Lemma extreme_weather_num (d : doc) (wmax psum : Q) :
  num_field ["day_summary"; "wind_speed_max"] d = Some wmax →
  num_field ["day_summary"; "precip_sum"] d = Some psum →
  Extremes.extreme_weather d = extreme_weather_spec wmax psum.
Proof.
  intros Hw Hp. unfold Extremes.extreme_weather, extreme_weather_spec.
  rewrite (expr_gt_num _ d wmax) by done. rewrite (expr_gt_num _ d psum) by done.
  rewrite !negb_Qle_bool_dec. change (inject_Z 12) with 12%Q.
  change (inject_Z 15) with 15%Q.
  by destruct (Qlt_le_dec 12 wmax), (Qlt_le_dec 15 psum).
Qed.

Lemma set_opt_lookup_ne (k k' : string) (o : option value) (d : doc) :
  k ≠ k' → set_opt k o d !! k' = d !! k'.
Proof. intros Hne. destruct o; simpl; [by rewrite lookup_insert_ne|done]. Qed.

Lemma set_opt_lookup_eq (k : string) (v : value) (d : doc) :
  set_opt k (Some v) d !! k = Some v.
Proof. simpl. by rewrite lookup_insert_eq. Qed.

Lemma add_fields_get_field (d : doc) (k : string) (p : list string) :
  k ≠ "extreme_temp" → k ≠ "extreme_weather" →
  get_field (k :: p) (Extremes.add_fields d) = get_field (k :: p) d.
Proof.
  intros H1 H2. unfold get_field, Extremes.add_fields. simpl.
  by rewrite !lookup_insert_ne.
Qed.

Lemma add_fields_lookup (d : doc) (k : string) :
  k ≠ "extreme_temp" → k ≠ "extreme_weather" →
  Extremes.add_fields d !! k = d !! k.
Proof. intros H1 H2. unfold Extremes.add_fields. by rewrite !lookup_insert_ne. Qed.

Lemma add_fields_extreme_temp (d : doc) :
  Extremes.add_fields d !! "extreme_temp" = Some (Extremes.extreme_temp d).
Proof.
  unfold Extremes.add_fields. rewrite lookup_insert_ne by done.
  apply lookup_insert_eq.
Qed.

Lemma add_fields_extreme_weather (d : doc) :
  Extremes.add_fields d !! "extreme_weather"
  = Some (Extremes.extreme_weather d).
Proof. unfold Extremes.add_fields. apply lookup_insert_eq. Qed.

(** On a report whose day summary carries numbers in the four fields
    the classification follows the rule of C3: the report is selected
    when the qualifying disjunction holds, and its extremes document
    has [extreme_temp] "Very Cold" when the minimum is below 0, else
    "Very Hot" when the maximum is above 28, else null, and
    [extreme_weather] "Storm" when wind and precipitation both exceed
    their thresholds, else "Strong Winds" for wind only, else "Heavy
    Rain" for precipitation only, else null; a day with minimum -6,
    wind 5 and precipitation 2 is "Very Cold" with a null
    [extreme_weather]. *)
Lemma extremes_classification_numeric (station_id : string) (d : doc) (t : datetime)
    (tmin tmax wmax psum : Q) :
  get_field ["station"; "station_id"] d = Some (VStr station_id) →
  d !! "date" = Some (VDate t) →
  num_field ["day_summary"; "temp_min"] d = Some tmin →
  num_field ["day_summary"; "temp_max"] d = Some tmax →
  num_field ["day_summary"; "wind_speed_max"] d = Some wmax →
  num_field ["day_summary"; "precip_sum"] d = Some psum →
  (tmin < -5 ∨ 28 < tmax ∨ 12 < wmax ∨ 15 < psum)%Q →
  Extremes.qualifies station_id d = true
  ∧ ∃ out : doc,
      Extremes.project (Extremes.add_fields d) = Ok out
      ∧ out !! "_id" = Some (VStr (station_id +:+ "-" +:+ date_to_string t))
      ∧ out !! "extreme_temp" = Some (extreme_temp_spec tmin tmax)
      ∧ out !! "extreme_weather" = Some (extreme_weather_spec wmax psum)
      ∧ ((tmin == -6)%Q → (wmax == 5)%Q → (psum == 2)%Q →
         out !! "extreme_temp" = Some (VStr "Very Cold")
         ∧ out !! "extreme_weather" = Some VNull).
Proof.
  intros Hsid Hdate Hmin Hmax Hw Hp Hq. split.
  - unfold Extremes.qualifies, query_eq_str, query_lt, query_gt.
    rewrite Hsid, Hmin, Hmax, Hw, Hp. rewrite bool_decide_eq_true_2 by done.
    simpl. rewrite !orb_true_iff, !negb_Qle_bool_true. tauto.
  - unfold Extremes.project, Extremes.report_id.
    rewrite !add_fields_get_field by done. rewrite Hsid.
    rewrite (add_fields_lookup d "date") by done.
    rewrite Hdate, add_fields_extreme_temp, add_fields_extreme_weather.
    rewrite (extreme_temp_num d tmin tmax) by done.
    rewrite (extreme_weather_num d wmax psum) by done.
    eexists. split; [reflexivity|].
    assert (Hcold : (tmin == -6)%Q → (wmax == 5)%Q → (psum == 2)%Q →
              extreme_temp_spec tmin tmax = VStr "Very Cold"
              ∧ extreme_weather_spec wmax psum = VNull).
    { intros Hmin6 Hw5 Hp2. unfold extreme_temp_spec, extreme_weather_spec.
      destruct (Qlt_le_dec tmin 0); [|lra].
      destruct (Qlt_le_dec 12 wmax); [lra|].
      destruct (Qlt_le_dec 15 psum); [lra|]. done. }
    split; [|split; [|split]].
    + rewrite !set_opt_lookup_ne by done. reflexivity.
    + rewrite !set_opt_lookup_ne by done. apply set_opt_lookup_eq.
    + rewrite !set_opt_lookup_ne by done. apply set_opt_lookup_eq.
    + intros Hmin6 Hw5 Hp2. destruct (Hcold Hmin6 Hw5 Hp2) as [<- <-]. split.
      * rewrite !set_opt_lookup_ne by done. apply set_opt_lookup_eq.
      * rewrite !set_opt_lookup_ne by done. apply set_opt_lookup_eq.
Qed.

Example glasgow_cold_day_classification :
  Extremes.qualifies "WS-GLA001" glasgow_cold_day = true
  ∧ ∃ out : doc,
      Extremes.project (Extremes.add_fields glasgow_cold_day) = Ok out
      ∧ out !! "_id"
        = Some (VStr ("WS-GLA001" +:+ "-"
                      +:+ date_to_string (mk_datetime 2024 1 17 0 0)))
      ∧ out !! "extreme_temp" = Some (extreme_temp_spec (-6) 1.5)
      ∧ out !! "extreme_weather" = Some (extreme_weather_spec 5 2)
      ∧ ((-6 == -6)%Q → (5 == 5)%Q → (2 == 2)%Q →
         out !! "extreme_temp" = Some (VStr "Very Cold")
         ∧ out !! "extreme_weather" = Some VNull).
Proof.
  apply (extremes_classification_numeric "WS-GLA001" glasgow_cold_day
           (mk_datetime 2024 1 17 0 0) (-6) 1.5 5 2);
    [reflexivity | reflexivity | reflexivity | reflexivity | reflexivity
    | reflexivity | left; reflexivity].
Qed.

(** The pipeline outputs one extremes document per selected report, in
    order. *)
Lemma extremes_pipeline_outputs (station_id : string) (ds outs : list doc) :
  Extremes.pipeline station_id ds = Ok outs →
  Forall2 (λ d out, Extremes.project (Extremes.add_fields d) = Ok out)
    (stage_match (Extremes.qualifies station_id) ds) outs.
Proof.
  unfold Extremes.pipeline, stage_project.
  intros Hout%result_mapM_Forall2. by apply Forall2_fmap_l in Hout.
Qed.

(** The extremes document of the cold Glasgow day, as computed. *)
Example glasgow_cold_day_report :
  List.map (λ out : doc, (out !! "_id", out !! "extreme_temp",
                          out !! "extreme_weather"))
    <$> Extremes.pipeline "WS-GLA001" [glasgow_cold_day]
  = Ok [(Some (VStr "WS-GLA001-20240117"), Some (VStr "Very Cold"), Some VNull)].
Proof. vm_compute. reflexivity. Qed.



(** ** Renaming an owner *)

Lemma owner_filter_doc (uid : string) (d : doc) :
  query_eq_str ["owner"; "user_id"] uid d = true →
  ∃ o, d !! "owner" = Some (VDoc o) ∧ o !! "user_id" = Some (VStr uid).
Proof.
  unfold query_eq_str, get_field. simpl.
  destruct (d !! "owner") as [[| | | | | | | |o]|]; try done. simpl.
  destruct (o !! "user_id") as [[| | |s| | | | |]|] eqn:Hu; try done. simpl.
  intros Heq%bool_decide_eq_true. subst. by exists o.
Qed.

Lemma rename_report_update (d o : doc) (v : Z) (new_name : string)
    (t : datetime) :
  d !! "owner" = Some (VDoc o) → d !! "version" = Some (VInt v) →
  apply_update
    [OpSet ["owner"; "name"] (VStr new_name);
     OpSet ["last_modified"] (VDate t);
     OpInc ["version"] 1] d
  = Ok (<["version" := VInt (v + 1)]>
          (<["last_modified" := VDate t]>
             (<["owner" := VDoc (<["name" := VStr new_name]> o)]> d))).
Proof.
  intros Ho Hv. simpl. rewrite Ho. simpl.
  do 2 rewrite lookup_insert_ne by done. by rewrite Hv.
Qed.

Lemma rename_station_update (d o : doc) (new_name : string) :
  d !! "owner" = Some (VDoc o) →
  apply_update [OpSet ["owner"; "name"] (VStr new_name)] d
  = Ok (<["owner" := VDoc (<["name" := VStr new_name]> o)]> d).
Proof. intros Ho. simpl. by rewrite Ho. Qed.

Lemma rename_reports_lookup (db : database) (uid new_name : string)
    (t : datetime) :
  map_Forall (λ _ d, is_Some (version_of d)) (weather_reports db) →
  ∃ db',
    CRUD_tests.rename_weather_reports_owner db uid new_name t = Ok db'
    ∧ weather_stations db' = weather_stations db
    ∧ users db' = users db
    ∧ (∀ id d o v,
         weather_reports db !! id = Some d →
         d !! "owner" = Some (VDoc o) → o !! "user_id" = Some (VStr uid) →
         d !! "version" = Some (VInt v) →
         weather_reports db' !! id
         = Some (<["version" := VInt (v + 1)]>
                   (<["last_modified" := VDate t]>
                      (<["owner" := VDoc (<["name" := VStr new_name]> o)]> d))))
    ∧ (∀ id d,
         weather_reports db !! id = Some d →
         query_eq_str ["owner"; "user_id"] uid d = false →
         weather_reports db' !! id = Some d).
Proof.
  intros Hver. unfold CRUD_tests.rename_weather_reports_owner.
  destruct (update_many_ok (weather_reports db)
              (query_eq_str ["owner"; "user_id"] uid)
              [OpSet ["owner"; "name"] (VStr new_name);
               OpSet ["last_modified"] (VDate t);
               OpInc ["version"] 1]) as (c' & -> & Hc').
  { intros id d Hd Hflt. destruct (Hver id d Hd) as [v Hv].
    apply owner_filter_doc in Hflt as (o & Ho & _).
    unfold version_of in Hv.
    destruct (d !! "version") as [[|z| | | | | | |]|] eqn:Hz; try done.
    by rewrite (rename_report_update d o z). }
  eexists. split; [reflexivity|]. split; [done|]. split; [done|]. split.
  - intros id d o v Hd Ho Hu Hv. simpl. rewrite Hc', Hd. simpl.
    unfold update_if.
    assert (Hflt : query_eq_str ["owner"; "user_id"] uid d = true).
    { unfold query_eq_str, get_field. simpl. rewrite Ho. simpl. rewrite Hu.
      by apply bool_decide_eq_true. }
    by rewrite Hflt, (rename_report_update d o v).
  - intros id d Hd Hflt. simpl. rewrite Hc', Hd. simpl.
    unfold update_if. by rewrite Hflt.
Qed.

Lemma rename_stations_lookup (db : database) (uid new_name : string) :
  ∃ db',
    CRUD_tests.rename_weather_station_owner db uid new_name = Ok db'
    ∧ weather_reports db' = weather_reports db
    ∧ users db' = users db
    ∧ (∀ id d o,
         weather_stations db !! id = Some d →
         d !! "owner" = Some (VDoc o) → o !! "user_id" = Some (VStr uid) →
         weather_stations db' !! id
         = Some (<["owner" := VDoc (<["name" := VStr new_name]> o)]> d)).
Proof.
  unfold CRUD_tests.rename_weather_station_owner.
  destruct (update_many_ok (weather_stations db)
              (query_eq_str ["owner"; "user_id"] uid)
              [OpSet ["owner"; "name"] (VStr new_name)]) as (c' & -> & Hc').
  { intros id d Hd Hflt. apply owner_filter_doc in Hflt as (o & Ho & _).
    by rewrite (rename_station_update d o). }
  eexists. split; [reflexivity|]. split; [done|]. split; [done|].
  intros id d o Hd Ho Hu. simpl. rewrite Hc', Hd. simpl. unfold update_if.
  assert (Hflt : query_eq_str ["owner"; "user_id"] uid d = true).
  { unfold query_eq_str, get_field. simpl. rewrite Ho. simpl. rewrite Hu.
    by apply bool_decide_eq_true. }
  by rewrite Hflt, (rename_station_update d o).
Qed.

Lemma update_institution_name_lookup (db : database) (uid new_name : string) :
  ∃ b,
    CRUD_tests.update_institution_name db uid new_name
    = Ok (b, set_users
               (match users db !! uid with
                | Some d => <[uid := <["institution" := VStr new_name]> d]> (users db)
                | None => users db
                end) db).
Proof.
  unfold CRUD_tests.update_institution_name, update_one.
  destruct (users db !! uid) as [d|]; simpl; eauto.
Qed.

Lemma renamed_user_doc `{EncryptionHelper} (rnd : entropy) (i : Institution.t)
    (new_name : string) :
  <["institution" := VStr new_name]> (Institution.get_user_doc rnd i)
  = Institution.get_user_doc rnd (renamed new_name i).
Proof. reflexivity. Qed.


Lemma renamed_report_fields (d o : doc) (v : Z) (new_name : string)
    (t : datetime) (uid : string) :
  o !! "user_id" = Some (VStr uid) →
  let d' := <["version" := VInt (v + 1)]>
              (<["last_modified" := VDate t]>
                 (<["owner" := VDoc (<["name" := VStr new_name]> o)]> d)) in
  get_field ["owner"; "name"] d' = Some (VStr new_name)
  ∧ get_field ["owner"; "user_id"] d' = Some (VStr uid)
  ∧ version_of d' = Some (v + 1)
  ∧ last_modified_of d' = Some t.
Proof.
  intros Hu d'. unfold get_field, version_of, last_modified_of, d'. simpl.
  rewrite lookup_insert_eq.
  rewrite (lookup_insert_ne _ "version" "last_modified") by done.
  rewrite lookup_insert_eq.
  rewrite (lookup_insert_ne _ "version" "owner") by done.
  rewrite (lookup_insert_ne _ "last_modified" "owner") by done.
  rewrite lookup_insert_eq. simpl. rewrite lookup_insert_eq.
  rewrite lookup_insert_ne by done. by rewrite Hu.
Qed.

(** C4. Renaming "camUni" to "Science Dept. Cambridge University": a
    report whose embedded owner has user id "camUni" (and name
    "Cambridge University") then carries the new owner name, a version
    higher by exactly 1 and the modification time of the run; every
    report and every station embedding that owner carries the new name;
    and the canonical user document of the institution is the storage
    document of the institution under its new name, so its display name
    is the new one too. *)
Theorem rename_owner_propagation `{EncryptionHelper} (db : database)
    (t : datetime) (rid : ObjectId) (r o : doc) (v : Z) (rnd : entropy)
    (inst : Institution.t) :
  map_Forall (λ _ d, is_Some (version_of d)) (weather_reports db) →
  weather_reports db !! rid = Some r →
  r !! "owner" = Some (VDoc o) →
  o !! "user_id" = Some (VStr "camUni") →
  o !! "name" = Some (VStr "Cambridge University") →
  r !! "version" = Some (VInt v) →
  find_one (users db) "camUni" = Some (Institution.get_user_doc rnd inst) →
  ∃ (db' : database) (r' : doc),
    CRUD_tests.rename_a_weather_station_owner db t = Ok db'
    ∧ weather_reports db' !! rid = Some r'
    ∧ get_field ["owner"; "name"] r'
      = Some (VStr "Science Dept. Cambridge University")
    ∧ get_field ["owner"; "user_id"] r' = Some (VStr "camUni")
    ∧ version_of r' = Some (v + 1)
    ∧ last_modified_of r' = Some t
    ∧ (∀ id2 r2 o2,
         weather_reports db !! id2 = Some r2 →
         r2 !! "owner" = Some (VDoc o2) →
         o2 !! "user_id" = Some (VStr "camUni") →
         ∃ r2',
           weather_reports db' !! id2 = Some r2'
           ∧ get_field ["owner"; "name"] r2'
             = Some (VStr "Science Dept. Cambridge University"))
    ∧ (∀ sid s so,
         weather_stations db !! sid = Some s →
         s !! "owner" = Some (VDoc so) →
         so !! "user_id" = Some (VStr "camUni") →
         ∃ s',
           weather_stations db' !! sid = Some s'
           ∧ get_field ["owner"; "name"] s'
             = Some (VStr "Science Dept. Cambridge University"))
    ∧ find_one (users db') "camUni"
      = Some (Institution.get_user_doc rnd
                (renamed "Science Dept. Cambridge University" inst))
    ∧ (find_one (users db') "camUni" ≫= (.!! "institution"))
      = Some (VStr "Science Dept. Cambridge University").
Proof.
  intros Hver Hr Ho Hu Hn Hv Huser.
  unfold CRUD_tests.rename_a_weather_station_owner.
  destruct (rename_reports_lookup db "camUni"
              "Science Dept. Cambridge University" t Hver)
    as (db1 & -> & Hst1 & Hus1 & Hrep1 & _).
  destruct (rename_stations_lookup db1 "camUni"
              "Science Dept. Cambridge University")
    as (db2 & Hdb2 & Hrep2 & Hus2 & Hst2).
  cbn. rewrite Hdb2. cbn.
  destruct (update_institution_name_lookup db2 "camUni"
              "Science Dept. Cambridge University") as (b & ->).
  cbn. unfold find_one in Huser.
  rewrite Hus2, Hus1.
  destruct (users db !! "camUni") as [ud|] eqn:Hud; [|done].
  simpl in Huser. injection Huser as Huser.
  assert (Hfind :
    find_one (<["camUni" := <["institution" :=
                 VStr "Science Dept. Cambridge University"]> ud]> (users db))
      "camUni"
    = Some (Institution.get_user_doc rnd
              (renamed "Science Dept. Cambridge University" inst))).
  { unfold find_one. rewrite lookup_insert_eq. simpl. f_equal.
    rewrite <- renamed_user_doc, <- Huser. unfold with_id. simpl.
    by apply insert_insert_ne. }
  eexists _, (<["version" := VInt (v + 1)]>
                (<["last_modified" := VDate t]>
                   (<["owner" := VDoc (<["name" :=
                       VStr "Science Dept. Cambridge University"]> o)]> r))).
  split; [reflexivity|].
  cbn [weather_reports weather_stations users set_users].
  rewrite Hrep2.
  split; [by apply (Hrep1 rid r o v)|].
  destruct (renamed_report_fields r o v "Science Dept. Cambridge University"
              t "camUni" Hu) as (Hf1 & Hf2 & Hf3 & Hf4).
  do 4 (split; [done|]).
  split; [|split; [|split]].
  - intros id2 r2 o2 Hr2 Ho2 Hu2.
    destruct (Hver id2 r2 Hr2) as [v2 Hv2]. unfold version_of in Hv2.
    destruct (r2 !! "version") as [[|z| | | | | | |]|] eqn:Hz; try done.
    eexists. split; [by apply (Hrep1 id2 r2 o2 z)|].
    by apply (renamed_report_fields r2 o2 z _ t "camUni").
  - intros sid s so Hs Hso Huso. eexists.
    split; [apply (Hst2 sid s so); by rewrite ?Hst1|].
    unfold get_field. simpl. rewrite lookup_insert_eq. simpl.
    by rewrite lookup_insert_eq.
  - exact Hfind.
  - rewrite Hfind. reflexivity.
Qed.

Lemma rename_owner_propagation_witness :
  ∃ (db' : database) (r' : doc),
    CRUD_tests.rename_a_weather_station_owner cambridge_db
      (mk_datetime 2025 5 1 10 30) = Ok db'
    ∧ weather_reports db' !! 12%N = Some r'
    ∧ get_field ["owner"; "name"] r'
      = Some (VStr "Science Dept. Cambridge University")
    ∧ get_field ["owner"; "user_id"] r' = Some (VStr "camUni")
    ∧ version_of r' = Some (1 + 1)
    ∧ last_modified_of r' = Some (mk_datetime 2025 5 1 10 30)
    ∧ (∀ id2 r2 o2,
         weather_reports cambridge_db !! id2 = Some r2 →
         r2 !! "owner" = Some (VDoc o2) →
         o2 !! "user_id" = Some (VStr "camUni") →
         ∃ r2',
           weather_reports db' !! id2 = Some r2'
           ∧ get_field ["owner"; "name"] r2'
             = Some (VStr "Science Dept. Cambridge University"))
    ∧ (∀ sid s so,
         weather_stations cambridge_db !! sid = Some s →
         s !! "owner" = Some (VDoc so) →
         so !! "user_id" = Some (VStr "camUni") →
         ∃ s',
           weather_stations db' !! sid = Some s'
           ∧ get_field ["owner"; "name"] s'
             = Some (VStr "Science Dept. Cambridge University"))
    ∧ find_one (users db') "camUni"
      = Some (Institution.get_user_doc (H := example_encryption) example_entropy
                (renamed "Science Dept. Cambridge University"
                   TestDataGenerator.cambridge_uni))
    ∧ (find_one (users db') "camUni" ≫= (.!! "institution"))
      = Some (VStr "Science Dept. Cambridge University").
Proof.
  apply (rename_owner_propagation (H := example_encryption) cambridge_db
           (mk_datetime 2025 5 1 10 30) 12%N
           (stored (WeatherReport.get_weather_report_doc ∅ cambridge_report))
           (Institution.get_subset_for_weather_report
              TestDataGenerator.cambridge_uni)
           1 example_entropy TestDataGenerator.cambridge_uni);
    [compute_done | reflexivity | reflexivity | reflexivity | reflexivity
    | reflexivity | vm_compute; reflexivity].
Defined.

(** The renamed Cambridge scenario, evaluated. *)
Example cambridge_renamed :
  (λ db' : database,
     (weather_reports db' !! 12%N ≫= get_field ["owner"; "name"],
      weather_reports db' !! 12%N ≫= version_of,
      weather_stations db' !! "WS-UNI001" ≫= get_field ["owner"; "name"],
      users db' !! "camUni" ≫= (.!! "institution"),
      users db' !! "ps2004" ≫= (.!! "display_name")))
    <$> CRUD_tests.rename_a_weather_station_owner cambridge_db
          (mk_datetime 2025 5 1 10 30)
  = Ok (Some (VStr "Science Dept. Cambridge University"), Some 2,
        Some (VStr "Science Dept. Cambridge University"),
        Some (VStr "Science Dept. Cambridge University"),
        Some (VStr "Paul S")).
Proof. vm_compute. reflexivity. Qed.

(** ** Paginated retrieval of balloon readings *)

Lemma bson_le_total (a b : option value) :
  bson_le a b = true ∨ bson_le b a = true.
Proof.
  assert (HQ : ∀ x y : Q, Qle_bool x y = true ∨ Qle_bool y x = true).
  { intros x y. destruct (Qlt_le_dec x y) as [Hlt|Hle].
    - left. apply Qle_bool_iff. by apply Qlt_le_weak.
    - right. by apply Qle_bool_iff. }
  assert (HZ : ∀ s t : Z, bool_decide (s ≤ t) = true ∨ bool_decide (t ≤ s) = true).
  { intros s t. rewrite !bool_decide_eq_true. lia. }
  destruct a as [[]|], b as [[]|]; simpl; auto.
Qed.









(** The Larkhill launch in pages of two: heights ascending, the last
    page short, and no page before the first. *)
Example larkhill_pages :
  let heights (r : result (list doc)) :=
    List.map (λ d : doc, d !! "gpheight") <$> r in
  let page k :=
    heights (test_read_queries.get_weather_balloon_readings_by_page larkhill_db
               "03743" (mk_datetime 2025 4 1 8 0) k 2) in
  page_count 5 2 = 3%nat
  ∧ page 1 = Ok [Some (VNum 132); Some (VNum 640.2)]
  ∧ page 2 = Ok [Some (VNum 1510.5); Some (VNum 2201)]
  ∧ page 3 = Ok [Some (VNum 3022)]
  ∧ page 4 = Ok []
  ∧ page 0 = Raise OperationFailure.
Proof. vm_compute. repeat split. Qed.

(** ** Credentials *)

Lemma dict_dom (l : list (string * value)) :
  dom (dict l) = list_to_set l.*1.
Proof. unfold dict. apply dom_list_to_map_L. Qed.

(** C6. For each user variant and any plaintext password, the storage
    document holds under [password] the output of the hashing capability
    and depends on the plaintext nowhere else; the embedding projections
    do not depend on the password at all (two users that differ only in
    their password have the same ones), carry only identity and display
    fields, and have no [password] field.  An administrator has no
    embedding projection. *)
Theorem credentials_never_embedded `{EncryptionHelper} (rnd : entropy)
    (u : User) (pw : string) :
  get_user_doc rnd u !! "password"
  = Some (VStr (hash_password (user_password u) (salt rnd)))
  ∧ delete "password" (get_user_doc rnd (with_password pw u))
    = delete "password" (get_user_doc rnd u)
  ∧ get_subset_for_weather_station (with_password pw u)
    = get_subset_for_weather_station u
  ∧ get_subset_for_weather_report (with_password pw u)
    = get_subset_for_weather_report u
  ∧ match get_subset_for_weather_station u with
    | Ok d => d !! "password" = None ∧ dom d ⊆ owner_subset_fields
    | Raise _ => ∃ a, u = UAdministrator a
    end
  ∧ match get_subset_for_weather_report u with
    | Ok d => d !! "password" = None ∧ dom d ⊆ owner_subset_fields
    | Raise _ => ∃ a, u = UAdministrator a
    end.
Proof.
  destruct u as [i|w|a];
    cbn [get_subset_for_weather_station get_subset_for_weather_report
         get_user_doc with_password user_password];
    repeat split; try done; try (by exists a).
  all: unfold Institution.get_subset_for_weather_station,
         Institution.get_subset_for_weather_report,
         WeatherWatcher.get_subset_for_weather_station,
         WeatherWatcher.get_subset_for_weather_report, owner_subset_fields.
  all: rewrite dict_dom; compute_done.
Qed.

(** The stored documents of the test users: the plaintext "Pa$$1234" is
    in none of their fields, and the embedded owner of the Cambridge
    station carries no credential. *)
Example cambridge_documents :
  let h := example_encryption in
  get_user_doc example_entropy TestDataGenerator.inst_cambridge_uni
    !! "password"
  = Some (VStr (hash_password "Pa$$1234" (salt example_entropy)))
  ∧ get_subset_for_weather_station TestDataGenerator.inst_cambridge_uni
    = Ok (dict [("owner_type", VStr "University"); ("user_id", VStr "camUni");
                ("name", VStr "Cambridge University");
                ("contact", VStr "Mr Andy Hopper");
                ("email", VStr "weatherlab@cam.ac.uk");
                ("telephone", VStr "01223763500")])
  ∧ get_subset_for_weather_report TestDataGenerator.ww_paul
    = Ok (dict [("owner_type", VStr "Private"); ("user_id", VStr "ps2004");
                ("name", VStr "Paul S")])
  ∧ get_subset_for_weather_report TestDataGenerator.admin_user
    = Raise (AttributeError "get_subset_for_weather_report").
Proof. repeat split. Qed.

(** ** Geometry *)

(** C8 as stated fails on the code: the geometry of a coordinate pair
    has two coordinates, and the only conversion from a geometry in the
    repository rejects it. *)
Lemma geometry_round_trip_counterexample :
  Location.to_geojson (Location.mk 51.493847 (-0.1630249)) !! "coordinates"
  = Some (VArr [VNum (-0.1630249); VNum 51.493847])
  ∧ LocationWithAltitude.from_geojson
      (Location.to_geojson (Location.mk 51.493847 (-0.1630249)))
    = Raise (ValueError "Expected 3D coordinates [lon, lat, alt]")
  ∧ ¬ ∃ l, LocationWithAltitude.from_geojson
             (Location.to_geojson (Location.mk 51.493847 (-0.1630249)))
           = Ok l.
Proof.
  split; [reflexivity|]. split; [reflexivity|]. intros [l Hl]. discriminate Hl.
Qed.

(** C8, as the code has it.  A coordinate triple converted to its point
    geometry (coordinates ordered longitude, latitude, altitude) and
    back is recovered exactly.  A coordinate pair is converted to a
    point geometry with coordinates ordered longitude, latitude, and
    that geometry is rejected by the conversion back, which requires
    three coordinates. *)
Theorem geometry_round_trip (lat lon alt : Q) :
  LocationWithAltitude.to_geojson
    (LocationWithAltitude.mk (VNum lat) (VNum lon) (VNum alt))
  = dict [("type", VStr "Point");
          ("coordinates", VArr [VNum lon; VNum lat; VNum alt])]
  ∧ LocationWithAltitude.from_geojson
      (LocationWithAltitude.to_geojson
         (LocationWithAltitude.mk (VNum lat) (VNum lon) (VNum alt)))
    = Ok (LocationWithAltitude.mk (VNum lat) (VNum lon) (VNum alt))
  ∧ Location.to_geojson (Location.mk lat lon)
    = dict [("type", VStr "Point"); ("coordinates", VArr [VNum lon; VNum lat])]
  ∧ LocationWithAltitude.from_geojson (Location.to_geojson (Location.mk lat lon))
    = Raise (ValueError "Expected 3D coordinates [lon, lat, alt]").
Proof. repeat split. Qed.

(** ** Omit-if-absent document shaping *)

Lemma set_if_some_lookup_ne {A} (k k' : string) (f : A → value)
    (o : option A) (d : doc) :
  k ≠ k' → set_if_some k f o d !! k' = d !! k'.
Proof. intros Hne. destruct o; simpl; [by rewrite lookup_insert_ne|done]. Qed.

Lemma set_if_some_present {A} (k : string) (f : A → value) (o : option A)
    (d : doc) :
  d !! k = None → (is_Some (set_if_some k f o d !! k) ↔ is_Some o).
Proof.
  intros Hd. destruct o as [a|]; simpl.
  - rewrite lookup_insert_eq. split; eauto.
  - rewrite Hd. split; intros []; done.
Qed.

Ltac strip_keys :=
  repeat first [ rewrite lookup_insert_ne by done
               | rewrite set_if_some_lookup_ne by done ].

Ltac step_result := cbn [mbind result_bind mret result_ret].

Lemma observation_doc_keys (fs : filesystem) (ob : WeatherObservation.t) :
  match WeatherObservation.get_doc_for_weather_report fs ob with
  | Ok d => observation_keys_spec ob d
  | Raise e =>
      ∃ filename,
        WeatherObservation.photo_filename ob = Some filename
        ∧ fs !! filename = None ∧ e = FileNotFoundError filename
  end.
Proof.
  unfold WeatherObservation.get_doc_for_weather_report, observation_keys_spec.
  destruct (WeatherObservation.photo_filename ob) as [filename|] eqn:Hph;
    [destruct (fs !! filename) as [image_data|] eqn:Hfs|].
  2:{ by exists filename. }
  all: split; [by strip_keys|].
  all: repeat split_and; strip_keys.
  all: try (apply set_if_some_present; by strip_keys).
  - rewrite lookup_insert_eq. split; eauto.
  - split; intros []; done.
Qed.

(** C10. When the storage projection of a report yields a document, it
    has [date], [version], [last_modified] and [location], and has each
    of [station], [owner], [readings], [observations] and [day_summary]
    exactly when the attribute is not [None]; its embedded observations
    are the projections of the report's observations, each of which has
    [timestamp] and each optional field exactly when it was populated.
    The projection yields a document unless the owner is an
    administrator (who has no report subset) or a photo file of an
    observation cannot be opened. *)
Theorem report_projection_keys (fs : filesystem) (r : WeatherReport.t) :
  match WeatherReport.get_weather_report_doc fs r with
  | Ok d =>
      report_keys_spec r d
      ∧ ∀ obs, WeatherReport.observations r = Some obs →
          ∃ docs,
            d !! "observations" = Some (VArr (VDoc <$> docs))
            ∧ Forall2
                (λ ob od,
                   WeatherObservation.get_doc_for_weather_report fs ob = Ok od
                   ∧ observation_keys_spec ob od)
                obs docs
  | Raise e =>
      (∃ a, WeatherReport.owner r = Some (UAdministrator a))
      ∨ (∃ obs ob filename,
           WeatherReport.observations r = Some obs ∧ ob ∈ obs
           ∧ WeatherObservation.photo_filename ob = Some filename
           ∧ fs !! filename = None)
  end.
Proof.
  unfold WeatherReport.get_weather_report_doc, report_keys_spec.
  assert (Hobs_ok : ∀ obs docs,
            result_mapM (WeatherObservation.get_doc_for_weather_report fs) obs
            = Ok docs →
            Forall2
              (λ ob od,
                 WeatherObservation.get_doc_for_weather_report fs ob = Ok od
                 ∧ observation_keys_spec ob od) obs docs).
  { intros obs docs Hdocs%result_mapM_Forall2.
    eapply Forall2_impl; [exact Hdocs|]. intros ob od Hob. split; [done|].
    pose proof (observation_doc_keys fs ob) as Hk. by rewrite Hob in Hk. }
  assert (Hobs_raise : ∀ obs e,
            WeatherReport.observations r = Some obs →
            result_mapM (WeatherObservation.get_doc_for_weather_report fs) obs
            = Raise e →
            ∃ obs ob filename,
              WeatherReport.observations r = Some obs ∧ ob ∈ obs
              ∧ WeatherObservation.photo_filename ob = Some filename
              ∧ fs !! filename = None).
  { intros obs e Hobs (ob & Hin & Hob)%result_mapM_raise.
    pose proof (observation_doc_keys fs ob) as Hk. rewrite Hob in Hk.
    destruct Hk as (filename & ? & ? & _). by exists obs, ob, filename. }
  destruct (WeatherReport.owner r) as [u|] eqn:Hown;
    [destruct (get_subset_for_weather_report u) as [sub|e] eqn:Hsub|];
    step_result.
  2:{ left. destruct u; try discriminate. by eexists. }
  all: destruct (WeatherReport.observations r) as [obs|] eqn:Hobs;
    [destruct (result_mapM _ obs) as [docs|e] eqn:Hdocs|]; step_result.
  all: try (right; by eapply Hobs_raise).
  all: split; [|first [ done | intros ? [= <-]; exists docs; split;
                        [strip_keys; by rewrite lookup_insert_eq | by apply Hobs_ok] ]].
  all: repeat split_and; strip_keys; try done.
  all: try (apply set_if_some_present; by strip_keys).
  all: rewrite ?lookup_insert_eq.
  all: try (split; by eauto).
  all: split; intros []; done.
Qed.

Lemma report_projection_keys_witness :
  match WeatherReport.get_weather_report_doc example_files
          TestDataGenerator.manualReport1 with
  | Ok d =>
      report_keys_spec TestDataGenerator.manualReport1 d
      ∧ ∀ obs,
          WeatherReport.observations TestDataGenerator.manualReport1 = Some obs →
          ∃ docs,
            d !! "observations" = Some (VArr (VDoc <$> docs))
            ∧ Forall2
                (λ ob od,
                   WeatherObservation.get_doc_for_weather_report example_files ob
                   = Ok od
                   ∧ observation_keys_spec ob od)
                obs docs
  | Raise e =>
      (∃ a, WeatherReport.owner TestDataGenerator.manualReport1
            = Some (UAdministrator a))
      ∨ (∃ obs ob filename,
           WeatherReport.observations TestDataGenerator.manualReport1 = Some obs
           ∧ ob ∈ obs
           ∧ WeatherObservation.photo_filename ob = Some filename
           ∧ example_files !! filename = None)
  end.
Proof.
  exact (report_projection_keys example_files TestDataGenerator.manualReport1).
Defined.

(** The first manual report of the test data: its document has exactly
    the fields that were populated, and so has its observation; without
    the photo file there is no document. *)
Example manual_report_fields :
  (dom <$> WeatherReport.get_weather_report_doc example_files
             TestDataGenerator.manualReport1)
  = Ok {["date"; "version"; "last_modified"; "location"; "owner";
         "observations"]}
  ∧ (dom <$> WeatherObservation.get_doc_for_weather_report example_files
               TestDataGenerator.observ1)
    = Ok {["timestamp"; "category"; "temp"; "description"; "photo"]}
  ∧ WeatherReport.get_weather_report_doc ∅ TestDataGenerator.manualReport1
    = Raise (FileNotFoundError "images/flood.jpg").
Proof. split; [|split]; [vm_compute; reflexivity..|reflexivity]. Qed.

(** ** Wind conversion *)

Open Scope R_scope.

Lemma atan2_bound (y x : R) : - PI <= atan2 y x <= PI.
Proof.
  pose proof PI_RGT_0 as Hpi. unfold atan2.
  destruct (Rlt_dec 0 x) as [Hx|Hx].
  { pose proof (atan_bound (y / x)). lra. }
  destruct (Rlt_dec x 0) as [Hx'|Hx'].
  - pose proof (atan_bound (y / x)) as Hb.
    assert (Hinv : / x < 0) by (by apply Rinv_lt_0_compat).
    destruct (Rle_dec 0 y) as [Hy|Hy].
    + assert (Hq : y / x <= 0) by (unfold Rdiv; nra).
      assert (atan (y / x) <= 0).
      { destruct Hq as [Hq|Hq].
        - apply atan_increasing in Hq. rewrite atan_0 in Hq. lra.
        - rewrite Hq, atan_0. lra. }
      lra.
    + assert (Hq : 0 < y / x) by (unfold Rdiv; nra).
      apply atan_increasing in Hq. rewrite atan_0 in Hq. lra.
  - destruct (Rlt_dec 0 y); [lra|]. destruct (Rlt_dec y 0); lra.
Qed.

Lemma degrees_bound (r : R) : - PI <= r <= PI → -180 <= degrees r <= 180.
Proof.
  intros Hr. pose proof PI_RGT_0 as Hpi. unfold degrees, Rdiv.
  assert (Hinv : 0 < / PI) by (by apply Rinv_0_lt_compat).
  assert (Hone : PI * / PI = 1) by (apply Rinv_r; lra).
  split; nra.
Qed.

Lemma py_mod_range (x : R) : 0 <= py_mod x 360 < 360.
Proof.
  unfold py_mod. destruct (base_Int_part (x / 360)) as [Hlo Hhi].
  assert (Hx : x = 360 * (x / 360)) by (unfold Rdiv; lra).
  split; lra.
Qed.

Lemma py_mod_small (x : R) : 0 <= x < 360 → py_mod x 360 = x.
Proof.
  intros Hx. unfold py_mod.
  rewrite <- (Int_part_spec (x / 360) 0); [lra|]. unfold Rdiv. simpl. lra.
Qed.

Lemma py_mod_wrap (x : R) : 360 <= x < 720 → py_mod x 360 = x - 360.
Proof.
  intros Hx. unfold py_mod.
  rewrite <- (Int_part_spec (x / 360) 1); [lra|]. unfold Rdiv. simpl. lra.
Qed.

Close Scope R_scope.

Lemma getnum_getitem (d : doc) (k : string) :
  is_ok (getnum d k) = true → ∃ v, getitem d k = Ok v.
Proof.
  unfold getnum. destruct (getitem d k) as [v|]; [|done]. by exists v.
Qed.

(** C7. A feature whose properties are all numbers yields a reading whose
    wind speed is [sqrt (u^2 + v^2)] and whose bearing is
    [(degrees (atan2 v u) + 360) mod 360]; the bearing lies in
    [0, 360): it is [degrees (atan2 v u)] itself when that is not
    negative, and that plus 360 otherwise. *)
Theorem wind_bearing_range (local_offset : Z) (properties : doc)
    (location : LocationWithAltitude.t) (wind_u wind_v : Q) :
  is_ok (getnum properties "time") = true →
  is_ok (getnum properties "gpheight") = true →
  is_ok (getnum properties "temp") = true →
  is_ok (getnum properties "dewpoint") = true →
  is_ok (getnum properties "pressure") = true →
  getnum properties "wind_u" = Ok wind_u →
  getnum properties "wind_v" = Ok wind_v →
  ∃ r : RadiosondeReading.t,
    RadiosondeReading.from_geojson_properties local_offset properties location
    = Ok r
    ∧ RadiosondeReading.wind_speed r
      = sqrt (Q2R wind_u ^ 2 + Q2R wind_v ^ 2)%R
    ∧ RadiosondeReading.wind_direction r
      = py_mod (degrees (atan2 (Q2R wind_v) (Q2R wind_u)) + 360) 360
    ∧ (0 <= RadiosondeReading.wind_direction r < 360)%R
    ∧ RadiosondeReading.wind_direction r
      = (if Rle_dec 0 (degrees (atan2 (Q2R wind_v) (Q2R wind_u)))
         then degrees (atan2 (Q2R wind_v) (Q2R wind_u))
         else degrees (atan2 (Q2R wind_v) (Q2R wind_u)) + 360)%R.
Proof.
  intros Ht Hg Hk Hd Hp Hu Hv.
  unfold RadiosondeReading.from_geojson_properties.
  apply getnum_getitem in Hg as [g ->]. apply getnum_getitem in Hp as [p ->].
  destruct (getnum properties "time") as [t|]; [|done].
  destruct (getnum properties "temp") as [tk|]; [|done].
  destruct (getnum properties "dewpoint") as [dk|]; [|done].
  rewrite Hu, Hv. cbn [mbind result_bind mret result_ret].
  eexists. split; [reflexivity|].
  cbn [RadiosondeReading.wind_speed RadiosondeReading.wind_direction].
  split; [f_equal; ring|]. split; [reflexivity|].
  split; [apply py_mod_range|].
  pose proof (degrees_bound _ (atan2_bound (Q2R wind_v) (Q2R wind_u))) as Hb.
  destruct (Rle_dec 0 (degrees (atan2 (Q2R wind_v) (Q2R wind_u)))) as [Hpos|Hneg].
  - destruct Hpos as [Hpos|Hzero].
    + rewrite py_mod_wrap; lra.
    + rewrite <- Hzero. rewrite py_mod_wrap; lra.
  - apply py_mod_small. lra.
Qed.

Lemma wind_bearing_range_witness :
  ∃ r : RadiosondeReading.t,
    RadiosondeReading.from_geojson_properties 3600 sonde_properties
      (LocationWithAltitude.mk (VNum 51.2) (VNum (-1.8)) (VInt 1498))
    = Ok r
    ∧ RadiosondeReading.wind_speed r = sqrt (Q2R (-3) ^ 2 + Q2R 4 ^ 2)%R
    ∧ RadiosondeReading.wind_direction r
      = py_mod (degrees (atan2 (Q2R 4) (Q2R (-3))) + 360) 360
    ∧ (0 <= RadiosondeReading.wind_direction r < 360)%R
    ∧ RadiosondeReading.wind_direction r
      = (if Rle_dec 0 (degrees (atan2 (Q2R 4) (Q2R (-3))))
         then degrees (atan2 (Q2R 4) (Q2R (-3)))
         else degrees (atan2 (Q2R 4) (Q2R (-3))) + 360)%R.
Proof.
  apply (wind_bearing_range 3600 sonde_properties
           (LocationWithAltitude.mk (VNum 51.2) (VNum (-1.8)) (VInt 1498)) (-3) 4);
    reflexivity.
Defined.

(** The wind vector (-3, 4) has speed 5, and the reading is 3.1 degrees
    Celsius at a height of 1510.5. *)
Example sonde_reading_values :
  ∃ r : RadiosondeReading.t,
    RadiosondeReading.from_geojson_properties 3600 sonde_properties
      (LocationWithAltitude.mk (VNum 51.2) (VNum (-1.8)) (VInt 1498))
    = Ok r
    ∧ RadiosondeReading.wind_speed r = 5%R
    ∧ (RadiosondeReading.temp r == 3.1)%Q
    ∧ RadiosondeReading.gpheight r = VNum 1510.5
    ∧ RadiosondeReading.timestamp r = inject_Z (1743494520 + 3600).
Proof.
  eexists. split; [reflexivity|].
  cbn [RadiosondeReading.wind_speed RadiosondeReading.temp
       RadiosondeReading.gpheight RadiosondeReading.timestamp].
  split; [|split; [reflexivity|split; reflexivity]].
  replace (Q2R (-3) * Q2R (-3) + Q2R 4 * Q2R 4)%R with (5 * 5)%R.
  - apply sqrt_square. lra.
  - unfold Q2R. simpl. lra.
Qed.

(** ** The CRUD scenario, end to end *)

Example london_inserted :
  CRUD_tests.insert_new_weather_report empty_database
  = Ok (Some london_id, london_db).
Proof. vm_compute. reflexivity. Qed.

(** Create the report, then three times append a reading and recompute
    the summary: six mutations take the version from 1 to 7, and the
    last reading stamps [last_modified]. *)
Example london_scenario :
  (λ r : option ObjectId * database,
     let d := r.1 ≫= (weather_reports r.2 !!.) in
     (d ≫= version_of, d ≫= last_modified_of,
      d ≫= num_field ["day_summary"; "temp_mean"],
      d ≫= num_field ["day_summary"; "temp_min"],
      d ≫= num_field ["day_summary"; "temp_max"],
      d ≫= num_field ["day_summary"; "precip_sum"]))
    <$> CRUD_tests.create_weather_report_adding_hourly_readings empty_database
  = Ok (Some 7, Some (mk_datetime 2025 4 10 2 0), Some (1810 # 300)%Q,
        Some 5.6%Q, Some 6.5%Q, Some 1.1%Q).
Proof. vm_compute. reflexivity. Qed.

(** ** Counting and deleting documents *)

Lemma with_id_get_field `{IdKey K} (kd : K * doc) (k : string) (p : list string) :
  k ≠ "_id" → get_field (k :: p) (with_id kd) = get_field (k :: p) kd.2.
Proof.
  intros Hne. unfold get_field, with_id. simpl.
  by rewrite lookup_insert_ne by done.
Qed.

Lemma with_id_lookup `{IdKey K} (kd : K * doc) (k : string) :
  k ≠ "_id" → with_id kd !! k = kd.2 !! k.
Proof. intros Hne. unfold with_id. by rewrite lookup_insert_ne by done. Qed.

Section deletion_facts.
Context `{Countable K} `{!IdKey K}.
Implicit Types (c : gmap K doc) (flt : doc → bool).

Lemma matching_lookup flt c id d :
  matching flt c !! id = Some d
  ↔ c !! id = Some d ∧ flt (with_id (id, d)) = true.
Proof. unfold matching. by rewrite map_lookup_filter_Some. Qed.

Lemma delete_many_lookup flt c id d :
  (delete_many c flt).2 !! id = Some d
  ↔ c !! id = Some d ∧ flt (with_id (id, d)) = false.
Proof.
  unfold delete_many. simpl. rewrite map_lookup_filter_Some. simpl.
  by rewrite not_true_iff_false.
Qed.

(** A deletion splits the documents that a wider filter counts into
    the deleted ones and those that remain. *)
Lemma count_documents_delete flt1 flt2 c :
  (∀ d, flt2 d = true → flt1 d = true) →
  count_documents c flt1
  = ((delete_many c flt2).1 + count_documents (delete_many c flt2).2 flt1)%nat.
Proof.
  intros Himp. unfold count_documents, delete_many, matching. simpl.
  rewrite <-(map_filter_union_complement (λ kd, flt2 (with_id kd) = true) c)
    at 1.
  rewrite map_filter_union by apply map_disjoint_filter_complement.
  rewrite map_size_disj_union.
  - f_equal. f_equal. apply map_filter_filter_r.
    intros id d _ Hd. simpl in *. by apply Himp.
  - apply map_disjoint_filter, map_disjoint_filter_complement.
Qed.

(** Documents outside the reach of the deletion filter are all kept. *)
Lemma count_documents_delete_other flt1 flt2 c :
  (∀ d, flt1 d = true → flt2 d = false) →
  count_documents (delete_many c flt2).2 flt1 = count_documents c flt1.
Proof.
  intros Hdisj. unfold count_documents, delete_many, matching. simpl.
  f_equal. rewrite map_filter_filter. apply map_filter_ext.
  intros id d _. simpl. split; [tauto|]. intros Hd. split; [done|].
  rewrite (Hdisj _ Hd). done.
Qed.

Lemma delete_many_again flt c :
  delete_many (delete_many c flt).2 flt = (0%nat, (delete_many c flt).2).
Proof.
  unfold delete_many, matching. simpl. f_equal.
  - rewrite map_filter_filter.
    match goal with |- size ?m = _ => assert (m = ∅) as -> end;
      [|apply map_size_empty].
    apply map_empty_filter. intros id d _. simpl. tauto.
  - apply map_filter_filter_l. by intros id d _ Hd.
Qed.

End deletion_facts.

Lemma delete_weather_reports_lookup (db : database) (station_id : string)
    (start end_ : datetime) (id : ObjectId) (d : doc) :
  weather_reports (CRUD_tests.delete_weather_reports db station_id start end_).2
    !! id = Some d
  ↔ weather_reports db !! id = Some d
    ∧ ¬ (get_field ["station"; "station_id"] d = Some (VStr station_id)
         ∧ ∃ t, d !! "date" = Some (VDate t) ∧ start ≤ t ≤ end_).
Proof.
  unfold CRUD_tests.delete_weather_reports.
  set (flt := λ d : doc,
         query_eq_str ["station"; "station_id"] station_id d
         && query_date_between ["date"] start end_ d).
  destruct (delete_many (weather_reports db) flt) as [n c] eqn:Hdel. simpl.
  assert (Hc : c = (delete_many (weather_reports db) flt).2) by by rewrite Hdel.
  rewrite Hc, delete_many_lookup.
  apply and_iff_compat_l. unfold flt.
  unfold query_eq_str, query_date_between.
  rewrite !(with_id_get_field (id, d)) by done. simpl.
  destruct (get_field ["station"; "station_id"] d) as [[]|] eqn:Hs;
    try (split; [intros _ [[=] _]|done]).
  unfold get_field. simpl.
  destruct (d !! "date") as [[]|] eqn:Hd; simpl;
    rewrite ?andb_false_r;
    try (split; [intros _ (_ & t' & [=] & _)|done]).
  rewrite andb_false_iff, andb_false_iff, !bool_decide_eq_false. split.
  - intros Hor (Heq & t' & Ht' & Hr). simplify_eq.
    destruct Hor as [|[|]]; try lia. done.
  - intros Hnot. destruct (decide (s = station_id)) as [->|]; [|by left].
    right. destruct (decide (start ≤ t)); [|by left].
    destruct (decide (t ≤ end_)); [|by right].
    exfalso. apply Hnot. split; [done|]. exists t. split; [done|lia].
Qed.

(** X1. [delete_weather_reports] removes exactly the reports of the
    station whose [date] lies between [start] and [end], both bounds
    included: a report is still stored afterwards exactly when it was
    stored before and is not such a report.  The number it reports is
    the number removed, and no other collection is touched. *)
Theorem delete_weather_reports_effect (db : database) (station_id : string)
    (start end_ : datetime) :
  let r := CRUD_tests.delete_weather_reports db station_id start end_ in
  (∀ id d,
     weather_reports r.2 !! id = Some d
     ↔ weather_reports db !! id = Some d
       ∧ ¬ (get_field ["station"; "station_id"] d = Some (VStr station_id)
            ∧ ∃ t, d !! "date" = Some (VDate t) ∧ start ≤ t ≤ end_))
  ∧ (size (weather_reports r.2) + r.1 = size (weather_reports db))%nat
  ∧ weather_stations r.2 = weather_stations db
  ∧ users r.2 = users db
  ∧ weather_extremes r.2 = weather_extremes db
  ∧ weather_balloon_reports r.2 = weather_balloon_reports db.
Proof.
  split; [apply delete_weather_reports_lookup|].
  unfold CRUD_tests.delete_weather_reports.
  set (flt := λ d : doc,
         query_eq_str ["station"; "station_id"] station_id d
         && query_date_between ["date"] start end_ d).
  destruct (delete_many (weather_reports db) flt) as [n c] eqn:Hdel. simpl.
  assert (Hc : c = (delete_many (weather_reports db) flt).2) by by rewrite Hdel.
  assert (Hn : n = (delete_many (weather_reports db) flt).1) by by rewrite Hdel.
  split; [|done].
  rewrite Hc, Hn. unfold delete_many, matching. simpl.
  rewrite <-(map_filter_union_complement
               (λ kd, flt (with_id kd) = true) (weather_reports db)) at 3.
  rewrite map_size_disj_union by apply map_disjoint_filter_complement. lia.
Qed.

(** X2. Counting and deleting agree.  After [delete_weather_reports]
    the count of the station's reports has dropped by exactly the
    number deleted, the count of every other station is what it was,
    and a second deletion with the same arguments deletes nothing.  So
    the three numbers that [weather_report_deletion] logs satisfy
    after + deleted = before. *)
Theorem deletion_counts (db : database) (station_id : string)
    (start end_ : datetime) :
  let r := CRUD_tests.delete_weather_reports db station_id start end_ in
  (CRUD_tests.count_weather_reports_for_station r.2 station_id + r.1
   = CRUD_tests.count_weather_reports_for_station db station_id)%nat
  ∧ (∀ other, other ≠ station_id →
       CRUD_tests.count_weather_reports_for_station r.2 other
       = CRUD_tests.count_weather_reports_for_station db other)
  ∧ CRUD_tests.delete_weather_reports r.2 station_id start end_ = (0%nat, r.2)
  ∧ (let '(before, deleted, after, _) := CRUD_tests.weather_report_deletion db in
     (after + deleted = before)%nat).
Proof.
  assert (Hgen : ∀ sid s e,
    let r := CRUD_tests.delete_weather_reports db sid s e in
    (CRUD_tests.count_weather_reports_for_station r.2 sid + r.1
     = CRUD_tests.count_weather_reports_for_station db sid)%nat).
  { intros sid s e. unfold CRUD_tests.delete_weather_reports,
      CRUD_tests.count_weather_reports_for_station.
    set (flt := λ d : doc,
           query_eq_str ["station"; "station_id"] sid d
           && query_date_between ["date"] s e d).
    destruct (delete_many (weather_reports db) flt) as [n c] eqn:Hdel. simpl.
    rewrite (count_documents_delete _ flt (weather_reports db)).
    - rewrite Hdel. simpl. lia.
    - intros d Hd. unfold flt in Hd. by apply andb_true_iff in Hd as [? _]. }
  split; [apply Hgen|]. split; [|split].
  - intros other Hne. unfold CRUD_tests.delete_weather_reports,
      CRUD_tests.count_weather_reports_for_station.
    set (flt := λ d : doc,
           query_eq_str ["station"; "station_id"] station_id d
           && query_date_between ["date"] start end_ d).
    destruct (delete_many (weather_reports db) flt) as [n c] eqn:Hdel. simpl.
    replace c with (delete_many (weather_reports db) flt).2 by by rewrite Hdel.
    apply count_documents_delete_other.
    intros d Hd. unfold flt. apply andb_false_iff. left.
    unfold query_eq_str in *.
    destruct (get_field ["station"; "station_id"] d) as [[]|]; try done.
    apply bool_decide_eq_true in Hd as ->. by apply bool_decide_eq_false.
  - unfold CRUD_tests.delete_weather_reports.
    set (flt := λ d : doc,
           query_eq_str ["station"; "station_id"] station_id d
           && query_date_between ["date"] start end_ d).
    destruct (delete_many (weather_reports db) flt) as [n c] eqn:Hdel. simpl.
    replace c with (delete_many (weather_reports db) flt).2 by by rewrite Hdel.
    pose proof (delete_many_again flt (weather_reports db)) as Hag.
    set (c' := (delete_many (weather_reports db) flt).2) in *.
    unfold delete_many in Hag. injection Hag as H0 H1. by rewrite H0, H1.
  - unfold CRUD_tests.weather_report_deletion.
    pose proof (Hgen "WS-WW1001"%string (mk_datetime 2024 2 1 0 0)
                  (mk_datetime 2024 2 4 0 0)) as Hg.
    destruct (CRUD_tests.delete_weather_reports db "WS-WW1001"
                (mk_datetime 2024 2 1 0 0) (mk_datetime 2024 2 4 0 0))
      as [deleted db'].
    exact Hg.
Qed.

Lemma head_filter_Some {A} (f : A → bool) (l : list A) (x : A) :
  head (List.filter f l) = Some x → x ∈ l ∧ f x = true.
Proof.
  induction l as [|a l IH]; [done|]. cbn [List.filter].
  destruct (f a) eqn:Hfa.
  - intros [= ->]. split; [apply list_elem_of_here|done].
  - intros Hh. destruct (IH Hh) as [Hin Hf].
    split; [by apply list_elem_of_further|done].
Qed.

Lemma head_filter_None {A} (f : A → bool) (l : list A) :
  head (List.filter f l) = None ↔ ∀ x, x ∈ l → f x = false.
Proof.
  induction l as [|a l IH]; cbn [List.filter].
  - split; [|done]. intros _ x Hx. by apply elem_of_nil in Hx.
  - destruct (f a) eqn:Hfa.
    + split; [done|]. intros Hall.
      specialize (Hall a (list_elem_of_here _ _)). congruence.
    + rewrite IH. split.
      * intros Hall x Hx. apply elem_of_cons in Hx as [->|Hx]; auto.
      * intros Hall x Hx. apply Hall. by apply list_elem_of_further.
Qed.

Lemma elem_of_find_all `{Countable K} `{!IdKey K} (c : gmap K doc) (r : doc) :
  r ∈ find_all c ↔ ∃ id d, c !! id = Some d ∧ r = with_id (id, d).
Proof.
  unfold find_all. rewrite list_elem_of_fmap. split.
  - intros ([id d] & -> & Hin). apply elem_of_map_to_list in Hin. eauto.
  - intros (id & d & Hc & ->). exists (id, d).
    split; [done|]. by apply elem_of_map_to_list.
Qed.

(** X3. The day query after a deletion.  [get_weather_report] looks
    for a report of the station dated in the half-open day
    [search_date, search_date + 1 day); after [delete_weather_reports]
    whatever it finds is dated outside the deleted range, and for a day
    that the range covers ([start <= search_date] and the day's last
    second is not after [end]) it finds nothing. *)
Theorem day_query_after_deletion (db : database) (station_id : string)
    (start end_ search_date : datetime) :
  let db' := (CRUD_tests.delete_weather_reports db station_id start end_).2 in
  (∀ r, test_read_queries.get_weather_report db' station_id search_date = Some r →
     ∃ id d t,
       weather_reports db !! id = Some d ∧ r = with_id (id, d)
       ∧ get_field ["station"; "station_id"] d = Some (VStr station_id)
       ∧ d !! "date" = Some (VDate t)
       ∧ search_date ≤ t < search_date + one_day
       ∧ (t < start ∨ end_ < t))
  ∧ (start ≤ search_date ∧ search_date + one_day - 1 ≤ end_ →
     test_read_queries.get_weather_report db' station_id search_date = None).
Proof.
  intros db'.
  assert (Hfound : ∀ r,
    test_read_queries.get_weather_report db' station_id search_date = Some r →
    ∃ id d t,
      weather_reports db !! id = Some d ∧ r = with_id (id, d)
      ∧ get_field ["station"; "station_id"] d = Some (VStr station_id)
      ∧ d !! "date" = Some (VDate t)
      ∧ search_date ≤ t < search_date + one_day
      ∧ (t < start ∨ end_ < t)).
  { intros r Hr. unfold test_read_queries.get_weather_report, stage_match in Hr.
    apply head_filter_Some in Hr as [Hin Hf].
    apply elem_of_find_all in Hin as (id & d & Hc & ->).
    apply delete_weather_reports_lookup in Hc as [Hc Hnot].
    apply andb_true_iff in Hf as [Hs Hd].
    unfold query_eq_str in Hs. unfold query_date_range in Hd.
    rewrite (with_id_get_field (id, d)) in Hs, Hd by done. simpl in Hs, Hd.
    destruct (get_field ["station"; "station_id"] d) as [[]|] eqn:Hsid;
      try done.
    apply bool_decide_eq_true in Hs as ->.
    unfold get_field in Hd. simpl in Hd.
    destruct (d !! "date") as [[]|] eqn:Hdate; try done. simpl in Hd.
    apply andb_true_iff in Hd as [Hlo Hhi].
    apply bool_decide_eq_true in Hlo, Hhi.
    exists id, d, t. repeat split; try done.
    destruct (decide (t < start)); [by left|].
    destruct (decide (end_ < t)); [by right|].
    exfalso. apply Hnot. split; [done|]. exists t. split; [done|lia]. }
  split; [exact Hfound|]. intros [Hlo Hhi].
  destruct (test_read_queries.get_weather_report db' station_id search_date)
    as [r|] eqn:Hq; [|done].
  destruct (Hfound r eq_refl) as (id & d & t & _ & _ & _ & _ & Ht & Hout).
  unfold one_day in *. lia.
Qed.

(** ** The status of a weather station *)

Lemma elem_of_stage_match (flt : doc → bool) (ds : list doc) (r : doc) :
  r ∈ stage_match flt ds ↔ r ∈ ds ∧ flt r = true.
Proof.
  unfold stage_match. rewrite !list_elem_of_In. apply List.filter_In.
Qed.

Lemma set_weather_stations_id (db : database) :
  set_weather_stations (weather_stations db) db = db.
Proof. by destruct db. Qed.

Lemma status_update_result (db : database) (station_id status : string) :
  CRUD_tests.update_weather_station_status db station_id status
  = Ok (match weather_stations db !! station_id with
        | Some d => negb (bool_decide (d !! "status" ≫= as_str = Some status))
        | None => false
        end,
        set_weather_stations
          (match weather_stations db !! station_id with
           | Some d =>
               <[station_id := <["status" := VStr status]> d]>
                 (weather_stations db)
           | None => weather_stations db
           end) db).
Proof.
  unfold CRUD_tests.update_weather_station_status, update_one.
  by destruct (weather_stations db !! station_id).
Qed.

Lemma elem_of_find_stations (db : database) (status : string) (r : doc) :
  r ∈ CRUD_tests.find_stations_with_status db status
  ↔ ∃ id d, weather_stations db !! id = Some d ∧ r = with_id (id, d)
            ∧ d !! "status" = Some (VStr status).
Proof.
  unfold CRUD_tests.find_stations_with_status.
  rewrite elem_of_stage_match, elem_of_find_all. split.
  - intros [(id & d & Hc & ->) Hf]. exists id, d. split; [done|]. split; [done|].
    unfold query_eq_str in Hf. rewrite (with_id_get_field (id, d)) in Hf by done.
    unfold get_field in Hf. simpl in Hf.
    destruct (d !! "status") as [[]|]; try done.
    by apply bool_decide_eq_true in Hf as ->.
  - intros (id & d & Hc & -> & Hs). split; [eauto|].
    unfold query_eq_str. rewrite (with_id_get_field (id, d)) by done.
    unfold get_field. simpl. rewrite Hs. by apply bool_decide_eq_true.
Qed.

(** X4. [update_weather_station_status] sets the [status] of the one
    station and nothing else: the station is then found by
    [find_stations_with_status] under the new status, every other
    station is listed under a status exactly when it was before, and
    the call returns [True] exactly when the station exists and its
    status was another one.  For an unknown station it returns [False]
    and the database is unchanged. *)
Theorem station_status_update (db : database) (station_id status : string) :
  ∃ (modified : bool) (db' : database),
    CRUD_tests.update_weather_station_status db station_id status
    = Ok (modified, db')
    ∧ (weather_stations db !! station_id = None → modified = false ∧ db' = db)
    ∧ (∀ d, weather_stations db !! station_id = Some d →
         weather_stations db' !! station_id
         = Some (<["status" := VStr status]> d)
         ∧ (modified = true ↔ d !! "status" ≠ Some (VStr status))
         ∧ with_id (station_id, <["status" := VStr status]> d)
           ∈ CRUD_tests.find_stations_with_status db' status)
    ∧ (∀ other, other ≠ station_id →
         weather_stations db' !! other = weather_stations db !! other)
    ∧ (∀ st r, r !! "_id" ≠ Some (VStr station_id) →
         r ∈ CRUD_tests.find_stations_with_status db' st
         ↔ r ∈ CRUD_tests.find_stations_with_status db st)
    ∧ weather_reports db' = weather_reports db
    ∧ users db' = users db.
Proof.
  eexists _, _. split; [apply status_update_result|].
  assert (Hother : ∀ other, other ≠ station_id →
    match weather_stations db !! station_id with
    | Some d => <[station_id := <["status" := VStr status]> d]> (weather_stations db)
    | None => weather_stations db
    end !! other = weather_stations db !! other).
  { intros other Hne. destruct (weather_stations db !! station_id); [|done].
    by rewrite lookup_insert_ne. }
  split; [|split; [|split; [|split; [|done]]]].
  - intros ->. split; [done|]. apply set_weather_stations_id.
  - intros d Hd. rewrite Hd. simpl. rewrite lookup_insert_eq.
    split; [done|]. split.
    + rewrite negb_true_iff, bool_decide_eq_false.
      destruct (d !! "status") as [[]|]; simpl; split; congruence.
    + apply elem_of_find_stations. exists station_id, (<["status" := VStr status]> d).
      simpl. by rewrite !lookup_insert_eq.
  - exact Hother.
  - intros st r Hr. rewrite !elem_of_find_stations. simpl.
    split; intros (id & d & Hc & -> & Hs); exists id, d.
    + destruct (decide (id = station_id)) as [->|Hne].
      { exfalso. apply Hr. unfold with_id. simpl. by rewrite lookup_insert_eq. }
      by rewrite <-(Hother id Hne).
    + destruct (decide (id = station_id)) as [->|Hne].
      { exfalso. apply Hr. unfold with_id. simpl. by rewrite lookup_insert_eq. }
      by rewrite (Hother id Hne).
Qed.

Lemma status_set_back (d : doc) (s1 s0 : string) :
  d !! "status" = Some (VStr s0) →
  <["status" := VStr s0]> (<["status" := VStr s1]> d) = d.
Proof. intros Hd. rewrite insert_insert_eq. by apply insert_id. Qed.

(** X5. The status scenario is a round trip.  When the stations
    WS-NEW002 and WS-LIV003 are stored with status Online,
    [weather_station_status_updates] leaves the database exactly as it
    found it; the first listing is the stations off line before, and
    the second one is those plus the two stations, now off line. *)
Theorem status_scenario_round_trip (db : database) (d1 d2 : doc) :
  weather_stations db !! "WS-NEW002" = Some d1 →
  d1 !! "status" = Some (VStr "Online") →
  weather_stations db !! "WS-LIV003" = Some d2 →
  d2 !! "status" = Some (VStr "Online") →
  ∃ offline_after,
    CRUD_tests.weather_station_status_updates db
    = Ok (CRUD_tests.find_stations_with_status db "Offline", offline_after, db)
    ∧ ∀ r, r ∈ offline_after
           ↔ r ∈ CRUD_tests.find_stations_with_status db "Offline"
             ∨ r = with_id ("WS-NEW002"%string, <["status" := VStr "Offline"]> d1)
             ∨ r = with_id ("WS-LIV003"%string, <["status" := VStr "Offline"]> d2).
Proof.
  intros H1 Hs1 H2 Hs2. unfold CRUD_tests.weather_station_status_updates.
  destruct db as [wr ws us we wb]. cbn [weather_stations] in H1, H2.
  rewrite status_update_result. cbn [weather_stations set_weather_stations].
  rewrite H1. step_result. cbn [snd].
  rewrite status_update_result. cbn [weather_stations set_weather_stations].
  rewrite lookup_insert_ne, H2 by done. step_result. cbn [snd].
  rewrite status_update_result. cbn [weather_stations set_weather_stations].
  rewrite lookup_insert_ne, lookup_insert_eq by done. step_result. cbn [snd].
  rewrite status_update_result. cbn [weather_stations set_weather_stations].
  rewrite lookup_insert_ne, lookup_insert_eq by done. step_result. cbn [snd].
  eexists. split.
  - cbn [weather_stations set_weather_stations weather_reports
      users weather_extremes weather_balloon_reports].
    apply f_equal. apply f_equal2; [reflexivity|].
    unfold set_weather_stations.
    cbn [weather_stations weather_reports users weather_extremes
         weather_balloon_reports].
    f_equal. rewrite !status_set_back by done.
    apply map_eq. intros id.
    destruct (decide (id = "WS-LIV003"%string)) as [->|Hn2];
      [by rewrite lookup_insert_eq|rewrite lookup_insert_ne by done].
    destruct (decide (id = "WS-NEW002"%string)) as [->|Hn1];
      [by rewrite lookup_insert_eq|rewrite lookup_insert_ne by done].
    by rewrite !lookup_insert_ne by done.
  - intros r. rewrite !elem_of_find_stations.
    cbn [weather_stations set_weather_stations]. split.
    + intros (id & d & Hc & -> & Hs).
      destruct (decide (id = "WS-LIV003"%string)) as [->|Hn2].
      { rewrite lookup_insert_eq in Hc. injection Hc as <-. auto. }
      rewrite lookup_insert_ne in Hc by done.
      destruct (decide (id = "WS-NEW002"%string)) as [->|Hn1].
      { rewrite lookup_insert_eq in Hc. injection Hc as <-. auto. }
      rewrite lookup_insert_ne in Hc by done. left. eauto.
    + intros [(id & d & Hc & -> & Hs)|[->| ->]].
      * exists id, d. split; [|done].
        assert (id ≠ "WS-LIV003"%string) by (intros ->; congruence).
        assert (id ≠ "WS-NEW002"%string) by (intros ->; congruence).
        by rewrite !lookup_insert_ne by done.
      * eexists _, _. split; [|split; [done|apply lookup_insert_eq]].
        rewrite lookup_insert_ne by done. apply lookup_insert_eq.
      * eexists _, _. split; [|split; [done|apply lookup_insert_eq]].
        apply lookup_insert_eq.
Qed.

Lemma status_scenario_round_trip_witness :
  ∃ offline_after,
    CRUD_tests.weather_station_status_updates status_db
    = Ok (CRUD_tests.find_stations_with_status status_db "Offline",
          offline_after, status_db)
    ∧ ∀ r, r ∈ offline_after
           ↔ r ∈ CRUD_tests.find_stations_with_status status_db "Offline"
             ∨ r = with_id ("WS-NEW002"%string,
                            <["status" := VStr "Offline"]> newcastle_station)
             ∨ r = with_id ("WS-LIV003"%string,
                            <["status" := VStr "Offline"]> liverpool_station).
Proof.
  apply (status_scenario_round_trip status_db newcastle_station
           liverpool_station); reflexivity.
Defined.

(** ** Inserting a document *)


Lemma insert_one_nonempty `{StoreKey K} (c : gmap K doc) (document : doc) :
  document ≠ ∅ →
  MongoDBHandler.insert_one c document
  = ('(inserted_id, c) ← insert_one c document; Ok (Some inserted_id, c)).
Proof.
  intros Hne. unfold MongoDBHandler.insert_one.
  by rewrite bool_decide_eq_false_2 by by rewrite dom_empty_iff_L.
Qed.

(** In a collection with ObjectIds a document without [_id] is stored
    under a generated id. *)
Lemma insert_one_generated (c : gmap ObjectId doc) (document : doc) :
  document ≠ ∅ → document !! "_id" = None →
  MongoDBHandler.insert_one c document
  = Ok (Some (fresh (dom c)), <[fresh (dom c) := document]> c)
  ∧ c !! fresh (dom c) = None.
Proof.
  intros Hne Hid. rewrite insert_one_nonempty by done. unfold insert_one.
  rewrite Hid. split; [reflexivity|]. apply not_elem_of_dom, is_fresh.
Qed.



(** The three ways of an insertion, on the users and the weather
    reports of the scenario data: a user who is stored already, a user
    who is not, and a report, which has no [_id]. *)
Example insertions :
  MongoDBHandler.insert_one (users login_db)
    (get_user_doc (H := login_encryption) example_entropy
       TestDataGenerator.ww_paul)
  = Raise DuplicateKeyError
  ∧ fst <$> MongoDBHandler.insert_one (users login_db)
              (get_user_doc (H := login_encryption) example_entropy
                 TestDataGenerator.admin_user)
    = Ok (Some "admin1"%string)
  ∧ fst <$> MongoDBHandler.insert_one (weather_reports london_db)
              CRUD_tests.new_weather_report_doc
    = Ok (Some 1%N).
Proof. vm_compute. done. Qed.

(** ** The hourly scenario on any database *)

(** One round of the scenario: append a reading, recompute the summary. *)
Lemma append_then_recompute (db : database) (id : ObjectId) (d : doc) (v : Z)
    (rs : list value) (reading : doc) (lm : datetime) :
  weather_reports db !! id = Some d →
  d !! "version" = Some (VInt v) →
  reading_sequence d rs →
  ∃ d' s,
    (db1 ← CRUD_tests.insert_new_weather_station_reading db id reading lm;
     CRUD_tests.use_aggregation_pipeline_to_compute_a_day_summary db1 id)
    = Ok (set_weather_reports (<[id := d']> (weather_reports db)) db)
    ∧ d' !! "version" = Some (VInt (v + 2))
    ∧ d' !! "readings" = Some (VArr (rs ++ [VDoc reading]))
    ∧ d' !! "last_modified" = Some (VDate lm)
    ∧ d' !! "day_summary" = Some (VDoc s)
    ∧ (forallb numeric_reading (rs ++ [VDoc reading]) = true →
       day_summary_spec s (rs ++ [VDoc reading]))
    ∧ (∀ k, k ∉ ["version"; "readings"; "last_modified"; "day_summary"]%string →
         d' !! k = d !! k).
Proof.
  intros Hc Hv Hr.
  rewrite (append_reading_result db id d v rs reading lm) by done.
  step_result.
  set (d1 := <["last_modified" := VDate lm]>
               (<["version" := VInt (v + 1)]>
                  (<["readings" := VArr (rs ++ [VDoc reading])]> d))).
  set (db1 := set_weather_reports (<[id := d1]> (weather_reports db)) db).
  assert (Hne : rs ++ [VDoc reading] ≠ []) by by destruct rs.
  rewrite (recompute_nonempty db1 id d1 (v + 1) (rs ++ [VDoc reading]));
    [|apply lookup_insert_eq|by unfold d1; strip_keys; rewrite lookup_insert_eq
     |by unfold d1; strip_keys; rewrite lookup_insert_eq|done].
  eexists _, _. split.
  { unfold db1. cbn [weather_reports set_weather_reports weather_stations users
      weather_extremes weather_balloon_reports]. rewrite insert_insert_eq.
    unfold set_weather_reports. reflexivity. }
  split; [|split; [|split; [|split; [|split]]]].
  - strip_keys. rewrite lookup_insert_eq. do 2 f_equal. lia.
  - unfold d1. strip_keys. apply lookup_insert_eq.
  - unfold d1. strip_keys. apply lookup_insert_eq.
  - apply lookup_insert_eq.
  - intros Hnum. by apply summary_of_spec.
  - intros k Hk. rewrite !not_elem_of_cons in Hk.
    destruct Hk as (? & ? & ? & ? & _). unfold d1. by strip_keys.
Qed.

(** X7. [create_weather_report_adding_hourly_readings] on any
    database: it succeeds, the report is stored under an identifier
    that was free, and after the three rounds of appending a reading
    and recomputing the summary the stored report has version 7 (one
    insert and six updates), the three readings in the order of their
    insertion, the time stamp of the last one as [last_modified], and a
    day summary that is the summary of the three readings.  Every other
    report and every other collection is as it was. *)
Theorem hourly_readings_scenario (db : database) :
  ∃ (id : ObjectId) (db' : database) (d' s : doc),
    CRUD_tests.create_weather_report_adding_hourly_readings db
    = Ok (Some id, db')
    ∧ weather_reports db !! id = None
    ∧ weather_reports db' !! id = Some d'
    ∧ version_of d' = Some 7
    ∧ d' !! "readings" = Some (VArr london_readings)
    ∧ last_modified_of d' = Some (mk_datetime 2025 4 10 2 0)
    ∧ d' !! "date" = Some (VDate (mk_datetime 2025 4 10 0 0))
    ∧ d' !! "day_summary" = Some (VDoc s)
    ∧ day_summary_spec s london_readings
    ∧ (∀ other, other ≠ id →
         weather_reports db' !! other = weather_reports db !! other)
    ∧ weather_stations db' = weather_stations db
    ∧ users db' = users db
    ∧ weather_extremes db' = weather_extremes db
    ∧ weather_balloon_reports db' = weather_balloon_reports db.
Proof.
  unfold CRUD_tests.create_weather_report_adding_hourly_readings,
    CRUD_tests.insert_new_weather_report.
  destruct (insert_one_generated (weather_reports db)
              CRUD_tests.new_weather_report_doc) as [-> Hfresh].
  { intros Heq. apply (f_equal (λ d : doc, d !! "version")) in Heq.
    vm_compute in Heq. discriminate. }
  { reflexivity. }
  step_result. set (id := fresh (dom (weather_reports db))) in *.
  set (d0 := CRUD_tests.new_weather_report_doc).
  set (db0 := set_weather_reports (<[id := d0]> (weather_reports db)) db).
  unfold CRUD_tests.insert_new_weather_station_reading_london_midnight,
    CRUD_tests.insert_new_weather_station_reading_london_1am,
    CRUD_tests.insert_new_weather_station_reading_london_2am.
  destruct (append_then_recompute db0 id d0 1 [] CRUD_tests.reading_london_midnight
              (mk_datetime 2025 4 10 0 0))
    as (d1 & s1 & Hrun1 & Hv1 & Hr1 & Hl1 & Hs1 & _ & Hk1);
    [apply lookup_insert_eq|reflexivity|by left|].
  set (db1 := set_weather_reports (<[id := d1]> (weather_reports db0)) db0) in *.
  destruct (append_then_recompute db1 id d1 3 [VDoc CRUD_tests.reading_london_midnight]
              CRUD_tests.reading_london_1am (mk_datetime 2025 4 10 1 0))
    as (d2 & s2 & Hrun2 & Hv2 & Hr2 & Hl2 & Hs2 & _ & Hk2);
    [apply lookup_insert_eq|exact Hv1|by left|].
  set (db2 := set_weather_reports (<[id := d2]> (weather_reports db1)) db1) in *.
  destruct (append_then_recompute db2 id d2 5
              [VDoc CRUD_tests.reading_london_midnight;
               VDoc CRUD_tests.reading_london_1am]
              CRUD_tests.reading_london_2am (mk_datetime 2025 4 10 2 0))
    as (d3 & s3 & Hrun3 & Hv3 & Hr3 & Hl3 & Hs3 & Hspec & Hk3);
    [apply lookup_insert_eq|exact Hv2|by left|].
  exists id, (set_weather_reports (<[id := d3]> (weather_reports db2)) db2), d3, s3.
  split.
  { revert Hrun1 Hrun2 Hrun3. step_result.
    destruct (CRUD_tests.insert_new_weather_station_reading db0 id
                CRUD_tests.reading_london_midnight (mk_datetime 2025 4 10 0 0))
      as [x|]; [|done]. step_result. intros ->. step_result.
    destruct (CRUD_tests.insert_new_weather_station_reading db1 id
                CRUD_tests.reading_london_1am (mk_datetime 2025 4 10 1 0))
      as [y|]; [|done]. step_result. intros ->. step_result.
    destruct (CRUD_tests.insert_new_weather_station_reading db2 id
                CRUD_tests.reading_london_2am (mk_datetime 2025 4 10 2 0))
      as [z|]; [|done]. step_result. intros ->. reflexivity. }
  split; [done|]. split; [apply lookup_insert_eq|].
  split; [unfold version_of; by rewrite Hv3|].
  split; [exact Hr3|].
  split; [unfold last_modified_of; by rewrite Hl3|].
  split.
  { rewrite Hk3, Hk2, Hk1 by (rewrite !not_elem_of_cons; repeat split; try done;
      apply not_elem_of_nil). reflexivity. }
  split; [exact Hs3|].
  split; [apply Hspec; reflexivity|].
  split; [|repeat split].
  intros other Hne. unfold db2, db1, db0.
  cbn [weather_reports set_weather_reports].
  by rewrite !lookup_insert_ne by done.
Qed.

(** ** Imported reports: from the typed entities to the pipelines *)

Lemma report_doc_lookup (fs : filesystem) (r : WeatherReport.t) (d : doc) :
  WeatherReport.get_weather_report_doc fs r = Ok d →
  d !! "date" = Some (VDate (WeatherReport.date r))
  ∧ d !! "version" = Some (VInt (WeatherReport.version r))
  ∧ d !! "last_modified" = Some (VDate (WeatherReport.last_modified r))
  ∧ d !! "station"
    = (λ s, VDoc (WeatherStation.get_subset_for_weather_report s))
        <$> WeatherReport.station r
  ∧ d !! "readings"
    = (λ rs, VArr ((λ x, VDoc (WeatherStationReading.get_doc_for_weather_report x))
                     <$> rs))
        <$> WeatherReport.readings r
  ∧ d !! "day_summary" = VDoc <$> WeatherReport.day_summary r.
Proof.
  unfold WeatherReport.get_weather_report_doc.
  destruct (WeatherReport.owner r) as [u|];
    [destruct (get_subset_for_weather_report u) as [sub|e]|];
    step_result; try done.
  all: destruct (WeatherReport.observations r) as [obs|];
    [destruct (result_mapM _ obs) as [docs|e]|]; step_result; try done.
  all: intros [= <-].
  all: destruct (WeatherReport.station r), (WeatherReport.readings r),
         (WeatherReport.day_summary r); simpl.
  all: repeat split_and; strip_keys; rewrite ?lookup_insert_eq; done.
Qed.

Lemma reading_doc_numeric (x : WeatherStationReading.t) :
  numeric_reading (VDoc (WeatherStationReading.get_doc_for_weather_report x))
  = true.
Proof. reflexivity. Qed.

Lemma reading_docs_numeric (rs : list WeatherStationReading.t) :
  forallb numeric_reading
    ((λ x, VDoc (WeatherStationReading.get_doc_for_weather_report x)) <$> rs)
  = true.
Proof.
  induction rs as [|x rs IH]; [done|]. rewrite fmap_cons.
  cbn [forallb]. by rewrite reading_doc_numeric, IH.
Qed.

Lemma reading_docs_metric (k : string) (f : WeatherStationReading.t → Q)
    (rs : list WeatherStationReading.t) :
  (∀ x, get_path [k] (VDoc (WeatherStationReading.get_doc_for_weather_report x))
        ≫= as_num = Some (f x)) →
  metric k ((λ x, VDoc (WeatherStationReading.get_doc_for_weather_report x)) <$> rs)
  = f <$> rs.
Proof.
  intros Hf. unfold metric. rewrite omap_fmap_compose.
  induction rs as [|x rs IH]; [done|].
  rewrite (omap_cons_Some _ x rs (f x)) by apply Hf. by rewrite fmap_cons, IH.
Qed.

Lemma typed_summary (s : doc) (rs : list WeatherStationReading.t) :
  day_summary_spec s
    ((λ x, VDoc (WeatherStationReading.get_doc_for_weather_report x)) <$> rs) →
  typed_summary_spec s rs.
Proof.
  unfold day_summary_spec, typed_summary_spec.
  rewrite (reading_docs_metric "temp" WeatherStationReading.temp) by done.
  rewrite (reading_docs_metric "dewpoint" WeatherStationReading.dewpoint) by done.
  rewrite (reading_docs_metric "humidity" WeatherStationReading.humidity) by done.
  rewrite (reading_docs_metric "pressure" WeatherStationReading.pressure) by done.
  rewrite (reading_docs_metric "precip" WeatherStationReading.precip) by done.
  rewrite (reading_docs_metric "cloud_cover" WeatherStationReading.cloud_cover)
    by done.
  rewrite (reading_docs_metric "wind_speed" WeatherStationReading.wind_speed)
    by done.
  rewrite (reading_docs_metric "sunshine" WeatherStationReading.sunshine) by done.
  tauto.
Qed.

(** X8. From the typed readings to the recomputed summary.  For a
    stored document that [get_weather_report_doc] made of a report with
    a non-empty list of [WeatherStationReading]s, recomputing the day
    summary succeeds, adds one to the version and writes a summary whose
    fields are the mean, minimum, maximum and sum of the corresponding
    attributes of those readings; the readings themselves, the date and
    [last_modified] stay as they were. *)
Theorem typed_readings_summary (fs : filesystem) (r : WeatherReport.t)
    (rs : list WeatherStationReading.t) (d : doc) (db : database)
    (id : ObjectId) :
  WeatherReport.readings r = Some rs →
  rs ≠ [] →
  WeatherReport.get_weather_report_doc fs r = Ok d →
  weather_reports db !! id = Some d →
  ∃ (db' : database) (d' s : doc),
    CRUD_tests.use_aggregation_pipeline_to_compute_a_day_summary db id = Ok db'
    ∧ weather_reports db' !! id = Some d'
    ∧ version_of d' = Some (WeatherReport.version r + 1)
    ∧ last_modified_of d' = Some (WeatherReport.last_modified r)
    ∧ d' !! "readings" = d !! "readings"
    ∧ d' !! "day_summary" = Some (VDoc s)
    ∧ typed_summary_spec s rs.
Proof.
  intros Hrs Hne Hd Hc.
  destruct (report_doc_lookup fs r d Hd) as (_ & Hv & Hl & _ & Hr & _).
  rewrite Hrs in Hr. simpl in Hr.
  set (vs := (λ x, VDoc (WeatherStationReading.get_doc_for_weather_report x))
               <$> rs) in *.
  assert (Hvs : vs ≠ []) by by destruct rs.
  eexists _, _, _.
  split; [by apply (recompute_nonempty db id d (WeatherReport.version r) vs)|].
  cbn [weather_reports set_weather_reports]. rewrite lookup_insert_eq.
  split; [done|]. unfold version_of, last_modified_of.
  split; [by strip_keys; rewrite lookup_insert_eq|].
  split; [by strip_keys; rewrite Hl|].
  split; [by strip_keys|].
  split; [by rewrite lookup_insert_eq|].
  apply typed_summary, summary_of_spec; [done|apply reading_docs_numeric].
Qed.

Lemma typed_readings_summary_witness :
  ∃ (db' : database) (d' s : doc),
    CRUD_tests.use_aggregation_pipeline_to_compute_a_day_summary ipswich_db 21%N
    = Ok db'
    ∧ weather_reports db' !! 21%N = Some d'
    ∧ version_of d' = Some (WeatherReport.version ipswich_report + 1)
    ∧ last_modified_of d' = Some (WeatherReport.last_modified ipswich_report)
    ∧ d' !! "readings" = ipswich_doc !! "readings"
    ∧ d' !! "day_summary" = Some (VDoc s)
    ∧ typed_summary_spec s ipswich_readings.
Proof.
  apply (typed_readings_summary ∅ ipswich_report ipswich_readings ipswich_doc
           ipswich_db 21%N); [reflexivity|discriminate|reflexivity|reflexivity].
Defined.

(** ** Which reports the extremes report takes *)

Lemma query_lt_field (k1 k2 : string) (c : Q) (d s : doc) (q : Q) :
  d !! k1 = Some (VDoc s) → s !! k2 = Some (VNum q) →
  query_lt [k1; k2] c d = true ↔ (q < c)%Q.
Proof.
  intros Hd Hs. unfold query_lt, num_field, get_field. simpl.
  rewrite Hd. simpl. rewrite Hs. simpl. apply negb_Qle_bool_true.
Qed.

Lemma query_gt_field (k1 k2 : string) (c : Q) (d s : doc) (q : Q) :
  d !! k1 = Some (VDoc s) → s !! k2 = Some (VNum q) →
  query_gt [k1; k2] c d = true ↔ (c < q)%Q.
Proof.
  intros Hd Hs. unfold query_gt, num_field, get_field. simpl.
  rewrite Hd. simpl. rewrite Hs. simpl. apply negb_Qle_bool_true.
Qed.

Lemma query_absent (k1 k2 : string) (c : Q) (d : doc) :
  d !! k1 = None →
  query_lt [k1; k2] c d = false ∧ query_gt [k1; k2] c d = false.
Proof.
  intros Hd. unfold query_lt, query_gt, num_field, get_field. simpl.
  by rewrite Hd.
Qed.

(** X9. Which imported reports the extremes report takes.  For the
    document that [get_weather_report_doc] makes of a report: with a
    station and the summary document of a [WeatherStationDaySummary] it
    passes the [$match] stage for a station id exactly when that is the
    id of its station and one of the four thresholds is crossed
    (minimum temperature below -5, maximum temperature above 28,
    maximum wind speed above 12, precipitation above 15); a report
    without a station or without a day summary, such as a manual
    observation report, never passes. *)
Theorem imported_report_qualifies (fs : filesystem) (r : WeatherReport.t)
    (d : doc) (station_id : string) :
  WeatherReport.get_weather_report_doc fs r = Ok d →
  (∀ st sm,
     WeatherReport.station r = Some st →
     WeatherReport.day_summary r
     = Some (WeatherStationDaySummary.get_doc_for_weather_report sm) →
     Extremes.qualifies station_id d = true
     ↔ WeatherStation.station_id st = station_id
       ∧ extreme_day (WeatherStationDaySummary.temp_min sm)
           (WeatherStationDaySummary.temp_max sm)
           (WeatherStationDaySummary.wind_speed_max sm)
           (WeatherStationDaySummary.precip_sum sm))
  ∧ (WeatherReport.station r = None ∨ WeatherReport.day_summary r = None →
     Extremes.qualifies station_id d = false).
Proof.
  intros Hd. destruct (report_doc_lookup fs r d Hd) as (_ & _ & _ & Hst & _ & Hsum).
  split.
  - intros st sm Hs Hm. rewrite Hs in Hst. rewrite Hm in Hsum. simpl in Hst, Hsum.
    unfold Extremes.qualifies, extreme_day.
    rewrite andb_true_iff, !orb_true_iff.
    rewrite (query_lt_field _ _ _ _ _ (WeatherStationDaySummary.temp_min sm) Hsum)
      by reflexivity.
    rewrite (query_gt_field _ _ _ _ _ (WeatherStationDaySummary.temp_max sm) Hsum)
      by reflexivity.
    rewrite (query_gt_field _ _ _ _ _ (WeatherStationDaySummary.wind_speed_max sm) Hsum)
      by reflexivity.
    rewrite (query_gt_field _ _ _ _ _ (WeatherStationDaySummary.precip_sum sm) Hsum)
      by reflexivity.
    assert (Hid : query_eq_str ["station"; "station_id"] station_id d
                  = bool_decide (WeatherStation.station_id st = station_id)).
    { unfold query_eq_str, get_field. cbn [get_path]. rewrite Hst. reflexivity. }
    rewrite Hid, bool_decide_eq_true. tauto.
  - intros [Hs|Hm]; unfold Extremes.qualifies.
    + rewrite Hs in Hst. simpl in Hst.
      unfold query_eq_str, get_field. simpl. by rewrite Hst.
    + rewrite Hm in Hsum. simpl in Hsum.
      destruct (query_absent "day_summary" "temp_min" (-5) d Hsum) as [-> _].
      destruct (query_absent "day_summary" "temp_max" 28 d Hsum) as [_ ->].
      destruct (query_absent "day_summary" "wind_speed_max" 12 d Hsum) as [_ ->].
      destruct (query_absent "day_summary" "precip_sum" 15 d Hsum) as [_ ->].
      apply andb_false_r.
Qed.

Lemma imported_report_qualifies_witness :
  (∀ st sm,
     WeatherReport.station ipswich_report = Some st →
     WeatherReport.day_summary ipswich_report
     = Some (WeatherStationDaySummary.get_doc_for_weather_report sm) →
     Extremes.qualifies "WS-WW1001" ipswich_doc = true
     ↔ WeatherStation.station_id st = "WS-WW1001"%string
       ∧ extreme_day (WeatherStationDaySummary.temp_min sm)
           (WeatherStationDaySummary.temp_max sm)
           (WeatherStationDaySummary.wind_speed_max sm)
           (WeatherStationDaySummary.precip_sum sm))
  ∧ (WeatherReport.station ipswich_report = None
     ∨ WeatherReport.day_summary ipswich_report = None →
     Extremes.qualifies "WS-WW1001" ipswich_doc = false).
Proof.
  apply (imported_report_qualifies ∅ ipswich_report ipswich_doc "WS-WW1001").
  reflexivity.
Defined.

(** The Ipswich day of the scenario data qualifies by its wind, the
    manual report of the test data does not. *)
Example ipswich_day_is_extreme :
  Extremes.qualifies "WS-WW1001" ipswich_doc = true
  ∧ (Extremes.qualifies "WS-WW1001"
       <$> WeatherReport.get_weather_report_doc example_files
             TestDataGenerator.manualReport1) = Ok false.
Proof. split; vm_compute; reflexivity. Qed.

(** ** Rebuilding the extremes report *)

Lemma stage_merge_union (target : gmap (option string) doc) (ds : list doc) :
  stage_merge target ds
  = list_to_map (reverse ((λ d, (merge_key d, delete "_id" d)) <$> ds)) ∪ target.
Proof.
  unfold stage_merge. revert target.
  induction ds as [|d ds IH]; intros target; simpl.
  - by rewrite (left_id_L ∅ (∪)).
  - rewrite IH, reverse_cons, list_to_map_app. simpl.
    rewrite <-(assoc_L (∪)). f_equal.
    by rewrite insert_empty, insert_union_singleton_l.
Qed.

Lemma stage_merge_idemp (target : gmap (option string) doc) (ds : list doc) :
  stage_merge (stage_merge target ds) ds = stage_merge target ds.
Proof.
  rewrite !stage_merge_union, (assoc_L (∪)). f_equal. apply (idemp_L (∪)).
Qed.

(** X10. Rebuilding the extremes report.  When
    [create_weather_extremes_report] succeeds, running it again for the
    same station succeeds and leaves the database exactly as the first
    run left it.  A run only writes to [weather_extremes], and it only
    adds or replaces there: every entry that was in the collection is
    still there by its key (also the entry of a day that no longer
    qualifies). *)
Theorem extremes_report_idempotent (db db' : database) (station_id : string) :
  CRUD_tests.create_weather_extremes_report db station_id = Ok db' →
  CRUD_tests.create_weather_extremes_report db' station_id = Ok db'
  ∧ weather_reports db' = weather_reports db
  ∧ weather_stations db' = weather_stations db
  ∧ users db' = users db
  ∧ weather_balloon_reports db' = weather_balloon_reports db
  ∧ dom (weather_extremes db) ⊆ dom (weather_extremes db').
Proof.
  unfold CRUD_tests.create_weather_extremes_report.
  destruct (Extremes.pipeline station_id (find_all (weather_reports db)))
    as [ds|e] eqn:Hp; [|done]. step_result. intros [= <-].
  cbn [weather_reports set_weather_extremes weather_extremes weather_stations
       users weather_balloon_reports].
  rewrite Hp. step_result. rewrite stage_merge_idemp.
  repeat split; try done.
  rewrite stage_merge_union. set_solver.
Qed.

Lemma extremes_report_idempotent_witness :
  CRUD_tests.create_weather_extremes_report glasgow_extremes_db "WS-GLA001"
  = Ok glasgow_extremes_db
  ∧ weather_reports glasgow_extremes_db = weather_reports glasgow_db
  ∧ weather_stations glasgow_extremes_db = weather_stations glasgow_db
  ∧ users glasgow_extremes_db = users glasgow_db
  ∧ weather_balloon_reports glasgow_extremes_db
    = weather_balloon_reports glasgow_db
  ∧ dom (weather_extremes glasgow_db) ⊆ dom (weather_extremes glasgow_extremes_db).
Proof.
  apply (extremes_report_idempotent glasgow_db glasgow_extremes_db "WS-GLA001").
  vm_compute. reflexivity.
Defined.

Example glasgow_extremes_entry :
  dom (weather_extremes glasgow_extremes_db) = {[ Some "WS-GLA001-20240117"%string ]}.
Proof. vm_compute. reflexivity. Qed.

(** ** Radiosonde features *)

(** X11. Decoding a geometry and encoding it again.  For a geometry
    whose coordinates are a list, [LocationWithAltitude.from_geojson]
    accepts exactly when the type is "Point" and the list has three
    items.  It does not look at the items: whatever they are, numbers
    or not, the record holds them as they are, as (latitude, longitude,
    altitude) = (second, first, third); [to_geojson] gives back the
    type and the very same list of coordinates, and decoding that again
    yields the same record.  A missing type is a [KeyError]; another
    type, and another number of coordinates, is a [ValueError]. *)
Theorem geometry_decode_encode (geometry : doc) (cs : list value) :
  geometry !! "coordinates" = Some (VArr cs) →
  (∀ l, LocationWithAltitude.from_geojson geometry = Ok l
        ↔ geometry !! "type" = Some (VStr "Point")
          ∧ ∃ lon lat alt,
              cs = [lon; lat; alt] ∧ l = LocationWithAltitude.mk lat lon alt)
  ∧ (∀ l, LocationWithAltitude.from_geojson geometry = Ok l →
       LocationWithAltitude.to_geojson l
       = dict [("type", VStr "Point"); ("coordinates", VArr cs)]
       ∧ LocationWithAltitude.to_geojson l !! "type" = geometry !! "type"
       ∧ LocationWithAltitude.to_geojson l !! "coordinates"
         = geometry !! "coordinates"
       ∧ LocationWithAltitude.from_geojson (LocationWithAltitude.to_geojson l)
         = Ok l)
  ∧ (geometry !! "type" = None →
     LocationWithAltitude.from_geojson geometry = Raise (KeyError "type"))
  ∧ (∀ ty, geometry !! "type" = Some ty → ty ≠ VStr "Point" →
       LocationWithAltitude.from_geojson geometry
       = Raise (ValueError "Only Point geometries are supported"))
  ∧ (geometry !! "type" = Some (VStr "Point") → length cs ≠ 3%nat →
     LocationWithAltitude.from_geojson geometry
     = Raise (ValueError "Expected 3D coordinates [lon, lat, alt]")).
Proof.
  intros Hcs.
  assert (Hpoint : geometry !! "type" = Some (VStr "Point") →
            LocationWithAltitude.from_geojson geometry
            = match cs with
              | [lon; lat; alt] => Ok (LocationWithAltitude.mk lat lon alt)
              | _ => Raise (ValueError "Expected 3D coordinates [lon, lat, alt]")
              end).
  { intros Hty. unfold LocationWithAltitude.from_geojson, getitem.
    rewrite Hty, Hcs. step_result. simpl.
    by destruct cs as [|lon [|lat [|alt [|]]]]. }
  assert (Hother : ∀ ty, geometry !! "type" = Some ty → ty ≠ VStr "Point" →
            LocationWithAltitude.from_geojson geometry
            = Raise (ValueError "Only Point geometries are supported")).
  { intros ty Hty Hne. unfold LocationWithAltitude.from_geojson, getitem.
    rewrite Hty. step_result.
    destruct (bool_decide (as_str ty = Some "Point"%string)) eqn:Hp; [|done].
    apply bool_decide_eq_true in Hp. destruct ty; try done.
    injection Hp as ->. done. }
  assert (Hnone : geometry !! "type" = None →
            LocationWithAltitude.from_geojson geometry = Raise (KeyError "type")).
  { intros Hty. unfold LocationWithAltitude.from_geojson, getitem.
    by rewrite Hty. }
  assert (Hok : ∀ l, LocationWithAltitude.from_geojson geometry = Ok l →
            geometry !! "type" = Some (VStr "Point")
            ∧ ∃ lon lat alt,
                cs = [lon; lat; alt] ∧ l = LocationWithAltitude.mk lat lon alt).
  { intros l Hl. destruct (geometry !! "type") as [ty|] eqn:Hty.
    - assert (Hty' : ty = VStr "Point").
      { destruct ty as [| | |s| | | | |];
          try (by rewrite (Hother _ eq_refl) in Hl).
        destruct (decide (s = "Point"%string)) as [->|Hne]; [done|].
        rewrite (Hother _ eq_refl) in Hl; [done|congruence]. }
      subst ty. split; [done|]. rewrite Hpoint in Hl by done.
      destruct cs as [|lon [|lat [|alt [|]]]]; try done.
      injection Hl as <-. by exists lon, lat, alt.
    - by rewrite Hnone in Hl. }
  split; [|split; [|split; [done|split; [done|]]]].
  - intros l. split; [apply Hok|].
    intros (Hty & lon & lat & alt & -> & ->). by rewrite Hpoint.
  - intros l Hl. destruct (Hok l Hl) as (Hty & lon & lat & alt & -> & ->).
    rewrite Hty, Hcs. done.
  - intros Hty Hlen. rewrite Hpoint by done.
    by destruct cs as [|lon [|lat [|alt [|]]]].
Qed.

Lemma geometry_decode_encode_witness :
  (∀ l, LocationWithAltitude.from_geojson larkhill_geometry = Ok l
        ↔ larkhill_geometry !! "type" = Some (VStr "Point")
          ∧ ∃ lon lat alt,
              [VNum (-1.8); VNum 51.2; VInt 1498] = [lon; lat; alt]
              ∧ l = LocationWithAltitude.mk lat lon alt)
  ∧ (∀ l, LocationWithAltitude.from_geojson larkhill_geometry = Ok l →
       LocationWithAltitude.to_geojson l
       = dict [("type", VStr "Point");
               ("coordinates", VArr [VNum (-1.8); VNum 51.2; VInt 1498])]
       ∧ LocationWithAltitude.to_geojson l !! "type"
         = larkhill_geometry !! "type"
       ∧ LocationWithAltitude.to_geojson l !! "coordinates"
         = larkhill_geometry !! "coordinates"
       ∧ LocationWithAltitude.from_geojson (LocationWithAltitude.to_geojson l)
         = Ok l)
  ∧ (larkhill_geometry !! "type" = None →
     LocationWithAltitude.from_geojson larkhill_geometry
     = Raise (KeyError "type"))
  ∧ (∀ ty, larkhill_geometry !! "type" = Some ty → ty ≠ VStr "Point" →
       LocationWithAltitude.from_geojson larkhill_geometry
       = Raise (ValueError "Only Point geometries are supported"))
  ∧ (larkhill_geometry !! "type" = Some (VStr "Point") →
     length [VNum (-1.8); VNum 51.2; VInt 1498] ≠ 3%nat →
     LocationWithAltitude.from_geojson larkhill_geometry
     = Raise (ValueError "Expected 3D coordinates [lon, lat, alt]")).
Proof.
  apply (geometry_decode_encode larkhill_geometry
           [VNum (-1.8); VNum 51.2; VInt 1498]).
  reflexivity.
Defined.

(** The altitude of the file, an integer, stays an integer; and
    coordinates that are no numbers are taken as they are. *)
Example geometry_decoded :
  LocationWithAltitude.from_geojson larkhill_geometry = Ok larkhill_location
  ∧ LocationWithAltitude.altitude larkhill_location = VInt 1498
  ∧ LocationWithAltitude.to_geojson larkhill_location = larkhill_geometry
  ∧ LocationWithAltitude.from_geojson
      (dict [("type", VStr "Point");
             ("coordinates", VArr [VStr "a"; VStr "b"; VStr "c"])])
    = Ok (LocationWithAltitude.mk (VStr "b") (VStr "a") (VStr "c"))
  ∧ LocationWithAltitude.from_geojson
      (dict [("type", VStr "Point"); ("coordinates", VStr "abc")])
    = Ok (LocationWithAltitude.mk (VStr "b") (VStr "a") (VStr "c"))
  ∧ LocationWithAltitude.from_geojson
      (dict [("type", VStr "Point"); ("coordinates", VNull)])
    = Raise TypeError
  ∧ LocationWithAltitude.from_geojson (dict [("type", VStr "Point")])
    = Raise (KeyError "coordinates").
Proof. repeat split. Qed.

Open Scope R_scope.

Lemma degrees_0 : degrees 0 = 0.
Proof. unfold degrees. lra. Qed.

Lemma degrees_PI : degrees PI = 180.
Proof. unfold degrees. pose proof PI_RGT_0. field. lra. Qed.

Lemma degrees_half_PI : degrees (PI / 2) = 90.
Proof. unfold degrees. pose proof PI_RGT_0. field. lra. Qed.

Lemma degrees_neg_half_PI : degrees (- PI / 2) = -90.
Proof. unfold degrees. pose proof PI_RGT_0. field. lra. Qed.

Lemma atan2_east (x : R) : 0 < x → atan2 0 x = 0.
Proof.
  intros Hx. unfold atan2. destruct (Rlt_dec 0 x); [|lra].
  unfold Rdiv. by rewrite Rmult_0_l, atan_0.
Qed.

Lemma atan2_north (y : R) : 0 < y → atan2 y 0 = PI / 2.
Proof.
  intros Hy. unfold atan2.
  destruct (Rlt_dec 0 0); [lra|]. destruct (Rlt_dec 0 y); [done|lra].
Qed.

Lemma atan2_west (x : R) : x < 0 → atan2 0 x = PI.
Proof.
  intros Hx. unfold atan2. destruct (Rlt_dec 0 x); [lra|].
  destruct (Rlt_dec x 0); [|lra]. destruct (Rle_dec 0 0); [|lra].
  unfold Rdiv. rewrite Rmult_0_l, atan_0. lra.
Qed.

Lemma atan2_south (y : R) : y < 0 → atan2 y 0 = - PI / 2.
Proof.
  intros Hy. unfold atan2.
  destruct (Rlt_dec 0 0); [lra|]. destruct (Rlt_dec 0 y); [lra|].
  destruct (Rlt_dec y 0); [done|lra].
Qed.

Lemma atan2_calm : atan2 0 0 = 0.
Proof.
  unfold atan2. destruct (Rlt_dec 0 0); [lra|]. done.
Qed.

Close Scope R_scope.

Lemma Q2R_zero (q : Q) : (q == 0)%Q → Q2R q = 0%R.
Proof. intros Hq. rewrite (Qreals.Qeq_eqR _ _ Hq). apply RMicromega.Q2R_0. Qed.

Lemma Q2R_pos (q : Q) : (0 < q)%Q → (0 < Q2R q)%R.
Proof. intros Hq. apply Qreals.Qlt_Rlt in Hq. by rewrite RMicromega.Q2R_0 in Hq. Qed.

Lemma Q2R_neg (q : Q) : (q < 0)%Q → (Q2R q < 0)%R.
Proof. intros Hq. apply Qreals.Qlt_Rlt in Hq. by rewrite RMicromega.Q2R_0 in Hq. Qed.

Lemma round_half_even_near (q : Q) :
  (Qabs (inject_Z (round_half_even q) - q) <= 1 # 2)%Q.
Proof.
  unfold round_half_even.
  pose proof (Qfloor_le q) as Hlo. pose proof (Qlt_floor q) as Hhi.
  rewrite inject_Z_plus in Hhi. change (inject_Z 1) with 1%Q in Hhi.
  assert (Hup : (inject_Z (Qfloor q + 1) == inject_Z (Qfloor q) + 1)%Q)
    by (by rewrite inject_Z_plus).
  destruct (q - inject_Z (Qfloor q) ?= 1 # 2)%Q eqn:Hc.
  - apply Qeq_alt in Hc.
    destruct (Z.even (Qfloor q)); [|rewrite Hup];
      apply Qabs_Qle_condition; split; lra.
  - apply Qlt_alt in Hc. apply Qabs_Qle_condition; split; lra.
  - apply Qgt_alt in Hc. rewrite Hup.
    apply Qabs_Qle_condition; split; lra.
Qed.

Lemma round_half_even_whole (q : Q) (z : Z) :
  (q == inject_Z z)%Q → round_half_even q = z.
Proof.
  intros Hq. unfold round_half_even.
  assert (Hf : Qfloor q = z) by (rewrite Hq; apply Qfloor_Z).
  rewrite Hf.
  destruct (q - inject_Z z ?= 1 # 2)%Q eqn:Hc; [|done|].
  - apply Qeq_alt in Hc. lra.
  - apply Qgt_alt in Hc. lra.
Qed.

Lemma getitem_Ok (d : doc) (k : string) (v : value) :
  getitem d k = Ok v → d !! k = Some v.
Proof. unfold getitem. destruct (d !! k); [|done]. by intros [= ->]. Qed.

(** X12. What a radiosonde reading holds.  Whenever
    [RadiosondeReading.from_geojson_properties] returns a reading, the
    properties [time], [temp], [dewpoint], [wind_u] and [wind_v] are
    numbers, and the reading holds: the location it was given; the
    geopotential height and the pressure as the properties have them,
    whatever they are; as its time stamp the local time of [time] to the
    microsecond -- a whole number of microseconds at most half a
    microsecond off, and [time] itself when that is a whole number of
    microseconds; the temperature and the dew point in degrees Celsius,
    so that adding 273.15 gives back the Kelvin value.  The wind speed
    is not negative and its square is u^2 + v^2.  The wind direction is
    the angle of the vector (u, v) measured from the u axis towards the
    v axis: 0 for a wind along +u, 90 along +v, 180 along -u, 270 along
    -v, and 0 in calm air (u = v = 0). *)
Theorem radiosonde_reading_fields (local_offset : Z) (properties : doc)
    (location : LocationWithAltitude.t) (r : RadiosondeReading.t) :
  RadiosondeReading.from_geojson_properties local_offset properties location
  = Ok r →
  ∃ time temp_k dewpoint_k wind_u wind_v : Q,
    getnum properties "time" = Ok time
    ∧ getnum properties "temp" = Ok temp_k
    ∧ getnum properties "dewpoint" = Ok dewpoint_k
    ∧ getnum properties "wind_u" = Ok wind_u
    ∧ getnum properties "wind_v" = Ok wind_v
    ∧ RadiosondeReading.location r = location
    ∧ properties !! "gpheight" = Some (RadiosondeReading.gpheight r)
    ∧ properties !! "pressure" = Some (RadiosondeReading.pressure r)
    ∧ (∃ microseconds : Z,
         (RadiosondeReading.timestamp r
          == inject_Z microseconds / 1000000 + inject_Z local_offset)%Q
         ∧ (Qabs (inject_Z microseconds - time * 1000000) <= 1 # 2)%Q
         ∧ (∀ z : Z, (time * 1000000 == inject_Z z)%Q → microseconds = z))
    ∧ (RadiosondeReading.temp r + 273.15 == temp_k)%Q
    ∧ (RadiosondeReading.dewpoint r + 273.15 == dewpoint_k)%Q
    ∧ (0 <= RadiosondeReading.wind_speed r)%R
    ∧ (RadiosondeReading.wind_speed r * RadiosondeReading.wind_speed r
       = Q2R wind_u * Q2R wind_u + Q2R wind_v * Q2R wind_v)%R
    ∧ ((wind_u == 0)%Q ∧ (wind_v == 0)%Q →
       RadiosondeReading.wind_speed r = 0%R
       ∧ RadiosondeReading.wind_direction r = 0%R)
    ∧ ((0 < wind_u)%Q ∧ (wind_v == 0)%Q →
       RadiosondeReading.wind_direction r = 0%R)
    ∧ ((wind_u == 0)%Q ∧ (0 < wind_v)%Q →
       RadiosondeReading.wind_direction r = 90%R)
    ∧ ((wind_u < 0)%Q ∧ (wind_v == 0)%Q →
       RadiosondeReading.wind_direction r = 180%R)
    ∧ ((wind_u == 0)%Q ∧ (wind_v < 0)%Q →
       RadiosondeReading.wind_direction r = 270%R).
Proof.
  unfold RadiosondeReading.from_geojson_properties.
  destruct (getnum properties "time") as [time|] eqn:Ht; [|done]. step_result.
  destruct (getitem properties "gpheight") as [gpheight|] eqn:Hg; [|done].
  step_result. apply getitem_Ok in Hg.
  destruct (getnum properties "temp") as [temp_k|] eqn:Hk; [|done]. step_result.
  destruct (getnum properties "dewpoint") as [dewpoint_k|] eqn:Hd; [|done].
  step_result.
  destruct (getitem properties "pressure") as [pressure|] eqn:Hp; [|done].
  step_result. apply getitem_Ok in Hp.
  destruct (getnum properties "wind_u") as [wind_u|] eqn:Hu; [|done].
  step_result.
  destruct (getnum properties "wind_v") as [wind_v|] eqn:Hv; [|done].
  step_result. intros [= <-].
  exists time, temp_k, dewpoint_k, wind_u, wind_v.
  cbn [RadiosondeReading.wind_speed RadiosondeReading.wind_direction
       RadiosondeReading.timestamp RadiosondeReading.location
       RadiosondeReading.gpheight RadiosondeReading.pressure
       RadiosondeReading.temp RadiosondeReading.dewpoint].
  do 8 (split; [done|]).
  split.
  { exists (round_half_even (time * 1000000)).
    split; [|split].
    - unfold RadiosondeReading.fromtimestamp, round_places.
      rewrite Qred_correct. reflexivity.
    - apply round_half_even_near.
    - intros z Hz. by apply round_half_even_whole. }
  split; [ring|]. split; [ring|].
  split; [apply sqrt_pos|].
  split; [apply sqrt_sqrt; nra|].
  split; [|split; [|split; [|split]]].
  - intros [Hu0%Q2R_zero Hv0%Q2R_zero]. rewrite Hu0, Hv0. split.
    + rewrite Rmult_0_l, Rplus_0_l. apply sqrt_0.
    + rewrite atan2_calm, degrees_0. rewrite py_mod_wrap; lra.
  - intros [Hu0%Q2R_pos Hv0%Q2R_zero]. rewrite Hv0.
    rewrite atan2_east, degrees_0 by done. rewrite py_mod_wrap; lra.
  - intros [Hu0%Q2R_zero Hv0%Q2R_pos]. rewrite Hu0.
    rewrite atan2_north, degrees_half_PI by done. rewrite py_mod_wrap; lra.
  - intros [Hu0%Q2R_neg Hv0%Q2R_zero]. rewrite Hv0.
    rewrite atan2_west, degrees_PI by done. rewrite py_mod_wrap; lra.
  - intros [Hu0%Q2R_zero Hv0%Q2R_neg]. rewrite Hu0.
    rewrite atan2_south, degrees_neg_half_PI by done. rewrite py_mod_small; lra.
Qed.

Lemma radiosonde_reading_fields_witness :
  ∃ time temp_k dewpoint_k wind_u wind_v : Q,
    getnum sonde_properties "time" = Ok time
    ∧ getnum sonde_properties "temp" = Ok temp_k
    ∧ getnum sonde_properties "dewpoint" = Ok dewpoint_k
    ∧ getnum sonde_properties "wind_u" = Ok wind_u
    ∧ getnum sonde_properties "wind_v" = Ok wind_v
    ∧ RadiosondeReading.location larkhill_reading = larkhill_location
    ∧ sonde_properties !! "gpheight"
      = Some (RadiosondeReading.gpheight larkhill_reading)
    ∧ sonde_properties !! "pressure"
      = Some (RadiosondeReading.pressure larkhill_reading)
    ∧ (∃ microseconds : Z,
         (RadiosondeReading.timestamp larkhill_reading
          == inject_Z microseconds / 1000000 + inject_Z 3600)%Q
         ∧ (Qabs (inject_Z microseconds - time * 1000000) <= 1 # 2)%Q
         ∧ (∀ z : Z, (time * 1000000 == inject_Z z)%Q → microseconds = z))
    ∧ (RadiosondeReading.temp larkhill_reading + 273.15 == temp_k)%Q
    ∧ (RadiosondeReading.dewpoint larkhill_reading + 273.15 == dewpoint_k)%Q
    ∧ (0 <= RadiosondeReading.wind_speed larkhill_reading)%R
    ∧ (RadiosondeReading.wind_speed larkhill_reading
       * RadiosondeReading.wind_speed larkhill_reading
       = Q2R wind_u * Q2R wind_u + Q2R wind_v * Q2R wind_v)%R
    ∧ ((wind_u == 0)%Q ∧ (wind_v == 0)%Q →
       RadiosondeReading.wind_speed larkhill_reading = 0%R
       ∧ RadiosondeReading.wind_direction larkhill_reading = 0%R)
    ∧ ((0 < wind_u)%Q ∧ (wind_v == 0)%Q →
       RadiosondeReading.wind_direction larkhill_reading = 0%R)
    ∧ ((wind_u == 0)%Q ∧ (0 < wind_v)%Q →
       RadiosondeReading.wind_direction larkhill_reading = 90%R)
    ∧ ((wind_u < 0)%Q ∧ (wind_v == 0)%Q →
       RadiosondeReading.wind_direction larkhill_reading = 180%R)
    ∧ ((wind_u == 0)%Q ∧ (wind_v < 0)%Q →
       RadiosondeReading.wind_direction larkhill_reading = 270%R).
Proof.
  apply (radiosonde_reading_fields 3600 sonde_properties larkhill_location
           larkhill_reading).
  reflexivity.
Defined.

(** A reading whose time has a fraction of a second and whose height
    and pressure are no numbers: the fraction is kept, and so are the
    height and the pressure. *)
Example sonde_reading_kept :
  ∃ r : RadiosondeReading.t,
    RadiosondeReading.from_geojson_properties 3600
      (<["time" := VNum 1743494520.75]>
         (<["gpheight" := VStr "1510.5"]>
            (<["pressure" := VNull]> sonde_properties)))
      larkhill_location
    = Ok r
    ∧ (RadiosondeReading.timestamp r == 1743498120.75)%Q
    ∧ RadiosondeReading.gpheight r = VStr "1510.5"
    ∧ RadiosondeReading.pressure r = VNull.
Proof.
  eexists. split; [reflexivity|].
  cbn [RadiosondeReading.timestamp RadiosondeReading.gpheight
       RadiosondeReading.pressure].
  split; [|done]. unfold RadiosondeReading.fromtimestamp.
  rewrite Qred_correct. vm_compute. reflexivity.
Qed.

(** ** Reading the features of a radiosonde file *)

Lemma import_step_cases (local_offset : Z)
    (st st' : RadiosondeDataImporter.loop_state) (feature : doc) :
  RadiosondeDataImporter.import_step local_offset st feature = Ok st' →
  (is_point_feature feature = false ∧ st' = st)
  ∨ (is_point_feature feature = true
     ∧ ∃ r, feature_reading local_offset feature r
            ∧ st' = RadiosondeDataImporter.mk_state
                      (RadiosondeDataImporter.readings st ++ [r])
                      (match RadiosondeDataImporter.first_location st with
                       | None => Some (RadiosondeReading.location r)
                       | Some l => Some l
                       end)
                      (Some (RadiosondeReading.timestamp r))).
Proof.
  unfold RadiosondeDataImporter.import_step, is_point_feature, feature_reading,
    getitem, RadiosondeDataImporter.as_dict.
  destruct (feature !! "geometry") as [[| | | | | | | |geometry]|] eqn:Hg;
    try done.
  step_result.
  destruct (geometry !! "type") as [ty|] eqn:Hty; [|done]. step_result.
  simpl. destruct (bool_decide (as_str ty = Some "Point"%string)) eqn:Hp.
  2:{ intros [= <-]. by left. }
  destruct (feature !! "properties") as [props|] eqn:Hprops; [|done].
  step_result.
  destruct (LocationWithAltitude.from_geojson geometry) as [location|] eqn:Hl;
    [|done]. step_result.
  destruct props as [| | | | | | | |properties]; try done. step_result.
  destruct (RadiosondeReading.from_geojson_properties local_offset properties
              location) as [r|] eqn:Hr; [|done]. step_result.
  intros [= <-]. right. split; [done|]. exists r. split; [|done].
  by exists geometry, properties, location.
Qed.

Lemma import_loop_result (local_offset : Z) (features : list doc)
    (st0 st : RadiosondeDataImporter.loop_state) :
  RadiosondeDataImporter.import_loop local_offset st0 features = Ok st →
  RadiosondeDataImporter.first_location st0
  = RadiosondeReading.location <$> head (RadiosondeDataImporter.readings st0) →
  RadiosondeDataImporter.last_modified st0
  = RadiosondeReading.timestamp <$> last (RadiosondeDataImporter.readings st0) →
  ∃ new,
    RadiosondeDataImporter.readings st
    = RadiosondeDataImporter.readings st0 ++ new
    ∧ Forall2 (feature_reading local_offset)
        (List.filter is_point_feature features) new
    ∧ RadiosondeDataImporter.first_location st
      = RadiosondeReading.location <$> head (RadiosondeDataImporter.readings st)
    ∧ RadiosondeDataImporter.last_modified st
      = RadiosondeReading.timestamp <$> last (RadiosondeDataImporter.readings st).
Proof.
  revert st0. induction features as [|f features IH]; intros st0; simpl.
  - intros [= <-] Hf Hl. exists []. by rewrite app_nil_r.
  - destruct (RadiosondeDataImporter.import_step local_offset st0 f)
      as [st1|] eqn:Hstep; [|done]. step_result.
    intros Hloop Hf Hl.
    apply import_step_cases in Hstep as [[Hp ->]|(Hp & r & Hr & ->)]; rewrite Hp.
    + by apply IH.
    + destruct (IH _ Hloop) as (new & Hnew & Hall & Hf' & Hl').
      * simpl. rewrite Hf.
        by destruct (RadiosondeDataImporter.readings st0).
      * simpl. by rewrite last_snoc.
      * exists (r :: new). split; [|split; [by constructor|done]].
        simpl in Hnew. by rewrite Hnew, <-app_assoc.
Qed.

(** X13. Reading the features of a radiosonde file.  When the loop
    of [RadiosondeDataImporter.import_data] runs through, the readings
    are those of the features whose geometry is a Point, one for each in
    the order of the file, and every other feature is skipped; the first
    location is the location of the first reading and [last_modified] is
    the time stamp of the last one.  Without a Point feature
    [last_modified] is never assigned (the report that is built next
    reads it). *)
Theorem read_features_result (local_offset : Z) (features : list doc)
    (st : RadiosondeDataImporter.loop_state) :
  RadiosondeDataImporter.read_features local_offset features = Ok st →
  Forall2 (feature_reading local_offset)
    (List.filter is_point_feature features)
    (RadiosondeDataImporter.readings st)
  ∧ RadiosondeDataImporter.first_location st
    = RadiosondeReading.location <$> head (RadiosondeDataImporter.readings st)
  ∧ RadiosondeDataImporter.last_modified st
    = RadiosondeReading.timestamp <$> last (RadiosondeDataImporter.readings st)
  ∧ (RadiosondeDataImporter.last_modified st = None
     ↔ List.filter is_point_feature features = []).
Proof.
  intros Hst. unfold RadiosondeDataImporter.read_features in Hst.
  destruct (import_loop_result _ _ _ _ Hst) as (new & Hnew & Hall & Hf & Hl);
    [done..|].
  simpl in Hnew. rewrite <-Hnew in Hall. clear Hnew new.
  repeat split; try done.
  - rewrite Hl. intros Hnone.
    destruct (RadiosondeDataImporter.readings st) as [|r new _] using rev_ind.
    + apply Forall2_length in Hall.
      by destruct (List.filter is_point_feature features).
    + by rewrite last_snoc in Hnone.
  - intros Hnil. rewrite Hnil in Hall. apply Forall2_length in Hall.
    rewrite Hl. by destruct (RadiosondeDataImporter.readings st).
Qed.

Lemma read_features_result_witness :
  Forall2 (feature_reading 3600)
    (List.filter is_point_feature larkhill_features)
    (RadiosondeDataImporter.readings larkhill_state)
  ∧ RadiosondeDataImporter.first_location larkhill_state
    = RadiosondeReading.location
        <$> head (RadiosondeDataImporter.readings larkhill_state)
  ∧ RadiosondeDataImporter.last_modified larkhill_state
    = RadiosondeReading.timestamp
        <$> last (RadiosondeDataImporter.readings larkhill_state)
  ∧ (RadiosondeDataImporter.last_modified larkhill_state = None
     ↔ List.filter is_point_feature larkhill_features = []).
Proof.
  apply (read_features_result 3600 larkhill_features larkhill_state).
  reflexivity.
Defined.

Example larkhill_file_read :
  List.filter is_point_feature larkhill_features = [larkhill_feature]
  ∧ length (RadiosondeDataImporter.readings larkhill_state) = 1%nat
  ∧ RadiosondeDataImporter.first_location larkhill_state = Some larkhill_location
  ∧ RadiosondeDataImporter.last_modified larkhill_state
    = Some (inject_Z (1743494520 + 3600)).
Proof. repeat split. Qed.

(** ** The document of a weather station *)

(** X14. The storage document of a weather station.
    [get_weather_station_doc] fails exactly when the owner is an
    administrator (who has no station subset).  Otherwise the document
    is keyed by the station id as [_id], embeds the owner's station
    subset, and has [latest_maintenance] exactly when the station has a
    latest maintenance log; the embedded log has the time stamp,
    technician and report but not the station id.  The subset that is
    embedded in weather reports names the station by the same id and
    name. *)
Theorem weather_station_doc (s : WeatherStation.t) :
  match WeatherStation.get_weather_station_doc s with
  | Ok d =>
      d !! "_id" = Some (VStr (WeatherStation.station_id s))
      ∧ d !! "name" = Some (VStr (WeatherStation.name s))
      ∧ d !! "location" = Some (VDoc (WeatherStation.location s))
      ∧ d !! "status" = Some (VStr (WeatherStation.status s))
      ∧ (∃ o, get_subset_for_weather_station (WeatherStation.owner s) = Ok o
              ∧ d !! "owner" = Some (VDoc o))
      ∧ (is_Some (d !! "latest_maintenance")
         ↔ is_Some (WeatherStation.latest_maintenance s))
      ∧ (∀ m, WeatherStation.latest_maintenance s = Some m →
           ∃ log, d !! "latest_maintenance" = Some (VDoc log)
                  ∧ dom log = {["timestamp"; "tech_id"; "report"]}
                  ∧ log !! "timestamp"
                    = MaintenanceLogItem.get_maintenance_log_doc m !! "timestamp"
                  ∧ log !! "tech_id"
                    = MaintenanceLogItem.get_maintenance_log_doc m !! "tech_id"
                  ∧ log !! "report"
                    = MaintenanceLogItem.get_maintenance_log_doc m !! "report")
      ∧ dom d ⊆ {["_id"; "name"; "location"; "owner"; "status";
                  "latest_maintenance"]}
      ∧ WeatherStation.get_subset_for_weather_report s !! "station_id"
        = d !! "_id"
      ∧ WeatherStation.get_subset_for_weather_report s !! "name" = d !! "name"
  | Raise e =>
      (∃ a, WeatherStation.owner s = UAdministrator a)
      ∧ e = AttributeError "get_subset_for_weather_station"
  end.
Proof.
  unfold WeatherStation.get_weather_station_doc.
  destruct (WeatherStation.owner s) as [i|w|a] eqn:Ho; simpl; step_result.
  3:{ split; [by exists a|done]. }
  all: destruct (WeatherStation.latest_maintenance s) as [m|] eqn:Hm; simpl.
  all: repeat split_and; try done; try (by eexists).
  all: try (split; by eauto).
  all: try (split; intros []; done).
  all: try (intros m' [= <-]; eexists; split; [reflexivity|];
            split; [compute_done|done]).
  all: compute_done.
Qed.

Example glasgow_station_doc :
  (dom <$> WeatherStation.get_weather_station_doc glasgow_station)
  = Ok {["_id"; "name"; "location"; "owner"; "status"; "latest_maintenance"]}
  ∧ (dom <$> WeatherStation.get_weather_station_doc ipswich_station)
    = Ok {["_id"; "name"; "location"; "owner"; "status"]}.
Proof. split; reflexivity. Qed.

(** ** Renaming an owner: what is and what is not touched *)

Lemma update_many_frame `{Countable K} (c c' : gmap K doc) (flt : doc → bool)
    (u : list update_op) :
  update_many c flt u = Ok c' →
  dom c' = dom c
  ∧ ∀ id d, c !! id = Some d → flt d = false → c' !! id = Some d.
Proof.
  unfold update_many. destruct (decide _); [|done]. intros [= <-].
  split; [apply dom_fmap_L|].
  intros id d Hd Hflt. rewrite lookup_fmap, Hd. simpl.
  unfold update_if. by rewrite Hflt.
Qed.

Lemma set_users_id (db : database) : set_users (users db) db = db.
Proof. by destruct db. Qed.

Lemma update_institution_name_result (db : database) (user_id new_name : string) :
  CRUD_tests.update_institution_name db user_id new_name
  = Ok (match users db !! user_id with
        | Some d =>
            negb (bool_decide (d !! "institution" ≫= as_str = Some new_name))
        | None => false
        end,
        set_users
          (match users db !! user_id with
           | Some d => <[user_id := <["institution" := VStr new_name]> d]> (users db)
           | None => users db
           end) db).
Proof.
  unfold CRUD_tests.update_institution_name, update_one.
  by destruct (users db !! user_id).
Qed.

(** X15. [update_institution_name] sets the [institution] field of
    the one user document and nothing else.  It returns [True] exactly
    when the user exists and the field was not already the new name, so
    a second call with the same arguments returns [False] and changes
    nothing, and for an unknown user it returns [False] and changes
    nothing.  Every other field of the document keeps its value: for the
    document of a weather watcher, which has no [institution] field, the
    call adds one and the display name stays what it was. *)
Theorem update_institution_name_effect `{EncryptionHelper} (db : database)
    (user_id new_name : string) :
  ∃ (modified : bool) (db' : database),
    CRUD_tests.update_institution_name db user_id new_name = Ok (modified, db')
    ∧ (users db !! user_id = None → modified = false ∧ db' = db)
    ∧ (∀ d, users db !! user_id = Some d →
         users db' !! user_id = Some (<["institution" := VStr new_name]> d)
         ∧ (modified = true ↔ d !! "institution" ≠ Some (VStr new_name)))
    ∧ (∀ rnd w,
         users db !! user_id
         = Some (delete "_id" (WeatherWatcher.get_user_doc rnd w)) →
         modified = true
         ∧ users db' !! user_id ≫= (.!! "display_name")
           = Some (VStr (WeatherWatcher.display_name w)))
    ∧ (∀ other, other ≠ user_id → users db' !! other = users db !! other)
    ∧ CRUD_tests.update_institution_name db' user_id new_name = Ok (false, db')
    ∧ weather_reports db' = weather_reports db
    ∧ weather_stations db' = weather_stations db.
Proof.
  eexists _, _. split; [apply update_institution_name_result|].
  rewrite update_institution_name_result.
  cbn [users set_users weather_reports weather_stations].
  destruct (users db !! user_id) as [d|] eqn:Hd.
  - split; [done|]. rewrite !lookup_insert_eq.
    split; [|split; [|split; [|split; [|done]]]].
    + intros d' [= <-]. split; [done|].
      rewrite negb_true_iff, bool_decide_eq_false.
      destruct (d !! "institution") as [[]|]; simpl; split; congruence.
    + intros rnd w [= ->]. split; reflexivity.
    + intros other Hne. by rewrite lookup_insert_ne.
    + cbn [mbind option_bind as_str].
      rewrite bool_decide_eq_true_2 by done. cbn [negb].
      unfold set_users.
      cbn [users weather_reports weather_stations weather_extremes
           weather_balloon_reports].
      by rewrite !insert_insert_eq.
  - rewrite set_users_id, Hd. split; [done|]. split; [done|]. split; [done|].
    split; [done|]. split; [|done]. by rewrite set_users_id.
Qed.

(** X16. What renaming the owner does not touch.  When
    [rename_a_weather_station_owner] succeeds, no document is added or
    removed; a report or a station whose embedded owner is not camUni is
    unchanged, and so is every other user.  The collections
    [weather_balloon_reports] and [weather_extremes] are not touched at
    all: a balloon report whose ground station embeds the station subset
    of the institution camUni still carries the institution's old
    name. *)
Theorem rename_frame (db db' : database) (t : datetime) :
  CRUD_tests.rename_a_weather_station_owner db t = Ok db' →
  dom (weather_reports db') = dom (weather_reports db)
  ∧ dom (weather_stations db') = dom (weather_stations db)
  ∧ dom (users db') = dom (users db)
  ∧ (∀ id d, weather_reports db !! id = Some d →
       get_field ["owner"; "user_id"] d ≠ Some (VStr "camUni") →
       weather_reports db' !! id = Some d)
  ∧ (∀ id d, weather_stations db !! id = Some d →
       get_field ["owner"; "user_id"] d ≠ Some (VStr "camUni") →
       weather_stations db' !! id = Some d)
  ∧ (∀ other, other ≠ "camUni"%string → users db' !! other = users db !! other)
  ∧ weather_extremes db' = weather_extremes db
  ∧ weather_balloon_reports db' = weather_balloon_reports db
  ∧ (∀ id b g (i : Institution.t) (sid name : string),
       weather_balloon_reports db !! id = Some b →
       b !! "station" = Some (VDoc g) →
       GroundStation.get_doc_for_weather_balloon_report
         (GroundStation.mk sid name (UInstitution i)) = Ok g →
       weather_balloon_reports db' !! id = Some b
       ∧ get_field ["station"; "owner"; "name"] b
         = Some (VStr (Institution.institution_name i))).
Proof.
  unfold CRUD_tests.rename_a_weather_station_owner,
    CRUD_tests.rename_weather_reports_owner,
    CRUD_tests.rename_weather_station_owner.
  destruct (update_many (weather_reports db) _ _) as [c1|] eqn:H1; [|done].
  step_result. cbn [weather_stations set_weather_reports].
  destruct (update_many (weather_stations db) _ _) as [c2|] eqn:H2; [|done].
  step_result.
  destruct (update_institution_name_lookup
              (set_weather_stations c2 (set_weather_reports c1 db))
              "camUni" "Science Dept. Cambridge University") as [b ->].
  step_result. intros [= <-].
  cbn [fst snd weather_reports weather_stations users weather_extremes
       weather_balloon_reports set_users set_weather_stations
       set_weather_reports].
  apply update_many_frame in H1 as [Hd1 Hf1].
  apply update_many_frame in H2 as [Hd2 Hf2].
  assert (Hflt : ∀ d, get_field ["owner"; "user_id"] d ≠ Some (VStr "camUni") →
                      query_eq_str ["owner"; "user_id"] "camUni" d = false).
  { intros d Hne. unfold query_eq_str.
    destruct (get_field ["owner"; "user_id"] d) as [[]|]; try done.
    apply bool_decide_eq_false. congruence. }
  split; [done|]. split; [done|]. split.
  { destruct (users db !! "camUni") eqn:Hu; [|done].
    rewrite dom_insert_L. apply elem_of_dom_2 in Hu.
    apply subseteq_union_1_L. by apply singleton_subseteq_l. }
  split; [by intros id d Hd Hne; apply Hf1, Hflt|].
  split; [by intros id d Hd Hne; apply Hf2, Hflt|].
  split.
  { intros other Hne. destruct (users db !! "camUni"); [|done].
    by rewrite lookup_insert_ne. }
  split; [done|]. split; [done|].
  intros id rep g i sid name Hb Hg. simpl. intros [= <-].
  split; [done|]. unfold get_field. cbn [get_path]. rewrite Hg. reflexivity.
Qed.

Lemma rename_frame_witness :
  dom (weather_reports cambridge_renamed_db) = dom (weather_reports cambridge_db)
  ∧ dom (weather_stations cambridge_renamed_db)
    = dom (weather_stations cambridge_db)
  ∧ dom (users cambridge_renamed_db) = dom (users cambridge_db)
  ∧ (∀ id d, weather_reports cambridge_db !! id = Some d →
       get_field ["owner"; "user_id"] d ≠ Some (VStr "camUni") →
       weather_reports cambridge_renamed_db !! id = Some d)
  ∧ (∀ id d, weather_stations cambridge_db !! id = Some d →
       get_field ["owner"; "user_id"] d ≠ Some (VStr "camUni") →
       weather_stations cambridge_renamed_db !! id = Some d)
  ∧ (∀ other, other ≠ "camUni"%string →
       users cambridge_renamed_db !! other = users cambridge_db !! other)
  ∧ weather_extremes cambridge_renamed_db = weather_extremes cambridge_db
  ∧ weather_balloon_reports cambridge_renamed_db
    = weather_balloon_reports cambridge_db
  ∧ (∀ id b g (i : Institution.t) (sid name : string),
       weather_balloon_reports cambridge_db !! id = Some b →
       b !! "station" = Some (VDoc g) →
       GroundStation.get_doc_for_weather_balloon_report
         (GroundStation.mk sid name (UInstitution i)) = Ok g →
       weather_balloon_reports cambridge_renamed_db !! id = Some b
       ∧ get_field ["station"; "owner"; "name"] b
         = Some (VStr (Institution.institution_name i))).
Proof.
  apply (rename_frame cambridge_db cambridge_renamed_db
           (mk_datetime 2025 5 1 10 30)).
  vm_compute. reflexivity.
Defined.

(** ** The most recent report of an owner *)

Lemma Qle_bool_trans (x y z : Q) :
  Qle_bool x y = true → Qle_bool y z = true → Qle_bool x z = true.
Proof. rewrite !Qle_bool_iff. apply Qle_trans. Qed.

Lemma bson_le_trans (a b c : option value) :
  bson_le a b = true → bson_le b c = true → bson_le a c = true.
Proof.
  destruct a as [[]|], b as [[]|]; simpl; try discriminate;
    destruct c as [[]|]; simpl; try discriminate; try done;
    try apply Qle_bool_trans.
  rewrite !bool_decide_eq_true. lia.
Qed.

Lemma key_ge_total (p : list string) : Total (key_ge p).
Proof.
  intros d1 d2. unfold key_ge.
  destruct (bson_le_total (get_field p d1) (get_field p d2)) as [->| ->]; auto.
Qed.

Lemma key_ge_trans (p : list string) : Transitive (key_ge p).
Proof.
  intros d1 d2 d3. unfold key_ge. rewrite !Is_true_true.
  intros H12 H23. by apply (bson_le_trans _ _ _ H23 H12).
Qed.

(** The head of a descending sort is a maximum of the list. *)
Lemma head_sort_desc (p : list string) (ds : list doc) (d : doc) :
  head (stage_sort_desc p ds) = Some d →
  d ∈ ds ∧ ∀ d', d' ∈ ds → bson_le (get_field p d') (get_field p d) = true.
Proof.
  unfold stage_sort_desc. intros Hh.
  pose proof (merge_sort_Permutation (key_ge p) ds) as Hperm.
  pose proof (@StronglySorted_merge_sort _ (key_ge p) _ (key_ge_trans p)
                (key_ge_total p) ds) as Hs.
  destruct (merge_sort (key_ge p) ds) as [|x l]; [done|].
  injection Hh as ->. split.
  - rewrite <-Hperm. apply list_elem_of_here.
  - intros d' Hd'. rewrite <-Hperm in Hd'.
    apply elem_of_cons in Hd' as [->|Hd'].
    + destruct (bson_le_total (get_field p d) (get_field p d)); done.
    + apply StronglySorted_inv in Hs as [_ Hall].
      rewrite Forall_forall in Hall. specialize (Hall d' Hd').
      unfold key_ge in Hall. by apply Is_true_true.
Qed.

Lemma head_sort_desc_None (p : list string) (ds : list doc) :
  head (stage_sort_desc p ds) = None → ds = [].
Proof.
  unfold stage_sort_desc. intros Hh.
  pose proof (merge_sort_Permutation (key_ge p) ds) as Hperm.
  destruct (merge_sort (key_ge p) ds); [|done].
  by apply Permutation_nil_l in Hperm.
Qed.

Lemma project_include_lookup (ks : list string) (d : doc) (k : string) :
  project_include ks d !! k
  = if decide (k ∈ "_id"%string :: ks) then d !! k else None.
Proof.
  unfold project_include. destruct (decide _) as [Hin|Hout].
  - destruct (d !! k) as [v|] eqn:Hd.
    + by apply map_lookup_filter_Some.
    + apply map_lookup_filter_None. left. done.
  - apply map_lookup_filter_None. right. intros v _. done.
Qed.

Lemma owner_filter_iff (uid : string) (d : doc) :
  query_eq_str ["owner"; "user_id"] uid d = true
  ↔ get_field ["owner"; "user_id"] d = Some (VStr uid).
Proof.
  unfold query_eq_str.
  destruct (get_field ["owner"; "user_id"] d) as [[]|]; try (split; done).
  rewrite bool_decide_eq_true. split; congruence.
Qed.

(** X17. The most recent report of an owner.
    [get_latest_weather_report_for_owner] returns nothing exactly when
    no stored report embeds that owner; otherwise it returns the
    projection of a stored report of the owner whose [date] is not
    before the date of any other report of the owner.  The projection
    has [_id] and the listed fields that the report has, with their
    values, and nothing else. *)
Theorem latest_report_for_owner (db : database) (user_id : string)
    (projection : list string) :
  match CRUD_tests.get_latest_weather_report_for_owner db user_id projection with
  | None =>
      ∀ id d, weather_reports db !! id = Some d →
        get_field ["owner"; "user_id"] d ≠ Some (VStr user_id)
  | Some r =>
      ∃ id d,
        weather_reports db !! id = Some d
        ∧ get_field ["owner"; "user_id"] d = Some (VStr user_id)
        ∧ (∀ id' d' t t',
             weather_reports db !! id' = Some d' →
             get_field ["owner"; "user_id"] d' = Some (VStr user_id) →
             d !! "date" = Some (VDate t) → d' !! "date" = Some (VDate t') →
             t' ≤ t)
        ∧ r !! "_id" = Some (VOid id)
        ∧ (∀ k, k ∈ projection → k ≠ "_id"%string → r !! k = d !! k)
        ∧ (∀ k, k ∉ "_id"%string :: projection → r !! k = None)
  end.
Proof.
  unfold CRUD_tests.get_latest_weather_report_for_owner.
  set (ds := stage_match (query_eq_str ["owner"; "user_id"] user_id)
               (find_all (weather_reports db))).
  destruct (head (stage_sort_desc ["date"] ds)) as [x|] eqn:Hh; simpl.
  - apply head_sort_desc in Hh as [Hin Hmax].
    apply elem_of_stage_match in Hin as [Hin Hflt].
    apply elem_of_find_all in Hin as (id & d & Hd & ->).
    rewrite owner_filter_iff, (with_id_get_field (id, d)) in Hflt by done.
    exists id, d. split; [done|]. split; [done|].
    split; [|split; [|split]].
    + intros id' d' t t' Hd' Ho' Ht Ht'.
      assert (Hin' : with_id (id', d') ∈ ds).
      { apply elem_of_stage_match. split.
        - apply elem_of_find_all. eauto.
        - by rewrite owner_filter_iff, (with_id_get_field (id', d')). }
      specialize (Hmax _ Hin').
      rewrite !with_id_get_field in Hmax by done. unfold get_field in Hmax.
      simpl in Hmax. rewrite Ht, Ht' in Hmax. simpl in Hmax.
      by apply bool_decide_eq_true in Hmax.
    + rewrite project_include_lookup, decide_True by apply list_elem_of_here.
      unfold with_id. apply lookup_insert_eq.
    + intros k Hk Hne. rewrite project_include_lookup, decide_True
        by by apply list_elem_of_further.
      by rewrite (with_id_lookup (id, d)).
    + intros k Hk. by rewrite project_include_lookup, decide_False.
  - apply head_sort_desc_None in Hh. intros id d Hd Ho.
    assert (Hin : with_id (id, d) ∈ ds).
    { apply elem_of_stage_match. split.
      - apply elem_of_find_all. eauto.
      - by rewrite owner_filter_iff, (with_id_get_field (id, d)). }
    rewrite Hh in Hin. by apply elem_of_nil in Hin.
Qed.

Example cambridge_latest_report :
  CRUD_tests.get_latest_weather_report_for_owner cambridge_db "camUni"
    ["date"; "version"; "last_modified"; "owner"] ≫= (.!! "version")
  = Some (VInt 1)
  ∧ CRUD_tests.get_latest_weather_report_for_owner cambridge_renamed_db "camUni"
      ["date"; "version"; "last_modified"; "owner"] ≫= (.!! "version")
    = Some (VInt 2)
  ∧ CRUD_tests.get_latest_weather_report_for_owner cambridge_db "metoff1"
      ["date"; "version"; "last_modified"; "owner"] = None.
Proof. vm_compute. done. Qed.

(** ** Validating a login *)

(** X18. Logging in a stored user.  For a user whose document
    [get_user_doc] made and the users collection holds, [validate_user]
    answers what [verify_password] answers for the entered password and
    the hash of the user's password.  When the answer is yes and the
    user is a weather watcher or an administrator it also decrypts the
    stored name and email, which are the user's own when [decrypt]
    undoes [encrypt]; when the answer is no nothing is decrypted.  For
    an institution nothing is decrypted either, unless its type is
    "Private" or "Admin": then a right password makes [validate_user]
    decrypt a name that the document of an institution does not have,
    which raises an [AttributeError].  A user id that is not in the
    collection is never valid, whatever the password. *)
Theorem validate_stored_user `{EncryptionHelper} `{CredentialCheck}
    (db : database) (rnd : entropy) (u : User) (entered_password : string)
    (valid : bool) :
  users db !! user_id_of u = Some (delete "_id" (get_user_doc rnd u)) →
  verify_password entered_password
    (hash_password (user_password u) (salt rnd)) = Ok valid →
  (∀ n e, personal_details u = Some (n, e) →
     decrypt (encrypt n (nonce_name rnd)) = Ok n
     ∧ decrypt (encrypt e (nonce_email rnd)) = Ok e) →
  test_read_queries.validate_user db (user_id_of u) entered_password
  = login_outcome u valid
  ∧ (∀ other password, users db !! other = None →
       test_read_queries.validate_user db other password = Ok (false, None)).
Proof.
  intros Hu Hv Hdec. split.
  2:{ intros other password Ho. unfold test_read_queries.validate_user, find_one.
      by rewrite Ho. }
  unfold test_read_queries.validate_user, find_one, login_outcome. rewrite Hu.
  cbn [fmap option_fmap option_map].
  unfold test_read_queries.stored_password, test_read_queries.is_private_or_admin,
    test_read_queries.decrypt_field, with_id.
  cbn [fst snd]. rewrite !lookup_insert_ne by done.
  destruct u as [i|w|a].
  - change (delete "_id" (get_user_doc rnd (UInstitution i)) !! "password")
      with (Some (VStr (hash_password (Institution.password i) (salt rnd)))).
    change (delete "_id" (get_user_doc rnd (UInstitution i)) !! "user_type")
      with (Some (VStr (Institution.institution_type i))).
    change (delete "_id" (get_user_doc rnd (UInstitution i)) !! "name")
      with (@None value).
    step_result. simpl in Hv. rewrite Hv. step_result.
    destruct valid; [|done].
    by destruct (bool_decide (Institution.institution_type i = "Private"%string)
                 || bool_decide (Institution.institution_type i = "Admin"%string)).
  - destruct (Hdec _ _ eq_refl) as [Hn He].
    change (delete "_id" (get_user_doc rnd (UWeatherWatcher w)) !! "password")
      with (Some (VStr (hash_password (WeatherWatcher.password w) (salt rnd)))).
    change (delete "_id" (get_user_doc rnd (UWeatherWatcher w)) !! "user_type")
      with (Some (VStr "Private")).
    change (delete "_id" (get_user_doc rnd (UWeatherWatcher w)) !! "name")
      with (Some (VStr (encrypt (WeatherWatcher.name w) (nonce_name rnd)))).
    change (delete "_id" (get_user_doc rnd (UWeatherWatcher w)) !! "email")
      with (Some (VStr (encrypt (WeatherWatcher.email w) (nonce_email rnd)))).
    step_result. simpl in Hv. rewrite Hv. step_result.
    destruct valid; [|done]. simpl. rewrite Hn, He. done.
  - destruct (Hdec _ _ eq_refl) as [Hn He].
    change (delete "_id" (get_user_doc rnd (UAdministrator a)) !! "password")
      with (Some (VStr (hash_password (Administrator.password a) (salt rnd)))).
    change (delete "_id" (get_user_doc rnd (UAdministrator a)) !! "user_type")
      with (Some (VStr "Admin")).
    change (delete "_id" (get_user_doc rnd (UAdministrator a)) !! "name")
      with (Some (VStr (encrypt (Administrator.name a) (nonce_name rnd)))).
    change (delete "_id" (get_user_doc rnd (UAdministrator a)) !! "email")
      with (Some (VStr (encrypt (Administrator.email a) (nonce_email rnd)))).
    step_result. simpl in Hv. rewrite Hv. step_result.
    destruct valid; [|done]. simpl. rewrite Hn, He. done.
Qed.

Lemma validate_stored_user_witness :
  test_read_queries.validate_user (H := login_check) private_login_db
    (user_id_of private_institution) "Pa$$7788"
  = login_outcome private_institution true
  ∧ (∀ other password, users private_login_db !! other = None →
       test_read_queries.validate_user (H := login_check) private_login_db
         other password
       = Ok (false, None)).
Proof.
  apply (validate_stored_user (H := login_encryption) (H0 := login_check)
           private_login_db example_entropy private_institution "Pa$$7788" true).
  - reflexivity.
  - reflexivity.
  - intros n e Hd. discriminate Hd.
Defined.

(** The logins of the read-query script: the right password, an
    unknown user id, a wrong password, and an institution; then an
    institution of type "Private", with a wrong and with the right
    password. *)
Example login_attempts :
  test_read_queries.validate_user (H := login_check) login_db "ps2004" "Pa$$1234"
  = Ok (true, Some ("Paul Smithers", "pauls@gmail.com")%string)
  ∧ test_read_queries.validate_user (H := login_check) login_db "ps200" "Pa$$1234"
    = Ok (false, None)
  ∧ test_read_queries.validate_user (H := login_check) login_db "ps2004" "Pa$$123"
    = Ok (false, None)
  ∧ test_read_queries.validate_user (H := login_check) login_db "metoff1" "Pa$$5678"
    = Ok (true, None)
  ∧ test_read_queries.validate_user (H := login_check) private_login_db
      "hillFarm" "Pa$$778"
    = Ok (false, None)
  ∧ test_read_queries.validate_user (H := login_check) private_login_db
      "hillFarm" "Pa$$7788"
    = Raise (AttributeError "encode").
Proof. vm_compute. done. Qed.

(** ** The sections of an Open-Meteo file *)

Lemma split_step_prefix (blank : string → bool) (secs : list (list string))
    (cur : list string) (line : string) :
  OpenMeteoWeatherDataLoader.split_step blank (secs, cur) line
  = (secs ++ (OpenMeteoWeatherDataLoader.split_step blank ([], cur) line).1,
     (OpenMeteoWeatherDataLoader.split_step blank ([], cur) line).2).
Proof.
  unfold OpenMeteoWeatherDataLoader.split_step.
  destruct (blank line); [destruct cur|]; simpl; by rewrite ?app_nil_r.
Qed.

Lemma split_fold_prefix (blank : string → bool) (lines : list string)
    (secs : list (list string)) (cur : list string) :
  foldl (OpenMeteoWeatherDataLoader.split_step blank) (secs, cur) lines
  = (secs ++ (foldl (OpenMeteoWeatherDataLoader.split_step blank) ([], cur) lines).1,
     (foldl (OpenMeteoWeatherDataLoader.split_step blank) ([], cur) lines).2).
Proof.
  revert secs cur. induction lines as [|a l IH]; intros secs cur; cbn [foldl].
  - simpl. by rewrite app_nil_r.
  - rewrite (split_step_prefix blank secs cur a).
    destruct (OpenMeteoWeatherDataLoader.split_step blank ([], cur) a)
      as [s' c'] eqn:Hs. simpl.
    rewrite (IH (secs ++ s') c'), (IH s' c'). simpl. by rewrite app_assoc.
Qed.

Lemma split_fold_inv (blank : string → bool) (lines : list string)
    (secs : list (list string)) (cur : list string) :
  Forall (λ s, s ≠ [] ∧ Forall (λ l, blank l = false) s) secs →
  Forall (λ l, blank l = false) cur →
  let st := foldl (OpenMeteoWeatherDataLoader.split_step blank) (secs, cur) lines in
  Forall (λ s, s ≠ [] ∧ Forall (λ l, blank l = false) s) st.1
  ∧ Forall (λ l, blank l = false) st.2
  ∧ concat st.1 ++ st.2
    = concat secs ++ cur ++ List.filter (λ l, negb (blank l)) lines.
Proof.
  revert secs cur. induction lines as [|a l IH]; intros secs cur Hs Hc; simpl.
  - by rewrite app_nil_r.
  - destruct (blank a) eqn:Ha; simpl.
    + destruct cur as [|c cur].
      * apply (IH secs []); done.
      * destruct (IH (secs ++ [c :: cur]) []) as (H1 & H2 & H3).
        { apply Forall_app. split; [done|]. constructor; [done|constructor]. }
        { constructor. }
        split; [done|]. split; [done|].
        rewrite H3, concat_app. simpl. by rewrite app_nil_r, <-app_assoc.
    + destruct (IH secs (cur ++ [a])) as (H1 & H2 & H3); [done| |].
      { apply Forall_app. split; [done|]. constructor; [done|constructor]. }
      split; [done|]. split; [done|]. rewrite H3. by rewrite <-!app_assoc.
Qed.

(** X19. Splitting the file into sections.  The section loop of
    [load_from_csv] cuts the lines at the blank ones: no section is
    empty and none holds a blank line, the sections laid end to end are
    the non-blank lines of the file in their order, a run of lines
    without a blank one stays one section, and a blank line between two
    parts of the file separates the sections of the first part from
    those of the second (so several blank lines in a row, or blank lines
    at the start or the end, add no section). *)
Theorem split_sections_spec (blank : string → bool) (lines : list string) :
  Forall (λ s, s ≠ [] ∧ Forall (λ l, blank l = false) s)
    (OpenMeteoWeatherDataLoader.split_sections blank lines)
  ∧ concat (OpenMeteoWeatherDataLoader.split_sections blank lines)
    = List.filter (λ l, negb (blank l)) lines
  ∧ (lines ≠ [] → Forall (λ l, blank l = false) lines →
     OpenMeteoWeatherDataLoader.split_sections blank lines = [lines])
  ∧ (∀ part1 part2 b, lines = part1 ++ b :: part2 → blank b = true →
       OpenMeteoWeatherDataLoader.split_sections blank lines
       = OpenMeteoWeatherDataLoader.split_sections blank part1
         ++ OpenMeteoWeatherDataLoader.split_sections blank part2).
Proof.
  unfold OpenMeteoWeatherDataLoader.split_sections.
  split; [|split; [|split]].
  - destruct (split_fold_inv blank lines [] []) as (H1 & H2 & _); [done..|].
    destruct (foldl _ _ lines) as [secs cur]. simpl in *.
    destruct cur; [done|]. apply Forall_app. split; [done|].
    constructor; [done|constructor].
  - destruct (split_fold_inv blank lines [] []) as (_ & _ & H3); [done..|].
    destruct (foldl _ _ lines) as [secs cur]. simpl in *.
    destruct cur; [by rewrite app_nil_r in H3|].
    rewrite concat_app. simpl. by rewrite app_nil_r.
  - intros Hne Hall.
    assert (Hgen : ∀ cur,
      foldl (OpenMeteoWeatherDataLoader.split_step blank) ([], cur) lines
      = ([], cur ++ lines)).
    { clear Hne. induction Hall as [|a l Ha Hall IH]; intros cur; simpl.
      - by rewrite app_nil_r.
      - rewrite Ha, IH. by rewrite <-app_assoc. }
    rewrite Hgen. simpl. by destruct lines.
  - intros part1 part2 b -> Hb. rewrite foldl_app. simpl.
    destruct (foldl (OpenMeteoWeatherDataLoader.split_step blank) ([], []) part1)
      as [secs cur]. simpl. rewrite Hb.
    destruct cur as [|c cur].
    + rewrite (split_fold_prefix blank part2 secs []).
      destruct (foldl _ ([], []) part2) as [secs2 cur2]. simpl.
      destruct cur2; [done|]. by rewrite app_assoc.
    + rewrite (split_fold_prefix blank part2 (secs ++ [c :: cur]) []).
      destruct (foldl _ ([], []) part2) as [secs2 cur2]. simpl.
      destruct cur2; [done|]. by rewrite app_assoc.
Qed.

(** ** Logging the results of a query *)

Lemma log_fold (limit : Z) (cursor : list doc) (lines : list DualLog.line)
    (count : Z) :
  0 ≤ count →
  foldl (DualLog.log_step limit) (lines, count) cursor
  = (lines ++ (DualLog.Document <$> take (Z.to_nat (limit - count)) cursor),
     count + Z.of_nat (length cursor)).
Proof.
  revert lines count. induction cursor as [|d l IH]; intros lines count Hc.
  - simpl. rewrite take_nil, app_nil_r. f_equal. lia.
  - cbn [foldl DualLog.log_step]. rewrite IH by lia.
    f_equal; [|cbn [length]; lia].
    destruct (bool_decide (count < limit)) eqn:Hlt.
    + apply bool_decide_eq_true in Hlt.
      replace (Z.to_nat (limit - count)) with (S (Z.to_nat (limit - (count + 1))))
        by lia.
      rewrite firstn_cons, fmap_cons, <-app_assoc. done.
    + apply bool_decide_eq_false in Hlt.
      replace (Z.to_nat (limit - count)) with 0%nat by lia.
      replace (Z.to_nat (limit - (count + 1))) with 0%nat by lia.
      by rewrite !take_0.
Qed.

(** X20. What [DualLog.log_results] logs and returns.  The returned
    count is the number of documents of the cursor, whatever the limit.
    After the header come the first [limit] documents in the order of
    the cursor (none for a limit that is not positive) and no other
    document; a line telling how many were shown follows exactly when
    there are more documents than the limit, and the line "No results
    found." exactly when the cursor is empty. *)
Theorem log_results_spec (cursor : list doc) (limit : Z) :
  DualLog.log_results cursor limit
  = ([DualLog.ResultsHeader]
       ++ (DualLog.Document <$> take (Z.to_nat limit) cursor)
       ++ (if bool_decide (limit < Z.of_nat (length cursor))
           then [DualLog.Shown limit (Z.of_nat (length cursor))] else [])
       ++ (if bool_decide (cursor = []) then [DualLog.NoResults] else []),
     Z.of_nat (length cursor)).
Proof.
  unfold DualLog.log_results. rewrite log_fold by done.
  rewrite Z.sub_0_r, Z.add_0_l. f_equal.
  rewrite <-!app_assoc. f_equal. f_equal.
  rewrite (bool_decide_ext (Z.of_nat (length cursor) > limit)
             (limit < Z.of_nat (length cursor))) by lia.
  rewrite (bool_decide_ext (Z.of_nat (length cursor) = 0) (cursor = []));
    last first.
  { destruct cursor; simpl; split; try done; lia. }
  destruct (bool_decide (limit < _)), (bool_decide (cursor = []));
    rewrite <-?app_assoc, ?app_nil_r; reflexivity.
Qed.

(** ** Times of day *)

(** X21. [DateHelper.get_end_of_day] gives the last second of the
    day of its argument: the same day, 23:59:59, not before the
    argument, and one second before the next midnight; applying it
    twice changes nothing more.  [get_current_time_with_fixed_day]
    gives the day of its date argument at the time of day of [now], so
    the modification date of the rename scenario lies within 1 May
    2025 whenever it runs. *)
Theorem date_helper_spec (dt now : datetime) :
  let e := DateHelper.get_end_of_day dt in
  e / 86400 = dt / 86400
  ∧ e mod 86400 = 23 * 3600 + 59 * 60 + 59
  ∧ dt ≤ e
  ∧ (e + 1) / 86400 = dt / 86400 + 1 ∧ (e + 1) mod 86400 = 0
  ∧ DateHelper.get_end_of_day e = e
  ∧ DateHelper.get_current_time_with_fixed_day now dt
    = dt / 86400 * 86400 + now mod 86400
  ∧ mk_datetime 2025 5 1 0 0
    ≤ DateHelper.get_current_time_with_fixed_day now (mk_datetime 2025 5 1 0 0)
    < mk_datetime 2025 5 2 0 0.
Proof.
  unfold DateHelper.get_end_of_day, DateHelper.get_current_time_with_fixed_day,
    DateHelper.replace_time.
  change (mk_datetime 2025 5 1 0 0) with 1746057600.
  change (mk_datetime 2025 5 2 0 0) with 1746144000.
  cbv zeta. repeat split; Z.div_mod_to_equations; lia.
Qed.

(** ** From the rows of a file to the daily reports *)

Lemma defaultdict_append_keys {A} (k0 : Z) (a : A) (m : list (Z * list A)) :
  (OpenMeteoWeatherDataLoader.defaultdict_append k0 a m).*1
  = if decide (k0 ∈ m.*1) then m.*1 else m.*1 ++ [k0].
Proof.
  induction m as [|[k g] m IH].
  - destruct (decide (k0 ∈ ([] : list (Z * list A)).*1)) as [Hin|Hout]; [|done].
    by apply elem_of_nil in Hin.
  - cbn [OpenMeteoWeatherDataLoader.defaultdict_append].
    destruct (decide (k0 = k)) as [->|Hne].
    + destruct (decide (k ∈ ((k, g) :: m).*1)) as [Hin|Hout]; [done|].
      exfalso. apply Hout. rewrite fmap_cons. apply list_elem_of_here.
    + rewrite !fmap_cons, IH. cbn [fst].
      destruct (decide (k0 ∈ m.*1)) as [Hin|Hout];
        destruct (decide (k0 ∈ k :: m.*1)) as [Hin'|Hout']; try done.
      * exfalso. apply Hout'. by apply list_elem_of_further.
      * apply elem_of_cons in Hin' as [?|?]; done.
Qed.

Lemma filter_snoc {A} (f : A → bool) (l : list A) (a : A) :
  List.filter f (l ++ [a]) = List.filter f l ++ (if f a then [a] else []).
Proof. rewrite List.filter_app. simpl. by destruct (f a). Qed.

Lemma filter_nil_iff {A} (f : A → bool) (l : list A) :
  List.filter f l = [] ↔ ∀ x, x ∈ l → f x = false.
Proof.
  induction l as [|a l IH]; simpl.
  - split; [|done]. intros _ x Hx. by apply elem_of_nil in Hx.
  - destruct (f a) eqn:Hfa.
    + split; [done|]. intros Hall.
      specialize (Hall a (list_elem_of_here _ _)). congruence.
    + rewrite IH. split.
      * intros Hall x Hx. apply elem_of_cons in Hx as [->|Hx]; auto.
      * intros Hall x Hx. apply Hall. by apply list_elem_of_further.
Qed.

(** The groups of a [defaultdict(list)] filled in one pass: one group
    for each key that occurs, holding the elements with that key in the
    order of the pass. *)
Lemma defaultdict_append_groups {A} (key : A → Z) (l : list A) (a : A)
    (m : list (Z * list A)) :
  NoDup m.*1 →
  Forall (λ kg, kg.2 = List.filter (λ x, bool_decide (key x = kg.1)) l
                ∧ kg.2 ≠ []) m →
  (key a ∉ m.*1 → List.filter (λ x, bool_decide (key x = key a)) l = []) →
  Forall (λ kg, kg.2 = List.filter (λ x, bool_decide (key x = kg.1)) (l ++ [a])
                ∧ kg.2 ≠ [])
    (OpenMeteoWeatherDataLoader.defaultdict_append (key a) a m).
Proof.
  induction m as [|[k g] m IH]; intros Hnd Hall Hnew; simpl.
  - constructor; [|constructor]. simpl. split; [|done].
    rewrite filter_snoc, Hnew by apply not_elem_of_nil.
    by rewrite bool_decide_eq_true_2.
  - apply NoDup_cons in Hnd as [Hk Hnd].
    apply Forall_cons in Hall as [[Hg Hne] Hall]. simpl in *.
    destruct (decide (key a = k)) as [Heq|Hneq].
    + constructor; simpl.
      * split; [|by destruct g]. rewrite filter_snoc, <-Hg.
        by rewrite bool_decide_eq_true_2.
      * apply Forall_forall. intros [k' g'] Hin.
        rewrite Forall_forall in Hall. destruct (Hall _ Hin) as [Hg' Hne'].
        simpl in *. split; [|done]. rewrite filter_snoc, <-Hg'.
        rewrite bool_decide_eq_false_2; [by rewrite app_nil_r|].
        intros Hk'. apply Hk. rewrite <-Heq, Hk'.
        apply list_elem_of_fmap. by exists (k', g').
    + constructor; simpl.
      * split; [|done]. rewrite filter_snoc, <-Hg.
        rewrite bool_decide_eq_false_2 by done. by rewrite app_nil_r.
      * apply IH; [done..|]. intros Hout. apply Hnew.
        rewrite not_elem_of_cons. done.
Qed.

Lemma daily_readings_groups (hourly : list WeatherStationReading.t) :
  let key x := OpenMeteoWeatherDataLoader.date_of (WeatherStationReading.timestamp x) in
  let m := OpenMeteoWeatherDataLoader.daily_readings hourly in
  NoDup m.*1
  ∧ Forall (λ kg, kg.2 = List.filter (λ x, bool_decide (key x = kg.1)) hourly
                  ∧ kg.2 ≠ []) m
  ∧ ∀ x, x ∈ hourly → key x ∈ m.*1.
Proof.
  intros key. unfold OpenMeteoWeatherDataLoader.daily_readings.
  induction hourly as [|a l IH] using rev_ind; simpl.
  - split; [constructor|]. split; [constructor|].
    intros x Hx. by apply elem_of_nil in Hx.
  - rewrite foldl_app. simpl. destruct IH as (Hnd & Hall & Hcov).
    set (m := foldl _ [] l) in *. fold (key a).
    assert (Hnew : key a ∉ m.*1 →
                   List.filter (λ x, bool_decide (key x = key a)) l = []).
    { intros Hout. apply filter_nil_iff. intros x Hx.
      apply bool_decide_eq_false. intros Heq. apply Hout. rewrite <-Heq.
      by apply Hcov. }
    split; [|split].
    + rewrite defaultdict_append_keys. destruct (decide (key a ∈ m.*1)); [done|].
      apply NoDup_app. split; [done|]. split; [|apply NoDup_singleton].
      intros k Hk Hk'. apply list_elem_of_singleton in Hk'. by subst.
    + by apply defaultdict_append_groups.
    + intros x Hx. rewrite defaultdict_append_keys.
      apply elem_of_app in Hx as [Hx|Hx].
      * specialize (Hcov x Hx). destruct (decide (key a ∈ m.*1)); [done|].
        apply elem_of_app. by left.
      * apply list_elem_of_singleton in Hx as ->.
        destruct (decide (key a ∈ m.*1)); [done|].
        apply elem_of_app. right. apply list_elem_of_here.
Qed.

Lemma summaries_lookup (daily : list WeatherStationDaySummary.t) (k : Z)
    (s : WeatherStationDaySummary.t) :
  OpenMeteoWeatherDataLoader.summaries daily !! k = Some s →
  s ∈ daily
  ∧ OpenMeteoWeatherDataLoader.date_of (WeatherStationDaySummary.date s) = k.
Proof.
  unfold OpenMeteoWeatherDataLoader.summaries.
  induction daily as [|a l IH] using rev_ind; simpl; [done|].
  rewrite foldl_app. simpl.
  destruct (decide
              (OpenMeteoWeatherDataLoader.date_of (WeatherStationDaySummary.date a)
               = k)) as [Heq|Hne].
  - rewrite Heq, lookup_insert_eq. intros [= <-].
    split; [|done]. apply elem_of_app. right. apply list_elem_of_here.
  - rewrite lookup_insert_ne by done. intros Hs.
    destruct (IH Hs) as [Hin Hk]. split; [|done]. apply elem_of_app. by left.
Qed.

Lemma summaries_lookup_None (daily : list WeatherStationDaySummary.t) (k : Z) :
  OpenMeteoWeatherDataLoader.summaries daily !! k = None →
  ∀ s, s ∈ daily →
    OpenMeteoWeatherDataLoader.date_of (WeatherStationDaySummary.date s) ≠ k.
Proof.
  unfold OpenMeteoWeatherDataLoader.summaries.
  induction daily as [|a l IH] using rev_ind; simpl.
  - intros _ s Hs. by apply elem_of_nil in Hs.
  - rewrite foldl_app. simpl.
    destruct (decide
                (OpenMeteoWeatherDataLoader.date_of (WeatherStationDaySummary.date a)
                 = k)) as [Heq|Hne].
    + by rewrite Heq, lookup_insert_eq.
    + rewrite lookup_insert_ne by done. intros Hnone s Hs.
      apply elem_of_app in Hs as [Hs|Hs]; [by apply IH|].
      by apply list_elem_of_singleton in Hs as ->.
Qed.

(** X22. From the rows of a file to the daily reports.  When the
    loader builds the reports, there is one report for each day on which
    a reading was taken and no two reports for one day; the readings of
    a report are exactly the readings of its day, in the order of the
    file, so every reading is in exactly one report.  A report carries
    the date and the document of a summary row of that day, version 1,
    the station and the owner of the loader, and the last second of its
    day as [last_modified], which is not before any of its readings.
    The loader fails exactly when a reading falls on a day without a
    summary row. *)
Theorem daily_reports (self : OpenMeteoWeatherDataLoader.t)
    (location : Location.t) (latest_maintenance : option MaintenanceLogItem.t)
    (hourly : list WeatherStationReading.t)
    (daily : list WeatherStationDaySummary.t) :
  match OpenMeteoWeatherDataLoader.weather_reports self location
          latest_maintenance hourly daily with
  | Ok reports =>
      Forall (λ r,
        ∃ summary rs,
          summary ∈ daily
          ∧ WeatherReport.date r = WeatherStationDaySummary.date summary
          ∧ WeatherReport.day_summary r
            = Some (WeatherStationDaySummary.get_doc_for_weather_report summary)
          ∧ WeatherReport.readings r = Some rs
          ∧ rs = List.filter (same_day (WeatherReport.date r)) hourly
          ∧ rs ≠ []
          ∧ WeatherReport.last_modified r
            = DateHelper.get_end_of_day (WeatherReport.date r)
          ∧ Forall (λ x, WeatherStationReading.timestamp x
                         ≤ WeatherReport.last_modified r) rs
          ∧ WeatherReport.version r = 1
          ∧ WeatherReport.station r
            = Some (OpenMeteoWeatherDataLoader.weather_station_report self
                      location latest_maintenance)
          ∧ WeatherReport.owner r = Some (OpenMeteoWeatherDataLoader.owner self)
          ∧ WeatherReport.observations r = None) reports
      ∧ NoDup ((λ r, OpenMeteoWeatherDataLoader.date_of (WeatherReport.date r))
                 <$> reports)
      ∧ (∀ x, x ∈ hourly →
           ∃ r, r ∈ reports ∧ same_day (WeatherReport.date r) x = true)
  | Raise e =>
      e = AttributeError "date"
      ∧ ∃ x, x ∈ hourly
             ∧ ∀ s, s ∈ daily →
                 OpenMeteoWeatherDataLoader.date_of (WeatherStationDaySummary.date s)
                 ≠ OpenMeteoWeatherDataLoader.date_of
                     (WeatherStationReading.timestamp x)
  end.
Proof.
  unfold OpenMeteoWeatherDataLoader.weather_reports.
  destruct (daily_readings_groups hourly) as (Hnd & Hall & Hcov).
  set (m := OpenMeteoWeatherDataLoader.daily_readings hourly) in *.
  set (build := λ '(date, readings), _).
  destruct (result_mapM build m) as [reports|e] eqn:Hmap.
  - apply result_mapM_Forall2 in Hmap.
    assert (Hrep : Forall2 (λ kg r,
              ∃ summary,
                summary ∈ daily
                ∧ OpenMeteoWeatherDataLoader.date_of
                    (WeatherStationDaySummary.date summary) = kg.1
                ∧ r = WeatherReport.mk
                        (WeatherStationDaySummary.date summary)
                        (Location.to_geojson location)
                        (DateHelper.get_end_of_day
                           (WeatherStationDaySummary.date summary))
                        1
                        (Some (OpenMeteoWeatherDataLoader.weather_station_report
                                 self location latest_maintenance))
                        (Some (OpenMeteoWeatherDataLoader.owner self))
                        (Some kg.2) None
                        (Some (WeatherStationDaySummary.get_doc_for_weather_report
                                 summary))) m reports).
    { eapply Forall2_impl; [exact Hmap|]. intros [k g] r. unfold build.
      destruct (OpenMeteoWeatherDataLoader.summaries daily !! k) as [s|] eqn:Hs;
        [|done].
      intros [= <-]. apply summaries_lookup in Hs as [Hin Hk]. by exists s. }
    clear Hmap. split; [|split].
    + apply Forall_forall. intros r Hr.
      apply list_elem_of_lookup in Hr as [j Hj].
      destruct (Forall2_lookup_r _ _ _ _ _ Hrep Hj) as ([k g] & Hkg & s & Hs & Hk & ->).
      rewrite Forall_forall in Hall.
      destruct (Hall (k, g)) as [Hg Hne]; [by eapply list_elem_of_lookup_2|].
      simpl in *. exists s, g. repeat split; try done.
      * rewrite Hg. unfold same_day. by rewrite Hk.
      * rewrite Hg. apply Forall_forall. intros x Hx.
        rewrite list_elem_of_In in Hx. apply List.filter_In in Hx as [_ Hx].
        apply bool_decide_eq_true in Hx.
        unfold DateHelper.get_end_of_day, DateHelper.replace_time,
          OpenMeteoWeatherDataLoader.date_of in *.
        Z.div_mod_to_equations. lia.
    + assert (Hkeys : (λ r, OpenMeteoWeatherDataLoader.date_of (WeatherReport.date r))
                        <$> reports = m.*1).
      { clear Hnd Hall Hcov.
        induction Hrep as [|[k g] r m' reports' (s & _ & Hk & ->) _ IH]; [done|].
        rewrite !fmap_cons, IH. simpl. by rewrite Hk. }
      by rewrite Hkeys.
    + intros x Hx. specialize (Hcov x Hx).
      apply list_elem_of_fmap in Hcov as ([k g] & Hk & Hin). simpl in Hk.
      apply list_elem_of_lookup in Hin as [j Hj].
      destruct (Forall2_lookup_l _ _ _ _ _ Hrep Hj) as (r & Hr & s & Hs & Hsk & ->).
      eexists. split; [by eapply list_elem_of_lookup_2|].
      unfold same_day. simpl in *. apply bool_decide_eq_true. congruence.
  - apply result_mapM_raise in Hmap as ([k g] & Hin & Hb). unfold build in Hb.
    destruct (OpenMeteoWeatherDataLoader.summaries daily !! k) as [s|] eqn:Hs;
      [done|].
    injection Hb as <-. split; [done|].
    rewrite Forall_forall in Hall. destruct (Hall _ Hin) as [Hg Hne].
    simpl in *. destruct g as [|x g]; [done|]. exists x.
    assert (Hx : x ∈ List.filter
                   (λ x, bool_decide
                           (OpenMeteoWeatherDataLoader.date_of
                              (WeatherStationReading.timestamp x) = k)) hourly).
    { rewrite <-Hg. apply list_elem_of_here. }
    rewrite list_elem_of_In in Hx. apply List.filter_In in Hx as [Hx Hkx].
    apply bool_decide_eq_true in Hkx. split; [by apply list_elem_of_In|].
    rewrite Hkx. by apply summaries_lookup_None.
Qed.

(** The two Ipswich readings and the summary row of their day make the
    Ipswich report of the scenario data; without the row there is no
    report. *)
Example ipswich_reports :
  OpenMeteoWeatherDataLoader.weather_reports ipswich_loader
    (Location.mk 52.0597 1.1481) None ipswich_readings [ipswich_summary]
  = Ok [ipswich_report]
  ∧ OpenMeteoWeatherDataLoader.weather_reports ipswich_loader
      (Location.mk 52.0597 1.1481) None ipswich_readings []
    = Raise (AttributeError "date").
Proof. split; reflexivity. Qed.

(** ** Generated maintenance logs *)

Lemma randint_range (a b raw : Z) :
  a ≤ b → a ≤ RandomMaintenanceLogGenerator.randint a b raw ≤ b.
Proof.
  intros Hab. unfold RandomMaintenanceLogGenerator.randint.
  pose proof (Z.mod_pos_bound raw (b - a + 1)). lia.
Qed.

Lemma choice_elem {A} (l : list A) (raw : nat) :
  l ≠ [] → ∃ x, RandomMaintenanceLogGenerator.choice l raw = Some x ∧ x ∈ l.
Proof.
  intros Hl. unfold RandomMaintenanceLogGenerator.choice.
  destruct (lookup_lt_is_Some_2 l (raw mod length l)) as [x Hx].
  - apply Nat.mod_upper_bound. by destruct l.
  - exists x. split; [done|]. by eapply list_elem_of_lookup_2.
Qed.

Lemma loop_spec (rnd : nat → RandomMaintenanceLogGenerator.draw)
    (station_id : string) (technicians : list Technician.t)
    (end_date : datetime) (fuel : nat) :
  technicians ≠ [] →
  ∀ (i : nat) (current_date : datetime) (acc : list MaintenanceLogItem.t),
    (current_date ≤ end_date →
     (Z.to_nat ((end_date - current_date) / (5 * 86400)) + 1 ≤ fuel)%nat) →
    ∃ new,
      RandomMaintenanceLogGenerator.loop fuel rnd i station_id technicians
        current_date end_date acc = RandomMaintenanceLogGenerator.Done (acc ++ new)
      ∧ (current_date ≤ end_date →
         ∃ item rest, new = item :: rest ∧ log_day item = current_date / 86400)
      ∧ (end_date < current_date → new = [])
      ∧ Sorted (λ a b, 5 ≤ log_day b - log_day a ≤ 10) new
      ∧ Forall (generated_log station_id technicians current_date end_date) new.
Proof.
  intros Htech. induction fuel as [|fuel IH]; intros i cur acc Hfuel.
  - destruct (decide (cur ≤ end_date)) as [Hle|Hgt]; [specialize (Hfuel Hle); lia|].
    exists []. simpl. rewrite decide_False by done. rewrite app_nil_r.
    repeat split; first [done|constructor|intros; lia].
  - cbn [RandomMaintenanceLogGenerator.loop].
    destruct (decide (cur ≤ end_date)) as [Hle|Hgt].
    2:{ exists []. rewrite app_nil_r.
        repeat split; first [done|constructor|intros; lia]. }
    destruct (choice_elem technicians
                (RandomMaintenanceLogGenerator.tech_draw (rnd i)) Htech)
      as (tech & -> & Htin).
    destruct (choice_elem RandomMaintenanceLogGenerator.reports
                (RandomMaintenanceLogGenerator.report_draw (rnd i)))
      as (report & -> & Hrin); [done|].
    cbv zeta.
    pose proof (randint_range 9 16
                  (RandomMaintenanceLogGenerator.hour_draw (rnd i))) as Hh.
    pose proof (randint_range 0 59
                  (RandomMaintenanceLogGenerator.minute_draw (rnd i))) as Hm.
    pose proof (randint_range 5 10
                  (RandomMaintenanceLogGenerator.days_draw (rnd i))) as Hg.
    set (hour := RandomMaintenanceLogGenerator.randint 9 16 _) in *.
    set (minute := RandomMaintenanceLogGenerator.randint 0 59 _) in *.
    set (gap := RandomMaintenanceLogGenerator.randint 5 10 _) in *.
    set (item := MaintenanceLogItem.mk _ _ _ _).
    assert (Hday : log_day item = cur / 86400).
    { unfold log_day, item. simpl. Z.div_mod_to_equations. lia. }
    assert (Htime : 9 * 3600 ≤ MaintenanceLogItem.timestamp item mod 86400
                    < 17 * 3600).
    { unfold item. simpl. Z.div_mod_to_equations. lia. }
    destruct (IH (S i) (cur + gap * 86400) (acc ++ [item]))
      as (new & Hrun & Hhead & Hnil & Hsorted & Hall).
    { intros Hle'. specialize (Hfuel Hle).
      assert ((end_date - (cur + gap * 86400)) / (5 * 86400)
              ≤ (end_date - cur) / (5 * 86400) - 1)
        by (Z.div_mod_to_equations; lia).
      assert (0 ≤ (end_date - (cur + gap * 86400)) / (5 * 86400))
        by (Z.div_mod_to_equations; lia).
      lia. }
    exists (item :: new). rewrite Hrun, <-app_assoc. split; [done|].
    split; [by eauto|]. split; [lia|]. split.
    + constructor; [done|].
      destruct (decide (cur + gap * 86400 ≤ end_date)) as [Hle'|Hgt'].
      * destruct (Hhead Hle') as (item' & rest & -> & Hday').
        constructor. rewrite Hday, Hday'. Z.div_mod_to_equations. lia.
      * rewrite Hnil by lia. constructor.
    + constructor.
      * unfold generated_log. split; [done|]. split; [by exists tech|].
        split; [done|]. split; [done|]. rewrite Hday.
        Z.div_mod_to_equations. lia.
      * eapply Forall_impl; [exact Hall|]. intros x (H1 & H2 & H3 & H4 & H5).
        unfold generated_log. repeat split; try done; try lia.
        revert H5. Z.div_mod_to_equations. lia.
Qed.

Lemma sorted_last_latest (logs : list MaintenanceLogItem.t)
    (latest : MaintenanceLogItem.t) :
  Sorted (λ a b, 5 ≤ log_day b - log_day a ≤ 10) logs →
  last logs = Some latest →
  Forall (λ other, other = latest
                   ∨ MaintenanceLogItem.timestamp other
                     < MaintenanceLogItem.timestamp latest) logs.
Proof.
  intros Hs Hlast.
  assert (Hs' : StronglySorted (λ a b, log_day a < log_day b) logs).
  { apply Sorted_StronglySorted.
    - intros a b c. lia.
    - clear Hlast. induction Hs as [|a l Hl IH Ha]; constructor; [done|].
      destruct Ha as [|b l' Hab]; constructor. lia. }
  clear Hs. induction Hs' as [|a l Hl IH Ha]; [done|].
  destruct l as [|b l].
  - injection Hlast as <-. constructor; [by left|constructor].
  - specialize (IH Hlast). constructor; [|done]. right.
    assert (Hin : latest ∈ b :: l) by by apply last_Some_elem_of.
    rewrite Forall_forall in Ha. specialize (Ha _ Hin).
    unfold log_day in Ha. Z.div_mod_to_equations. lia.
Qed.

(** X23. The generated maintenance logs.  With technicians to
    choose from and one pass of fuel for every five days of the period,
    [generate_maintenance_logs] ends, whatever the random draws.  There
    is a log on the start day when the period is not empty (so the
    loader's [latest_maintenance], the last log, exists) and none
    otherwise; consecutive logs are five to ten days apart, every log is
    of the station, by one of the technicians, with a report of the pool
    and a time between 09:00 and 16:59 on a day of the period; and the
    last log is the most recent one. *)
Theorem maintenance_logs_spec (rnd : nat → RandomMaintenanceLogGenerator.draw)
    (station_id : string) (technicians : list Technician.t)
    (start_date end_date : datetime) (fuel : nat) :
  technicians ≠ [] →
  (Z.to_nat ((end_date - start_date) / (5 * 86400)) + 1 ≤ fuel)%nat →
  ∃ logs,
    RandomMaintenanceLogGenerator.generate_maintenance_logs fuel rnd station_id
      technicians start_date end_date = RandomMaintenanceLogGenerator.Done logs
    ∧ (start_date ≤ end_date →
       ∃ first rest, logs = first :: rest ∧ log_day first = start_date / 86400)
    ∧ (end_date < start_date → logs = [])
    ∧ Sorted (λ a b, 5 ≤ log_day b - log_day a ≤ 10) logs
    ∧ Forall (generated_log station_id technicians start_date end_date) logs
    ∧ (∀ latest, last logs = Some latest →
         Forall (λ other, other = latest
                          ∨ MaintenanceLogItem.timestamp other
                            < MaintenanceLogItem.timestamp latest) logs).
Proof.
  intros Htech Hfuel.
  destruct (loop_spec rnd station_id technicians end_date fuel Htech 0%nat
              start_date []) as (logs & Hrun & Hhead & Hnil & Hs & Hall);
    [done|].
  exists logs. split; [exact Hrun|]. split; [done|]. split; [done|].
  split; [done|]. split; [done|].
  intros latest. by apply sorted_last_latest.
Qed.

Lemma maintenance_logs_spec_witness :
  ∃ logs,
    RandomMaintenanceLogGenerator.generate_maintenance_logs 200 lowest_draws
      "WS-GLA001" glasgow_technicians (mk_datetime 2023 1 1 0 0)
      (mk_datetime 2025 4 9 0 0) = RandomMaintenanceLogGenerator.Done logs
    ∧ (mk_datetime 2023 1 1 0 0 ≤ mk_datetime 2025 4 9 0 0 →
       ∃ first rest, logs = first :: rest
                     ∧ log_day first = mk_datetime 2023 1 1 0 0 / 86400)
    ∧ (mk_datetime 2025 4 9 0 0 < mk_datetime 2023 1 1 0 0 → logs = [])
    ∧ Sorted (λ a b, 5 ≤ log_day b - log_day a ≤ 10) logs
    ∧ Forall (generated_log "WS-GLA001" glasgow_technicians
                (mk_datetime 2023 1 1 0 0) (mk_datetime 2025 4 9 0 0)) logs
    ∧ (∀ latest, last logs = Some latest →
         Forall (λ other, other = latest
                          ∨ MaintenanceLogItem.timestamp other
                            < MaintenanceLogItem.timestamp latest) logs).
Proof.
  apply (maintenance_logs_spec lowest_draws "WS-GLA001" glasgow_technicians
           (mk_datetime 2023 1 1 0 0) (mk_datetime 2025 4 9 0 0) 200).
  - discriminate.
  - vm_compute. lia.
Defined.

(** ** Pages: bounds and positions *)


(** ** The top five users of storage *)

Lemma group_insert_keys `{EqDecision K} (k0 : K) (d : doc)
    (gs : list (K * list doc)) :
  (group_insert k0 d gs).*1 = if decide (k0 ∈ gs.*1) then gs.*1 else gs.*1 ++ [k0].
Proof.
  induction gs as [|[k g] gs IH].
  - destruct (decide (k0 ∈ ([] : list (K * list doc)).*1)) as [Hin|Hout]; [|done].
    by apply elem_of_nil in Hin.
  - cbn [group_insert].
    destruct (decide (k0 = k)) as [->|Hne].
    + destruct (decide (k ∈ ((k, g) :: gs).*1)) as [Hin|Hout]; [done|].
      exfalso. apply Hout. rewrite fmap_cons. apply list_elem_of_here.
    + rewrite !fmap_cons, IH. cbn [fst].
      destruct (decide (k0 ∈ gs.*1)) as [Hin|Hout];
        destruct (decide (k0 ∈ k :: gs.*1)) as [Hin'|Hout']; try done.
      * exfalso. apply Hout'. by apply list_elem_of_further.
      * apply elem_of_cons in Hin' as [?|?]; done.
Qed.

Lemma group_insert_groups `{EqDecision K} (key : doc → K) (l : list doc)
    (a : doc) (gs : list (K * list doc)) :
  NoDup gs.*1 →
  Forall (λ kg, kg.2 = List.filter (λ x, bool_decide (key x = kg.1)) l
                ∧ kg.2 ≠ []) gs →
  (key a ∉ gs.*1 → List.filter (λ x, bool_decide (key x = key a)) l = []) →
  Forall (λ kg, kg.2 = List.filter (λ x, bool_decide (key x = kg.1)) (l ++ [a])
                ∧ kg.2 ≠ [])
    (group_insert (key a) a gs).
Proof.
  induction gs as [|[k g] gs IH]; intros Hnd Hall Hnew; simpl.
  - constructor; [|constructor]. simpl. split; [|done].
    rewrite filter_snoc, Hnew by apply not_elem_of_nil.
    by rewrite bool_decide_eq_true_2.
  - apply NoDup_cons in Hnd as [Hk Hnd].
    apply Forall_cons in Hall as [[Hg Hne] Hall]. simpl in *.
    destruct (decide (key a = k)) as [Heq|Hneq].
    + constructor; simpl.
      * split; [|by destruct g]. rewrite filter_snoc, <-Hg.
        by rewrite bool_decide_eq_true_2.
      * apply Forall_forall. intros [k' g'] Hin.
        rewrite Forall_forall in Hall. destruct (Hall _ Hin) as [Hg' Hne'].
        simpl in *. split; [|done]. rewrite filter_snoc, <-Hg'.
        rewrite bool_decide_eq_false_2; [by rewrite app_nil_r|].
        intros Hk'. apply Hk. rewrite <-Heq, Hk'.
        apply list_elem_of_fmap. by exists (k', g').
    + constructor; simpl.
      * split; [|done]. rewrite filter_snoc, <-Hg.
        rewrite bool_decide_eq_false_2 by done. by rewrite app_nil_r.
      * apply IH; [done..|]. intros Hout. apply Hnew.
        rewrite not_elem_of_cons. done.
Qed.

(** [$group]: one group for each key that occurs, with the documents
    of that key in the order of the input. *)
Lemma group_by_groups `{EqDecision K} (key : doc → K) (ds : list doc) :
  NoDup (group_by key ds).*1
  ∧ Forall (λ kg, kg.2 = List.filter (λ x, bool_decide (key x = kg.1)) ds
                  ∧ kg.2 ≠ []) (group_by key ds)
  ∧ ∀ k, k ∈ (group_by key ds).*1 ↔ ∃ d, d ∈ ds ∧ key d = k.
Proof.
  unfold group_by. induction ds as [|a l IH] using rev_ind; simpl.
  - split; [constructor|]. split; [constructor|].
    intros k. split.
    + intros Hk. by apply elem_of_nil in Hk.
    + intros (d & Hd & _). by apply elem_of_nil in Hd.
  - rewrite foldl_app. simpl. destruct IH as (Hnd & Hall & Hcov).
    set (gs := foldl _ [] l) in *.
    assert (Hnew : key a ∉ gs.*1 →
                   List.filter (λ x, bool_decide (key x = key a)) l = []).
    { intros Hout. apply filter_nil_iff. intros x Hx.
      apply bool_decide_eq_false. intros Heq. apply Hout. apply Hcov. eauto. }
    split; [|split].
    + rewrite group_insert_keys. destruct (decide (key a ∈ gs.*1)); [done|].
      apply NoDup_app. split; [done|]. split; [|apply NoDup_singleton].
      intros k Hk Hk'. apply list_elem_of_singleton in Hk'. by subst.
    + by apply group_insert_groups.
    + intros k. rewrite group_insert_keys. split.
      * intros Hk. destruct (decide (key a ∈ gs.*1)).
        -- apply Hcov in Hk as (d & Hd & Hkd). exists d.
           split; [|done]. apply elem_of_app. by left.
        -- apply elem_of_app in Hk as [Hk|Hk].
           ++ apply Hcov in Hk as (d & Hd & Hkd). exists d.
              split; [|done]. apply elem_of_app. by left.
           ++ apply list_elem_of_singleton in Hk as ->. exists a.
              split; [|done]. apply elem_of_app. right. apply list_elem_of_here.
      * intros (d & Hd & <-). apply elem_of_app in Hd as [Hd|Hd].
        -- assert (key d ∈ gs.*1) by (apply Hcov; eauto).
           destruct (decide (key a ∈ gs.*1)); [done|].
           apply elem_of_app. by left.
        -- apply list_elem_of_singleton in Hd as ->.
           destruct (decide (key a ∈ gs.*1)); [done|].
           apply elem_of_app. right. apply list_elem_of_here.
Qed.

(** [$sum] adds the numbers of the field and skips everything else. *)
Lemma sum_step_any (vs : list value) (acc : value) (a : Q) :
  as_num acc = Some a →
  ∃ s, as_num (foldl sum_step acc vs) = Some s
       ∧ (s == a + Qsum (omap as_num vs))%Q.
Proof.
  revert acc a. induction vs as [|v vs IH]; intros acc a Ha.
  - exists a. split; [done|]. simpl. rewrite Qplus_0_r. reflexivity.
  - cbn [foldl]. destruct (as_num v) as [q|] eqn:Hv.
    + destruct (sum_step_num acc v a q Ha Hv) as (s0 & Hs0 & Heq0).
      destruct (IH _ _ Hs0) as (s & Hs & Heq). exists s. split; [done|].
      rewrite (omap_cons_Some _ v vs q Hv). cbn [Qsum foldr].
      fold (Qsum (omap as_num vs)). rewrite Heq, Heq0. ring.
    + assert (Hskip : sum_step acc v = acc).
      { unfold sum_step. rewrite Ha, Hv.
        destruct acc; try done; destruct v; try done. }
      rewrite Hskip. cbn [omap list_omap]. rewrite Hv. by apply IH.
Qed.

Lemma omap_omap {A B C} (f : A → option B) (g : B → option C) (l : list A) :
  omap g (omap f l) = omap (λ a, f a ≫= g) l.
Proof.
  induction l as [|a l IH]; [done|]. cbn [omap list_omap].
  destruct (f a) as [b|]; cbn [omap list_omap mbind option_bind]; [|done].
  destruct (g b); by rewrite IH.
Qed.

Lemma project_storage_group (k : option string) (g : list doc) :
  ∃ q : Q,
    (q == Qsum (numeric_values ["total_storage_bytes"] g))%Q
    ∧ CRUD_tests.project_storage
        (group_doc [("total_bytes", AccSum ["total_storage_bytes"])] (k, g))
      = Ok (dict [
          ("owner_id", id_value k);
          ("total_storage_MB", VNum (round_places 2 (q / inject_Z (1024 * 1024))))
        ]).
Proof.
  destruct (sum_step_any (omap (get_field ["total_storage_bytes"]) g) (VInt 0) 0
              eq_refl) as (s & Hs & Heq).
  exists s. split.
  { rewrite Heq, omap_omap, Qplus_0_l. reflexivity. }
  unfold CRUD_tests.project_storage, group_doc. simpl.
  rewrite (lookup_insert_ne _ "_id" "total_bytes") by done.
  rewrite !lookup_insert_eq. unfold expr_divide.
  destruct (foldl sum_step (VInt 0) (omap (get_field ["total_storage_bytes"]) g))
    as [|z|q| | | | | |] eqn:Hsum; try done; simpl in Hs; injection Hs as <-;
    step_result; simpl; unfold dict; simpl; by rewrite insert_insert_ne.
Qed.

(** X25. The top five users of storage.  The pipeline always
    succeeds.  Its result is the first five entries of a ranking that
    has exactly one entry for each owner id of the storage report (rows
    without one count as one owner, null): the entry holds the owner id
    and the sum of the bytes of the owner's rows in megabytes, rounded
    to two places, and nothing else.  The ranking is ordered by that
    figure, largest first, so the result has at most five entries and
    no owner left out has a larger figure than a listed one. *)
Theorem top_five_users_of_storage (storage_report : list doc) :
  ∃ (owners : list (option string)) (entries ranking : list doc),
    CRUD_tests.get_top_five_users_of_storage storage_report
    = Ok (take 5 ranking)
    ∧ NoDup owners
    ∧ (∀ o, o ∈ owners
            ↔ ∃ d, d ∈ storage_report ∧ CRUD_tests.owner_id_key d = o)
    ∧ Forall2 (storage_entry storage_report) owners entries
    ∧ ranking ≡ₚ entries
    ∧ StronglySorted (key_ge ["total_storage_MB"]) ranking
    ∧ (length (take 5 ranking) ≤ 5)%nat
    ∧ (∀ listed omitted,
         listed ∈ take 5 ranking → omitted ∈ drop 5 ranking →
         bson_le (get_field ["total_storage_MB"] omitted)
           (get_field ["total_storage_MB"] listed) = true).
Proof.
  unfold CRUD_tests.get_top_five_users_of_storage, stage_group.
  destruct (group_by_groups CRUD_tests.owner_id_key storage_report)
    as (Hnd & Hall & Hcov).
  set (gs := group_by CRUD_tests.owner_id_key storage_report) in *.
  assert (Hent : ∃ entries,
    result_mapM CRUD_tests.project_storage
      (group_doc [("total_bytes", AccSum ["total_storage_bytes"])] <$> gs)
    = Ok entries
    ∧ Forall2 (storage_entry storage_report) gs.*1 entries).
  { clear Hnd Hcov. induction gs as [|[k g] gs IH].
    - exists []. split; [done|constructor].
    - apply Forall_cons in Hall as [[Hg _] Hall]. simpl in Hg.
      destruct (IH Hall) as (entries & Hmap & Hf2).
      destruct (project_storage_group k g) as (q & Hq & Hp).
      eexists (_ :: entries). rewrite !fmap_cons. cbn [result_mapM].
      rewrite Hp, Hmap. step_result. split; [reflexivity|].
      constructor; [|done]. exists q. split; [|done]. simpl. by rewrite <-Hg. }
  destruct Hent as (entries & -> & Hf2). step_result.
  exists gs.*1, entries, (stage_sort_desc ["total_storage_MB"] entries).
  assert (Hsorted : StronglySorted (key_ge ["total_storage_MB"])
                      (stage_sort_desc ["total_storage_MB"] entries)).
  { apply (@StronglySorted_merge_sort _ (key_ge ["total_storage_MB"]) _
             (key_ge_trans _) (key_ge_total _)). }
  split; [unfold stage_limit; by rewrite decide_True by lia|].
  split; [done|]. split; [done|]. split; [done|].
  split; [apply merge_sort_Permutation|]. split; [done|].
  split; [rewrite length_take; lia|].
  intros listed omitted Hl Ho.
  rewrite <-(take_drop 5 (stage_sort_desc ["total_storage_MB"] entries))
    in Hsorted.
  pose proof (StronglySorted_app_1_elem_of _ _ _ _ _ Hsorted Hl Ho) as Hge.
  unfold key_ge in Hge. by apply Is_true_true.
Qed.

Example storage_ranking :
  List.map (λ d : doc, (d !! "owner_id", d !! "total_storage_MB"))
    <$> CRUD_tests.get_top_five_users_of_storage storage_rows
  = Ok [(Some (VStr "metoff1"), Some (VNum (550 # 100)));
        (Some (VStr "heathAir"), Some (VNum (150 # 100)))].
Proof. vm_compute. reflexivity. Qed.

(** ** The cooler afternoons report *)

Lemma result_filter_app {A} (f : A → result bool) (a b : list A) (l : list A) :
  result_filter f (a ++ b) = Ok l →
  ∃ xs ys, result_filter f a = Ok xs ∧ result_filter f b = Ok ys ∧ l = xs ++ ys.
Proof.
  revert l. induction a as [|x a IH]; intros l; simpl.
  - intros Hb. by exists [], l.
  - destruct (f x) as [c|]; [|done]. step_result.
    destruct (result_filter f (a ++ b)) as [l'|] eqn:Hab; [|done]. step_result.
    intros [= <-]. destruct (IH l' eq_refl) as (xs & ys & -> & -> & ->).
    step_result. destruct c; by eexists _, _.
Qed.

Lemma result_filter_elem {A} (f : A → result bool) (l l' : list A) (x : A) :
  result_filter f l = Ok l' → x ∈ l' → x ∈ l ∧ f x = Ok true.
Proof.
  revert l'. induction l as [|a l IH]; intros l'; simpl.
  - intros [= <-] Hx. by apply elem_of_nil in Hx.
  - destruct (f a) as [c|] eqn:Hfa; [|done]. step_result.
    destruct (result_filter f l) as [ys|]; [|done]. step_result.
    intros [= <-] Hx. destruct c.
    + apply elem_of_cons in Hx as [->|Hx].
      * split; [apply list_elem_of_here|done].
      * destruct (IH ys eq_refl Hx). split; [by apply list_elem_of_further|done].
    + destruct (IH ys eq_refl Hx). split; [by apply list_elem_of_further|done].
Qed.

Lemma result_mapM_app {A B} (f : A → result B) (a b : list A) (l : list B) :
  result_mapM f (a ++ b) = Ok l →
  ∃ xs ys, result_mapM f a = Ok xs ∧ result_mapM f b = Ok ys ∧ l = xs ++ ys.
Proof.
  revert l. induction a as [|x a IH]; intros l; simpl.
  - intros Hb. by exists [], l.
  - destruct (f x) as [y|]; [|done]. step_result.
    destruct (result_mapM f (a ++ b)) as [l'|] eqn:Hab; [|done]. step_result.
    intros [= <-]. destruct (IH l' eq_refl) as (xs & ys & -> & -> & ->).
    step_result. by eexists _, _.
Qed.

Lemma result_mapM_elem {A B} (f : A → result B) (l : list A) (l' : list B)
    (y : B) :
  result_mapM f l = Ok l' → y ∈ l' → ∃ x, x ∈ l ∧ f x = Ok y.
Proof.
  intros Hf%result_mapM_Forall2 Hy.
  apply list_elem_of_lookup in Hy as [i Hi].
  destruct (Forall2_lookup_r _ _ _ _ _ Hf Hi) as (x & Hx & Hfx).
  exists x. split; [by eapply list_elem_of_lookup_2|done].
Qed.

(** The first four stages work report by report. *)
Lemma readings_at_9_or_15_app (station_id : string) (year : Z)
    (a b l : list doc) :
  test_read_queries.readings_at_9_or_15 station_id year (a ++ b) = Ok l →
  ∃ xs ys,
    test_read_queries.readings_at_9_or_15 station_id year a = Ok xs
    ∧ test_read_queries.readings_at_9_or_15 station_id year b = Ok ys
    ∧ l = xs ++ ys.
Proof.
  unfold test_read_queries.readings_at_9_or_15.
  destruct (result_filter _ (a ++ b)) as [l1|] eqn:H1; [|done]. step_result.
  apply result_filter_app in H1 as (xs1 & ys1 & -> & -> & ->). step_result.
  unfold stage_unwind. rewrite bind_app.
  destruct (result_mapM _ (_ ++ _)) as [l2|] eqn:H2; [|done]. step_result.
  apply result_mapM_app in H2 as (xs2 & ys2 & -> & -> & ->). step_result.
  intros [= <-]. eexists _, _. split; [done|]. split; [done|].
  unfold stage_match. by rewrite List.filter_app.
Qed.

(** Every reading that they keep is of a report of the station, and
    has the date of that report. *)
Lemma readings_at_9_or_15_elem (station_id : string) (year : Z)
    (reports l : list doc) (x : doc) :
  test_read_queries.readings_at_9_or_15 station_id year reports = Ok l →
  x ∈ l →
  ∃ r, r ∈ reports
       ∧ query_eq_str ["station"; "station_id"] station_id r = true
       ∧ x !! "date" = r !! "date".
Proof.
  unfold test_read_queries.readings_at_9_or_15.
  destruct (result_filter _ reports) as [l1|] eqn:H1; [|done]. step_result.
  destruct (result_mapM _ _) as [l2|] eqn:H2; [|done]. step_result.
  intros [= <-] Hx. apply elem_of_stage_match in Hx as [Hx _].
  destruct (result_mapM_elem _ _ _ _ H2 Hx) as (u & Hu & Hadd).
  unfold stage_unwind in Hu. apply list_elem_of_bind in Hu as (r & Hu & Hr).
  destruct (result_filter_elem _ _ _ _ H1 Hr) as [Hin Hyear].
  exists r. split; [done|]. split.
  - unfold test_read_queries.in_year in Hyear.
    destruct (expr_year _) as [y|]; [|done]. injection Hyear as Hyear.
    by apply andb_true_iff in Hyear as [? _].
  - unfold test_read_queries.add_reading_hour in Hadd.
    destruct (expr_hour _) as [h|]; [|done]. injection Hadd as <-.
    rewrite lookup_insert_ne by done.
    unfold unwind_doc in Hu. destruct (r !! "readings") as [[]|]; simpl in Hu;
      try (by apply elem_of_nil in Hu);
      try (by apply list_elem_of_singleton in Hu as ->).
    apply list_elem_of_fmap in Hu as (v & -> & _).
    by rewrite lookup_insert_ne.
Qed.

Lemma expr_eq_int_int (a b : Z) :
  expr_eq_int (Some (VInt a)) b = bool_decide (a = b).
Proof.
  unfold expr_eq_int. simpl.
  destruct (Qeq_bool (inject_Z a) (inject_Z b)) eqn:E.
  - apply Qeq_bool_iff in E. symmetry. apply bool_decide_eq_true.
    unfold Qeq in E. simpl in E. lia.
  - symmetry. apply bool_decide_eq_false. intros ->.
    assert (Qeq_bool (inject_Z b) (inject_Z b) = true) as Ht
      by (apply Qeq_bool_iff; reflexivity).
    congruence.
Qed.

Lemma fold_vmax_largest (q : Q) (qs : list Q) :
  ∃ m, foldl vmax (VNum q) (VNum <$> qs) = VNum m ∧ is_largest m (q :: qs).
Proof.
  revert q. induction qs as [|q' qs IH]; intros q.
  - exists q. split; [done|]. split; [apply list_elem_of_here|].
    constructor; [apply Qle_refl|constructor].
  - rewrite fmap_cons. cbn [foldl]. unfold vmax at 2.
    rewrite (bson_le_num (VNum q') (VNum q) q' q) by done.
    destruct (Qle_bool q' q) eqn:Hle.
    + destruct (IH q) as (m & Hm & Hin & Hall). exists m. split; [done|].
      apply Forall_cons in Hall as [Hmq Hall]. split.
      * apply elem_of_cons in Hin as [->|Hin]; [apply list_elem_of_here|].
        by do 2 apply list_elem_of_further.
      * repeat apply Forall_cons_2; try done.
        apply Qle_bool_iff in Hle. by eapply Qle_trans.
    + destruct (IH q') as (m & Hm & Hin & Hall). exists m. split; [done|].
      apply Forall_cons in Hall as [Hmq Hall]. split.
      * by apply list_elem_of_further.
      * repeat apply Forall_cons_2; try done.
        apply Qle_bool_false in Hle. eapply Qle_trans; [|done].
        by apply Qlt_le_weak.
Qed.

Lemma result_mapM_cons {A B} (f : A → result B) (x : A) (l : list A)
    (y : B) (ys : list B) :
  f x = Ok y → result_mapM f l = Ok ys → result_mapM f (x :: l) = Ok (y :: ys).
Proof. intros Hx Hl. simpl. by rewrite Hx, Hl. Qed.

(** The readings that the first four stages keep of one report: they
    carry the date of the report, and at each of the two hours the
    temperatures that the report has at that hour. *)
Lemma hours_of_report (x : doc) (rs : list value) :
  Forall timed_reading rs →
  ∃ rows,
    result_mapM test_read_queries.add_reading_hour
      ((λ r, <["readings" := r]> x) <$> rs) = Ok rows
    ∧ Forall (λ u, u !! "date" = x !! "date"
                   ∧ u !! "station" = x !! "station")
        (stage_match test_read_queries.at_9_or_15 rows)
    ∧ omap (test_read_queries.temp_at 9)
        (stage_match test_read_queries.at_9_or_15 rows)
      = VNum <$> temps_at 9 rs
    ∧ omap (test_read_queries.temp_at 15)
        (stage_match test_read_queries.at_9_or_15 rows)
      = VNum <$> temps_at 15 rs
    ∧ length (stage_match test_read_queries.at_9_or_15 rows)
      = (length (temps_at 9 rs) + length (temps_at 15 rs))%nat.
Proof.
  induction 1
    as [|r rs (ts & temp & Hts & Htemp) _ (rows & Hrows & Hd & H9 & H15 & Hlen)].
  - exists []. by repeat split.
  - set (h := ts mod 86400 / 3600).
    set (u := <["reading_hour" := VInt h]> (<["readings" := r]> x)).
    exists (u :: rows). split.
    { rewrite fmap_cons. apply result_mapM_cons; [|done].
      unfold test_read_queries.add_reading_hour.
      assert (get_field ["readings"; "timestamp"] (<["readings" := r]> x)
              = Some (VDate ts)) as ->; [|done].
      unfold get_field. simpl. rewrite lookup_insert_eq. simpl.
      simpl in Hts. exact Hts. }
    assert (get_field ["readings"; "temp"] u = Some (VNum temp)) as Hut.
    { unfold get_field, u. simpl.
      rewrite lookup_insert_ne, lookup_insert_eq by done. simpl.
      simpl in Htemp. exact Htemp. }
    assert (∀ c, test_read_queries.temp_at c u
                 = if bool_decide (h = c) then Some (VNum temp) else None)
      as Hat.
    { intros c. unfold test_read_queries.temp_at, present_value.
      rewrite Hut. unfold u at 1. rewrite lookup_insert_eq.
      by rewrite expr_eq_int_int. }
    assert (∀ c, (if bool_decide (reading_hour r = Some c)
                  then get_path ["temp"] r ≫= as_num else None)
                 = if bool_decide (h = c) then Some temp else None) as Hr.
    { intros c. unfold reading_hour. rewrite Hts, Htemp. fold h.
      destruct (decide (h = c)) as [->|Hne].
      - by rewrite !bool_decide_eq_true_2.
      - rewrite !bool_decide_eq_false_2; [done..|]. by intros [= ?]. }
    unfold temps_at. cbn [omap list_omap]. rewrite !Hr.
    assert (test_read_queries.at_9_or_15 u
            = bool_decide (h = 9) || bool_decide (h = 15)) as Hflt.
    { unfold test_read_queries.at_9_or_15, u.
      by rewrite !lookup_insert_eq, !expr_eq_int_int. }
    unfold stage_match in *. cbn [List.filter]. rewrite Hflt.
    unfold temps_at in H9, H15.
    destruct (decide (h = 9)) as [E9|N9];
      [|destruct (decide (h = 15)) as [E15|N15]].
    + rewrite (bool_decide_eq_true_2 (h = 9)) by done.
      rewrite (bool_decide_eq_false_2 (h = 15)) by lia.
      cbn [orb omap list_omap]. rewrite !Hat.
      rewrite (bool_decide_eq_true_2 (h = 9)) by done.
      rewrite (bool_decide_eq_false_2 (h = 15)) by lia.
      rewrite fmap_cons, H9, H15. split; [|split; [done|split; [done|]]].
      * constructor; [|done]. unfold u. by rewrite !lookup_insert_ne by done.
      * cbn [length]. rewrite Hlen. unfold temps_at. lia.
    + rewrite (bool_decide_eq_false_2 (h = 9)) by done.
      rewrite (bool_decide_eq_true_2 (h = 15)) by done.
      cbn [orb omap list_omap]. rewrite !Hat.
      rewrite (bool_decide_eq_false_2 (h = 9)) by done.
      rewrite (bool_decide_eq_true_2 (h = 15)) by done.
      rewrite fmap_cons, H9, H15. split; [|split; [done|split; [done|]]].
      * constructor; [|done]. unfold u. by rewrite !lookup_insert_ne by done.
      * cbn [length]. rewrite Hlen. unfold temps_at. lia.
    + rewrite (bool_decide_eq_false_2 (h = 9)) by done.
      rewrite (bool_decide_eq_false_2 (h = 15)) by done.
      cbn [orb]. rewrite H9, H15, Hlen. by unfold temps_at.
Qed.

Lemma find_all_split `{Countable K} `{!IdKey K} (c : gmap K doc) (id : K)
    (d : doc) :
  c !! id = Some d →
  ∃ a b, find_all c = a ++ with_id (id, d) :: b
         ∧ ∀ r, r ∈ a ++ b →
             ∃ id' d', id' ≠ id ∧ c !! id' = Some d' ∧ r = with_id (id', d').
Proof.
  intros Hc. apply elem_of_map_to_list in Hc.
  apply list_elem_of_split in Hc as (a & b & Hab).
  exists (with_id <$> a), (with_id <$> b). split.
  - unfold find_all. by rewrite Hab, fmap_app, fmap_cons.
  - intros r Hr. rewrite <-fmap_app in Hr.
    apply list_elem_of_fmap in Hr as ([id' d'] & -> & Hin).
    exists id', d'. pose proof (NoDup_fst_map_to_list c) as Hnd.
    rewrite Hab, fmap_app, fmap_cons in Hnd.
    apply NoDup_app in Hnd as (_ & Hdisj & Hndb).
    apply NoDup_cons in Hndb as [Hnotin _]. split; [|split; [|done]].
    + intros ->. apply elem_of_app in Hin as [Hin|Hin].
      * apply (Hdisj id); [|apply list_elem_of_here].
        apply list_elem_of_fmap. by exists (id, d').
      * apply Hnotin. apply list_elem_of_fmap. by exists (id, d').
    + apply elem_of_map_to_list. rewrite Hab.
      apply elem_of_app in Hin as [Hin|Hin]; apply elem_of_app;
        [by left|right; by apply list_elem_of_further].
Qed.

Lemma filter_all {A} (f : A → bool) (l : list A) :
  Forall (λ x, f x = true) l → List.filter f l = l.
Proof.
  induction 1 as [|x l Hx _ IH]; [done|]. simpl. by rewrite Hx, IH.
Qed.

Lemma filter_none {A} (f : A → bool) (l : list A) :
  Forall (λ x, f x = false) l → List.filter f l = [].
Proof.
  induction 1 as [|x l Hx _ IH]; [done|]. simpl. by rewrite Hx, IH.
Qed.

Lemma result_mapM_elem_l {A B} (f : A → result B) (l : list A) (l' : list B)
    (x : A) :
  result_mapM f l = Ok l' → x ∈ l → ∃ y, y ∈ l' ∧ f x = Ok y.
Proof.
  intros Hf%result_mapM_Forall2 Hx.
  apply list_elem_of_lookup in Hx as [i Hi].
  destruct (Forall2_lookup_l _ _ _ _ _ Hf Hi) as (y & Hy & Hfx).
  exists y. split; [by eapply list_elem_of_lookup_2|done].
Qed.

Ltac split_binds H :=
  repeat match type of H with
         | (?x ≫= _) = Ok _ =>
             let E := fresh "E" in
             destruct x eqn:E; [|done]; cbn [mbind result_bind] in H
         end.

(** The [$addFields] stage keeps the fields of the group. *)
Lemma add_differences_frame (gd e : doc) (k : string) :
  test_read_queries.add_differences gd = Ok e →
  k ∉ ["temp_diff"; "temp_9am_f"; "temp_3pm_f"; "temp_diff_f"] →
  e !! k = gd !! k.
Proof.
  unfold test_read_queries.add_differences. intros Hadd Hk.
  split_binds Hadd. injection Hadd as <-.
  rewrite !lookup_insert_ne; [done|intros <-; apply Hk..].
  - do 0 apply list_elem_of_further. apply list_elem_of_here.
  - do 1 apply list_elem_of_further. apply list_elem_of_here.
  - do 2 apply list_elem_of_further. apply list_elem_of_here.
  - do 3 apply list_elem_of_further. apply list_elem_of_here.
Qed.

Lemma afternoon_group_lookup (k : option datetime) (g : list doc) :
  test_read_queries.afternoon_group (k, g) !! "_id" = Some (id_value k)
  ∧ test_read_queries.afternoon_group (k, g) !! "temp_9am"
    = Some (fold1 vmax (omap (test_read_queries.temp_at 9) g))
  ∧ test_read_queries.afternoon_group (k, g) !! "temp_3pm"
    = Some (fold1 vmax (omap (test_read_queries.temp_at 15) g)).
Proof. repeat split; reflexivity. Qed.

Lemma bson_lt_null (a : option value) : bson_lt a (Some VNull) = false.
Proof. by destruct a as [[]|]. Qed.

(** The documents of the day's group and what they give at the two
    hours; the entry of the day is made of them. *)
Lemma cooler_afternoons_group (db : database) (sid : string) (year : Z)
    (out : list doc) (id : ObjectId) (d : doc) (t : datetime)
    (rs : list value) :
  test_read_queries.create_cooler_afternoons_report db sid year = Ok out →
  weather_reports db !! id = Some d →
  get_field ["station"; "station_id"] d = Some (VStr sid) →
  d !! "date" = Some (VDate t) →
  (civil_from_days (t / 86400)).1.1 = year →
  d !! "readings" = Some (VArr rs) →
  Forall timed_reading rs →
  (∀ id' d', id' ≠ id → weather_reports db !! id' = Some d' →
     get_field ["station"; "station_id"] d' = Some (VStr sid) →
     d' !! "date" ≠ Some (VDate t)) →
  ∃ mid,
    omap (test_read_queries.temp_at 9) mid = VNum <$> temps_at 9 rs
    ∧ omap (test_read_queries.temp_at 15) mid = VNum <$> temps_at 15 rs
    ∧ length mid = (length (temps_at 9 rs) + length (temps_at 15 rs))%nat
    ∧ (∀ e, listed t e out →
         mid ≠ []
         ∧ test_read_queries.add_differences
             (test_read_queries.afternoon_group (Some t, mid)) = Ok e
         ∧ test_read_queries.cooler e = true)
    ∧ (mid ≠ [] →
       ∃ e, test_read_queries.add_differences
              (test_read_queries.afternoon_group (Some t, mid)) = Ok e
            ∧ e !! "_id" = Some (VDate t)
            ∧ (test_read_queries.cooler e = true → e ∈ out)).
Proof.
  intros Hout Hdb Hsid Hdate Hyear Hrs Htimed Huniq.
  unfold test_read_queries.create_cooler_afternoons_report in Hout.
  destruct (test_read_queries.readings_at_9_or_15 _ _ _) as [l|] eqn:Hl;
    [|done].
  cbn [mbind result_bind] in Hout.
  destruct (result_mapM _ _) as [es|] eqn:Hes; [|done].
  cbn [mbind result_bind] in Hout. injection Hout as <-.
  destruct (find_all_split _ id d Hdb) as (a & b & Hab & Hother).
  rewrite Hab in Hl.
  apply readings_at_9_or_15_app in Hl as (xs & l' & Hxs & Hl' & ->).
  change (with_id (id, d) :: b) with ([with_id (id, d)] ++ b) in Hl'.
  apply readings_at_9_or_15_app in Hl' as (mid & ys & Hmid & Hys & ->).
  assert (∀ l0 zs, test_read_queries.readings_at_9_or_15 sid year l0 = Ok zs →
            (∀ r, r ∈ l0 → r ∈ a ++ b) →
            Forall (λ u, bool_decide (test_read_queries.date_key u = Some t)
                         = false) zs) as Hrest.
  { intros l0 zs Hzs Hsub. apply Forall_forall. intros u Hu.
    destruct (readings_at_9_or_15_elem _ _ _ _ _ Hzs Hu) as (r & Hr & Hq & Hd).
    destruct (Hother r (Hsub r Hr)) as (id' & d' & Hne & Hdb' & ->).
    apply bool_decide_eq_false. unfold test_read_queries.date_key.
    rewrite Hd, with_id_lookup by done. cbn [snd]. intros Heq.
    apply (Huniq id' d' Hne Hdb').
    - unfold query_eq_str in Hq. rewrite with_id_get_field in Hq by done.
      cbn [snd] in Hq. destruct (get_field _ d') as [[]|]; try done.
      by apply bool_decide_eq_true in Hq as ->.
    - destruct (d' !! "date") as [[]|]; try done. congruence. }
  assert (Hxsd := Hrest a xs Hxs ltac:(intros r Hr; apply elem_of_app; by left)).
  assert (Hysd := Hrest b ys Hys ltac:(intros r Hr; apply elem_of_app; by right)).
  clear Hrest.
  destruct (hours_of_report (with_id (id, d)) rs Htimed)
    as (rows & Hrows & Hd & H9 & H15 & Hlen).
  assert (mid = stage_match test_read_queries.at_9_or_15 rows) as ->.
  { unfold test_read_queries.readings_at_9_or_15 in Hmid.
    cbn [result_filter] in Hmid. unfold test_read_queries.in_year in Hmid.
    rewrite with_id_lookup in Hmid by done. cbn [snd] in Hmid.
    rewrite Hdate in Hmid. cbn [expr_year mbind result_bind] in Hmid.
    rewrite Hyear, expr_eq_int_int, bool_decide_eq_true_2 in Hmid by done.
    unfold query_eq_str in Hmid. rewrite with_id_get_field in Hmid by done.
    cbn [snd] in Hmid. rewrite Hsid, bool_decide_eq_true_2 in Hmid by done.
    cbn [andb mbind result_bind mret result_ret] in Hmid.
    rewrite (unwind_array _ _ rs) in Hmid
      by (by rewrite with_id_lookup by done).
    rewrite Hrows in Hmid. cbn [mbind result_bind] in Hmid. congruence. }
  set (mid := stage_match test_read_queries.at_9_or_15 rows) in *.
  assert (Forall (λ u, bool_decide (test_read_queries.date_key u = Some t)
                       = true) mid) as Hmidd.
  { eapply Forall_impl; [exact Hd|]. intros u [Hu _]. simpl in Hu.
    apply bool_decide_eq_true. unfold test_read_queries.date_key.
    rewrite Hu, with_id_lookup by done. cbn [snd]. by rewrite Hdate. }
  destruct (group_by_groups test_read_queries.date_key (xs ++ mid ++ ys))
    as (Hnd & Hall & Hcov).
  assert (List.filter (λ x, bool_decide (test_read_queries.date_key x = Some t))
            (xs ++ mid ++ ys) = mid) as Hfilter.
  { rewrite !List.filter_app, (filter_none _ xs), (filter_none _ ys),
      (filter_all _ mid), app_nil_r by done. done. }
  assert (∀ g, (Some t, g) ∈ group_by test_read_queries.date_key
                               (xs ++ mid ++ ys) →
               g = mid ∧ mid ≠ []) as Hgroup.
  { intros g Hg. rewrite Forall_forall in Hall.
    destruct (Hall _ Hg) as [Heq Hne]. cbn [fst snd] in Heq, Hne.
    rewrite Hfilter in Heq. by subst g. }
  exists mid. split; [done|]. split; [done|]. split; [done|]. split.
  - intros e [He Hid]. apply elem_of_stage_match in He as [He Hcool].
    destruct (result_mapM_elem _ _ _ _ Hes He) as (gd & Hgd & Hadd).
    apply list_elem_of_fmap in Hgd as ([k g] & -> & Hkg).
    rewrite (add_differences_frame _ _ "_id" Hadd) in Hid by compute_done.
    destruct (afternoon_group_lookup k g) as (Hk & _). rewrite Hk in Hid.
    assert (k = Some t) as ->.
    { destruct k as [t'|]; unfold id_value, opt_date_key in Hid;
        [by injection Hid as ->|discriminate]. }
    destruct (Hgroup g Hkg) as [-> Hne]. done.
  - intros Hne.
    assert (Some t ∈ (group_by test_read_queries.date_key
                        (xs ++ mid ++ ys)).*1) as Hin.
    { apply Hcov. destruct mid as [|u mid'] eqn:Emid; [done|].
      exists u. apply Forall_cons in Hmidd as [Hu _].
      apply bool_decide_eq_true in Hu. split; [|done].
      apply elem_of_app. right. apply list_elem_of_here. }
    apply list_elem_of_fmap in Hin as ([k g] & Hk & Hkg). cbn [fst] in Hk.
    subst k. destruct (Hgroup g Hkg) as [-> _].
    destruct (result_mapM_elem_l _ _ _
                (test_read_queries.afternoon_group (Some t, mid)) Hes)
      as (e & He & Hadd).
    { apply list_elem_of_fmap. by exists (Some t, mid). }
    exists e. split; [done|]. split.
    + rewrite (add_differences_frame _ _ "_id" Hadd) by compute_done.
      by destruct (afternoon_group_lookup (Some t) mid) as (-> & _).
    + intros Hcool. by apply elem_of_stage_match.
Qed.

Lemma add_differences_both (gd : doc) (m9 m3 : Q) :
  gd !! "temp_9am" = Some (VNum m9) →
  gd !! "temp_3pm" = Some (VNum m3) →
  ∃ e, test_read_queries.add_differences gd = Ok e
       ∧ e !! "temp_9am" = Some (VNum m9)
       ∧ e !! "temp_3pm" = Some (VNum m3)
       ∧ e !! "temp_diff" = Some (VNum (round_places 1 (m3 - m9)))
       ∧ e !! "temp_diff_f"
         = Some (VNum (round_places 1 (fahrenheit m3 - fahrenheit m9))).
Proof.
  intros H9 H3. unfold test_read_queries.add_differences. rewrite H9, H3.
  cbn [default from_option id expr_subtract expr_round as_num
       test_read_queries.to_fahrenheit mbind result_bind].
  eexists. split; [done|]. repeat split.
  - by rewrite !lookup_insert_ne by done.
  - by rewrite !lookup_insert_ne by done.
  - rewrite !(lookup_insert_ne _ _ "temp_diff") by done.
    by rewrite lookup_insert_eq.
  - by rewrite lookup_insert_eq.
Qed.

Lemma add_differences_no_afternoon (gd : doc) (m9 : Q) :
  gd !! "temp_9am" = Some (VNum m9) →
  gd !! "temp_3pm" = Some VNull →
  ∃ e, test_read_queries.add_differences gd = Ok e
       ∧ e !! "temp_9am" = Some (VNum m9)
       ∧ e !! "temp_3pm" = Some VNull
       ∧ e !! "temp_diff" = Some VNull
       ∧ e !! "temp_9am_f" = Some (VNum (round_places 1 (fahrenheit m9))).
Proof.
  intros H9 H3. unfold test_read_queries.add_differences. rewrite H9, H3.
  cbn [default from_option id expr_subtract expr_round as_num
       test_read_queries.to_fahrenheit mbind result_bind].
  eexists. split; [done|]. repeat split.
  - by rewrite !lookup_insert_ne by done.
  - by rewrite !lookup_insert_ne by done.
  - rewrite !(lookup_insert_ne _ _ "temp_diff") by done.
    by rewrite lookup_insert_eq.
  - rewrite !(lookup_insert_ne _ _ "temp_9am_f") by done.
    by rewrite lookup_insert_eq.
Qed.

(** X26. The cooler afternoons report, for a day of the searched year
    of which the station has one report, with readings that carry a
    time stamp and a temperature.  Without a reading at 9 hours the day
    is not listed.  With readings at both hours the day is listed
    exactly when the highest temperature at 15 hours is below the
    highest at 9 hours, and its entry gives the two temperatures and
    their difference, rounded to one decimal place, also in Fahrenheit.
    With a reading at 9 but none at 15 hours the day is listed as well,
    with null for the afternoon temperature and for the difference:
    null is below every number in the comparison of the store. *)
Theorem cooler_afternoons_day (db : database) (sid : string) (year : Z)
    (out : list doc) (id : ObjectId) (d : doc) (t : datetime)
    (rs : list value) :
  test_read_queries.create_cooler_afternoons_report db sid year = Ok out →
  weather_reports db !! id = Some d →
  get_field ["station"; "station_id"] d = Some (VStr sid) →
  d !! "date" = Some (VDate t) →
  (civil_from_days (t / 86400)).1.1 = year →
  d !! "readings" = Some (VArr rs) →
  Forall timed_reading rs →
  (∀ id' d', id' ≠ id → weather_reports db !! id' = Some d' →
     get_field ["station"; "station_id"] d' = Some (VStr sid) →
     d' !! "date" ≠ Some (VDate t)) →
  cooler_afternoon_spec t rs out.
Proof.
  intros Hout Hdb Hsid Hdate Hyear Hrs Htimed Huniq.
  destruct (cooler_afternoons_group db sid year out id d t rs)
    as (mid & H9 & H15 & Hlen & Hl & Hr); try done.
  destruct (afternoon_group_lookup (Some t) mid) as (_ & G9 & G3).
  rewrite H9 in G9. rewrite H15 in G3. unfold cooler_afternoon_spec.
  destruct (temps_at 9 rs) as [|q9 l9] eqn:E9.
  - intros e Hlisted. destruct (Hl e Hlisted) as (_ & Hadd & Hcool).
    unfold test_read_queries.cooler in Hcool.
    rewrite (add_differences_frame _ _ "temp_9am" Hadd) in Hcool
      by compute_done.
    rewrite G9 in Hcool. cbn [fmap list_fmap fold1] in Hcool.
    by rewrite bson_lt_null in Hcool.
  - destruct (fold_vmax_largest q9 l9) as (m9 & Hm9 & Hlarge9).
    rewrite fmap_cons in G9. cbn [fold1] in G9. rewrite Hm9 in G9.
    destruct Hr as (e & Hadd & Hid & Hin).
    { intros ->. cbn [length] in Hlen. lia. }
    destruct (temps_at 15 rs) as [|q3 l3] eqn:E3.
    + cbn [fmap list_fmap fold1] in G3.
      destruct (add_differences_no_afternoon _ m9 G9 G3)
        as (e' & Hadd' & F9 & F3 & Fd & Ff).
      rewrite Hadd in Hadd'. injection Hadd' as <-.
      exists e, m9. split; [split; [|done]|done].
      apply Hin. unfold test_read_queries.cooler. by rewrite F9, F3.
    + destruct (fold_vmax_largest q3 l3) as (m3 & Hm3 & Hlarge3).
      rewrite fmap_cons in G3. cbn [fold1] in G3. rewrite Hm3 in G3.
      destruct (add_differences_both _ m9 m3 G9 G3)
        as (e' & Hadd' & F9 & F3 & Fd & Ff).
      rewrite Hadd in Hadd'. injection Hadd' as <-.
      assert (test_read_queries.cooler e = negb (Qle_bool m9 m3)) as Hcool.
      { unfold test_read_queries.cooler. by rewrite F9, F3. }
      exists m9, m3. split; [done|]. split; [done|].
      destruct (Qlt_le_dec m3 m9) as [Hlt|Hle].
      * exists e. split; [split; [|done]|done].
        apply Hin. rewrite Hcool. apply negb_true_iff.
        destruct (Qle_bool m9 m3) eqn:Hb; [|done].
        apply Qle_bool_iff in Hb. exfalso. by eapply Qlt_not_le.
      * intros e0 Hlisted. destruct (Hl e0 Hlisted) as (_ & Hadd0 & Hcool0).
        rewrite Hadd in Hadd0. injection Hadd0 as <-.
        rewrite Hcool in Hcool0. apply negb_true_iff in Hcool0.
        apply Qle_bool_iff in Hle. congruence.
Qed.

Lemma southampton_day_date (t : datetime) (readings : list value) :
  southampton_day t readings !! "date" = Some (VDate t).
Proof. reflexivity. Qed.

Lemma cooler_afternoons_day_witness :
  ∃ out,
    test_read_queries.create_cooler_afternoons_report southampton_db
      "WS-SOU001" 2024 = Ok out
    ∧ cooler_afternoon_spec (mk_datetime 2024 3 3 0 0)
        [hourly (mk_datetime 2024 3 3 9 0) 10.5;
         hourly (mk_datetime 2024 3 3 15 0) 7.25] out.
Proof.
  assert (match test_read_queries.create_cooler_afternoons_report
                  southampton_db "WS-SOU001" 2024 with
          | Ok _ => true
          | Raise _ => false
          end = true) as Hok by (vm_compute; reflexivity).
  destruct (test_read_queries.create_cooler_afternoons_report southampton_db
              "WS-SOU001" 2024) as [out|] eqn:Hout; [|discriminate Hok].
  exists out. split; [reflexivity|].
  apply (cooler_afternoons_day southampton_db "WS-SOU001" 2024 out 33%N
           (southampton_day (mk_datetime 2024 3 3 0 0)
              [hourly (mk_datetime 2024 3 3 9 0) 10.5;
               hourly (mk_datetime 2024 3 3 15 0) 7.25])).
  - exact Hout.
  - reflexivity.
  - reflexivity.
  - reflexivity.
  - reflexivity.
  - reflexivity.
  - repeat constructor; eexists _, _; split; reflexivity.
  - intros id' d' Hne Hl _ Hd. unfold southampton_db in Hl. simpl in Hl.
    apply lookup_insert_Some in Hl as [[<- <-]|[_ Hl]].
    { rewrite southampton_day_date in Hd. injection Hd as Hd.
      vm_compute in Hd. discriminate Hd. }
    apply lookup_insert_Some in Hl as [[<- <-]|[_ Hl]].
    { rewrite southampton_day_date in Hd. injection Hd as Hd.
      vm_compute in Hd. discriminate Hd. }
    apply lookup_singleton_Some in Hl as [<- _]. by destruct Hne.
Defined.

(** The Southampton days of the scenario data: the first of March has
    the warmer afternoon and is not listed; the second, without a
    reading at 15 hours, and the third are. *)
Example southampton_afternoons :
  fmap (M:=list) (λ e : doc,
          (e !! "_id", e !! "temp_9am", e !! "temp_3pm", e !! "temp_diff"))
    <$> test_read_queries.create_cooler_afternoons_report southampton_db
          "WS-SOU001" 2024
  = Ok [(Some (VDate (mk_datetime 2024 3 2 0 0)), Some (VNum 9.5),
         Some VNull, Some VNull);
        (Some (VDate (mk_datetime 2024 3 3 0 0)), Some (VNum 10.5),
         Some (VNum 7.25), Some (VNum (-3.2)))].
Proof. vm_compute. reflexivity. Qed.

(** ** Technician activity *)

Lemma NoDup_find_all (c : gmap ObjectId doc) : NoDup (find_all c).
Proof.
  unfold find_all. apply NoDup_fmap_2_strong; [|apply NoDup_map_to_list].
  intros [id d] [id' d'] Hin Hin' Heq.
  apply elem_of_map_to_list in Hin, Hin'.
  assert (with_id (id, d) !! "_id" = with_id (id', d') !! "_id") as Hid
    by (by rewrite Heq).
  unfold with_id in Hid. rewrite !lookup_insert_eq in Hid. cbn [fst] in Hid.
  injection Hid as <-. congruence.
Qed.

Lemma NoDup_stage_match (flt : doc → bool) (ds : list doc) :
  NoDup ds → NoDup (stage_match flt ds).
Proof.
  induction 1 as [|x l Hx Hnd IH]; [constructor|].
  unfold stage_match in *. simpl. destruct (flt x); [|done].
  constructor; [|done]. intros Hin. apply Hx.
  by apply (elem_of_stage_match flt l x) in Hin as [? _].
Qed.

Lemma elem_of_recent_logs (now : datetime) (logs : gmap ObjectId doc)
    (station_id : string) (r : doc) :
  r ∈ test_read_queries.recent_logs now logs station_id
  ↔ ∃ id d t,
      logs !! id = Some d ∧ r = with_id (id, d)
      ∧ d !! "station_id" = Some (VStr station_id)
      ∧ d !! "timestamp" = Some (VDate t)
      ∧ now - 180 * 86400 ≤ t.
Proof.
  unfold test_read_queries.recent_logs.
  rewrite elem_of_stage_match, elem_of_find_all. split.
  - intros [(id & d & Hd & ->) Hflt]. apply andb_true_iff in Hflt as [Hs Ht].
    unfold query_eq_str in Hs. unfold query_date_ge in Ht.
    rewrite with_id_get_field in Hs, Ht by done. cbn [snd] in Hs, Ht.
    unfold get_field in Hs, Ht. simpl in Hs, Ht.
    destruct (d !! "station_id") as [[]|] eqn:Es; try done. simpl in Hs.
    apply bool_decide_eq_true in Hs as ->.
    destruct (d !! "timestamp") as [[]|] eqn:Et; try done. simpl in Ht.
    apply bool_decide_eq_true in Ht. unfold one_day in Ht.
    by exists id, d, t.
  - intros (id & d & t & Hd & -> & Hs & Ht & Hle). split; [by exists id, d|].
    unfold query_eq_str, query_date_ge.
    rewrite !with_id_get_field by done. cbn [snd]. unfold get_field. simpl.
    rewrite Hs, Ht. simpl. rewrite !bool_decide_eq_true_2; [done| |done].
    by unfold one_day.
Qed.

(** The groups of a [$group] hold every document once. *)
Lemma group_insert_length `{EqDecision K} (k : K) (d : doc)
    (gs : list (K * list doc)) :
  sum_list ((λ g, length g.2) <$> group_insert k d gs)
  = S (sum_list ((λ g, length g.2) <$> gs)).
Proof.
  induction gs as [|[k' g] gs IH]; [done|]. cbn [group_insert].
  destruct (decide (k = k')) as [->|Hne].
  - rewrite !fmap_cons. cbn [sum_list sum_list_with snd].
    rewrite length_app. simpl. lia.
  - rewrite !fmap_cons. cbn [sum_list sum_list_with snd]. rewrite IH. lia.
Qed.

Lemma group_by_length `{EqDecision K} (key : doc → K) (ds : list doc) :
  sum_list ((λ g, length g.2) <$> group_by key ds) = length ds.
Proof.
  unfold group_by. induction ds as [|a l IH] using rev_ind; [done|].
  rewrite foldl_app. simpl. rewrite group_insert_length, IH, length_app.
  simpl. lia.
Qed.

Lemma get_path_single (k : string) (d : doc) :
  get_path [k] (VDoc d) = d !! k.
Proof. simpl. by destruct (d !! k). Qed.

Lemma omap_get_path_docs (k : string) (l : list doc) :
  omap (get_path [k]) (VDoc <$> l) = omap (.!! k) l.
Proof.
  induction l as [|d l IH]; [done|]. rewrite fmap_cons.
  cbn [omap list_omap]. by rewrite get_path_single, IH.
Qed.

Lemma summary_of_group (technicians : gmap string doc) (k : option string)
    (g : list doc) :
  test_read_queries.project_summary
    (stage_lookup_id technicians "tech_info" (test_read_queries.tech_group (k, g)))
  = dict [
      ("_id", id_value k);
      ("tech_id", id_value k);
      ("log_count", VInt (Z.of_nat (length g)));
      ("name", VArr (omap (.!! "name") (option_list (k ≫= (technicians !!.)))));
      ("telephone",
       VArr (omap (.!! "telephone") (option_list (k ≫= (technicians !!.)))))
    ].
Proof.
  unfold test_read_queries.project_summary, stage_lookup_id.
  assert (test_read_queries.tech_group (k, g) !! "_id" = Some (id_value k))
    as Hid by reflexivity.
  assert (test_read_queries.tech_group (k, g) !! "log_count"
          = Some (VInt (Z.of_nat (length g)))) as Hcount by reflexivity.
  rewrite Hid. rewrite lookup_insert_eq, !lookup_insert_ne, Hid, Hcount by done.
  destruct k as [s|]; cbn [id_value opt_string_key mbind option_bind].
  - unfold find_one. destruct (technicians !! s) as [t|]; [|reflexivity].
    cbn [fmap option_fmap option_map option_list list_fmap array_field
         omap list_omap].
    rewrite !omap_get_path_docs.
    change (option_list (Some (with_id (s, t)))) with [with_id (s, t)].
    change (option_list (Some t)) with [t]. cbn [omap list_omap].
    rewrite !with_id_lookup by done. cbn [snd].
    destruct (t !! "name"), (t !! "telephone"); reflexivity.
  - reflexivity.
Qed.

(** X27. The technician activity query.  It looks at the logs of the
    station that are not older than 180 days, whatever [days] is, and
    always yields exactly one document.  Its [tech_summary] has one
    entry for each technician id of those logs, with the number of the
    technician's logs (the numbers add up to the number of logs
    looked at) and the name and telephone of the technician as arrays,
    empty for an id that the technicians collection does not have; the
    entries are ordered by the number of logs, largest first.  Its
    [total_tech_count] holds the number of entries, and is empty when
    there is none. *)
Theorem technician_activity (now : datetime) (logs : gmap ObjectId doc)
    (technicians : gmap string doc) (station_id : string) :
  let recent := test_read_queries.recent_logs now logs station_id in
  NoDup recent
  ∧ (∀ r, r ∈ recent
        ↔ ∃ id d t,
            logs !! id = Some d ∧ r = with_id (id, d)
            ∧ d !! "station_id" = Some (VStr station_id)
            ∧ d !! "timestamp" = Some (VDate t)
            ∧ now - 180 * 86400 ≤ t)
  ∧ ∃ (techs : list (option string)) (entries summary : list doc),
      (∀ days,
         test_read_queries.get_technician_activity now logs technicians
           station_id days
         = [dict [
              ("tech_summary", VArr (VDoc <$> summary));
              ("total_tech_count",
               VArr (match techs with
                     | [] => []
                     | _ => [VDoc (dict [("total_techs",
                                          VInt (Z.of_nat (length techs)))])]
                     end))]])
      ∧ NoDup techs
      ∧ (∀ k, k ∈ techs
              ↔ ∃ d, d ∈ recent ∧ test_read_queries.tech_id_key d = k)
      ∧ Forall2 (activity_entry technicians recent) techs entries
      ∧ summary ≡ₚ entries
      ∧ StronglySorted (key_ge ["log_count"]) summary
      ∧ sum_list ((λ k, length (List.filter
                     (λ d, bool_decide (test_read_queries.tech_id_key d = k))
                     recent)) <$> techs)
        = length recent.
Proof.
  intros recent. split; [apply NoDup_stage_match, NoDup_find_all|].
  split; [apply elem_of_recent_logs|].
  destruct (group_by_groups test_read_queries.tech_id_key recent)
    as (Hnd & Hall & Hcov).
  pose proof (group_by_length test_read_queries.tech_id_key recent) as Hlen.
  set (gs := group_by test_read_queries.tech_id_key recent) in *.
  set (entries :=
         (λ g, test_read_queries.project_summary
                 (stage_lookup_id technicians "tech_info"
                    (test_read_queries.tech_group g))) <$> gs).
  exists gs.*1, entries, (stage_sort_desc ["log_count"] entries).
  split; [|split; [done|split; [done|split; [|split; [|split]]]]].
  - intros days. unfold test_read_queries.get_technician_activity.
    fold recent. fold gs. rewrite <-!list_fmap_compose. fold entries.
    assert (VDoc <$> test_read_queries.stage_count "total_techs"
              ((λ g : option string * list doc, dict [("_id", id_value g.1)])
                 <$> gs)
            = match gs.*1 with
              | [] => []
              | _ => [VDoc (dict [("total_techs",
                                   VInt (Z.of_nat (length gs.*1)))])]
              end) as ->; [|reflexivity].
    clear. destruct gs as [|g gs']; [done|].
    unfold test_read_queries.stage_count. rewrite !fmap_cons.
    cbn [length fmap list_fmap]. by rewrite !length_fmap.
  - unfold entries. clear Hnd Hcov Hlen entries.
    induction gs as [|[k g] gs IH]; [constructor|].
    apply Forall_cons in Hall as [[Hg _] Hall]. cbn [fst snd] in Hg.
    rewrite !fmap_cons. constructor; [|by apply IH].
    unfold activity_entry. cbn [fst]. rewrite summary_of_group.
    by rewrite <-Hg.
  - apply merge_sort_Permutation.
  - apply (@StronglySorted_merge_sort _ (key_ge ["log_count"]) _
             (key_ge_trans _) (key_ge_total _)).
  - rewrite <-Hlen. clear Hnd Hcov Hlen entries.
    induction gs as [|[k g] gs IH]; [done|].
    apply Forall_cons in Hall as [[Hg _] Hall]. cbn [fst snd] in Hg.
    rewrite !fmap_cons. cbn [sum_list sum_list_with fst snd].
    rewrite <-Hg. f_equal. by apply IH.
Qed.

(** Seen from 1 April 2025 the Glasgow station has three logs within
    180 days, by two technicians; the technicians collection has no
    document for one of them. *)
Example glasgow_activity :
  (λ d : doc,
     match d !! "tech_summary", d !! "total_tech_count" with
     | Some (VArr s), Some (VArr c) =>
         ((λ e, (get_path ["tech_id"] e, get_path ["log_count"] e,
                 get_path ["name"] e)) <$> s,
          get_path ["total_techs"] <$> c)
     | _, _ => ([], [])
     end)
    <$> test_read_queries.get_technician_activity (mk_datetime 2025 4 1 0 0)
          glasgow_logs technicians_collection "WS-GLA001" 30
  = [([(Some (VStr "T-002"), Some (VInt 2), Some (VArr [VStr "Emily Carter"]));
       (Some (VStr "T-009"), Some (VInt 1), Some (VArr []))],
      [Some (VInt 2)])].
Proof. vm_compute. reflexivity. Qed.

(** ** Wind speeds at airports *)

Lemma set_opt_lookup (k : string) (o : option value) (d : doc) :
  set_opt k o d !! k = match o with Some v => Some v | None => d !! k end.
Proof. destruct o as [v|]; [apply lookup_insert_eq|done]. Qed.

Lemma project_wind_lookup (d : doc) :
  test_read_queries.project_wind d !! "station_id"
  = get_field ["station"; "station_id"] d
  ∧ test_read_queries.project_wind d !! "max_wind_speed"
    = get_field ["day_summary"; "wind_speed_max"] d
  ∧ test_read_queries.project_wind d !! "min_wind_speed"
    = get_field ["day_summary"; "wind_speed_min"] d
  ∧ test_read_queries.project_wind d !! "mean_wind_speed"
    = get_field ["day_summary"; "wind_speed_mean"] d.
Proof.
  unfold test_read_queries.project_wind. repeat split.
  - rewrite !(set_opt_lookup_ne _ "station_id") by done.
    rewrite set_opt_lookup, set_opt_lookup_ne, lookup_empty by done.
    by destruct (get_field _ d).
  - rewrite !(set_opt_lookup_ne _ "max_wind_speed") by done.
    rewrite set_opt_lookup, !set_opt_lookup_ne, lookup_empty by done.
    by destruct (get_field _ d).
  - rewrite !(set_opt_lookup_ne _ "min_wind_speed") by done.
    rewrite set_opt_lookup, !set_opt_lookup_ne, lookup_empty by done.
    by destruct (get_field _ d).
  - rewrite set_opt_lookup, !set_opt_lookup_ne, lookup_empty by done.
    by destruct (get_field _ d).
Qed.

Lemma get_field_single (k : string) (d : doc) : get_field [k] d = d !! k.
Proof. apply get_path_single. Qed.

Lemma omap_ext_all {A B} (f g : A → option B) (l : list A) :
  (∀ x, f x = g x) → omap f l = omap g l.
Proof.
  intros Hfg. induction l as [|a l IH]; [done|].
  cbn [omap list_omap]. by rewrite Hfg, IH.
Qed.

(** The entry that the [$group] stage makes of the projected reports
    of a station. *)
Lemma wind_group_entry (k : option string) (days : list doc) :
  let e := test_read_queries.wind_group
             (k, test_read_queries.project_wind <$> days) in
  e !! "_id" = Some (id_value k)
  ∧ e !! "days_with_data" = Some (VInt (Z.of_nat (length days)))
  ∧ (∀ qs,
       carries (omap (present_value ["day_summary"; "wind_speed_max"]) days) qs →
       qs ≠ [] →
       summary_field e "overall_max_wind_speed" (λ m, is_maximum m qs))
  ∧ (∀ qs,
       carries (omap (present_value ["day_summary"; "wind_speed_min"]) days) qs →
       qs ≠ [] →
       summary_field e "overall_min_wind_speed" (λ m, is_minimum m qs))
  ∧ (numeric_values ["day_summary"; "wind_speed_mean"] days ≠ [] →
     summary_field e "overall_avg_wind_speed"
       (λ m, is_mean m (numeric_values ["day_summary"; "wind_speed_mean"] days))).
Proof.
  intros e.
  assert (e !! "overall_max_wind_speed"
          = Some (fold1 vmax
                    (omap (present_value ["day_summary"; "wind_speed_max"]) days)))
    as Hmax.
  { transitivity (Some (run_accumulator (AccMax ["max_wind_speed"])
                          (test_read_queries.project_wind <$> days)));
      [reflexivity|].
    unfold run_accumulator. rewrite omap_fmap_compose. do 2 f_equal.
    apply omap_ext_all. intros d. unfold present_value.
    rewrite get_field_single.
    by destruct (project_wind_lookup d) as (_ & -> & _). }
  assert (e !! "overall_min_wind_speed"
          = Some (fold1 vmin
                    (omap (present_value ["day_summary"; "wind_speed_min"]) days)))
    as Hmin.
  { transitivity (Some (run_accumulator (AccMin ["min_wind_speed"])
                          (test_read_queries.project_wind <$> days)));
      [reflexivity|].
    unfold run_accumulator. rewrite omap_fmap_compose. do 2 f_equal.
    apply omap_ext_all. intros d. unfold present_value.
    rewrite get_field_single.
    by destruct (project_wind_lookup d) as (_ & _ & -> & _). }
  assert (e !! "overall_avg_wind_speed"
          = Some (run_accumulator (AccAvg ["day_summary"; "wind_speed_mean"])
                    days)) as Havg.
  { transitivity (Some (run_accumulator (AccAvg ["mean_wind_speed"])
                          (test_read_queries.project_wind <$> days)));
      [reflexivity|].
    unfold run_accumulator, numeric_values. rewrite omap_fmap_compose.
    rewrite (omap_ext_all _ (num_field ["day_summary"; "wind_speed_mean"]));
      [done|].
    intros d. unfold num_field. rewrite get_field_single.
    by destruct (project_wind_lookup d) as (_ & _ & _ & ->). }
  split; [reflexivity|]. split.
  { transitivity (Some (VInt (Z.of_nat (length
                    (test_read_queries.project_wind <$> days)))));
      [reflexivity|]. by rewrite length_fmap. }
  split; [|split].
  - intros qs Hqs Hne. unfold summary_field, num_field.
    rewrite get_field_single, Hmax.
    destruct Hqs as [|v q vs qs' Hv Hvs]; [done|]. cbn [fold1].
    apply (fold_vmax_maximum vs qs' v q Hv Hvs).
  - intros qs Hqs Hne. unfold summary_field, num_field.
    rewrite get_field_single, Hmin.
    destruct Hqs as [|v q vs qs' Hv Hvs]; [done|]. cbn [fold1].
    apply (fold_vmin_minimum vs qs' v q Hv Hvs).
  - intros Hne. unfold summary_field, num_field.
    rewrite get_field_single, Havg. unfold run_accumulator.
    destruct (numeric_values ["day_summary"; "wind_speed_mean"] days)
      as [|q qs] eqn:Hq; [done|].
    eexists. split; [reflexivity|]. by apply mean_of_quotient.
Qed.

Lemma elem_of_airport_reports (db : database) (start_date end_date : datetime)
    (r : doc) :
  r ∈ test_read_queries.airport_reports db start_date end_date
  ↔ ∃ id d t,
      weather_reports db !! id = Some d ∧ r = with_id (id, d)
      ∧ d !! "date" = Some (VDate t) ∧ start_date ≤ t ≤ end_date
      ∧ is_Some (get_field ["day_summary"; "wind_speed_max"] d)
      ∧ get_field ["owner"; "owner_type"] d = Some (VStr "Airport").
Proof.
  unfold test_read_queries.airport_reports.
  rewrite elem_of_stage_match, elem_of_find_all.
  unfold test_read_queries.airport_report, query_date_between, query_exists,
    query_eq_str.
  split.
  - intros [(id & d & Hd & ->) Hflt].
    rewrite !with_id_get_field in Hflt by done. cbn [snd] in Hflt.
    apply andb_true_iff in Hflt as [Hflt Ho].
    apply andb_true_iff in Hflt as [Ht He].
    rewrite get_field_single in Ht.
    destruct (d !! "date") as [[]|] eqn:Edate; try done.
    apply andb_true_iff in Ht as [Hlo Hhi].
    apply bool_decide_eq_true in Hlo, Hhi, He.
    destruct (get_field ["owner"; "owner_type"] d) as [[]|] eqn:Eo; try done.
    apply bool_decide_eq_true in Ho as ->.
    exists id, d, t. by repeat split.
  - intros (id & d & t & Hd & -> & Hdate & [Hlo Hhi] & He & Ho).
    split; [by exists id, d|].
    rewrite !with_id_get_field by done. cbn [snd].
    rewrite get_field_single, Hdate, Ho.
    by rewrite !bool_decide_eq_true_2.
Qed.

(** X28. The wind speeds at airports.  The query takes the stored
    reports dated from [start_date] to [end_date] (both included) that
    have a [day_summary.wind_speed_max] and an owner of type Airport,
    and yields exactly one entry for each station of these reports.
    The entry counts the station's reports and gives the largest of
    their daily maxima, the smallest of their daily minima and the mean
    of their daily means (where these are numbers); the entries are
    ordered by the largest maximum, highest first. *)
Theorem airport_wind_speeds (db : database) (start_date end_date : datetime) :
  let reports := test_read_queries.airport_reports db start_date end_date in
  let result :=
    test_read_queries.get_airport_wind_speeds db start_date end_date in
  NoDup reports
  ∧ (∀ r, r ∈ reports
          ↔ ∃ id d t,
              weather_reports db !! id = Some d ∧ r = with_id (id, d)
              ∧ d !! "date" = Some (VDate t) ∧ start_date ≤ t ≤ end_date
              ∧ is_Some (get_field ["day_summary"; "wind_speed_max"] d)
              ∧ get_field ["owner"; "owner_type"] d = Some (VStr "Airport"))
  ∧ ∃ (stations : list (option string)) (entries : list doc),
      NoDup stations
      ∧ (∀ k, k ∈ stations ↔ ∃ d, d ∈ reports ∧ station_of d = k)
      ∧ Forall2 (wind_entry reports) stations entries
      ∧ result ≡ₚ entries
      ∧ StronglySorted (key_ge ["overall_max_wind_speed"]) result.
Proof.
  intros reports result.
  split; [apply NoDup_stage_match, NoDup_find_all|].
  split; [apply elem_of_airport_reports|].
  assert (∀ d, test_read_queries.station_id_key
                 (test_read_queries.project_wind d) = station_of d) as Hkey.
  { intros d. unfold test_read_queries.station_id_key, station_of.
    by destruct (project_wind_lookup d) as (-> & _). }
  destruct (group_by_groups test_read_queries.station_id_key
              (test_read_queries.project_wind <$> reports))
    as (Hnd & Hall & Hcov).
  unfold result, test_read_queries.get_airport_wind_speeds. fold reports.
  set (gs := group_by test_read_queries.station_id_key
               (test_read_queries.project_wind <$> reports)) in *.
  exists gs.*1, (test_read_queries.wind_group <$> gs).
  split; [done|]. split; [|split; [|split]].
  - intros k. rewrite Hcov. split.
    + intros (p & Hp & Hk). apply list_elem_of_fmap in Hp as (d & -> & Hd).
      exists d. by rewrite <-Hkey.
    + intros (d & Hd & Hk). exists (test_read_queries.project_wind d).
      split; [by apply list_elem_of_fmap_2|]. by rewrite Hkey.
  - clear Hnd Hcov. induction gs as [|[k g] gs IH]; [constructor|].
    apply Forall_cons in Hall as [[Hg Hne] Hall]. cbn [fst snd] in Hg, Hne.
    rewrite !fmap_cons. constructor; [|by apply IH]. cbn [fst].
    rewrite filter_fmap in Hg.
    rewrite (List.filter_ext _ (λ d, bool_decide (station_of d = k))) in Hg
      by (intros d; by rewrite Hkey).
    unfold wind_entry. rewrite Hg in Hne |- *.
    split; [intros Hnil; by rewrite Hnil in Hne|].
    apply wind_group_entry.
  - apply merge_sort_Permutation.
  - apply (@StronglySorted_merge_sort _ (key_ge ["overall_max_wind_speed"]) _
             (key_ge_trans _) (key_ge_total _)).
Qed.

(** In January 2024 the airports of the scenario data have three
    reports: Gatwick, with the highest wind, comes first. *)
Example airport_winds :
  (λ d : doc,
     (λ k, d !! k)
       <$> ["_id"; "overall_max_wind_speed"; "overall_min_wind_speed";
            "overall_avg_wind_speed"; "days_with_data"])
    <$> test_read_queries.get_airport_wind_speeds airport_db
          (mk_datetime 2024 1 1 0 0) (mk_datetime 2024 1 31 0 0)
  = [[Some (VStr "WS-LGW005"); Some (VNum 17.25); Some (VNum 2);
      Some (VNum 8); Some (VInt 1)];
     [Some (VStr "WS-LHR004"); Some (VNum 14); Some (VNum 0.5);
      Some (VNum (10 # 2)); Some (VInt 2)]].
Proof. vm_compute. reflexivity. Qed.
